(** * Bluetooth host stack: AVCTP API, AVDTP signalling and SMP pairing actions

    A shallow embedding of the functions of

      - [stack/avdt/avdt_msg.cc]  (AVDTP signalling codec and engine),
      - [stack/smp/smp_act.cc]    (SMP pairing state-machine actions),
      - the AVCTP API file        ([AVCT_MsgReq] and its neighbours),

    together with the properties of these functions that the design
    document of the stack relies on.

    Conventions.  A C integer of width [w] is a [Z] and every store into a
    narrower variable is written out with [u8]/[u16].  A pointer that may be
    NULL is an [option].  A [BT_HDR] carries the bytes that follow the header
    in memory as a [list Z].  A call into code that lives outside these three
    files (the state machines, L2CAP, the allocator, timers) is recorded, in
    program order, in a trace of [effect]s; values such calls return and the
    constants of headers that are not part of the three files are fields of an
    environment class, so every theorem holds for all of them. *)

From Stdlib Require Import ZArith Lia Bool List.
From stdpp Require Import base list.
Import ListNotations.
Open Scope Z_scope.

(** ** Machine integers and buffers *)

Module Bt.

Definition u8 (x : Z) : Z := x mod 256.
Definition u16 (x : Z) : Z := x mod 65536.

(** [BT_HDR]: the four 16-bit header fields and the bytes stored after the
    header, [(uint8_t* )(p_buf + 1)]. *)
Record BT_HDR := mkBT_HDR {
  event : Z;
  len : Z;
  offset : Z;
  layer_specific : Z;
  data : list Z
}.

(** [sizeof(BT_HDR)]: four [uint16_t] fields. *)
Definition sizeof_BT_HDR : Z := 8.

(** [*(p + i)] for [p = (uint8_t* )(p_buf + 1)]; a read outside the
    allocation (undefined in C) yields 0. *)
Definition rd (d : list Z) (i : Z) : Z :=
  if i <? 0 then 0 else default 0 (d !! Z.to_nat i).

(** [*(p + i) = v]; a store outside the allocation is dropped. *)
Definition wr (d : list Z) (i : Z) (v : Z) : list Z :=
  if i <? 0 then d else <[Z.to_nat i := u8 v]> d.

(** [memcpy(dst + doff, src + soff, n)], byte by byte. *)
Fixpoint memcpy_nat (dst : list Z) (doff : Z) (src : list Z) (soff : Z)
  (n : nat) : list Z :=
  match n with
  | O => dst
  | S k => memcpy_nat (wr dst doff (rd src soff)) (doff + 1) src (soff + 1) k
  end.

Definition memcpy (dst : list Z) (doff : Z) (src : list Z) (soff : Z)
  (n : Z) : list Z :=
  memcpy_nat dst doff src soff (Z.to_nat n).

End Bt.

(** ** AVCTP API *)

Module Avct.
Import Bt.

(** Result codes of the API ([AVCT_SUCCESS] ... [AVCT_NOT_OPEN]). *)
Inductive tAVCT_RESULT :=
| AVCT_SUCCESS
| AVCT_NO_RESOURCES
| AVCT_BAD_HANDLE
| AVCT_PID_IN_USE
| AVCT_NOT_OPEN.

(** Link and browse control blocks are addressed by their index in
    [avct_cb.lcb] and [avct_cb.bcb]. *)
Definition lcb_ptr := nat.
Definition bcb_ptr := nat.

(** The fields of [tAVCT_CCB] that [AVCT_MsgReq] reads and writes. *)
Record tAVCT_CCB := mkCCB {
  p_lcb : option lcb_ptr;
  p_bcb : option bcb_ptr;
  allocated : Z
}.

(** [tAVCT_UL_MSG].  [p_ccb] is a pointer: [ul_p_ccb] is the CCB as the
    callee finds it when the event is delivered. *)
Record tAVCT_UL_MSG := mkUL_MSG {
  ul_p_buf : BT_HDR;
  ul_p_ccb : tAVCT_CCB;
  ul_label : Z;
  ul_cr : Z
}.

(** Calls that leave the file. *)
Inductive effect :=
| Call_osi_free (b : BT_HDR)
| Call_avct_lcb_event (l : option lcb_ptr) (evt : Z) (m : tAVCT_UL_MSG)
| Call_avct_bcb_event (b : option bcb_ptr) (evt : Z) (m : tAVCT_UL_MSG).

(** Header constants and the two lookups of [avct_ccb.cc] and
    [avct_bcb_act.cc], none of which is part of the file. *)
Class Env := {
  AVCT_DATA_BROWSE : Z;
  AVCT_ALOC_BCB : Z;
  AVCT_LCB_UL_MSG_EVT : Z;
  (** the CCB a handle maps to, NULL when there is none *)
  avct_ccb_by_idx : Z -> option tAVCT_CCB;
  avct_bcb_by_lcb : option lcb_ptr -> option bcb_ptr
}.

Record MsgReq_out := mkOut {
  result : tAVCT_RESULT;
  (** the CCB of the handle as the call leaves it *)
  ccb_after : option tAVCT_CCB;
  effects : list effect
}.

Definition is_null {A} (p : option A) : bool :=
  match p with None => true | Some _ => false end.

Section Api.
Context `{E : Env}.

(** [if (result == AVCT_SUCCESS) { ... }]: the second half of
    [AVCT_MsgReq], for the non-NULL [p_ccb] the first half found. *)
Definition AVCT_MsgReq_send (c : tAVCT_CCB) (label cr : Z) (p_msg : BT_HDR)
  : MsgReq_out :=
  if layer_specific p_msg =? AVCT_DATA_BROWSE then
    if is_null (p_bcb c) && (Z.land (allocated c) AVCT_ALOC_BCB =? 0)
    then mkOut AVCT_BAD_HANDLE (Some c) [Call_osi_free p_msg]
    else
      (* [p_ccb->p_bcb] is written before [avct_bcb_event] is called *)
      let bcb := avct_bcb_by_lcb (p_lcb c) in
      let c' := mkCCB (p_lcb c) bcb (allocated c) in
      mkOut AVCT_SUCCESS (Some c')
        [Call_avct_bcb_event bcb AVCT_LCB_UL_MSG_EVT
           (mkUL_MSG p_msg c' label cr)]
  else
    mkOut AVCT_SUCCESS (Some c)
      [Call_avct_lcb_event (p_lcb c) AVCT_LCB_UL_MSG_EVT
         (mkUL_MSG p_msg c label cr)].

(** [uint16_t AVCT_MsgReq(uint8_t handle, uint8_t label, uint8_t cr,
    BT_HDR* p_msg)]. *)
Definition AVCT_MsgReq (handle label cr : Z) (p_msg : option BT_HDR)
  : MsgReq_out :=
  match p_msg with
  | None => mkOut AVCT_NO_RESOURCES (avct_ccb_by_idx handle) []
  | Some m =>
      match avct_ccb_by_idx handle with
      | None => mkOut AVCT_BAD_HANDLE None [Call_osi_free m]
      | Some c =>
          if is_null (p_lcb c)
          then mkOut AVCT_NOT_OPEN (Some c) [Call_osi_free m]
          else AVCT_MsgReq_send c label cr m
      end
  end.

End Api.

(** The message reached a state machine: some [avct_lcb_event] or
    [avct_bcb_event] call carries it. *)
Definition forwards (m : BT_HDR) (e : effect) : Prop :=
  match e with
  | Call_avct_lcb_event _ _ u | Call_avct_bcb_event _ _ u => ul_p_buf u = m
  | Call_osi_free _ => False
  end.

Definition frees (m : BT_HDR) (e : effect) : Prop :=
  e = Call_osi_free m.

(** The header values of the stack, used to run the definitions. *)
Definition run_env (tbl : Z -> option tAVCT_CCB) : Env := {|
  AVCT_DATA_BROWSE := 2;
  AVCT_ALOC_BCB := 2;
  AVCT_LCB_UL_MSG_EVT := 2;
  avct_ccb_by_idx := tbl;
  avct_bcb_by_lcb := fun l => l
|}.

(** A table with one bound CCB (handle 0), one unbound CCB (handle 1) and
    nothing else, and a message for the browsing channel. *)
Definition tbl (h : Z) : option tAVCT_CCB :=
  if h =? 0 then Some (mkCCB (Some 0%nat) None 1)
  else if h =? 1 then Some (mkCCB None None 1)
  else None.

Definition msg_browse : BT_HDR := mkBT_HDR 0 3 21 2 [1; 2; 3].

End Avct.
(** ** AVCTP API: the browsing channel and the other entry points *)

Module AvctMore.
Import Bt Avct.

(** The call of the entry points below that leaves the file; the event
    data of a bind or unbind event is the CCB. *)
Inductive api_call :=
| Call_bcb_event (b : bcb_ptr) (evt : Z) (c : tAVCT_CCB).

(** Header constants and the fields of the link and browse control blocks
    the entry points read. *)
Class Links := {
  AVCT_INT : Z;
  AVCT_NUM_LINKS : Z;
  AVCT_LCB_UL_BIND_EVT : Z;
  AVCT_LCB_UL_UNBIND_EVT : Z;
  AVCT_MIN_BROWSE_MTU : Z;
  (** [p_lcb->allocated], [p_bcb->peer_mtu] *)
  lcb_allocated : lcb_ptr -> Z;
  bcb_peer_mtu : bcb_ptr -> Z
}.

Definition set_allocated (v : Z) (c : tAVCT_CCB) : tAVCT_CCB :=
  mkCCB (p_lcb c) (p_bcb c) v.

Definition set_p_bcb (v : option bcb_ptr) (c : tAVCT_CCB) : tAVCT_CCB :=
  mkCCB (p_lcb c) v (allocated c).

(** What a call of [AVCT_CreateBrowse] leaves: the result, the CCB of the
    handle, the entry of [avct_cb.bcb] whose [allocated] was written (with
    the value written) and the calls made.  The copy of the peer address
    of the link into that entry is not recorded. *)
Record Browse_out := mkBrowse {
  b_result : tAVCT_RESULT;
  b_ccb : option tAVCT_CCB;
  b_bcb : option (bcb_ptr * Z);
  b_calls : list api_call
}.

Section Api.
Context `{E : Env} `{L : Links}.

(** "mark this CCB as supporting browsing channel". *)
Definition mark_browse (c : tAVCT_CCB) : tAVCT_CCB :=
  if Z.land (allocated c) AVCT_ALOC_BCB =? 0
  then set_allocated (u8 (Z.lor (allocated c) AVCT_ALOC_BCB)) c
  else c.

(** [uint16_t AVCT_CreateBrowse(uint8_t handle, uint8_t role)]. *)
Definition AVCT_CreateBrowse (handle role : Z) : Browse_out :=
  match avct_ccb_by_idx handle with
  | None => mkBrowse AVCT_BAD_HANDLE None None []
  | Some c =>
      let c1 := mark_browse c in
      if role =? AVCT_INT then
        match p_lcb c1 with
        | None => mkBrowse AVCT_NOT_OPEN (Some c1) None []
        | Some l =>
            if lcb_allocated l =? 0
            then mkBrowse AVCT_NOT_OPEN (Some c1) None []
            else
              let index := lcb_allocated l in
              if index >? AVCT_NUM_LINKS
              then mkBrowse AVCT_BAD_HANDLE (Some c1) None []
              else
                let bcb := Z.to_nat (index - 1) in
                let c2 := set_p_bcb (Some bcb) c1 in
                mkBrowse AVCT_SUCCESS (Some c2) (Some (bcb, index))
                  [Call_bcb_event bcb AVCT_LCB_UL_BIND_EVT c2]
        end
      else mkBrowse AVCT_SUCCESS (Some c1) None []
  end.

(** [uint16_t AVCT_RemoveBrowse(uint8_t handle)]. *)
Definition AVCT_RemoveBrowse (handle : Z) : tAVCT_RESULT * list api_call :=
  match avct_ccb_by_idx handle with
  | None => (AVCT_BAD_HANDLE, [])
  | Some c =>
      match p_bcb c with
      | Some b => (AVCT_SUCCESS, [Call_bcb_event b AVCT_LCB_UL_UNBIND_EVT c])
      | None => (AVCT_SUCCESS, [])
      end
  end.

(** [uint16_t AVCT_GetBrowseMtu(uint8_t handle)]. *)
Definition AVCT_GetBrowseMtu (handle : Z) : Z :=
  match avct_ccb_by_idx handle with
  | Some c =>
      match p_bcb c with
      | Some b => bcb_peer_mtu b
      | None => AVCT_MIN_BROWSE_MTU
      end
  | None => AVCT_MIN_BROWSE_MTU
  end.

End Api.

(** The table of CCBs once the CCB of [handle] has become [c]. *)
Definition with_ccb (E : Env) (handle : Z) (c : tAVCT_CCB) : Env := {|
  AVCT_DATA_BROWSE := @AVCT_DATA_BROWSE E;
  AVCT_ALOC_BCB := @AVCT_ALOC_BCB E;
  AVCT_LCB_UL_MSG_EVT := @AVCT_LCB_UL_MSG_EVT E;
  avct_ccb_by_idx := fun h =>
    if h =? handle then Some c else @avct_ccb_by_idx E h;
  avct_bcb_by_lcb := @avct_bcb_by_lcb E
|}.

(** The table after a call of [AVCT_CreateBrowse]. *)
Definition after_CreateBrowse (E : Env) `{L : Links} (handle role : Z)
  : Env :=
  match b_ccb (@AVCT_CreateBrowse E L handle role) with
  | Some c => with_ccb E handle c
  | None => E
  end.

(** Link constants of the stack; every link block in use, with its own
    index plus one in [allocated]. *)
Definition run_links : Links := {|
  AVCT_INT := 0;
  AVCT_NUM_LINKS := 6;
  AVCT_LCB_UL_BIND_EVT := 0;
  AVCT_LCB_UL_UNBIND_EVT := 1;
  AVCT_MIN_BROWSE_MTU := 335;
  lcb_allocated := fun l => Z.of_nat l + 1;
  bcb_peer_mtu := fun _ => 335
|}.

End AvctMore.

(** ** SMP pairing actions *)

Module Smp.
Import Bt.

(** [tSMP_ASSO_MODEL].  The field is a [uint8_t] in C; the values outside the
    enumeration, which only the [default:] label of
    [smp_decide_association_model] would see, are left out. *)
Inductive tSMP_ASSO_MODEL :=
| SMP_MODEL_ENCRYPTION_ONLY
| SMP_MODEL_PASSKEY
| SMP_MODEL_OOB
| SMP_MODEL_KEY_NOTIF
| SMP_MODEL_SEC_CONN_JUSTWORKS
| SMP_MODEL_SEC_CONN_NUM_COMP
| SMP_MODEL_SEC_CONN_PASSKEY_ENT
| SMP_MODEL_SEC_CONN_PASSKEY_DISP
| SMP_MODEL_SEC_CONN_OOB
| SMP_MODEL_OUT_OF_RANGE.

Definition asso_model_eqb (a b : tSMP_ASSO_MODEL) : bool :=
  match a, b with
  | SMP_MODEL_ENCRYPTION_ONLY, SMP_MODEL_ENCRYPTION_ONLY
  | SMP_MODEL_PASSKEY, SMP_MODEL_PASSKEY
  | SMP_MODEL_OOB, SMP_MODEL_OOB
  | SMP_MODEL_KEY_NOTIF, SMP_MODEL_KEY_NOTIF
  | SMP_MODEL_SEC_CONN_JUSTWORKS, SMP_MODEL_SEC_CONN_JUSTWORKS
  | SMP_MODEL_SEC_CONN_NUM_COMP, SMP_MODEL_SEC_CONN_NUM_COMP
  | SMP_MODEL_SEC_CONN_PASSKEY_ENT, SMP_MODEL_SEC_CONN_PASSKEY_ENT
  | SMP_MODEL_SEC_CONN_PASSKEY_DISP, SMP_MODEL_SEC_CONN_PASSKEY_DISP
  | SMP_MODEL_SEC_CONN_OOB, SMP_MODEL_SEC_CONN_OOB
  | SMP_MODEL_OUT_OF_RANGE, SMP_MODEL_OUT_OF_RANGE => true
  | _, _ => false
  end.

(** Events of the state machine that the actions raise with [smp_sm_event]. *)
Inductive tSMP_EVENT :=
| SMP_AUTH_CMPL_EVT
| SMP_BOND_REQ_EVT
| SMP_SC_DSPL_NC_EVT
| SMP_KEY_READY_EVT
| SMP_TK_REQ_EVT
| SMP_PUBL_KEY_EXCH_REQ_EVT
| SMP_BOTH_PUBL_KEYS_RCVD_EVT.

(** Events for the application callback, stored in [p_cb->cb_evt]
    (0, no event, is [None]). *)
Inductive tSMP_CB_EVT :=
| SMP_SEC_REQUEST_EVT
| SMP_IO_CAP_REQ_EVT
| SMP_CONSENT_REQ_EVT
| SMP_PASSKEY_REQ_EVT
| SMP_OOB_REQ_EVT.

Inductive tSMP_STATE :=
| SMP_STATE_WAIT_NONCE
| SMP_STATE_PUBLIC_KEY_EXCH
| SMP_STATE_SEC_REQ_PENDING.

Inductive tSMP_OPCODE :=
| SMP_OPCODE_PAIRING_RSP
| SMP_OPCODE_PAIRING_FAILED
| SMP_OPCODE_SEC_REQ.

(** [tSMP_INT_DATA], a union: the member a caller filled in.  Reading another
    member than the one stored yields 0 or no bytes. *)
Inductive tSMP_INT_DATA :=
| Int_status (s : Z)
| Int_p_data (p : list Z)
| Int_key (key_type : Z) (key_data : list Z)
| Int_uninit.

Definition data_status (d : tSMP_INT_DATA) : Z :=
  match d with Int_status s => s | _ => 0 end.

Definition data_p_data (d : tSMP_INT_DATA) : list Z :=
  match d with Int_p_data p => p | _ => [] end.

(** [tSMP_PUBLIC_KEY]: two [BT_OCTET32] coordinates. *)
Record tSMP_PUBLIC_KEY := mkPUBLIC_KEY { x : list Z; y : list Z }.

(** Modelled from the spec: a coordinate is 32 bytes, a key 16. *)
Definition BT_OCTET32_LEN : Z := 32.
Definition OCTET16_LEN : Z := 16.

(** Modelled from the spec: the key-type bits of the distribution masks,
    ENC = 1, ID = 2, CSRK = 4, LK = 8. *)
Definition SMP_SEC_KEY_TYPE_ENC : Z := 1.
Definition SMP_SEC_KEY_TYPE_ID : Z := 2.
Definition SMP_SEC_KEY_TYPE_CSRK : Z := 4.
Definition SMP_SEC_KEY_TYPE_LK : Z := 8.

(** Link roles; the traces of [smp_key_distribution] print "0-master". *)
Definition HCI_ROLE_MASTER : Z := 0.
Definition HCI_ROLE_SLAVE : Z := 1.

(** The fields of [tSMP_CB] that the actions below read or write. *)
Record tSMP_CB := mkSMP_CB {
  role : Z;
  flags : Z;
  status : Z;
  failure : Z;
  rcvd_cmd_len : Z;
  cert_failure : Z;
  pairing_bda : Z;
  peer_io_caps : Z;
  peer_oob_flag : Z;
  peer_auth_req : Z;
  peer_enc_size : Z;
  peer_i_key : Z;
  peer_r_key : Z;
  local_io_capability : Z;
  loc_auth_req : Z;
  local_i_key : Z;
  local_r_key : Z;
  cb_evt : option tSMP_CB_EVT;
  selected_association_model : tSMP_ASSO_MODEL;
  secure_connections_only_mode_required : bool;
  le_secure_connections_mode_is_used : bool;
  smp_over_br : bool;
  sec_level : Z;
  tk : list Z;
  peer_publ_key : tSMP_PUBLIC_KEY;
  loc_publ_key : tSMP_PUBLIC_KEY;
  req_oob_type : Z;
  wait_for_authorization_complete : bool
}.

(** Field stores, [p_cb->f = v], one for each field the actions write. *)
Definition set_flags (v : Z) (cb : tSMP_CB) : tSMP_CB :=
  mkSMP_CB
    (role cb) v (status cb) (failure cb) (rcvd_cmd_len cb) (cert_failure cb)
    (pairing_bda cb) (peer_io_caps cb) (peer_oob_flag cb) (peer_auth_req cb)
    (peer_enc_size cb) (peer_i_key cb) (peer_r_key cb)
    (local_io_capability cb) (loc_auth_req cb) (local_i_key cb)
    (local_r_key cb) (cb_evt cb) (selected_association_model cb)
    (secure_connections_only_mode_required cb)
    (le_secure_connections_mode_is_used cb) (smp_over_br cb) (sec_level cb)
    (tk cb) (peer_publ_key cb) (loc_publ_key cb) (req_oob_type cb)
    (wait_for_authorization_complete cb).

Definition set_status (v : Z) (cb : tSMP_CB) : tSMP_CB :=
  mkSMP_CB
    (role cb) (flags cb) v (failure cb) (rcvd_cmd_len cb) (cert_failure cb)
    (pairing_bda cb) (peer_io_caps cb) (peer_oob_flag cb) (peer_auth_req cb)
    (peer_enc_size cb) (peer_i_key cb) (peer_r_key cb)
    (local_io_capability cb) (loc_auth_req cb) (local_i_key cb)
    (local_r_key cb) (cb_evt cb) (selected_association_model cb)
    (secure_connections_only_mode_required cb)
    (le_secure_connections_mode_is_used cb) (smp_over_br cb) (sec_level cb)
    (tk cb) (peer_publ_key cb) (loc_publ_key cb) (req_oob_type cb)
    (wait_for_authorization_complete cb).

Definition set_failure (v : Z) (cb : tSMP_CB) : tSMP_CB :=
  mkSMP_CB
    (role cb) (flags cb) (status cb) v (rcvd_cmd_len cb) (cert_failure cb)
    (pairing_bda cb) (peer_io_caps cb) (peer_oob_flag cb) (peer_auth_req cb)
    (peer_enc_size cb) (peer_i_key cb) (peer_r_key cb)
    (local_io_capability cb) (loc_auth_req cb) (local_i_key cb)
    (local_r_key cb) (cb_evt cb) (selected_association_model cb)
    (secure_connections_only_mode_required cb)
    (le_secure_connections_mode_is_used cb) (smp_over_br cb) (sec_level cb)
    (tk cb) (peer_publ_key cb) (loc_publ_key cb) (req_oob_type cb)
    (wait_for_authorization_complete cb).

Definition set_peer_io_caps (v : Z) (cb : tSMP_CB) : tSMP_CB :=
  mkSMP_CB
    (role cb) (flags cb) (status cb) (failure cb) (rcvd_cmd_len cb)
    (cert_failure cb) (pairing_bda cb) v (peer_oob_flag cb)
    (peer_auth_req cb) (peer_enc_size cb) (peer_i_key cb) (peer_r_key cb)
    (local_io_capability cb) (loc_auth_req cb) (local_i_key cb)
    (local_r_key cb) (cb_evt cb) (selected_association_model cb)
    (secure_connections_only_mode_required cb)
    (le_secure_connections_mode_is_used cb) (smp_over_br cb) (sec_level cb)
    (tk cb) (peer_publ_key cb) (loc_publ_key cb) (req_oob_type cb)
    (wait_for_authorization_complete cb).

Definition set_peer_oob_flag (v : Z) (cb : tSMP_CB) : tSMP_CB :=
  mkSMP_CB
    (role cb) (flags cb) (status cb) (failure cb) (rcvd_cmd_len cb)
    (cert_failure cb) (pairing_bda cb) (peer_io_caps cb) v
    (peer_auth_req cb) (peer_enc_size cb) (peer_i_key cb) (peer_r_key cb)
    (local_io_capability cb) (loc_auth_req cb) (local_i_key cb)
    (local_r_key cb) (cb_evt cb) (selected_association_model cb)
    (secure_connections_only_mode_required cb)
    (le_secure_connections_mode_is_used cb) (smp_over_br cb) (sec_level cb)
    (tk cb) (peer_publ_key cb) (loc_publ_key cb) (req_oob_type cb)
    (wait_for_authorization_complete cb).

Definition set_peer_auth_req (v : Z) (cb : tSMP_CB) : tSMP_CB :=
  mkSMP_CB
    (role cb) (flags cb) (status cb) (failure cb) (rcvd_cmd_len cb)
    (cert_failure cb) (pairing_bda cb) (peer_io_caps cb) (peer_oob_flag cb)
    v (peer_enc_size cb) (peer_i_key cb) (peer_r_key cb)
    (local_io_capability cb) (loc_auth_req cb) (local_i_key cb)
    (local_r_key cb) (cb_evt cb) (selected_association_model cb)
    (secure_connections_only_mode_required cb)
    (le_secure_connections_mode_is_used cb) (smp_over_br cb) (sec_level cb)
    (tk cb) (peer_publ_key cb) (loc_publ_key cb) (req_oob_type cb)
    (wait_for_authorization_complete cb).

Definition set_peer_enc_size (v : Z) (cb : tSMP_CB) : tSMP_CB :=
  mkSMP_CB
    (role cb) (flags cb) (status cb) (failure cb) (rcvd_cmd_len cb)
    (cert_failure cb) (pairing_bda cb) (peer_io_caps cb) (peer_oob_flag cb)
    (peer_auth_req cb) v (peer_i_key cb) (peer_r_key cb)
    (local_io_capability cb) (loc_auth_req cb) (local_i_key cb)
    (local_r_key cb) (cb_evt cb) (selected_association_model cb)
    (secure_connections_only_mode_required cb)
    (le_secure_connections_mode_is_used cb) (smp_over_br cb) (sec_level cb)
    (tk cb) (peer_publ_key cb) (loc_publ_key cb) (req_oob_type cb)
    (wait_for_authorization_complete cb).

Definition set_peer_i_key (v : Z) (cb : tSMP_CB) : tSMP_CB :=
  mkSMP_CB
    (role cb) (flags cb) (status cb) (failure cb) (rcvd_cmd_len cb)
    (cert_failure cb) (pairing_bda cb) (peer_io_caps cb) (peer_oob_flag cb)
    (peer_auth_req cb) (peer_enc_size cb) v (peer_r_key cb)
    (local_io_capability cb) (loc_auth_req cb) (local_i_key cb)
    (local_r_key cb) (cb_evt cb) (selected_association_model cb)
    (secure_connections_only_mode_required cb)
    (le_secure_connections_mode_is_used cb) (smp_over_br cb) (sec_level cb)
    (tk cb) (peer_publ_key cb) (loc_publ_key cb) (req_oob_type cb)
    (wait_for_authorization_complete cb).

Definition set_peer_r_key (v : Z) (cb : tSMP_CB) : tSMP_CB :=
  mkSMP_CB
    (role cb) (flags cb) (status cb) (failure cb) (rcvd_cmd_len cb)
    (cert_failure cb) (pairing_bda cb) (peer_io_caps cb) (peer_oob_flag cb)
    (peer_auth_req cb) (peer_enc_size cb) (peer_i_key cb) v
    (local_io_capability cb) (loc_auth_req cb) (local_i_key cb)
    (local_r_key cb) (cb_evt cb) (selected_association_model cb)
    (secure_connections_only_mode_required cb)
    (le_secure_connections_mode_is_used cb) (smp_over_br cb) (sec_level cb)
    (tk cb) (peer_publ_key cb) (loc_publ_key cb) (req_oob_type cb)
    (wait_for_authorization_complete cb).

Definition set_local_i_key (v : Z) (cb : tSMP_CB) : tSMP_CB :=
  mkSMP_CB
    (role cb) (flags cb) (status cb) (failure cb) (rcvd_cmd_len cb)
    (cert_failure cb) (pairing_bda cb) (peer_io_caps cb) (peer_oob_flag cb)
    (peer_auth_req cb) (peer_enc_size cb) (peer_i_key cb) (peer_r_key cb)
    (local_io_capability cb) (loc_auth_req cb) v (local_r_key cb)
    (cb_evt cb) (selected_association_model cb)
    (secure_connections_only_mode_required cb)
    (le_secure_connections_mode_is_used cb) (smp_over_br cb) (sec_level cb)
    (tk cb) (peer_publ_key cb) (loc_publ_key cb) (req_oob_type cb)
    (wait_for_authorization_complete cb).

Definition set_local_r_key (v : Z) (cb : tSMP_CB) : tSMP_CB :=
  mkSMP_CB
    (role cb) (flags cb) (status cb) (failure cb) (rcvd_cmd_len cb)
    (cert_failure cb) (pairing_bda cb) (peer_io_caps cb) (peer_oob_flag cb)
    (peer_auth_req cb) (peer_enc_size cb) (peer_i_key cb) (peer_r_key cb)
    (local_io_capability cb) (loc_auth_req cb) (local_i_key cb) v
    (cb_evt cb) (selected_association_model cb)
    (secure_connections_only_mode_required cb)
    (le_secure_connections_mode_is_used cb) (smp_over_br cb) (sec_level cb)
    (tk cb) (peer_publ_key cb) (loc_publ_key cb) (req_oob_type cb)
    (wait_for_authorization_complete cb).

Definition set_cb_evt (v : option tSMP_CB_EVT) (cb : tSMP_CB) : tSMP_CB :=
  mkSMP_CB
    (role cb) (flags cb) (status cb) (failure cb) (rcvd_cmd_len cb)
    (cert_failure cb) (pairing_bda cb) (peer_io_caps cb) (peer_oob_flag cb)
    (peer_auth_req cb) (peer_enc_size cb) (peer_i_key cb) (peer_r_key cb)
    (local_io_capability cb) (loc_auth_req cb) (local_i_key cb)
    (local_r_key cb) v (selected_association_model cb)
    (secure_connections_only_mode_required cb)
    (le_secure_connections_mode_is_used cb) (smp_over_br cb) (sec_level cb)
    (tk cb) (peer_publ_key cb) (loc_publ_key cb) (req_oob_type cb)
    (wait_for_authorization_complete cb).

Definition set_selected_association_model (v : tSMP_ASSO_MODEL) (cb : tSMP_CB) : tSMP_CB :=
  mkSMP_CB
    (role cb) (flags cb) (status cb) (failure cb) (rcvd_cmd_len cb)
    (cert_failure cb) (pairing_bda cb) (peer_io_caps cb) (peer_oob_flag cb)
    (peer_auth_req cb) (peer_enc_size cb) (peer_i_key cb) (peer_r_key cb)
    (local_io_capability cb) (loc_auth_req cb) (local_i_key cb)
    (local_r_key cb) (cb_evt cb) v
    (secure_connections_only_mode_required cb)
    (le_secure_connections_mode_is_used cb) (smp_over_br cb) (sec_level cb)
    (tk cb) (peer_publ_key cb) (loc_publ_key cb) (req_oob_type cb)
    (wait_for_authorization_complete cb).

Definition set_sec_level (v : Z) (cb : tSMP_CB) : tSMP_CB :=
  mkSMP_CB
    (role cb) (flags cb) (status cb) (failure cb) (rcvd_cmd_len cb)
    (cert_failure cb) (pairing_bda cb) (peer_io_caps cb) (peer_oob_flag cb)
    (peer_auth_req cb) (peer_enc_size cb) (peer_i_key cb) (peer_r_key cb)
    (local_io_capability cb) (loc_auth_req cb) (local_i_key cb)
    (local_r_key cb) (cb_evt cb) (selected_association_model cb)
    (secure_connections_only_mode_required cb)
    (le_secure_connections_mode_is_used cb) (smp_over_br cb) v (tk cb)
    (peer_publ_key cb) (loc_publ_key cb) (req_oob_type cb)
    (wait_for_authorization_complete cb).

Definition set_tk (v : list Z) (cb : tSMP_CB) : tSMP_CB :=
  mkSMP_CB
    (role cb) (flags cb) (status cb) (failure cb) (rcvd_cmd_len cb)
    (cert_failure cb) (pairing_bda cb) (peer_io_caps cb) (peer_oob_flag cb)
    (peer_auth_req cb) (peer_enc_size cb) (peer_i_key cb) (peer_r_key cb)
    (local_io_capability cb) (loc_auth_req cb) (local_i_key cb)
    (local_r_key cb) (cb_evt cb) (selected_association_model cb)
    (secure_connections_only_mode_required cb)
    (le_secure_connections_mode_is_used cb) (smp_over_br cb) (sec_level cb)
    v (peer_publ_key cb) (loc_publ_key cb) (req_oob_type cb)
    (wait_for_authorization_complete cb).

Definition set_peer_publ_key (v : tSMP_PUBLIC_KEY) (cb : tSMP_CB) : tSMP_CB :=
  mkSMP_CB
    (role cb) (flags cb) (status cb) (failure cb) (rcvd_cmd_len cb)
    (cert_failure cb) (pairing_bda cb) (peer_io_caps cb) (peer_oob_flag cb)
    (peer_auth_req cb) (peer_enc_size cb) (peer_i_key cb) (peer_r_key cb)
    (local_io_capability cb) (loc_auth_req cb) (local_i_key cb)
    (local_r_key cb) (cb_evt cb) (selected_association_model cb)
    (secure_connections_only_mode_required cb)
    (le_secure_connections_mode_is_used cb) (smp_over_br cb) (sec_level cb)
    (tk cb) v (loc_publ_key cb) (req_oob_type cb)
    (wait_for_authorization_complete cb).

Definition set_wait_for_authorization_complete (v : bool) (cb : tSMP_CB) : tSMP_CB :=
  mkSMP_CB
    (role cb) (flags cb) (status cb) (failure cb) (rcvd_cmd_len cb)
    (cert_failure cb) (pairing_bda cb) (peer_io_caps cb) (peer_oob_flag cb)
    (peer_auth_req cb) (peer_enc_size cb) (peer_i_key cb) (peer_r_key cb)
    (local_io_capability cb) (loc_auth_req cb) (local_i_key cb)
    (local_r_key cb) (cb_evt cb) (selected_association_model cb)
    (secure_connections_only_mode_required cb)
    (le_secure_connections_mode_is_used cb) (smp_over_br cb) (sec_level cb)
    (tk cb) (peer_publ_key cb) (loc_publ_key cb) (req_oob_type cb) v.

(** Calls that leave the file, in program order. *)
Inductive effect :=
| Call_smp_sm_event (e : tSMP_EVENT) (d : option tSMP_INT_DATA)
| Call_smp_send_cmd (op : tSMP_OPCODE)
| Call_smp_set_state (s : tSMP_STATE)
| Call_btm_sec_clear_ble_keys (dev : nat)
| Call_alarm_cancel_delayed_auth_timer
| Call_smp_generate_passkey
| Call_smp_use_oob_private_key
| Call_smp_request_oob_data.

(** Constants of [smp_api.h] and [smp_int.h] and the functions of
    [smp_utils.cc], [smp_keys.cc], [p_256_ecc_pp.cc] and BTM that the
    actions call and whose result they use. *)
Class Env := {
  SMP_SUCCESS : Z;
  SMP_PASSKEY_ENTRY_FAIL : Z;
  SMP_PAIR_AUTH_FAIL : Z;
  SMP_PAIR_NOT_SUPPORT : Z;
  SMP_PAIR_FAIL_UNKNOWN : Z;
  SMP_REPEATED_ATTEMPTS : Z;
  SMP_INVALID_PARAMETERS : Z;
  SMP_MAX_FAIL_RSN_PER_SPEC : Z;
  SMP_UNKNOWN_IO_CAP : Z;
  SMP_ENC_FAIL : Z;
  SMP_PAIR_FLAGS_WE_STARTED_DD : Z;
  SMP_PAIR_FLAG_ENC_AFTER_PAIR : Z;
  SMP_PAIR_FLAG_HAVE_PEER_PUBL_KEY : Z;
  SMP_PAIR_FLAG_HAVE_LOCAL_PUBL_KEY : Z;
  SMP_AUTH_YN_BIT : Z;
  SMP_IO_CAP_IO : Z;
  SMP_IO_CAP_KBDISP : Z;
  SMP_SEC_UNAUTHENTICATE : Z;
  SMP_SEC_AUTHENTICATED : Z;
  SMP_KEY_TYPE_TK : Z;
  SMP_OOB_LOCAL : Z;
  SMP_OOB_BOTH : Z;
  (** the security record of an address, NULL when there is none *)
  btm_find_dev : Z -> option nat;
  smp_command_has_invalid_length : tSMP_CB -> bool;
  smp_command_has_invalid_parameters : tSMP_CB -> bool;
  (** returns the model; may write the control block *)
  smp_select_association_model : tSMP_CB -> tSMP_CB * tSMP_ASSO_MODEL;
  smp_request_oob_data : tSMP_CB -> tSMP_CB * bool;
  smp_send_cmd : tSMP_OPCODE -> tSMP_CB -> tSMP_CB * bool;
  is_atv_device : bool;
  ECC_ValidatePoint : tSMP_PUBLIC_KEY -> bool
}.

(** *** Actions as state transformers with a trace *)

#[projections(primitive)]
Record res (A : Type) := mkRes {
  val : A;
  st : tSMP_CB;
  tr : list effect
}.
Arguments mkRes {A} _ _ _.
Arguments val {A} _.
Arguments st {A} _.
Arguments tr {A} _.

Definition act (A : Type) : Type := tSMP_CB -> res A.

Definition ret {A} (a : A) : act A := fun cb => mkRes a cb [].

Definition bind {A B} (m : act A) (k : A -> act B) : act B :=
  fun cb =>
    let r1 := m cb in
    let r2 := k (val r1) (st r1) in
    mkRes (val r2) (st r2) (tr r1 ++ tr r2).

Definition get : act tSMP_CB := fun cb => mkRes cb cb [].

Definition modify (f : tSMP_CB -> tSMP_CB) : act unit :=
  fun cb => mkRes tt (f cb) [].

Definition call (e : effect) : act unit := fun cb => mkRes tt cb [e].

(** A call whose callee may write the control block and returns a value. *)
Definition extern {A} (f : tSMP_CB -> tSMP_CB * A) (e : list effect)
  : act A :=
  fun cb => mkRes (snd (f cb)) (fst (f cb)) e.

Declare Scope act_scope.
Delimit Scope act_scope with act.
Notation "x <- m ;; k" := (bind m (fun x => k))
  (at level 100, m at next level, k at level 200, right associativity)
  : act_scope.
Notation "m ;; k" := (bind m (fun _ => k))
  (at level 100, k at level 200, right associativity) : act_scope.
Open Scope act_scope.

(** [x & m] as a C condition. *)
Definition has_bits (v m : Z) : bool := negb (Z.land v m =? 0).

(** [v &= ~m] on a [uint8_t]. *)
Definition clear_bits (v m : Z) : Z := u8 (Z.land v (Z.lnot m)).

(** [STREAM_TO_ARRAY(dst, p, n)]: the [n] bytes at offset [off]. *)
Definition stream_to_array (p : list Z) (off n : Z) : list Z :=
  map (fun i => rd p (off + Z.of_nat i)) (seq 0 (Z.to_nat n)).

(** [memcmp(a, b, n) == 0]. *)
Definition memcmp_eq (a b : list Z) (n : Z) : bool :=
  forallb (fun i => rd a (Z.of_nat i) =? rd b (Z.of_nat i))
    (seq 0 (Z.to_nat n)).

Section Actions.
Context `{E : Env}.

Definition auth_cmpl (reason : Z) : act unit :=
  call (Call_smp_sm_event SMP_AUTH_CMPL_EVT (Some (Int_status reason))).

(** [static bool pts_test_send_authentication_complete_failure(p_cb)]. *)
Definition pts_test_send_authentication_complete_failure : act bool :=
  cb <- get ;;
  let reason := cert_failure cb in
  if (reason =? SMP_PAIR_AUTH_FAIL) || (reason =? SMP_PAIR_FAIL_UNKNOWN)
     || (reason =? SMP_PAIR_NOT_SUPPORT) || (reason =? SMP_PASSKEY_ENTRY_FAIL)
     || (reason =? SMP_REPEATED_ATTEMPTS)
  then auth_cmpl reason ;; ret true
  else ret false.

(** [static void smp_update_key_mask(p_cb, key_type, recv)]. *)
Definition smp_update_key_mask (key_type : Z) (recv : bool) : act unit :=
  cb <- get ;;
  if (le_secure_connections_mode_is_used cb || smp_over_br cb)
     && ((key_type =? SMP_SEC_KEY_TYPE_ENC) || (key_type =? SMP_SEC_KEY_TYPE_LK))
  then
    modify (fun c => set_local_i_key (clear_bits (local_i_key c) key_type) c) ;;
    modify (fun c => set_local_r_key (clear_bits (local_r_key c) key_type) c)
  else if role cb =? HCI_ROLE_SLAVE then
    if recv
    then modify (fun c => set_local_i_key (clear_bits (local_i_key c) key_type) c)
    else modify (fun c => set_local_r_key (clear_bits (local_r_key c) key_type) c)
  else
    if recv
    then modify (fun c => set_local_r_key (clear_bits (local_r_key c) key_type) c)
    else modify (fun c => set_local_i_key (clear_bits (local_i_key c) key_type) c).

(** [void smp_send_pair_fail(p_cb, p_data)]. *)
Definition smp_send_pair_fail (p_data : tSMP_INT_DATA) : act unit :=
  modify (set_status (data_status p_data)) ;;
  modify (set_failure (data_status p_data)) ;;
  cb <- get ;;
  if (status cb <=? SMP_MAX_FAIL_RSN_PER_SPEC) && negb (status cb =? SMP_SUCCESS)
  then
    _ <- extern (smp_send_cmd SMP_OPCODE_PAIRING_FAILED)
           [Call_smp_send_cmd SMP_OPCODE_PAIRING_FAILED] ;;
    modify (set_wait_for_authorization_complete true)
  else ret tt.

(** [void smp_proc_pair_fail(p_cb, p_data)]. *)
Definition smp_proc_pair_fail (p_data : tSMP_INT_DATA) : act unit :=
  cb <- get ;;
  (if rcvd_cmd_len cb <? 2
   then modify (set_status SMP_INVALID_PARAMETERS)
   else modify (set_status (data_status p_data))) ;;
  call Call_alarm_cancel_delayed_auth_timer.

(** [void smp_decide_association_model(p_cb, p_data)]: the [switch] leaves
    [int_evt] and [smp_int_data]; the event, if any, is raised at the end. *)
Definition smp_decide_association_model : act unit :=
  cb <- get ;;
  r <- match selected_association_model cb with
       | SMP_MODEL_ENCRYPTION_ONLY =>
           if (role cb =? HCI_ROLE_MASTER)
              && has_bits (peer_auth_req cb) SMP_AUTH_YN_BIT
              && negb (has_bits (loc_auth_req cb) SMP_AUTH_YN_BIT)
           then ret (Some SMP_AUTH_CMPL_EVT, Int_status SMP_PAIR_AUTH_FAIL)
           else if negb is_atv_device
                   && ((local_io_capability cb =? SMP_IO_CAP_IO)
                       || (local_io_capability cb =? SMP_IO_CAP_KBDISP))
           then
             modify (set_cb_evt (Some SMP_CONSENT_REQ_EVT)) ;;
             call (Call_smp_set_state SMP_STATE_WAIT_NONCE) ;;
             call (Call_smp_sm_event SMP_SC_DSPL_NC_EVT None) ;;
             ret (None, Int_uninit)
           else
             modify (set_sec_level SMP_SEC_UNAUTHENTICATE) ;;
             (* key.p_data points at p_cb->tk, which is cleared before the
                event is raised *)
             modify (set_tk (repeat 0 (Z.to_nat OCTET16_LEN))) ;;
             c <- get ;;
             ret (Some SMP_KEY_READY_EVT, Int_key SMP_KEY_TYPE_TK (tk c))
       | SMP_MODEL_PASSKEY =>
           modify (set_sec_level SMP_SEC_AUTHENTICATED) ;;
           modify (set_cb_evt (Some SMP_PASSKEY_REQ_EVT)) ;;
           ret (Some SMP_TK_REQ_EVT, Int_uninit)
       | SMP_MODEL_OOB =>
           modify (set_sec_level SMP_SEC_AUTHENTICATED) ;;
           modify (set_cb_evt (Some SMP_OOB_REQ_EVT)) ;;
           ret (Some SMP_TK_REQ_EVT, Int_uninit)
       | SMP_MODEL_KEY_NOTIF =>
           modify (set_sec_level SMP_SEC_AUTHENTICATED) ;;
           call Call_smp_generate_passkey ;;
           ret (None, Int_uninit)
       | SMP_MODEL_SEC_CONN_JUSTWORKS
       | SMP_MODEL_SEC_CONN_NUM_COMP
       | SMP_MODEL_SEC_CONN_PASSKEY_ENT
       | SMP_MODEL_SEC_CONN_PASSKEY_DISP
       | SMP_MODEL_SEC_CONN_OOB =>
           ret (Some SMP_PUBL_KEY_EXCH_REQ_EVT, Int_uninit)
       | SMP_MODEL_OUT_OF_RANGE =>
           ret (Some SMP_AUTH_CMPL_EVT, Int_status SMP_UNKNOWN_IO_CAP)
       end ;;
  match fst r with
  | Some int_evt => call (Call_smp_sm_event int_evt (Some (snd r)))
  | None => ret tt
  end.

(** [void smp_send_pair_rsp(p_cb, p_data)]. *)
Definition smp_send_pair_rsp : act unit :=
  modify (fun c => set_local_i_key (Z.land (local_i_key c) (peer_i_key c)) c) ;;
  modify (fun c => set_local_r_key (Z.land (local_r_key c) (peer_r_key c)) c) ;;
  sent <- extern (smp_send_cmd SMP_OPCODE_PAIRING_RSP)
            [Call_smp_send_cmd SMP_OPCODE_PAIRING_RSP] ;;
  if sent then
    cb <- get ;;
    if asso_model_eqb (selected_association_model cb) SMP_MODEL_SEC_CONN_OOB
    then call Call_smp_use_oob_private_key
    else smp_decide_association_model
  else ret tt.

(** [p_cb->selected_association_model = smp_select_association_model(p_cb)]. *)
Definition select_model : act unit :=
  m <- extern smp_select_association_model [] ;;
  modify (set_selected_association_model m).

(** The condition both branches of [smp_proc_pair_cmd] and
    [smp_process_io_response] test after selecting the model. *)
Definition sc_only_refused (cb : tSMP_CB) : bool :=
  secure_connections_only_mode_required cb
  && (negb (le_secure_connections_mode_is_used cb)
      || asso_model_eqb (selected_association_model cb)
           SMP_MODEL_SEC_CONN_JUSTWORKS).

(** The second half of [smp_proc_pair_cmd]:
    [if (p_cb->role == HCI_ROLE_SLAVE) { ... } else { ... }]. *)
Definition proc_pair_cmd_by_role : act unit :=
  cb3 <- get ;;
  if role cb3 =? HCI_ROLE_SLAVE then
    if negb (has_bits (flags cb3) SMP_PAIR_FLAGS_WE_STARTED_DD) then
      (* peer (master) started pairing sending Pairing Request *)
      modify (fun c => set_local_i_key (peer_i_key c) c) ;;
      modify (fun c => set_local_r_key (peer_r_key c) c) ;;
      modify (set_cb_evt (Some SMP_SEC_REQUEST_EVT))
    else
      (* pairing started with this side sending Security Request *)
      modify (fun c =>
        set_local_i_key (Z.land (local_i_key c) (peer_i_key c)) c) ;;
      modify (fun c =>
        set_local_r_key (Z.land (local_r_key c) (peer_r_key c)) c) ;;
      select_model ;;
      cb4 <- get ;;
      if sc_only_refused cb4 then auth_cmpl SMP_PAIR_AUTH_FAIL
      else if asso_model_eqb (selected_association_model cb4)
                SMP_MODEL_SEC_CONN_OOB
      then
        _ <- extern smp_request_oob_data [Call_smp_request_oob_data] ;;
        ret tt
      else smp_send_pair_rsp
  else
    (* Master receives pairing response *)
    select_model ;;
    cb4 <- get ;;
    if sc_only_refused cb4 then auth_cmpl SMP_PAIR_AUTH_FAIL
    else if asso_model_eqb (selected_association_model cb4)
              SMP_MODEL_SEC_CONN_OOB
    then
      _ <- extern smp_request_oob_data [Call_smp_request_oob_data] ;;
      ret tt
    else smp_decide_association_model.

(** [void smp_proc_pair_cmd(p_cb, p_data)]. *)
Definition smp_proc_pair_cmd (p_data : tSMP_INT_DATA) : act unit :=
  let p := data_p_data p_data in
  cb0 <- get ;;
  match btm_find_dev (pairing_bda cb0) with
  | Some dev =>
      if role cb0 =? HCI_ROLE_SLAVE
      then call (Call_btm_sec_clear_ble_keys dev) else ret tt
  | None => ret tt
  end ;;
  modify (fun c => set_flags (Z.lor (flags c) SMP_PAIR_FLAG_ENC_AFTER_PAIR) c) ;;
  cb1 <- get ;;
  if smp_command_has_invalid_length cb1 then auth_cmpl SMP_INVALID_PARAMETERS
  else
    modify (set_peer_io_caps (rd p 0)) ;;
    modify (set_peer_oob_flag (rd p 1)) ;;
    modify (set_peer_auth_req (rd p 2)) ;;
    modify (set_peer_enc_size (rd p 3)) ;;
    modify (set_peer_i_key (rd p 4)) ;;
    modify (set_peer_r_key (rd p 5)) ;;
    cb2 <- get ;;
    if smp_command_has_invalid_parameters cb2
    then auth_cmpl SMP_INVALID_PARAMETERS
    else
      pts <- pts_test_send_authentication_complete_failure ;;
      if pts then ret tt else proc_pair_cmd_by_role.


(** [void smp_wait_for_both_public_keys(p_cb, p_data)]. *)
Definition smp_wait_for_both_public_keys : act unit :=
  cb <- get ;;
  if has_bits (flags cb) SMP_PAIR_FLAG_HAVE_PEER_PUBL_KEY
     && has_bits (flags cb) SMP_PAIR_FLAG_HAVE_LOCAL_PUBL_KEY
  then
    (if (role cb =? HCI_ROLE_SLAVE)
        && ((req_oob_type cb =? SMP_OOB_LOCAL) || (req_oob_type cb =? SMP_OOB_BOTH))
     then call (Call_smp_set_state SMP_STATE_PUBLIC_KEY_EXCH)
     else ret tt) ;;
    call (Call_smp_sm_event SMP_BOTH_PUBL_KEYS_RCVD_EVT None)
  else ret tt.

(** [void smp_process_pairing_public_key(p_cb, p_data)]. *)
Definition smp_process_pairing_public_key (p_data : tSMP_INT_DATA)
  : act unit :=
  let p := data_p_data p_data in
  cb0 <- get ;;
  if smp_command_has_invalid_parameters cb0
  then auth_cmpl SMP_INVALID_PARAMETERS
  else
    modify (fun c =>
      set_peer_publ_key
        (mkPUBLIC_KEY (stream_to_array p 0 BT_OCTET32_LEN)
                      (y (peer_publ_key c))) c) ;;
    modify (fun c =>
      set_peer_publ_key
        (mkPUBLIC_KEY (x (peer_publ_key c))
                      (stream_to_array p BT_OCTET32_LEN BT_OCTET32_LEN)) c) ;;
    cb1 <- get ;;
    let pt := mkPUBLIC_KEY (x (peer_publ_key cb1)) (y (peer_publ_key cb1)) in
    if memcmp_eq (x (peer_publ_key cb1)) (x (loc_publ_key cb1)) BT_OCTET32_LEN
    then auth_cmpl SMP_PAIR_AUTH_FAIL
    else if negb (ECC_ValidatePoint pt) then auth_cmpl SMP_PAIR_AUTH_FAIL
    else
      modify (fun c =>
        set_flags (Z.lor (flags c) SMP_PAIR_FLAG_HAVE_PEER_PUBL_KEY) c) ;;
      smp_wait_for_both_public_keys.

(** [void smp_check_auth_req(p_cb, p_data)]. *)
Definition smp_check_auth_req (p_data : tSMP_INT_DATA) : act unit :=
  let enc_enable := data_status p_data in
  let fail_or_success :=
    if enc_enable =? 0 then SMP_ENC_FAIL else SMP_SUCCESS in
  if enc_enable =? 1 then
    cb <- get ;;
    (if le_secure_connections_mode_is_used cb then
       modify (fun c =>
         set_local_i_key (u8 (Z.lor (local_i_key c) SMP_SEC_KEY_TYPE_ENC)) c) ;;
       modify (fun c =>
         set_local_r_key (u8 (Z.lor (local_r_key c) SMP_SEC_KEY_TYPE_ENC)) c) ;;
       c1 <- get ;;
       (if negb (has_bits (local_i_key c1) SMP_SEC_KEY_TYPE_LK)
           || negb (has_bits (local_r_key c1) SMP_SEC_KEY_TYPE_LK)
        then
          modify (fun c =>
            set_local_i_key (clear_bits (local_i_key c) SMP_SEC_KEY_TYPE_LK) c) ;;
          modify (fun c =>
            set_local_r_key (clear_bits (local_r_key c) SMP_SEC_KEY_TYPE_LK) c)
        else ret tt) ;;
       if role cb =? HCI_ROLE_MASTER
       then modify (fun c =>
              set_local_r_key
                (u8 (Z.land (local_r_key c)
                       (Z.lor SMP_SEC_KEY_TYPE_ID SMP_SEC_KEY_TYPE_CSRK))) c)
       else ret tt
     else
       modify (fun c =>
         set_local_i_key (clear_bits (local_i_key c) SMP_SEC_KEY_TYPE_LK) c) ;;
       modify (fun c =>
         set_local_r_key (clear_bits (local_r_key c) SMP_SEC_KEY_TYPE_LK) c)) ;;
    c2 <- get ;;
    if negb (local_i_key c2 =? 0) || negb (local_r_key c2 =? 0)
    then call (Call_smp_sm_event SMP_BOND_REQ_EVT None)
    else auth_cmpl fail_or_success
  else if enc_enable =? 0 then
    cb <- get ;;
    if has_bits (flags cb) SMP_PAIR_FLAG_ENC_AFTER_PAIR
    then auth_cmpl fail_or_success
    else if role cb =? HCI_ROLE_MASTER then auth_cmpl fail_or_success
    else ret tt
  else ret tt.

(** *** Intermediate control blocks of [smp_proc_pair_cmd] *)

(** After [p_cb->flags |= SMP_PAIR_FLAG_ENC_AFTER_PAIR]. *)
Definition pair_cmd_flagged (cb : tSMP_CB) : tSMP_CB :=
  set_flags (Z.lor (flags cb) SMP_PAIR_FLAG_ENC_AFTER_PAIR) cb.

(** After the six [STREAM_TO_UINT8] of the command body [p]. *)
Definition pair_cmd_parsed (p : list Z) (cb : tSMP_CB) : tSMP_CB :=
  set_peer_r_key (rd p 5)
    (set_peer_i_key (rd p 4)
       (set_peer_enc_size (rd p 3)
          (set_peer_auth_req (rd p 2)
             (set_peer_oob_flag (rd p 1)
                (set_peer_io_caps (rd p 0) (pair_cmd_flagged cb)))))).



(** The [btm_sec_clear_ble_keys] call at the head of [smp_proc_pair_cmd]. *)
Definition clear_keys_trace (cb : tSMP_CB) : list effect :=
  match btm_find_dev (pairing_bda cb) with
  | Some dev =>
      if role cb =? HCI_ROLE_SLAVE then [Call_btm_sec_clear_ble_keys dev]
      else []
  | None => []
  end.

End Actions.

(** The header values of the stack and stand-ins for the callees, used to
    run the actions: the model selector returns a fixed model and SC flag. *)
Definition run_env (sc : bool) (model : tSMP_ASSO_MODEL)
  (bad_params on_curve : bool) : Env := {|
  SMP_SUCCESS := 0;
  SMP_PASSKEY_ENTRY_FAIL := 1;
  SMP_PAIR_AUTH_FAIL := 3;
  SMP_PAIR_NOT_SUPPORT := 5;
  SMP_PAIR_FAIL_UNKNOWN := 8;
  SMP_REPEATED_ATTEMPTS := 9;
  SMP_INVALID_PARAMETERS := 10;
  SMP_MAX_FAIL_RSN_PER_SPEC := 14;
  SMP_UNKNOWN_IO_CAP := 16;
  SMP_ENC_FAIL := 20;
  SMP_PAIR_FLAGS_WE_STARTED_DD := 1;
  SMP_PAIR_FLAG_ENC_AFTER_PAIR := 4;
  SMP_PAIR_FLAG_HAVE_PEER_PUBL_KEY := 32;
  SMP_PAIR_FLAG_HAVE_LOCAL_PUBL_KEY := 128;
  SMP_AUTH_YN_BIT := 4;
  SMP_IO_CAP_IO := 1;
  SMP_IO_CAP_KBDISP := 4;
  SMP_SEC_UNAUTHENTICATE := 1;
  SMP_SEC_AUTHENTICATED := 2;
  SMP_KEY_TYPE_TK := 1;
  SMP_OOB_LOCAL := 2;
  SMP_OOB_BOTH := 3;
  btm_find_dev := fun _ => Some 0%nat;
  smp_command_has_invalid_length := fun _ => false;
  smp_command_has_invalid_parameters := fun _ => bad_params;
  smp_select_association_model := fun cb =>
    (mkSMP_CB
       (role cb) (flags cb) (status cb) (failure cb) (rcvd_cmd_len cb)
       (cert_failure cb) (pairing_bda cb) (peer_io_caps cb)
       (peer_oob_flag cb) (peer_auth_req cb) (peer_enc_size cb)
       (peer_i_key cb) (peer_r_key cb) (local_io_capability cb)
       (loc_auth_req cb) (local_i_key cb) (local_r_key cb) (cb_evt cb)
       (selected_association_model cb)
       (secure_connections_only_mode_required cb) sc (smp_over_br cb)
       (sec_level cb) (tk cb) (peer_publ_key cb) (loc_publ_key cb)
       (req_oob_type cb) (wait_for_authorization_complete cb), model);
  smp_request_oob_data := fun cb => (cb, true);
  smp_send_cmd := fun _ cb => (cb, true);
  is_atv_device := false;
  ECC_ValidatePoint := fun _ => on_curve
|}.

(** A control block at rest: no flags, no keys, all-zero public keys. *)
Definition cb_init (r : Z) (sc_only : bool) : tSMP_CB :=
  mkSMP_CB r 0 0 0 7 0 0 0 0 0 0 0 0 0 0 0 0 None SMP_MODEL_ENCRYPTION_ONLY
    sc_only false false 0 (repeat 0 16)
    (mkPUBLIC_KEY (repeat 0 32) (repeat 0 32))
    (mkPUBLIC_KEY (repeat 0 32) (repeat 0 32)) 0 false.

(** A responder in Secure Connections mode whose masks were negotiated down
    to the identity key alone. *)
Definition cb_sc_id_only : tSMP_CB :=
  mkSMP_CB HCI_ROLE_SLAVE 0 0 0 7 0 0 0 0 0 0 2 2 0 0 2 2 None
    SMP_MODEL_SEC_CONN_NUM_COMP false true false 0 (repeat 0 16)
    (mkPUBLIC_KEY (repeat 0 32) (repeat 0 32))
    (mkPUBLIC_KEY (repeat 0 32) (repeat 0 32)) 0 false.

(** The same block after a one-byte command has been received. *)
Definition set_rcvd_len_1 (cb : tSMP_CB) : tSMP_CB :=
  mkSMP_CB
    (role cb) (flags cb) (status cb) (failure cb) 1 (cert_failure cb)
    (pairing_bda cb) (peer_io_caps cb) (peer_oob_flag cb) (peer_auth_req cb)
    (peer_enc_size cb) (peer_i_key cb) (peer_r_key cb)
    (local_io_capability cb) (loc_auth_req cb) (local_i_key cb)
    (local_r_key cb) (cb_evt cb) (selected_association_model cb)
    (secure_connections_only_mode_required cb)
    (le_secure_connections_mode_is_used cb) (smp_over_br cb) (sec_level cb)
    (tk cb) (peer_publ_key cb) (loc_publ_key cb) (req_oob_type cb)
    (wait_for_authorization_complete cb).

(** *** Vocabulary of the properties *)

(** [a] has no bit outside [b]. *)
Definition mask_subset (a b : Z) : Prop := Z.land a b = a.

(** Both distribution masks stay inside given bounds. *)
Definition masks_within (ni nr : Z) (cb : tSMP_CB) : Prop :=
  mask_subset (local_i_key cb) ni /\ mask_subset (local_r_key cb) nr.

(** An action never takes the masks out of any bounds they were in. *)
Definition preserves_masks (f : act unit) : Prop :=
  forall ni nr cb, masks_within ni nr cb -> masks_within ni nr (st (f cb)).

(** The trace [e] followed by the run [r]. *)
Definition prepend {A} (e : list effect) (r : res A) : res A :=
  mkRes (val r) (st r) (e ++ tr r).

(** The masks [smp_check_auth_req] leaves after a successful encryption
    change, as functions of the masks it found. *)
Definition auth_req_i_key (sc : bool) (i r : Z) : Z :=
  if sc then
    let i1 := u8 (Z.lor i SMP_SEC_KEY_TYPE_ENC) in
    let r1 := u8 (Z.lor r SMP_SEC_KEY_TYPE_ENC) in
    if negb (has_bits i1 SMP_SEC_KEY_TYPE_LK)
       || negb (has_bits r1 SMP_SEC_KEY_TYPE_LK)
    then clear_bits i1 SMP_SEC_KEY_TYPE_LK else i1
  else clear_bits i SMP_SEC_KEY_TYPE_LK.

Definition auth_req_r_key (sc : bool) (role : Z) (i r : Z) : Z :=
  if sc then
    let i1 := u8 (Z.lor i SMP_SEC_KEY_TYPE_ENC) in
    let r1 := u8 (Z.lor r SMP_SEC_KEY_TYPE_ENC) in
    let r2 := if negb (has_bits i1 SMP_SEC_KEY_TYPE_LK)
                 || negb (has_bits r1 SMP_SEC_KEY_TYPE_LK)
              then clear_bits r1 SMP_SEC_KEY_TYPE_LK else r1 in
    if role =? HCI_ROLE_MASTER
    then u8 (Z.land r2 (Z.lor SMP_SEC_KEY_TYPE_ID SMP_SEC_KEY_TYPE_CSRK))
    else r2
  else clear_bits r SMP_SEC_KEY_TYPE_LK.

(** A call of [smp_send_cmd], whatever the opcode. *)
Definition is_send_cmd (e : effect) : Prop :=
  match e with Call_smp_send_cmd _ => True | _ => False end.

(** The key a Pairing-Public-Key body [p] carries. *)
Definition received_key (p : list Z) : tSMP_PUBLIC_KEY :=
  mkPUBLIC_KEY (stream_to_array p 0 BT_OCTET32_LEN)
               (stream_to_array p BT_OCTET32_LEN BT_OCTET32_LEN).





(** *** The end of a pairing *)






End Smp.
(** ** SMP pairing actions: key distribution *)

Module SmpMore.
Import Bt Smp.

(** [#define SMP_KEY_DIST_TYPE_MAX 4]. *)
Definition SMP_KEY_DIST_TYPE_MAX : Z := 4.

(** The actions named in [smp_distribute_act]. *)
Inductive tSMP_ACT :=
| smp_generate_ltk
| smp_send_id_info
| smp_generate_csrk
| smp_set_derive_link_key.

(** [const tSMP_ACT smp_distribute_act[]]. *)
Definition smp_distribute_act : list tSMP_ACT :=
  [smp_generate_ltk; smp_send_id_info; smp_generate_csrk;
   smp_set_derive_link_key].

(** [while (i < SMP_KEY_DIST_TYPE_MAX) { if (key_to_dist & (1 << i)) { ...
    break; } i++; }] with [todo] turns left: the index at which the loop
    calls an action. *)
Fixpoint pick_key_loop (todo : nat) (i : Z) (key_to_dist : Z) : option Z :=
  match todo with
  | O => None
  | S k =>
      if has_bits key_to_dist (Z.shiftl 1 i) then Some i
      else pick_key_loop k (i + 1) key_to_dist
  end.

(** The local [key_to_dist] of [smp_key_pick_key]. *)
Definition key_to_dist (cb : tSMP_CB) : Z :=
  u8 (if role cb =? HCI_ROLE_SLAVE then local_r_key cb else local_i_key cb).

(** [void smp_key_pick_key(tSMP_CB* p_cb, tSMP_INT_DATA* p_data)]: the
    action of [smp_distribute_act] it calls, if it calls one. *)
Definition smp_key_pick_key (cb : tSMP_CB) : option tSMP_ACT :=
  match pick_key_loop (Z.to_nat SMP_KEY_DIST_TYPE_MAX) 0 (key_to_dist cb) with
  | Some i => smp_distribute_act !! Z.to_nat i
  | None => None
  end.

(** The one call of a pairing command refused as malformed. *)
Definition invalid_trace `{E : Env} : list effect :=
  [Call_smp_sm_event SMP_AUTH_CMPL_EVT
     (Some (Int_status SMP_INVALID_PARAMETERS))].

(** The control block of a responder that has taken the key distribution
    of the initiator and waits for the application. *)
Definition peer_keys_taken (cb : tSMP_CB) : tSMP_CB :=
  set_cb_evt (Some SMP_SEC_REQUEST_EVT)
    (set_local_r_key (peer_r_key cb) (set_local_i_key (peer_i_key cb) cb)).

(** The calls [smp_check_auth_req] ends with after an encryption change
    with status [enc_enable] that left the control block [cb']. *)
Definition auth_req_event `{E : Env} (enc_enable : Z) (cb cb' : tSMP_CB)
  : list effect :=
  if enc_enable =? 1 then
    if negb (local_i_key cb' =? 0) || negb (local_r_key cb' =? 0)
    then [Call_smp_sm_event SMP_BOND_REQ_EVT None]
    else [Call_smp_sm_event SMP_AUTH_CMPL_EVT (Some (Int_status SMP_SUCCESS))]
  else if enc_enable =? 0 then
    if has_bits (flags cb) SMP_PAIR_FLAG_ENC_AFTER_PAIR
       || (role cb =? HCI_ROLE_MASTER)
    then [Call_smp_sm_event SMP_AUTH_CMPL_EVT (Some (Int_status SMP_ENC_FAIL))]
    else []
  else [].

End SmpMore.

(** ** AVDTP signalling *)

Module Avdt.
Import Bt.

(** *** Wire constants

    The header of a signalling packet: label in the high nibble of the first
    byte, then two bits of packet type and two bits of message type; START
    packets add one byte (number of signal packets); SINGLE and START packets
    add the signal identifier. *)

(** Modelled from the spec: the two bits of packet type, numbered as the
    file indexes its table [avdt_msg_pkt_type_len]: SINGLE, START, CONT,
    END. *)
Definition AVDT_PKT_TYPE_SINGLE : Z := 0.
Definition AVDT_PKT_TYPE_START : Z := 1.
Definition AVDT_PKT_TYPE_CONT : Z := 2.
Definition AVDT_PKT_TYPE_END : Z := 3.

(** Modelled from the spec: the header length by packet type; one byte of
    label and types, one byte of signal in SINGLE and START packets, one
    byte for the number of signal packets in START packets. *)
Definition AVDT_LEN_TYPE_SINGLE : Z := 2.
Definition AVDT_LEN_TYPE_START : Z := 3.
Definition AVDT_LEN_TYPE_CONT : Z := 1.
Definition AVDT_LEN_TYPE_END : Z := 1.

(** [static const uint8_t avdt_msg_pkt_type_len[]]. *)
Definition avdt_msg_pkt_type_len : list Z :=
  [AVDT_LEN_TYPE_SINGLE; AVDT_LEN_TYPE_START; AVDT_LEN_TYPE_CONT;
   AVDT_LEN_TYPE_END].

(** Modelled from the spec: the two bits of message type, command 0,
    general reject 1, response accept 2, response reject 3. *)
Definition AVDT_MSG_TYPE_CMD : Z := 0.
Definition AVDT_MSG_TYPE_GRJ : Z := 1.
Definition AVDT_MSG_TYPE_RSP : Z := 2.
Definition AVDT_MSG_TYPE_REJ : Z := 3.

(** Modelled from the spec: the signal identifiers, in the order the spec
    lists its thirteen signals.  The function and event tables of the file
    are indexed by [sig - 1] and have these thirteen entries, discover first
    and delay report last, and [AVDT_SIG_MAX] guards the index. *)
Definition AVDT_SIG_NONE : Z := 0.
Definition AVDT_SIG_DISCOVER : Z := 1.
Definition AVDT_SIG_GETCAP : Z := 2.
Definition AVDT_SIG_SETCONFIG : Z := 3.
Definition AVDT_SIG_GETCONFIG : Z := 4.
Definition AVDT_SIG_RECONFIG : Z := 5.
Definition AVDT_SIG_OPEN : Z := 6.
Definition AVDT_SIG_START : Z := 7.
Definition AVDT_SIG_CLOSE : Z := 8.
Definition AVDT_SIG_SUSPEND : Z := 9.
Definition AVDT_SIG_ABORT : Z := 10.
Definition AVDT_SIG_SECURITY : Z := 11.
Definition AVDT_SIG_GET_ALLCAP : Z := 12.
Definition AVDT_SIG_DELAY_RPT : Z := 13.
Definition AVDT_SIG_MAX : Z := AVDT_SIG_DELAY_RPT.

(** Modelled from the spec: the service categories, in the order the spec
    lists them and the tables [avdt_msg_ie_len_min], [avdt_msg_ie_len_max]
    and [avdt_msg_ie_err] are laid out (entry 0 is unused). *)
Definition AVDT_CAT_TRANS : Z := 1.
Definition AVDT_CAT_REPORT : Z := 2.
Definition AVDT_CAT_RECOV : Z := 3.
Definition AVDT_CAT_PROTECT : Z := 4.
Definition AVDT_CAT_HDRCMP : Z := 5.
Definition AVDT_CAT_MUX : Z := 6.
Definition AVDT_CAT_CODEC : Z := 7.
Definition AVDT_CAT_DELAY_RPT : Z := 8.
Definition AVDT_CAT_MAX_CUR : Z := 8.

(** [#define AVDT_PSC_PROTECT (1 << 4)], [#define AVDT_PSC_CODEC (1 << 7)]. *)
Definition AVDT_PSC_PROTECT : Z := Z.shiftl 1 4.
Definition AVDT_PSC_CODEC : Z := Z.shiftl 1 7.

(** Modelled from the spec: stream end point identifiers are six bits wide
    and 0 and 63 are reserved. *)
Definition AVDT_SEID_MIN : Z := 1.
Definition AVDT_SEID_MAX : Z := 62.

(** [AVDT_MSG_PRS_HDR], [AVDT_MSG_PRS_PKT_TYPE], [AVDT_MSG_PRS_SIG],
    [AVDT_MSG_PRS_SEID] on the byte they read. *)
Definition hdr_label (b : Z) : Z := Z.land (Z.shiftr b 4) 15.
Definition hdr_pkt_type (b : Z) : Z := Z.land (Z.shiftr b 2) 3.
Definition hdr_msg_type (b : Z) : Z := Z.land b 3.
Definition prs_sig (b : Z) : Z := Z.land b 63.
Definition prs_seid (b : Z) : Z := Z.shiftr b 2.

(** [AVDT_MSG_BLD_HDR(p, lbl, pkt, msg)]: the byte stored. *)
Definition bld_hdr (lbl pkt msg : Z) : Z :=
  u8 (Z.lor (Z.lor (u8 (Z.shiftl lbl 4)) (Z.shiftl pkt 2)) msg).

(** *** Data *)

(** [tAVDT_SEP_INFO]. *)
Record tAVDT_SEP_INFO := mkSEP_INFO {
  sep_seid : Z;
  sep_in_use : Z;
  sep_media_type : Z;
  sep_tsep : Z
}.

(** [AVDT_MSG_PRS_DISC]: one entry of a discover response, two bytes. *)
Definition prs_disc (b0 b1 : Z) : tAVDT_SEP_INFO :=
  mkSEP_INFO (Z.shiftr b0 2) (Z.land (Z.shiftr b0 1) 1)
             (Z.shiftr b1 4) (Z.land (Z.shiftr b1 3) 1).

(** The [discover_rsp] member of [tAVDT_MSG]: the array the application
    supplied and its capacity on entry. *)
Record tAVDT_DISCOVER := mkDISCOVER {
  p_sep_info : list tAVDT_SEP_INFO;
  num_seps : Z
}.

(** [AvdtpSepConfig]. *)
Record AvdtpSepConfig := mkCfg {
  psc_mask : Z;
  num_codec : Z;
  num_protect : Z;
  recov_type : Z;
  recov_mrws : Z;
  recov_mnmp : Z;
  hdrcmp_mask : Z;
  codec_info : list Z;
  protect_info : list Z
}.

(** The common header of every member of the union [tAVDT_MSG]
    ([tAVDT_EVT_HDR]; [msg.single.seid] is its [seid]). *)
Record tAVDT_EVT_HDR := mkEvtHdr {
  sig_id : Z;
  hdr_label_f : Z;
  err_code : Z;
  err_param : Z;
  ccb_idx : Z;
  seid : Z
}.

(** What a parsing function leaves in [tAVDT_MSG] besides the header. *)
Inductive msg_body :=
| Body_none
| Body_cfg (int_seid : Z) (cfg : option AvdtpSepConfig)
| Body_multi (seid_list : list Z) (n : Z)
| Body_security (p_data : list Z) (n : Z)
| Body_discover (d : tAVDT_DISCOVER)
| Body_delay (delay : Z).

Record tAVDT_MSG := mkMsg {
  hdr : tAVDT_EVT_HDR;
  body : msg_body
}.

(** Events of the CCB and SCB state machines named by the three lookup
    tables.  An entry for the CCB carries [AVDT_CCB_MKR]; the one 0 entry of
    [avdt_msg_rej_2_evt] is [Evt_none]. *)
Inductive ccb_evt :=
| AVDT_CCB_MSG_DISCOVER_CMD_EVT
| AVDT_CCB_MSG_GETCAP_CMD_EVT
| AVDT_CCB_MSG_START_CMD_EVT
| AVDT_CCB_MSG_SUSPEND_CMD_EVT
| AVDT_CCB_MSG_DISCOVER_RSP_EVT
| AVDT_CCB_MSG_GETCAP_RSP_EVT
| AVDT_CCB_MSG_START_RSP_EVT
| AVDT_CCB_MSG_SUSPEND_RSP_EVT
| AVDT_CCB_SENDMSG_EVT
| AVDT_CCB_RCVRSP_EVT.

Inductive scb_evt :=
| AVDT_SCB_MSG_SETCONFIG_CMD_EVT
| AVDT_SCB_MSG_GETCONFIG_CMD_EVT
| AVDT_SCB_MSG_RECONFIG_CMD_EVT
| AVDT_SCB_MSG_OPEN_CMD_EVT
| AVDT_SCB_MSG_CLOSE_CMD_EVT
| AVDT_SCB_MSG_ABORT_CMD_EVT
| AVDT_SCB_MSG_SECURITY_CMD_EVT
| AVDT_SCB_MSG_DELAY_RPT_CMD_EVT
| AVDT_SCB_MSG_SETCONFIG_RSP_EVT
| AVDT_SCB_MSG_GETCONFIG_RSP_EVT
| AVDT_SCB_MSG_RECONFIG_RSP_EVT
| AVDT_SCB_MSG_OPEN_RSP_EVT
| AVDT_SCB_MSG_CLOSE_RSP_EVT
| AVDT_SCB_MSG_ABORT_RSP_EVT
| AVDT_SCB_MSG_SECURITY_RSP_EVT
| AVDT_SCB_MSG_DELAY_RPT_RSP_EVT
| AVDT_SCB_MSG_SETCONFIG_REJ_EVT
| AVDT_SCB_MSG_OPEN_REJ_EVT.

Inductive msg_evt :=
| Evt_none
| Evt_ccb (e : ccb_evt)
| Evt_scb (e : scb_evt).

(** [const uint8_t avdt_msg_cmd_2_evt[]]. *)
Definition avdt_msg_cmd_2_evt : list msg_evt :=
  [Evt_ccb AVDT_CCB_MSG_DISCOVER_CMD_EVT;
   Evt_ccb AVDT_CCB_MSG_GETCAP_CMD_EVT;
   Evt_scb AVDT_SCB_MSG_SETCONFIG_CMD_EVT;
   Evt_scb AVDT_SCB_MSG_GETCONFIG_CMD_EVT;
   Evt_scb AVDT_SCB_MSG_RECONFIG_CMD_EVT;
   Evt_scb AVDT_SCB_MSG_OPEN_CMD_EVT;
   Evt_ccb AVDT_CCB_MSG_START_CMD_EVT;
   Evt_scb AVDT_SCB_MSG_CLOSE_CMD_EVT;
   Evt_ccb AVDT_CCB_MSG_SUSPEND_CMD_EVT;
   Evt_scb AVDT_SCB_MSG_ABORT_CMD_EVT;
   Evt_scb AVDT_SCB_MSG_SECURITY_CMD_EVT;
   Evt_ccb AVDT_CCB_MSG_GETCAP_CMD_EVT;
   Evt_scb AVDT_SCB_MSG_DELAY_RPT_CMD_EVT].

(** [const uint8_t avdt_msg_rsp_2_evt[]]. *)
Definition avdt_msg_rsp_2_evt : list msg_evt :=
  [Evt_ccb AVDT_CCB_MSG_DISCOVER_RSP_EVT;
   Evt_ccb AVDT_CCB_MSG_GETCAP_RSP_EVT;
   Evt_scb AVDT_SCB_MSG_SETCONFIG_RSP_EVT;
   Evt_scb AVDT_SCB_MSG_GETCONFIG_RSP_EVT;
   Evt_scb AVDT_SCB_MSG_RECONFIG_RSP_EVT;
   Evt_scb AVDT_SCB_MSG_OPEN_RSP_EVT;
   Evt_ccb AVDT_CCB_MSG_START_RSP_EVT;
   Evt_scb AVDT_SCB_MSG_CLOSE_RSP_EVT;
   Evt_ccb AVDT_CCB_MSG_SUSPEND_RSP_EVT;
   Evt_scb AVDT_SCB_MSG_ABORT_RSP_EVT;
   Evt_scb AVDT_SCB_MSG_SECURITY_RSP_EVT;
   Evt_ccb AVDT_CCB_MSG_GETCAP_RSP_EVT;
   Evt_scb AVDT_SCB_MSG_DELAY_RPT_RSP_EVT].

(** [const uint8_t avdt_msg_rej_2_evt[]]. *)
Definition avdt_msg_rej_2_evt : list msg_evt :=
  [Evt_ccb AVDT_CCB_MSG_DISCOVER_RSP_EVT;
   Evt_ccb AVDT_CCB_MSG_GETCAP_RSP_EVT;
   Evt_scb AVDT_SCB_MSG_SETCONFIG_REJ_EVT;
   Evt_scb AVDT_SCB_MSG_GETCONFIG_RSP_EVT;
   Evt_scb AVDT_SCB_MSG_RECONFIG_RSP_EVT;
   Evt_scb AVDT_SCB_MSG_OPEN_REJ_EVT;
   Evt_ccb AVDT_CCB_MSG_START_RSP_EVT;
   Evt_scb AVDT_SCB_MSG_CLOSE_RSP_EVT;
   Evt_ccb AVDT_CCB_MSG_SUSPEND_RSP_EVT;
   Evt_scb AVDT_SCB_MSG_ABORT_RSP_EVT;
   Evt_scb AVDT_SCB_MSG_SECURITY_RSP_EVT;
   Evt_ccb AVDT_CCB_MSG_GETCAP_RSP_EVT;
   Evt_none].

(** [tbl[sig - 1]]; outside the table (undefined in C) no event. *)
Definition evt_of (tbl : list msg_evt) (sig : Z) : msg_evt :=
  if sig <? 1 then Evt_none
  else default Evt_none (tbl !! Z.to_nat (sig - 1)).

(** The fields of [AvdtpCcb] used by the functions below. *)
Record AvdtpCcb := mkCcb {
  cong : bool;
  p_curr_msg : option BT_HDR;
  p_rx_msg : option BT_HDR;
  p_curr_cmd : option BT_HDR;
  rsp_q : list BT_HDR;
  ret_count : Z;
  (** [p_proc_data], when it points at the application's SEP array *)
  proc_sep_info : list tAVDT_SEP_INFO;
  (** [p_proc_data], when it points at the application's configuration *)
  proc_cfg : option AvdtpSepConfig;
  proc_param : Z
}.

Definition set_p_curr_msg (v : option BT_HDR) (c : AvdtpCcb) : AvdtpCcb :=
  mkCcb (cong c) v (p_rx_msg c) (p_curr_cmd c) (rsp_q c) (ret_count c)
    (proc_sep_info c) (proc_cfg c) (proc_param c).

Definition set_p_rx_msg (v : option BT_HDR) (c : AvdtpCcb) : AvdtpCcb :=
  mkCcb (cong c) (p_curr_msg c) v (p_curr_cmd c) (rsp_q c) (ret_count c)
    (proc_sep_info c) (proc_cfg c) (proc_param c).

Definition set_cong (v : bool) (c : AvdtpCcb) : AvdtpCcb :=
  mkCcb v (p_curr_msg c) (p_rx_msg c) (p_curr_cmd c) (rsp_q c) (ret_count c)
    (proc_sep_info c) (proc_cfg c) (proc_param c).

Definition set_rsp_q (v : list BT_HDR) (c : AvdtpCcb) : AvdtpCcb :=
  mkCcb (cong c) (p_curr_msg c) (p_rx_msg c) (p_curr_cmd c) v (ret_count c)
    (proc_sep_info c) (proc_cfg c) (proc_param c).

Definition set_ret_count (v : Z) (c : AvdtpCcb) : AvdtpCcb :=
  mkCcb (cong c) (p_curr_msg c) (p_rx_msg c) (p_curr_cmd c) (rsp_q c) v
    (proc_sep_info c) (proc_cfg c) (proc_param c).

Definition set_proc_sep_info (v : list tAVDT_SEP_INFO) (c : AvdtpCcb)
  : AvdtpCcb :=
  mkCcb (cong c) (p_curr_msg c) (p_rx_msg c) (p_curr_cmd c) (rsp_q c)
    (ret_count c) v (proc_cfg c) (proc_param c).

Definition set_proc_cfg (v : option AvdtpSepConfig) (c : AvdtpCcb)
  : AvdtpCcb :=
  mkCcb (cong c) (p_curr_msg c) (p_rx_msg c) (p_curr_cmd c) (rsp_q c)
    (ret_count c) (proc_sep_info c) v (proc_param c).

Definition set_len (v : Z) (b : BT_HDR) : BT_HDR :=
  mkBT_HDR (event b) v (offset b) (layer_specific b) (data b).

Definition set_offset (v : Z) (b : BT_HDR) : BT_HDR :=
  mkBT_HDR (event b) (len b) v (layer_specific b) (data b).

Definition set_data (v : list Z) (b : BT_HDR) : BT_HDR :=
  mkBT_HDR (event b) (len b) (offset b) (layer_specific b) v.

Inductive ccb_timer := idle_ccb_timer | ret_ccb_timer | rsp_ccb_timer.

(** Calls that leave the file, in program order. *)
Inductive effect :=
| Call_osi_free (b : BT_HDR)
| Call_avdt_ad_write_req (b : BT_HDR)
| Call_alarm_cancel (t : ccb_timer)
| Call_alarm_set_on_mloop (t : ccb_timer) (interval_ms : Z)
| Call_avdt_ccb_event (e : ccb_evt) (m : option tAVDT_MSG)
| Call_avdt_scb_event (scb : nat) (e : scb_evt) (m : tAVDT_MSG).

(** A function of the file proper returns, or runs into behaviour C leaves
    undefined, or (loops only) is cut off by the step bound of the model. *)
Inductive outcome (A : Type) :=
| Done (a : A)
| Undefined
| Out_of_fuel.
Arguments Done {A} _.
Arguments Undefined {A}.
Arguments Out_of_fuel {A}.

(** Constants of [avdt_api.h], [avdt_int.h], [avdt_defs.h] and
    [bt_target.h], the registration parameters in [avdtp_cb.rcb], and the
    functions of the adaption layer and of the CCB and SCB modules whose
    results the file uses. *)
Class Env := {
  AVDT_ERR_BAD_STATE : Z;
  AVDT_ERR_PAYLOAD : Z;
  AVDT_ERR_CATEGORY : Z;
  AVDT_ERR_LENGTH : Z;
  AVDT_ERR_RECOV_TYPE : Z;
  AVDT_ERR_RECOV_FMT : Z;
  AVDT_ERR_MEDIA_TRANS : Z;
  AVDT_ERR_CP_FMT : Z;
  AVDT_ERR_ROHC_FMT : Z;
  AVDT_ERR_MUX_FMT : Z;
  AVDT_ERR_SERVICE : Z;
  AVDT_ERR_SEID : Z;
  AVDT_ERR_NSC : Z;
  AVDT_ERR_INVALID_CAP : Z;
  AVDT_LEN_SINGLE : Z;
  AVDT_LEN_SETCONFIG_MIN : Z;
  AVDT_LEN_RECONFIG_MIN : Z;
  AVDT_LEN_MULTI_MIN : Z;
  AVDT_LEN_SECURITY_MIN : Z;
  AVDT_LEN_DELAY_RPT : Z;
  AVDT_NUM_SEPS : Z;
  AVDT_PSC : Z;
  AVDT_LEG_PSC : Z;
  AVDT_PSC_TRANS : Z;
  AVDT_PSC_REPORT : Z;
  AVDT_PSC_DELAY_RPT : Z;
  AVDT_PSC_RECOV : Z;
  AVDT_PSC_HDRCMP : Z;
  AVDT_PSC_MUX : Z;
  AVDT_LEN_CFG_MIN : Z;
  AVDT_LEN_TRANS_MIN : Z;
  AVDT_LEN_REPORT_MIN : Z;
  AVDT_LEN_RECOV_MIN : Z;
  AVDT_LEN_PROTECT_MIN : Z;
  AVDT_LEN_HDRCMP_MIN : Z;
  AVDT_LEN_MUX_MIN : Z;
  AVDT_LEN_CODEC_MIN : Z;
  AVDT_LEN_DELAY_RPT_MIN : Z;
  AVDT_LEN_TRANS_MAX : Z;
  AVDT_LEN_REPORT_MAX : Z;
  AVDT_LEN_RECOV_MAX : Z;
  AVDT_LEN_PROTECT_MAX : Z;
  AVDT_LEN_HDRCMP_MAX : Z;
  AVDT_LEN_MUX_MAX : Z;
  AVDT_LEN_CODEC_MAX : Z;
  AVDT_LEN_DELAY_RPT_MAX : Z;
  AVDT_LEN_GEN_REJ : Z;
  AVDT_RECOV_RFC2733 : Z;
  AVDT_RECOV_MRWS_MIN : Z;
  AVDT_RECOV_MRWS_MAX : Z;
  AVDT_RECOV_MNMP_MIN : Z;
  AVDT_RECOV_MNMP_MAX : Z;
  AVDT_PROTECT_SIZE : Z;
  AVDT_CODEC_SIZE : Z;
  L2CAP_MIN_OFFSET : Z;
  AVDT_MSG_OFFSET : Z;
  AVDT_CMD_BUF_SIZE : Z;
  BT_DEFAULT_BUFFER_SIZE : Z;
  (** label and message type stashed in [layer_specific] *)
  AVDT_LAYERSPEC_LABEL : Z -> Z;
  AVDT_LAYERSPEC_MSG : Z -> Z;
  AVDT_BLD_LAYERSPEC : Z -> Z -> Z;
  (** [avdtp_cb.rcb.ret_tout], [avdtp_cb.rcb.sig_tout] *)
  ret_tout : Z;
  sig_tout : Z;
  (** [avdt_ad_tc_tbl_by_type(AVDT_CHAN_SIG, p_ccb, NULL)->peer_mtu] *)
  sig_peer_mtu : AvdtpCcb -> Z;
  (** the congestion flag of the CCB once [avdt_ad_write_req] returns *)
  cong_after_write : AvdtpCcb -> BT_HDR -> bool;
  avdt_ccb_to_idx : AvdtpCcb -> Z;
  (** the SCB a handle maps to, NULL when there is none *)
  avdt_scb_by_hdl : Z -> option nat
}.

Section Codec.
Context `{E : Env}.

(** [const uint8_t avdt_msg_ie_len_min[]]. *)
Definition avdt_msg_ie_len_min : list Z :=
  [0; AVDT_LEN_TRANS_MIN; AVDT_LEN_REPORT_MIN; AVDT_LEN_RECOV_MIN;
   AVDT_LEN_PROTECT_MIN; AVDT_LEN_HDRCMP_MIN; AVDT_LEN_MUX_MIN;
   AVDT_LEN_CODEC_MIN; AVDT_LEN_DELAY_RPT_MIN].

(** [const uint8_t avdt_msg_ie_len_max[]]. *)
Definition avdt_msg_ie_len_max : list Z :=
  [0; AVDT_LEN_TRANS_MAX; AVDT_LEN_REPORT_MAX; AVDT_LEN_RECOV_MAX;
   AVDT_LEN_PROTECT_MAX; AVDT_LEN_HDRCMP_MAX; AVDT_LEN_MUX_MAX;
   AVDT_LEN_CODEC_MAX; AVDT_LEN_DELAY_RPT_MAX].

(** [const uint8_t avdt_msg_ie_err[]]. *)
Definition avdt_msg_ie_err : list Z :=
  [0; AVDT_ERR_MEDIA_TRANS; AVDT_ERR_LENGTH; AVDT_ERR_RECOV_FMT;
   AVDT_ERR_CP_FMT; AVDT_ERR_ROHC_FMT; AVDT_ERR_MUX_FMT; AVDT_ERR_SERVICE;
   AVDT_ERR_SERVICE].

(** *** avdt_msg_prs_cfg *)

(** The locals of [avdt_msg_prs_cfg] and the configuration it fills in;
    [p] counts bytes from the pointer passed in, so [p_end] is [len]. *)
Record prs_state := mkPrs {
  cfg : AvdtpSepConfig;
  p : Z;
  elem : Z;
  err : Z;
  protect_offset : Z
}.

Definition set_psc_mask (v : Z) (c : AvdtpSepConfig) : AvdtpSepConfig :=
  mkCfg v (num_codec c) (num_protect c) (recov_type c) (recov_mrws c)
    (recov_mnmp c) (hdrcmp_mask c) (codec_info c) (protect_info c).

(** [case AVDT_CAT_RECOV]. *)
Definition prs_cfg_recov (buf : list Z) (p_end : Z) (s : prs_state)
  : prs_state :=
  if p_end - p s <? 3 then mkPrs (cfg s) (p s) (elem s) AVDT_ERR_PAYLOAD
                             (protect_offset s)
  else
    let t := u8 (rd buf (p s)) in
    let mrws := u8 (rd buf (p s + 1)) in
    let mnmp := u8 (rd buf (p s + 2)) in
    let c := cfg s in
    let c' := mkCfg (psc_mask c) (num_codec c) (num_protect c) t mrws mnmp
                (hdrcmp_mask c) (codec_info c) (protect_info c) in
    let e :=
      if negb (t =? AVDT_RECOV_RFC2733) then AVDT_ERR_RECOV_TYPE
      else if (mrws <? AVDT_RECOV_MRWS_MIN) || (mrws >? AVDT_RECOV_MRWS_MAX)
              || (mnmp <? AVDT_RECOV_MNMP_MIN)
              || (mnmp >? AVDT_RECOV_MNMP_MAX)
      then AVDT_ERR_RECOV_FMT
      else err s in
    mkPrs c' (p s + 3) (elem s) e (protect_offset s).

(** [case AVDT_CAT_PROTECT]. *)
Definition prs_cfg_protect (buf : list Z) (p_end elem_len : Z)
  (s : prs_state) : prs_state :=
  let c := set_psc_mask
             (u16 (Z.land (psc_mask (cfg s)) (Z.lnot AVDT_PSC_PROTECT)))
             (cfg s) in
  if p s + elem_len >? p_end
  then mkPrs c (p s) (elem s) AVDT_ERR_LENGTH (protect_offset s)
  else if elem_len + protect_offset s <? AVDT_PROTECT_SIZE then
    let info := wr (protect_info c) (protect_offset s) elem_len in
    let off1 := u8 (protect_offset s + 1) in
    let info' := memcpy info off1 buf (p s) elem_len in
    let c' := mkCfg (psc_mask c) (num_codec c) (u8 (num_protect c + 1))
                (recov_type c) (recov_mrws c) (recov_mnmp c) (hdrcmp_mask c)
                (codec_info c) info' in
    mkPrs c' (p s + elem_len) (elem s) (err s) (u8 (off1 + elem_len))
  else mkPrs c (p s + elem_len) (elem s) (err s) (protect_offset s).

(** [case AVDT_CAT_HDRCMP]. *)
Definition prs_cfg_hdrcmp (buf : list Z) (p_end : Z) (s : prs_state)
  : prs_state :=
  if p_end - p s <? 1
  then mkPrs (cfg s) (p s) (elem s) AVDT_ERR_PAYLOAD (protect_offset s)
  else
    let c := cfg s in
    let c' := mkCfg (psc_mask c) (num_codec c) (num_protect c) (recov_type c)
                (recov_mrws c) (recov_mnmp c) (u8 (rd buf (p s)))
                (codec_info c) (protect_info c) in
    mkPrs c' (p s + 1) (elem s) (err s) (protect_offset s).

(** [case AVDT_CAT_CODEC]. *)
Definition prs_cfg_codec (buf : list Z) (p_end elem_len : Z) (s : prs_state)
  : prs_state :=
  let c := set_psc_mask
             (u16 (Z.land (psc_mask (cfg s)) (Z.lnot AVDT_PSC_CODEC)))
             (cfg s) in
  let tmp := if elem_len >=? AVDT_CODEC_SIZE then u8 (AVDT_CODEC_SIZE - 1)
             else elem_len in
  if p s + tmp >? p_end
  then mkPrs c (p s) (elem s) AVDT_ERR_LENGTH (protect_offset s)
  else
    let info := memcpy (wr (codec_info c) 0 elem_len) 1 buf (p s) tmp in
    let c' := mkCfg (psc_mask c) (u8 (num_codec c + 1)) (num_protect c)
                (recov_type c) (recov_mrws c) (recov_mnmp c) (hdrcmp_mask c)
                info (protect_info c) in
    mkPrs c' (p s + elem_len) (elem s) (err s) (protect_offset s).

(** [(elem == 0) || (elem > AVDT_CAT_MAX_CUR)]. *)
Definition unknown_category (e : Z) : bool :=
  (e =? 0) || (e >? AVDT_CAT_MAX_CUR).

Definition is_config_sig (sig : Z) : bool :=
  (sig =? AVDT_SIG_SETCONFIG) || (sig =? AVDT_SIG_RECONFIG).

(** One turn of the [while] loop, entered with [p < p_end] and [err == 0];
    the result is the state at the next test of the loop condition, and the
    Boolean tells whether the turn left through a [break] of the loop. *)
Definition prs_cfg_body (buf : list Z) (p_end sig : Z) (s : prs_state)
  : prs_state * bool :=
  if p_end - p s <? AVDT_LEN_CFG_MIN
  then (mkPrs (cfg s) (p s) (elem s) AVDT_ERR_PAYLOAD (protect_offset s),
        true)
  else
    let e := u8 (rd buf (p s)) in
    let elem_len := u8 (rd buf (p s + 1)) in
    let s1 := mkPrs (cfg s) (p s + 2) e (err s) (protect_offset s) in
    if unknown_category e then
      if is_config_sig sig
      then (mkPrs (cfg s1) (p s1) e AVDT_ERR_CATEGORY (protect_offset s1),
            true)
      else (mkPrs (cfg s1) (p s1 + elem_len) e (err s1) (protect_offset s1),
            false)
    else if (elem_len >? rd avdt_msg_ie_len_max e)
            || (elem_len <? rd avdt_msg_ie_len_min e)
    then (mkPrs (cfg s1) (p s1) e (rd avdt_msg_ie_err e) (protect_offset s1),
          true)
    else
      let s2 :=
        mkPrs (set_psc_mask
                 (u16 (Z.lor (psc_mask (cfg s1)) (Z.shiftl 1 e))) (cfg s1))
          (p s1) e (err s1) (protect_offset s1) in
      let s3 :=
        if e =? AVDT_CAT_RECOV then prs_cfg_recov buf p_end s2
        else if e =? AVDT_CAT_PROTECT then prs_cfg_protect buf p_end elem_len s2
        else if e =? AVDT_CAT_HDRCMP then prs_cfg_hdrcmp buf p_end s2
        else if e =? AVDT_CAT_CODEC then prs_cfg_codec buf p_end elem_len s2
        else if e =? AVDT_CAT_DELAY_RPT then s2
        else mkPrs (cfg s2) (p s2 + elem_len) e (err s2) (protect_offset s2)
      in (s3, false).

(** [while ((p < p_end) && (err == 0)) { ... }], at most [fuel] turns. *)
Fixpoint prs_cfg_loop (fuel : nat) (buf : list Z) (p_end sig : Z)
  (s : prs_state) : outcome prs_state :=
  if (p s <? p_end) && (err s =? 0) then
    match fuel with
    | O => Out_of_fuel
    | S k =>
        let '(s', brk) := prs_cfg_body buf p_end sig s in
        if brk then Done s' else prs_cfg_loop k buf p_end sig s'
    end
  else Done s.

(** What the function hands back: the configuration written through
    [p_cfg], the byte written through [p_elem] (if any) and the error
    code. *)
Record prs_cfg_result := mkPrsRes {
  res_cfg : option AvdtpSepConfig;
  res_elem : option Z;
  res_err : Z
}.

(** The state at the first test of the loop condition. *)
Definition prs_cfg_init (c : AvdtpSepConfig) : prs_state :=
  mkPrs (mkCfg 0 0 0 (recov_type c) (recov_mrws c) (recov_mnmp c)
           (hdrcmp_mask c) (codec_info c) (protect_info c))
    0 0 0 0.

Definition prs_cfg_finish (o : outcome prs_state) : outcome prs_cfg_result :=
  match o with
  | Done s => Done (mkPrsRes (Some (cfg s)) (Some (elem s)) (err s))
  | Undefined => Undefined
  | Out_of_fuel => Out_of_fuel
  end.

(** [static uint8_t avdt_msg_prs_cfg(AvdtpSepConfig* p_cfg, uint8_t* p,
    uint16_t len, uint8_t* p_elem, uint8_t sig_id)].  Every turn that does
    not leave the loop moves [p] by two bytes or more, so [len] turns are
    enough. *)
Definition avdt_msg_prs_cfg (p_cfg : option AvdtpSepConfig) (buf : list Z)
  (len sig : Z) : outcome prs_cfg_result :=
  match p_cfg with
  | None => Done (mkPrsRes None None AVDT_ERR_BAD_STATE)
  | Some c =>
      prs_cfg_finish
        (prs_cfg_loop (Z.to_nat len) buf len sig (prs_cfg_init c))
  end.

(** *** avdt_msg_prs_discover_rsp *)

(** [(seid < AVDT_SEID_MIN) || (seid > AVDT_SEID_MAX)]. *)
Definition bad_seid (s : Z) : bool :=
  (s <? AVDT_SEID_MIN) || (s >? AVDT_SEID_MAX).

(** The entry the [i]-th turn of the loop parses. *)
Definition disc_entry (buf : list Z) (i : nat) : tAVDT_SEP_INFO :=
  prs_disc (u8 (rd buf (2 * Z.of_nat i))) (u8 (rd buf (2 * Z.of_nat i + 1))).

(** [for (i = ...; i < num_seps; i++) { ... }] with [todo] turns left. *)
Fixpoint prs_discover_loop (todo : nat) (i : nat) (buf : list Z)
  (info : list tAVDT_SEP_INFO) : list tAVDT_SEP_INFO * Z :=
  match todo with
  | O => (info, 0)
  | S k =>
      let info' := <[i := disc_entry buf i]> info in
      if bad_seid (sep_seid (disc_entry buf i)) then (info', AVDT_ERR_SEID)
      else prs_discover_loop k (S i) buf info'
  end.

(** [static uint8_t avdt_msg_prs_discover_rsp(tAVDT_MSG* p_msg, uint8_t* p,
    uint16_t len)]. *)
Definition avdt_msg_prs_discover_rsp (d : tAVDT_DISCOVER) (buf : list Z)
  (len : Z) : tAVDT_DISCOVER * Z :=
  let n := if num_seps d >? len / 2 then u8 (len / 2) else num_seps d in
  let '(info, e) := prs_discover_loop (Z.to_nat n) 0 buf (p_sep_info d) in
  (mkDISCOVER info n, e).

(** *** The other parsing functions

    Each takes the message structure, the bytes at [p] and [len], and gives
    back the structure as the function leaves it and the error code. *)

Definition obind {A B} (o : outcome A) (k : A -> outcome B) : outcome B :=
  match o with
  | Done a => k a
  | Undefined => Undefined
  | Out_of_fuel => Out_of_fuel
  end.

Definition set_err_code (v : Z) (h : tAVDT_EVT_HDR) : tAVDT_EVT_HDR :=
  mkEvtHdr (sig_id h) (hdr_label_f h) v (err_param h) (ccb_idx h) (seid h).

Definition set_err_param (v : Z) (h : tAVDT_EVT_HDR) : tAVDT_EVT_HDR :=
  mkEvtHdr (sig_id h) (hdr_label_f h) (err_code h) v (ccb_idx h) (seid h).

Definition set_seid (v : Z) (h : tAVDT_EVT_HDR) : tAVDT_EVT_HDR :=
  mkEvtHdr (sig_id h) (hdr_label_f h) (err_code h) (err_param h) (ccb_idx h) v.

Definition set_sig_id (v : Z) (h : tAVDT_EVT_HDR) : tAVDT_EVT_HDR :=
  mkEvtHdr v (hdr_label_f h) (err_code h) (err_param h) (ccb_idx h) (seid h).

Definition upd_hdr (f : tAVDT_EVT_HDR -> tAVDT_EVT_HDR) (m : tAVDT_MSG)
  : tAVDT_MSG := mkMsg (f (hdr m)) (body m).

Definition set_body (b : msg_body) (m : tAVDT_MSG) : tAVDT_MSG :=
  mkMsg (hdr m) b.

(** [p_msg->config_cmd.p_cfg], [p_msg->svccap.p_cfg]: NULL unless the
    caller stored a pointer. *)
Definition body_p_cfg (m : tAVDT_MSG) : option AvdtpSepConfig :=
  match body m with Body_cfg _ c => c | _ => None end.

Definition body_int_seid (m : tAVDT_MSG) : Z :=
  match body m with Body_cfg i _ => i | _ => 0 end.

Definition body_discover (m : tAVDT_MSG) : tAVDT_DISCOVER :=
  match body m with Body_discover d => d | _ => mkDISCOVER [] 0 end.

Definition is_null {A} (o : option A) : bool :=
  match o with None => true | Some _ => false end.

(** The writes of [avdt_msg_prs_cfg] through [p_cfg] and
    [&p_msg->hdr.err_param]. *)
Definition store_cfg_result (r : prs_cfg_result) (m : tAVDT_MSG)
  : tAVDT_MSG :=
  let m1 := match res_elem r with
            | Some e => upd_hdr (set_err_param e) m
            | None => m
            end in
  match res_cfg r with
  | Some c => set_body (Body_cfg (body_int_seid m) (Some c)) m1
  | None => m1
  end.

Definition avdt_msg_prs_none (m : tAVDT_MSG) (buf : list Z) (len : Z)
  : outcome (tAVDT_MSG * Z) := Done (m, 0).

Definition avdt_msg_prs_single (m : tAVDT_MSG) (buf : list Z) (len : Z)
  : outcome (tAVDT_MSG * Z) :=
  if negb (len =? AVDT_LEN_SINGLE) then Done (m, AVDT_ERR_LENGTH)
  else
    let sd := prs_seid (u8 (rd buf 0)) in
    Done (upd_hdr (set_seid sd) m,
          if is_null (avdt_scb_by_hdl sd) then AVDT_ERR_SEID else 0).

Definition avdt_msg_prs_setconfig_cmd (m : tAVDT_MSG) (buf : list Z)
  (len : Z) : outcome (tAVDT_MSG * Z) :=
  let m0 := upd_hdr (set_err_param 0) m in
  let '(m2, e2, pos) :=
    if len <? AVDT_LEN_SETCONFIG_MIN then (m0, AVDT_ERR_LENGTH, 0)
    else
      let sd := prs_seid (u8 (rd buf 0)) in
      let e1 := if is_null (avdt_scb_by_hdl sd) then AVDT_ERR_SEID else 0 in
      let isd := prs_seid (u8 (rd buf 1)) in
      let m1 := set_body (Body_cfg isd (body_p_cfg m0))
                  (upd_hdr (set_seid sd) m0) in
      (m1, if bad_seid isd then AVDT_ERR_SEID else e1, 2) in
  if e2 =? 0 then
    obind (avdt_msg_prs_cfg (body_p_cfg m2) (drop (Z.to_nat pos) buf)
             (u16 (len - 2)) AVDT_SIG_SETCONFIG)
      (fun r =>
         let m3 := store_cfg_result r m2 in
         if res_err r =? 0 then
           match body_p_cfg m3 with
           | Some c =>
               if negb (Z.land (psc_mask c) (Z.lnot AVDT_PSC) =? 0)
                  || (num_codec c =? 0)
               then Done (m3, AVDT_ERR_INVALID_CAP)
               else Done (m3, 0)
           | None => Undefined
           end
         else Done (m3, res_err r))
  else Done (m2, e2).

Definition avdt_msg_prs_reconfig_cmd (m : tAVDT_MSG) (buf : list Z)
  (len : Z) : outcome (tAVDT_MSG * Z) :=
  let m0 := upd_hdr (set_err_param 0) m in
  if len <? AVDT_LEN_RECONFIG_MIN then Done (m0, AVDT_ERR_LENGTH)
  else
    let sd := prs_seid (u8 (rd buf 0)) in
    let m1 := upd_hdr (set_seid sd) m0 in
    if is_null (avdt_scb_by_hdl sd) then Done (m1, AVDT_ERR_SEID)
    else
      obind (avdt_msg_prs_cfg (body_p_cfg m1) (drop 1 buf) (u16 (len - 1))
               AVDT_SIG_RECONFIG)
        (fun r =>
           let m3 := store_cfg_result r m1 in
           if res_err r =? 0 then
             match body_p_cfg m3 with
             | Some c =>
                 if negb (psc_mask c =? 0)
                    || ((num_codec c =? 0) && (num_protect c =? 0))
                 then Done (m3, AVDT_ERR_INVALID_CAP)
                 else Done (m3, 0)
             | None => Undefined
             end
           else Done (m3, res_err r)).

(** The loop of [avdt_msg_prs_multi]: the list filled so far, the counter
    and the error. *)
Fixpoint prs_multi_loop (todo : nat) (i : nat) (buf : list Z) (l : list Z)
  : list Z * nat * option Z :=
  match todo with
  | O => (l, i, None)
  | S k =>
      let sd := prs_seid (u8 (rd buf (Z.of_nat i))) in
      let l' := l ++ [sd] in
      if is_null (avdt_scb_by_hdl sd) then (l', i, Some sd)
      else prs_multi_loop k (S i) buf l'
  end.

Definition avdt_msg_prs_multi (m : tAVDT_MSG) (buf : list Z) (len : Z)
  : outcome (tAVDT_MSG * Z) :=
  let m0 := upd_hdr (set_err_param 0) m in
  if (len <? AVDT_LEN_MULTI_MIN) || (len >? AVDT_NUM_SEPS)
  then Done (m0, AVDT_ERR_LENGTH)
  else
    let '(l, i, bad) := prs_multi_loop (Z.to_nat len) 0 buf [] in
    let m1 := set_body (Body_multi l (u8 (Z.of_nat i))) m0 in
    match bad with
    | Some sd => Done (upd_hdr (set_err_param sd) m1, AVDT_ERR_SEID)
    | None => Done (m1, 0)
    end.

Definition avdt_msg_prs_security_cmd (m : tAVDT_MSG) (buf : list Z)
  (len : Z) : outcome (tAVDT_MSG * Z) :=
  if len <? AVDT_LEN_SECURITY_MIN then Done (m, AVDT_ERR_LENGTH)
  else
    let sd := prs_seid (u8 (rd buf 0)) in
    let m1 := upd_hdr (set_seid sd) m in
    if is_null (avdt_scb_by_hdl sd) then Done (m1, AVDT_ERR_SEID)
    else Done (set_body (Body_security (drop 1 buf) (u16 (len - 1))) m1, 0).

Definition avdt_msg_prs_discover_rsp_msg (m : tAVDT_MSG) (buf : list Z)
  (len : Z) : outcome (tAVDT_MSG * Z) :=
  let '(d, e) := avdt_msg_prs_discover_rsp (body_discover m) buf len in
  Done (set_body (Body_discover d) m, e).

(** [#define AVDT_MSG_PSC_MASK]. *)
Definition AVDT_MSG_PSC_MASK : Z :=
  Z.lor (Z.lor (Z.lor (Z.lor (Z.lor AVDT_PSC_TRANS AVDT_PSC_REPORT)
                         AVDT_PSC_DELAY_RPT) AVDT_PSC_RECOV)
           AVDT_PSC_HDRCMP) AVDT_PSC_MUX.

(** [avdt_msg_prs_svccap] and [avdt_msg_prs_all_svccap], which differ in
    the signal passed down and the mask applied afterwards. *)
Definition prs_svccap_with (sig mask : Z) (m : tAVDT_MSG) (buf : list Z)
  (len : Z) : outcome (tAVDT_MSG * Z) :=
  obind (avdt_msg_prs_cfg (body_p_cfg m) buf len sig)
    (fun r =>
       let m1 := store_cfg_result r m in
       let m2 := match body_p_cfg m1 with
                 | Some c =>
                     set_body
                       (Body_cfg (body_int_seid m1)
                          (Some (set_psc_mask (Z.land (psc_mask c) mask) c)))
                       m1
                 | None => m1
                 end in
       Done (m2, res_err r)).

Definition avdt_msg_prs_svccap := prs_svccap_with AVDT_SIG_GETCAP AVDT_LEG_PSC.

Definition avdt_msg_prs_all_svccap :=
  prs_svccap_with AVDT_SIG_GET_ALLCAP AVDT_MSG_PSC_MASK.

Definition avdt_msg_prs_security_rsp (m : tAVDT_MSG) (buf : list Z)
  (len : Z) : outcome (tAVDT_MSG * Z) :=
  Done (set_body (Body_security buf len) m, 0).

Definition avdt_msg_prs_delay_rpt (m : tAVDT_MSG) (buf : list Z) (len : Z)
  : outcome (tAVDT_MSG * Z) :=
  if negb (len =? AVDT_LEN_DELAY_RPT) then Done (m, AVDT_ERR_LENGTH)
  else
    let sd := prs_seid (u8 (rd buf 0)) in
    let m1 := upd_hdr (set_seid sd) m in
    if is_null (avdt_scb_by_hdl sd) then Done (m1, AVDT_ERR_SEID)
    else
      Done (set_body
              (Body_delay (u8 (rd buf 1) * 256 + u8 (rd buf 2))) m1, 0).

(** [avdt_msg_prs_rej(p_msg, p, len, sig)]. *)
Definition avdt_msg_prs_rej (m : tAVDT_MSG) (buf : list Z) (len sig : Z)
  : outcome (tAVDT_MSG * Z) :=
  let '(m1, pos, len1) :=
    if len >? 0 then
      if (sig =? AVDT_SIG_SETCONFIG) || (sig =? AVDT_SIG_RECONFIG)
      then (upd_hdr (set_err_param (u8 (rd buf 0))) m, 1, u16 (len - 1))
      else if (sig =? AVDT_SIG_START) || (sig =? AVDT_SIG_SUSPEND)
      then (upd_hdr (set_err_param (prs_seid (u8 (rd buf 0)))) m, 1,
            u16 (len - 1))
      else (m, 0, len)
    else (m, 0, len) in
  if len1 <? 1 then Done (m1, AVDT_ERR_LENGTH)
  else Done (upd_hdr (set_err_code (u8 (rd buf pos))) m1, 0).

Definition prs_fn := tAVDT_MSG -> list Z -> Z -> outcome (tAVDT_MSG * Z).

(** [const tAVDT_MSG_PRS avdt_msg_prs_cmd[]]. *)
Definition avdt_msg_prs_cmd : list prs_fn :=
  [avdt_msg_prs_none; avdt_msg_prs_single; avdt_msg_prs_setconfig_cmd;
   avdt_msg_prs_single; avdt_msg_prs_reconfig_cmd; avdt_msg_prs_single;
   avdt_msg_prs_multi; avdt_msg_prs_single; avdt_msg_prs_multi;
   avdt_msg_prs_single; avdt_msg_prs_security_cmd; avdt_msg_prs_single;
   avdt_msg_prs_delay_rpt].

(** [const tAVDT_MSG_PRS avdt_msg_prs_rsp[]]. *)
Definition avdt_msg_prs_rsp : list prs_fn :=
  [avdt_msg_prs_discover_rsp_msg; avdt_msg_prs_svccap; avdt_msg_prs_none;
   avdt_msg_prs_all_svccap; avdt_msg_prs_none; avdt_msg_prs_none;
   avdt_msg_prs_none; avdt_msg_prs_none; avdt_msg_prs_none;
   avdt_msg_prs_none; avdt_msg_prs_security_rsp; avdt_msg_prs_all_svccap;
   avdt_msg_prs_none].

(** [( *tbl[sig - 1])(&msg, p, len)]; a call outside the table is
    undefined. *)
Definition call_prs (tbl : list prs_fn) (sig : Z) : prs_fn :=
  fun m buf len =>
    if sig <? 1 then Undefined
    else match tbl !! Z.to_nat (sig - 1) with
         | Some f => f m buf len
         | None => Undefined
         end.

End Codec.

Section Engine.
Context `{E : Env}.

(** *** avdt_msg_send *)

(** [osi_malloc(size)]: a buffer whose content is not yet written. *)
Definition osi_malloc (size : Z) : BT_HDR :=
  mkBT_HDR 0 0 0 0 (repeat 0 (Z.to_nat (size - sizeof_BT_HDR))).

(** The fragment buffer of the START and CONT cases: a new buffer holding
    the next [peer_mtu - hdr_len] bytes of the current message. *)
Definition new_fragment (m : BT_HDR) (peer_mtu hdr_len : Z) : BT_HDR :=
  let b := osi_malloc AVDT_CMD_BUF_SIZE in
  let off := u16 (L2CAP_MIN_OFFSET + hdr_len) in
  let n := u16 (peer_mtu - hdr_len) in
  mkBT_HDR (event b) n off (layer_specific b)
    (memcpy (data b) off (data m) (offset m) n).

(** The timers started once a command has been sent completely. *)
Definition start_cmd_timer (msg sig : Z) : list effect :=
  if msg =? AVDT_MSG_TYPE_CMD then
    if (sig =? AVDT_SIG_DISCOVER) || (sig =? AVDT_SIG_GETCAP)
       || (sig =? AVDT_SIG_SECURITY) || (ret_tout =? 0)
    then [Call_alarm_cancel idle_ccb_timer; Call_alarm_cancel ret_ccb_timer;
          Call_alarm_set_on_mloop rsp_ccb_timer (sig_tout * 1000)]
    else if negb (sig =? AVDT_SIG_DELAY_RPT)
    then [Call_alarm_cancel idle_ccb_timer; Call_alarm_cancel rsp_ccb_timer;
          Call_alarm_set_on_mloop ret_ccb_timer (ret_tout * 1000)]
    else []
  else [].

(** The header written in front of the payload of [p_buf]. *)
Definition build_header (p_buf : BT_HDR) (hdr_len label pkt_type msg nosp
  sig : Z) : BT_HDR :=
  let b := set_offset (u16 (offset p_buf - hdr_len))
             (set_len (u16 (len p_buf + hdr_len)) p_buf) in
  let p0 := offset b in
  let d1 := wr (data b) p0 (bld_hdr label pkt_type msg) in
  let '(d2, p1) :=
    if pkt_type =? AVDT_PKT_TYPE_START then (wr d1 (p0 + 1) nosp, p0 + 2)
    else (d1, p0 + 1) in
  let d3 :=
    if (pkt_type =? AVDT_PKT_TYPE_START) || (pkt_type =? AVDT_PKT_TYPE_SINGLE)
    then wr d2 p1 sig else d2 in
  set_data d3 b.

(** The locals of [avdt_msg_send] that live across turns of its loop. *)
Record send_state := mkSend {
  s_ccb : AvdtpCcb;
  curr_msg_len : Z;
  nosp : Z;
  s_eff : list effect
}.

(** The number of signal packets stored in a START header:
    [(len + AVDT_LEN_TYPE_START - peer_mtu) / (peer_mtu - 1) + 2] in [int]
    arithmetic, stored in a [uint8_t]. *)
Definition start_nosp (len peer_mtu : Z) : Z :=
  u8 (Z.quot (len + AVDT_LEN_TYPE_START - peer_mtu) (peer_mtu - 1) + 2).

(** One turn of the loop of [avdt_msg_send] on the current message [m].
    In the SINGLE and END cases [p_buf] is the current message itself, in
    the START and CONT cases a new buffer. *)
Definition send_body (peer_mtu : Z) (m : BT_HDR) (s : send_state)
  : outcome send_state :=
  let unfragmented := offset m =? AVDT_MSG_OFFSET in
  let fits_single := len m <=? peer_mtu - AVDT_LEN_TYPE_SINGLE in
  (* pkt_type, hdr_len, nosp, p_buf, p_buf is p_curr_msg *)
  let choice :=
    if unfragmented && fits_single then
      Done (AVDT_PKT_TYPE_SINGLE, AVDT_LEN_TYPE_SINGLE, nosp s, m, true)
    else if unfragmented && (len m >? peer_mtu - AVDT_LEN_TYPE_SINGLE) then
      if peer_mtu - 1 =? 0 then Undefined
      else Done (AVDT_PKT_TYPE_START, AVDT_LEN_TYPE_START,
                 start_nosp (len m) peer_mtu,
                 new_fragment m peer_mtu AVDT_LEN_TYPE_START, false)
    else if (offset m >? AVDT_MSG_OFFSET)
            && (len m >? peer_mtu - AVDT_LEN_TYPE_CONT) then
      Done (AVDT_PKT_TYPE_CONT, AVDT_LEN_TYPE_CONT, nosp s,
            new_fragment m peer_mtu AVDT_LEN_TYPE_CONT, false)
    else Done (AVDT_PKT_TYPE_END, AVDT_LEN_TYPE_END, nosp s, m, true) in
  match choice with
  | Done (pkt_type, hdr_len, nosp', p_buf, aliased) =>
      let label := AVDT_LAYERSPEC_LABEL (layer_specific m) in
      let msg := AVDT_LAYERSPEC_MSG (layer_specific m) in
      let sig := u8 (event m) in
      let rest := u16 (curr_msg_len s - len p_buf) in
      (* p_curr_msg->len -= p_buf->len; p_curr_msg->offset += p_buf->len:
         when [p_buf] is the current message the second statement reads
         the length the first one stored *)
      let m1 := set_len (u16 (len m - len p_buf)) m in
      let m' :=
        set_offset (u16 (offset m1 + len (if aliased then m1 else p_buf)))
          m1 in
      let curr := if rest =? 0 then None else Some m' in
      let timers := if rest =? 0 then start_cmd_timer msg sig else [] in
      let p_buf1 :=
        if aliased then (if rest =? 0 then p_buf else m') else p_buf in
      let sent := build_header p_buf1 hdr_len label pkt_type msg nosp' sig in
      (* a current message that is [p_buf] carries the header too *)
      let curr' :=
        match curr with
        | Some _ => if aliased then Some sent else curr
        | None => None
        end in
      let ccb1 := set_p_curr_msg curr' (s_ccb s) in
      let ccb2 := set_cong (cong_after_write ccb1 sent) ccb1 in
      Done (mkSend ccb2 rest nosp'
              (s_eff s ++ timers ++ [Call_avdt_ad_write_req sent]))
  | Undefined => Undefined
  | Out_of_fuel => Out_of_fuel
  end.

(** [while ((!p_ccb->cong) && (p_ccb->p_curr_msg != NULL)) { ... }]. *)
Fixpoint send_loop (fuel : nat) (peer_mtu : Z) (s : send_state)
  : outcome send_state :=
  if cong (s_ccb s) then Done s
  else
    match p_curr_msg (s_ccb s) with
    | None => Done s
    | Some m =>
        match fuel with
        | O => Out_of_fuel
        | S k =>
            match send_body peer_mtu m s with
            | Done s' => send_loop k peer_mtu s'
            | Undefined => Undefined
            | Out_of_fuel => Out_of_fuel
            end
        end
    end.

(** [bool avdt_msg_send(AvdtpCcb* p_ccb, BT_HDR* p_msg)], its loop run for
    at most [fuel] turns: the CCB it leaves, the calls it makes and the
    congestion flag it returns. *)
Definition avdt_msg_send (fuel : nat) (ccb : AvdtpCcb) (p_msg : option BT_HDR)
  : outcome (AvdtpCcb * list effect * bool) :=
  let peer_mtu := sig_peer_mtu ccb in
  let ccb1 := match p_msg with
              | Some _ => set_p_curr_msg p_msg ccb
              | None => ccb
              end in
  match p_curr_msg ccb1 with
  | None => Undefined
  | Some m =>
      match send_loop fuel peer_mtu (mkSend ccb1 (len m) 0 []) with
      | Done s => Done (s_ccb s, s_eff s, cong (s_ccb s))
      | Undefined => Undefined
      | Out_of_fuel => Out_of_fuel
      end
  end.

(** *** avdt_msg_asmbl *)

(** The packet type in the first byte of a received fragment. *)
Definition pkt_type_of (b : BT_HDR) : Z :=
  hdr_pkt_type (u8 (rd (data b) (offset b))).

(** The START case once the old reassembly buffer is gone. *)
Definition asmbl_start (ccb : AvdtpCcb) (p_buf : BT_HDR)
  : AvdtpCcb * option BT_HDR * list effect :=
  if sizeof_BT_HDR + offset p_buf + len p_buf >? BT_DEFAULT_BUFFER_SIZE
  then (ccb, None, [Call_osi_free p_buf])
  else
    let fresh := osi_malloc BT_DEFAULT_BUFFER_SIZE in
    (* memcpy(p_rx_msg, p_buf, sizeof(BT_HDR) + offset + len) *)
    let rx0 := mkBT_HDR (event p_buf) (len p_buf) (offset p_buf)
                 (layer_specific p_buf)
                 (memcpy (data fresh) 0 (data p_buf) 0
                    (offset p_buf + len p_buf)) in
    (* copy first header byte over nosp *)
    let d := wr (data rx0) (offset rx0 + 1) (rd (data rx0) (offset rx0)) in
    let rx := mkBT_HDR (event rx0) (u16 (len rx0 - 1))
                (u16 (offset rx0 + len rx0)) (layer_specific rx0) d in
    (set_p_rx_msg (Some rx) ccb, None, [Call_osi_free p_buf]).

(** The CONT and END cases with a reassembly in progress. *)
Definition asmbl_append (ccb : AvdtpCcb) (rx p_buf : BT_HDR) (pkt_type : Z)
  : AvdtpCcb * option BT_HDR * list effect :=
  let buf_len := BT_DEFAULT_BUFFER_SIZE - sizeof_BT_HDR in
  let b := set_len (u16 (len p_buf - AVDT_LEN_TYPE_CONT))
             (set_offset (u16 (offset p_buf + AVDT_LEN_TYPE_CONT)) p_buf) in
  if offset rx + len b >? buf_len
  then (set_p_rx_msg None ccb, None, [Call_osi_free rx; Call_osi_free b])
  else
    let d := memcpy (data rx) (offset rx) (data b) (offset b) (len b) in
    if pkt_type =? AVDT_PKT_TYPE_END then
      let ret := mkBT_HDR (event rx) (u16 (len rx + len b))
                   (u16 (offset rx - len rx)) (layer_specific rx) d in
      (set_p_rx_msg None ccb, Some ret, [Call_osi_free b])
    else
      let rx' := mkBT_HDR (event rx) (u16 (len rx + len b))
                   (u16 (offset rx + len b)) (layer_specific rx) d in
      (set_p_rx_msg (Some rx') ccb, None, [Call_osi_free b]).

(** [osi_free_and_reset((void** )&p_ccb->p_rx_msg)]. *)
Definition free_rx (ccb : AvdtpCcb) : AvdtpCcb * list effect :=
  match p_rx_msg ccb with
  | Some rx => (set_p_rx_msg None ccb, [Call_osi_free rx])
  | None => (ccb, [])
  end.

(** [BT_HDR* avdt_msg_asmbl(AvdtpCcb* p_ccb, BT_HDR* p_buf)]. *)
Definition avdt_msg_asmbl (ccb : AvdtpCcb) (p_buf : BT_HDR)
  : AvdtpCcb * option BT_HDR * list effect :=
  if len p_buf <? 1 then (ccb, None, [Call_osi_free p_buf])
  else
    let pkt_type := pkt_type_of p_buf in
    if len p_buf <? rd avdt_msg_pkt_type_len pkt_type
    then (ccb, None, [Call_osi_free p_buf])
    else if pkt_type =? AVDT_PKT_TYPE_SINGLE then
      let '(ccb1, e1) := free_rx ccb in
      (ccb1, Some p_buf, e1)
    else if pkt_type =? AVDT_PKT_TYPE_START then
      let '(ccb1, e1) := free_rx ccb in
      let '(ccb2, ret, e2) := asmbl_start ccb1 p_buf in
      (ccb2, ret, e1 ++ e2)
    else
      match p_rx_msg ccb with
      | None => (ccb, None, [Call_osi_free p_buf])
      | Some rx => asmbl_append ccb rx p_buf pkt_type
      end.

(** *** avdt_msg_send_grej, avdt_msg_send_rej *)

(** [fixed_queue_enqueue(p_ccb->rsp_q, p_buf); avdt_ccb_event(p_ccb,
    AVDT_CCB_SENDMSG_EVT, NULL)]. *)
Definition queue_rsp (ccb : AvdtpCcb) (p_buf : BT_HDR)
  : AvdtpCcb * list effect :=
  (set_rsp_q (rsp_q ccb ++ [p_buf]) ccb,
   [Call_avdt_ccb_event AVDT_CCB_SENDMSG_EVT None]).

(** [void avdt_msg_send_grej(AvdtpCcb* p_ccb, uint8_t sig_id,
    tAVDT_MSG* p_params)]: an empty body, stamped general-reject. *)
Definition avdt_msg_send_grej (ccb : AvdtpCcb) (sig : Z) (m : tAVDT_MSG)
  : AvdtpCcb * list effect :=
  let b := osi_malloc AVDT_CMD_BUF_SIZE in
  queue_rsp ccb
    (mkBT_HDR sig 0 AVDT_MSG_OFFSET
       (AVDT_BLD_LAYERSPEC AVDT_MSG_TYPE_GRJ (hdr_label_f (hdr m)))
       (data b)).

(** [void avdt_msg_send_rej(AvdtpCcb* p_ccb, uint8_t sig_id,
    tAVDT_MSG* p_params)]. *)
Definition avdt_msg_send_rej (ccb : AvdtpCcb) (sig : Z) (m : tAVDT_MSG)
  : AvdtpCcb * list effect :=
  let b := osi_malloc AVDT_CMD_BUF_SIZE in
  let p0 := AVDT_MSG_OFFSET in
  let '(d, n) :=
    if negb (sig =? AVDT_SIG_NONE) then
      let '(d1, p1) :=
        if (sig =? AVDT_SIG_SETCONFIG) || (sig =? AVDT_SIG_RECONFIG)
        then (wr (data b) p0 (err_param (hdr m)), p0 + 1)
        else if (sig =? AVDT_SIG_START) || (sig =? AVDT_SIG_SUSPEND)
        then (wr (data b) p0 (Z.shiftl (err_param (hdr m)) 2), p0 + 1)
        else (data b, p0) in
      (wr d1 p1 (err_code (hdr m)), p1 + 1 - p0)
    else (data b, 0) in
  queue_rsp ccb
    (mkBT_HDR sig (u16 n) AVDT_MSG_OFFSET
       (AVDT_BLD_LAYERSPEC AVDT_MSG_TYPE_REJ (hdr_label_f (hdr m))) d).

(** *** avdt_msg_ind *)

(** The locals of [avdt_msg_ind] after the header has been looked at. *)
Record ind_state := mkInd {
  i_ccb : AvdtpCcb;
  i_msg : tAVDT_MSG;
  ok : bool;
  gen_rej : bool;
  i_sig : Z;
  i_evt : msg_evt;
  (** bytes consumed from [p_buf->offset] *)
  i_pos : Z;
  i_eff : list effect
}.

Definition is_rsp_or_rej (msg_type : Z) : bool :=
  (msg_type =? AVDT_MSG_TYPE_RSP) || (msg_type =? AVDT_MSG_TYPE_REJ).

(** [p_ccb->p_curr_cmd == nullptr || p_ccb->p_curr_cmd->event != sig]. *)
Definition no_cmd_for (ccb : AvdtpCcb) (sig : Z) : bool :=
  match p_curr_cmd ccb with
  | None => true
  | Some c => negb (event c =? sig)
  end.

(** "verify msg type", "check for general reject", "get and verify
    signal": the first [if]/[else if]/[else] of [avdt_msg_ind]. *)
Definition ind_verify (ccb : AvdtpCcb) (p_buf : BT_HDR) (msg0 : tAVDT_MSG)
  (msg_type : Z) : ind_state :=
  if msg_type =? AVDT_MSG_TYPE_GRJ
  then mkInd ccb msg0 false false 0 Evt_none 1 []
  else if (msg_type =? AVDT_MSG_TYPE_REJ) && (len p_buf =? AVDT_LEN_GEN_REJ)
  then
    match p_curr_cmd ccb with
    | Some c =>
        let sig := u8 (event c) in
        let m := upd_hdr (set_err_param 0)
                   (upd_hdr (set_err_code AVDT_ERR_NSC)
                      (upd_hdr (set_sig_id sig) msg0)) in
        mkInd ccb m true true sig (evt_of avdt_msg_rej_2_evt sig) 1 []
    | None => mkInd ccb msg0 true true 0 Evt_none 1 []
    end
  else
    let sig := prs_sig (u8 (rd (data p_buf) (offset p_buf + 1))) in
    let m := upd_hdr (set_sig_id sig) msg0 in
    let bad := (sig =? 0) || (sig >? AVDT_SIG_MAX) in
    let '(ccb1, e1) :=
      if bad && (msg_type =? AVDT_MSG_TYPE_CMD)
      then avdt_msg_send_grej ccb sig m else (ccb, []) in
    let mismatch := is_rsp_or_rej msg_type && no_cmd_for ccb1 sig in
    mkInd ccb1 m (negb bad && negb mismatch) false sig Evt_none 2 e1.

(** "set up to parse message": the pointer stored in the union before the
    parsing function runs. *)
Definition ind_setup (ccb : AvdtpCcb) (msg_type sig : Z) (m : tAVDT_MSG)
  : tAVDT_MSG :=
  let zero_cfg := mkCfg 0 0 0 0 0 0 0 (repeat 0 (Z.to_nat AVDT_CODEC_SIZE))
                    (repeat 0 (Z.to_nat AVDT_PROTECT_SIZE)) in
  if (msg_type =? AVDT_MSG_TYPE_RSP) && (sig =? AVDT_SIG_DISCOVER)
  then set_body (Body_discover (mkDISCOVER (proc_sep_info ccb)
                                  (u8 (proc_param ccb)))) m
  else if (msg_type =? AVDT_MSG_TYPE_RSP)
          && ((sig =? AVDT_SIG_GETCAP) || (sig =? AVDT_SIG_GET_ALLCAP))
  then set_body (Body_cfg 0 (proc_cfg ccb)) m
  else if (msg_type =? AVDT_MSG_TYPE_RSP) && (sig =? AVDT_SIG_GETCONFIG)
  then set_body (Body_cfg 0 (Some zero_cfg)) m
  else if (msg_type =? AVDT_MSG_TYPE_CMD) && (sig =? AVDT_SIG_SETCONFIG)
  then set_body (Body_cfg 0 (Some zero_cfg)) m
  else if (msg_type =? AVDT_MSG_TYPE_CMD) && (sig =? AVDT_SIG_RECONFIG)
  then set_body (Body_cfg 0 (Some zero_cfg)) m
  else m.

(** What the parsing function wrote through the pointers taken from
    [p_ccb->p_proc_data]. *)
Definition store_proc (ccb : AvdtpCcb) (msg_type sig : Z) (m : tAVDT_MSG)
  : AvdtpCcb :=
  if (msg_type =? AVDT_MSG_TYPE_RSP) && (sig =? AVDT_SIG_DISCOVER)
  then set_proc_sep_info (p_sep_info (body_discover m)) ccb
  else if (msg_type =? AVDT_MSG_TYPE_RSP)
          && ((sig =? AVDT_SIG_GETCAP) || (sig =? AVDT_SIG_GET_ALLCAP))
  then set_proc_cfg (body_p_cfg m) ccb
  else ccb.

(** [if (ok && !gen_rej) { ... }]: parse the body, reject a command that
    does not parse. *)
Definition ind_parse (p_buf : BT_HDR) (msg_type : Z) (s : ind_state)
  : outcome ind_state :=
  if ok s && negb (gen_rej s) then
    let n := u16 (len p_buf - AVDT_LEN_TYPE_SINGLE) in
    let buf := drop (Z.to_nat (offset p_buf + i_pos s)) (data p_buf) in
    let m := ind_setup (i_ccb s) msg_type (i_sig s) (i_msg s) in
    let parsed :=
      if msg_type =? AVDT_MSG_TYPE_CMD then
        obind (call_prs avdt_msg_prs_cmd (i_sig s) m buf n)
          (fun r => Done (upd_hdr (set_err_code (snd r)) (fst r), snd r,
                          evt_of avdt_msg_cmd_2_evt (i_sig s)))
      else if msg_type =? AVDT_MSG_TYPE_RSP then
        obind (call_prs avdt_msg_prs_rsp (i_sig s) m buf n)
          (fun r => Done (upd_hdr (set_err_code (snd r)) (fst r), snd r,
                          evt_of avdt_msg_rsp_2_evt (i_sig s)))
      else
        obind (avdt_msg_prs_rej m buf n (i_sig s))
          (fun r => Done (fst r, snd r, evt_of avdt_msg_rej_2_evt (i_sig s)))
    in
    obind parsed (fun r =>
      let '(m', e, evt) := r in
      let ccb0 := store_proc (i_ccb s) msg_type (i_sig s) m' in
      if negb (e =? 0) then
        let '(ccb1, e1) :=
          if (msg_type =? AVDT_MSG_TYPE_CMD)
             && negb (i_sig s =? AVDT_SIG_ABORT)
          then avdt_msg_send_rej ccb0 (i_sig s) m'
          else (ccb0, []) in
        Done (mkInd ccb1 m' false (gen_rej s) (i_sig s) evt (i_pos s)
                (i_eff s ++ e1))
      else
        Done (mkInd ccb0 m' (ok s) (gen_rej s) (i_sig s) evt (i_pos s)
                (i_eff s)))
  else Done s.

(** The response or reject answers the outstanding command: same signal
    and same label. *)
Definition matches_curr_cmd (ccb : AvdtpCcb) (sig label : Z) : bool :=
  match p_curr_cmd ccb with
  | Some c =>
      (event c =? sig) && (AVDT_LAYERSPEC_LABEL (layer_specific c) =? label)
  | None => false
  end.

(** [if (ok) { ... }] twice: stop the timers for a matching response, then
    hand the event to the CCB or the SCB.  The second component is
    [handle_rsp]. *)
Definition ind_dispatch (msg_type label : Z) (s : ind_state)
  : ind_state * bool :=
  let '(s1, handle_rsp) :=
    if ok s && is_rsp_or_rej msg_type then
      if matches_curr_cmd (i_ccb s) (i_sig s) label then
        (mkInd (set_ret_count 0 (i_ccb s)) (i_msg s) true (gen_rej s)
           (i_sig s) (i_evt s) (i_pos s)
           (i_eff s ++ [Call_alarm_cancel idle_ccb_timer;
                        Call_alarm_cancel ret_ccb_timer;
                        Call_alarm_cancel rsp_ccb_timer]), true)
      else
        (mkInd (i_ccb s) (i_msg s) false (gen_rej s) (i_sig s) (i_evt s)
           (i_pos s) (i_eff s), false)
    else (s, false) in
  if ok s1 then
    let e :=
      match i_evt s1 with
      | Evt_ccb ce => [Call_avdt_ccb_event ce (Some (i_msg s1))]
      | Evt_scb se =>
          let scb_hdl :=
            if msg_type =? AVDT_MSG_TYPE_CMD then seid (hdr (i_msg s1))
            else match p_curr_cmd (i_ccb s1) with
                 | Some c => u8 (rd (data c) 0)
                 | None => 0
                 end in
          match avdt_scb_by_hdl scb_hdl with
          | Some scb => [Call_avdt_scb_event scb se (i_msg s1)]
          | None => []
          end
      | Evt_none => []
      end in
    (mkInd (i_ccb s1) (i_msg s1) true (gen_rej s1) (i_sig s1) (i_evt s1)
       (i_pos s1) (i_eff s1 ++ e), handle_rsp)
  else (s1, handle_rsp).

(** [avdt_msg_ind] from the point where [avdt_msg_asmbl] has returned the
    complete message [p_buf]. *)
Definition avdt_msg_ind_pdu (ccb : AvdtpCcb) (p_buf : BT_HDR)
  : outcome (AvdtpCcb * list effect) :=
  let b0 := u8 (rd (data p_buf) (offset p_buf)) in
  let label := hdr_label b0 in
  let msg_type := hdr_msg_type b0 in
  let msg0 := mkMsg (mkEvtHdr 0 label 0 0 (u8 (avdt_ccb_to_idx ccb)) 0)
                Body_none in
  let s0 := ind_verify ccb p_buf msg0 msg_type in
  (* p_buf->len -= AVDT_LEN_TYPE_SINGLE, when the body is parsed *)
  let p_buf' :=
    if ok s0 && negb (gen_rej s0)
    then set_len (u16 (len p_buf - AVDT_LEN_TYPE_SINGLE)) p_buf
    else p_buf in
  obind (ind_parse p_buf msg_type s0) (fun s1 =>
    let '(s2, handle_rsp) := ind_dispatch msg_type label s1 in
    Done (i_ccb s2,
          i_eff s2 ++ [Call_osi_free p_buf']
            ++ (if handle_rsp
                then [Call_avdt_ccb_event AVDT_CCB_RCVRSP_EVT None]
                else []))).

(** [void avdt_msg_ind(AvdtpCcb* p_ccb, BT_HDR* p_buf)]: the CCB it leaves
    and the calls it makes. *)
Definition avdt_msg_ind (ccb : AvdtpCcb) (p_buf0 : BT_HDR)
  : outcome (AvdtpCcb * list effect) :=
  let '(ccb1, ret, e0) := avdt_msg_asmbl ccb p_buf0 in
  match ret with
  | None => Done (ccb1, e0)
  | Some p_buf =>
      obind (avdt_msg_ind_pdu ccb1 p_buf)
        (fun r => Done (fst r, e0 ++ snd r))
  end.

(** *** Feeding a sequence of fragments to one CCB *)

(** [avdt_msg_asmbl] called once per fragment, in order: the CCB at the
    end and what each call returned. *)
Fixpoint asmbl_run (ccb : AvdtpCcb) (frags : list BT_HDR)
  : AvdtpCcb * list (option BT_HDR) :=
  match frags with
  | [] => (ccb, [])
  | b :: rest =>
      let '(ccb1, ret, _) := avdt_msg_asmbl ccb b in
      let '(ccb2, rets) := asmbl_run ccb1 rest in
      (ccb2, ret :: rets)
  end.

(** A fragment too short for its packet type. *)
Definition too_short (b : BT_HDR) : bool :=
  (len b <? 1) || (len b <? rd avdt_msg_pkt_type_len (pkt_type_of b)).

(** A well-formed fragment of the given packet type. *)
Definition is_pkt (t : Z) (b : BT_HDR) : bool :=
  negb (too_short b) && (pkt_type_of b =? t).

(** A START fragment too large for the reassembly buffer. *)
Definition start_overflows (b : BT_HDR) : bool :=
  sizeof_BT_HDR + offset b + len b >? BT_DEFAULT_BUFFER_SIZE.

(** A CONT or END fragment that does not fit behind what [rx] holds. *)
Definition append_overflows (rx b : BT_HDR) : bool :=
  offset rx + u16 (len b - AVDT_LEN_TYPE_CONT)
    >? BT_DEFAULT_BUFFER_SIZE - sizeof_BT_HDR.

End Engine.

(** The number of signal packets as the design document words it:
    [ceil((len + 1) / (peer_mtu - 1)) + 1]. *)
Definition ceil_div (a b : Z) : Z := (a + b - 1) / b.

Definition doc_nosp (len peer_mtu : Z) : Z :=
  ceil_div (len + 1) (peer_mtu - 1) + 1.

(** The header values of the stack, a signalling channel with the given
    peer MTU that never gets congested, and SCBs for the handles 1 to 6. *)
Definition run_env (mtu : Z) : Env := {|
  AVDT_ERR_BAD_STATE := 49;
  AVDT_ERR_PAYLOAD := 24;
  AVDT_ERR_CATEGORY := 23;
  AVDT_ERR_LENGTH := 17;
  AVDT_ERR_RECOV_TYPE := 34;
  AVDT_ERR_RECOV_FMT := 37;
  AVDT_ERR_MEDIA_TRANS := 35;
  AVDT_ERR_CP_FMT := 39;
  AVDT_ERR_ROHC_FMT := 38;
  AVDT_ERR_MUX_FMT := 40;
  AVDT_ERR_SERVICE := 128;
  AVDT_ERR_SEID := 18;
  AVDT_ERR_NSC := 25;
  AVDT_ERR_INVALID_CAP := 26;
  AVDT_LEN_SINGLE := 1;
  AVDT_LEN_SETCONFIG_MIN := 2;
  AVDT_LEN_RECONFIG_MIN := 1;
  AVDT_LEN_MULTI_MIN := 1;
  AVDT_LEN_SECURITY_MIN := 1;
  AVDT_LEN_DELAY_RPT := 3;
  AVDT_NUM_SEPS := 6;
  AVDT_PSC := 366;
  AVDT_LEG_PSC := 110;
  AVDT_PSC_TRANS := 2;
  AVDT_PSC_REPORT := 4;
  AVDT_PSC_DELAY_RPT := 256;
  AVDT_PSC_RECOV := 8;
  AVDT_PSC_HDRCMP := 32;
  AVDT_PSC_MUX := 64;
  AVDT_LEN_CFG_MIN := 2;
  AVDT_LEN_TRANS_MIN := 0;
  AVDT_LEN_REPORT_MIN := 0;
  AVDT_LEN_RECOV_MIN := 3;
  AVDT_LEN_PROTECT_MIN := 2;
  AVDT_LEN_HDRCMP_MIN := 1;
  AVDT_LEN_MUX_MIN := 3;
  AVDT_LEN_CODEC_MIN := 2;
  AVDT_LEN_DELAY_RPT_MIN := 0;
  AVDT_LEN_TRANS_MAX := 0;
  AVDT_LEN_REPORT_MAX := 0;
  AVDT_LEN_RECOV_MAX := 3;
  AVDT_LEN_PROTECT_MAX := 255;
  AVDT_LEN_HDRCMP_MAX := 1;
  AVDT_LEN_MUX_MAX := 7;
  AVDT_LEN_CODEC_MAX := 255;
  AVDT_LEN_DELAY_RPT_MAX := 0;
  AVDT_LEN_GEN_REJ := 2;
  AVDT_RECOV_RFC2733 := 1;
  AVDT_RECOV_MRWS_MIN := 1;
  AVDT_RECOV_MRWS_MAX := 24;
  AVDT_RECOV_MNMP_MIN := 1;
  AVDT_RECOV_MNMP_MAX := 24;
  AVDT_PROTECT_SIZE := 90;
  AVDT_CODEC_SIZE := 20;
  L2CAP_MIN_OFFSET := 13;
  AVDT_MSG_OFFSET := 22;
  AVDT_CMD_BUF_SIZE := 660;
  BT_DEFAULT_BUFFER_SIZE := 4112;
  AVDT_LAYERSPEC_LABEL := fun ls => u8 (Z.land ls 15);
  AVDT_LAYERSPEC_MSG := fun ls => u8 (Z.shiftr (Z.land ls 240) 4);
  AVDT_BLD_LAYERSPEC := fun msg label => Z.lor (Z.shiftl (u8 msg) 4) label;
  ret_tout := 4;
  sig_tout := 4;
  sig_peer_mtu := fun _ => mtu;
  cong_after_write := fun _ _ => false;
  avdt_ccb_to_idx := fun _ => 0;
  avdt_scb_by_hdl := fun h =>
    if (1 <=? h) && (h <=? 6) then Some (Z.to_nat (h - 1)) else None
|}.

(** A CCB with nothing in flight. *)
Definition ccb_idle : AvdtpCcb :=
  mkCcb false None None None [] 0 [] None 0.

(** *** Vocabulary of the properties *)

(** The first of the [todo] entries from entry [i] on whose SEID is outside
    1..62. *)
Fixpoint first_bad (buf : list Z) (todo i : nat) : option nat :=
  match todo with
  | O => None
  | S k =>
      if bad_seid (sep_seid (disc_entry buf i)) then Some i
      else first_bad buf k (S i)
  end.

(** The state after [n] complete turns of the loop of [avdt_msg_prs_cfg],
    none of them left through [break]; [None] when the loop ends earlier. *)
Fixpoint prs_cfg_turns `{E : Env} (n : nat) (buf : list Z) (p_end sig : Z)
  (s : prs_state) : option prs_state :=
  match n with
  | O => Some s
  | S k =>
      if (p s <? p_end) && (err s =? 0) then
        let '(s', brk) := prs_cfg_body buf p_end sig s in
        if brk then None else prs_cfg_turns k buf p_end sig s'
      else None
  end.

(** A discover response with a bad second entry, and room for three. *)
Definition disc_buf : list Z := [4; 0; 0; 0; 8; 0].
Definition disc_room : tAVDT_DISCOVER :=
  mkDISCOVER (repeat (mkSEP_INFO 0 0 0 0) 3) 3.

(** A configuration of zeroes, and two information elements: media
    transport, then the unknown category 9 with one byte of payload. *)
Definition cfg_zero : AvdtpSepConfig :=
  mkCfg 0 0 0 0 0 0 0 (repeat 0 20%nat) (repeat 0 90%nat).
Definition cfg_buf : list Z := [1; 0; 9; 1; 255].

(** The buffer [avdt_msg_send_grej] queues for signal [sig] and [label]. *)
Definition grej_buf `{E : Env} (sig label : Z) : BT_HDR :=
  mkBT_HDR sig 0 AVDT_MSG_OFFSET
    (AVDT_BLD_LAYERSPEC AVDT_MSG_TYPE_GRJ label)
    (data (osi_malloc AVDT_CMD_BUF_SIZE)).

(** The signal identifier in the second byte of a complete PDU. *)
Definition pdu_sig (b : BT_HDR) : Z :=
  prs_sig (u8 (rd (data b) (offset b + 1))).

(** The message type in the first byte of a complete PDU. *)
Definition pdu_msg_type (b : BT_HDR) : Z :=
  hdr_msg_type (u8 (rd (data b) (offset b))).

Definition pdu_label (b : BT_HDR) : Z :=
  hdr_label (u8 (rd (data b) (offset b))).

(** A Delay Report command for SEID 1, label 0. *)
Definition delay_rpt_cmd : BT_HDR := mkBT_HDR 0 5 0 0 [0; 13; 4; 0; 100].

(** A reject of two bytes with label 0 and 0 in the signal field, and a CCB
    waiting for the answer to its Set Configuration to SEID 1. *)
Definition short_rej : BT_HDR := mkBT_HDR 0 2 0 0 [3; 0].
Definition ccb_setconfig_sent : AvdtpCcb :=
  mkCcb false None None (Some (mkBT_HDR 3 4 22 0 [1; 4; 1; 0])) [] 1 []
    None 0.

(** A command with label 1 and 14 in the signal field. *)
Definition bad_sig_cmd : BT_HDR := mkBT_HDR 0 2 0 0 [16; 14].

(** A Set Configuration command of 100 bytes, not yet fragmented. *)
Definition msg100 : BT_HDR :=
  mkBT_HDR 3 100 22 0 (repeat 0 22%nat ++ repeat 7 100%nat).

(** What is left of [p_curr_msg], as a number of loop turns: the loop of
    [avdt_msg_send] takes at most that many. *)
Definition send_measure (s : send_state) : nat :=
  match p_curr_msg (s_ccb s) with
  | Some m => S (Z.to_nat (len m))
  | None => O
  end.

(** [curr_msg_len] is the length of the current message. *)
Definition send_inv (s : send_state) : Prop :=
  match p_curr_msg (s_ccb s) with
  | Some m => curr_msg_len s = len m /\ 0 <= len m < 65536
  | None => True
  end.

(** The buffers handed to [avdt_ad_write_req], in order. *)
Fixpoint written (eff : list effect) : list BT_HDR :=
  match eff with
  | [] => []
  | Call_avdt_ad_write_req b :: rest => b :: written rest
  | _ :: rest => written rest
  end.

(** The second byte of a START packet. *)
Definition nosp_field (b : BT_HDR) : Z := rd (data b) (offset b + 1).

(** *** The reassembler against the fragment automaton *)

(** What a received fragment is to the reassembler: too short for the
    header its packet type asks for, or one of the four packet types. *)
Inductive kind := Short | Single | Start | Cont | End_.

Definition kind_of (b : BT_HDR) : kind :=
  if too_short b then Short
  else if pkt_type_of b =? AVDT_PKT_TYPE_SINGLE then Single
  else if pkt_type_of b =? AVDT_PKT_TYPE_START then Start
  else if pkt_type_of b =? AVDT_PKT_TYPE_CONT then Cont
  else End_.

(** A reassembly is in progress: [p_ccb->p_rx_msg != NULL]. *)
Definition in_progress (ccb : AvdtpCcb) : bool :=
  negb (is_null (p_rx_msg ccb)).

(** The fragment does not fit the reassembly buffer. *)
Definition overflows `{E : Env} (ccb : AvdtpCcb) (b : BT_HDR) : bool :=
  match kind_of b with
  | Start => start_overflows b
  | Cont | End_ =>
      match p_rx_msg ccb with
      | Some rx => append_overflows rx b
      | None => false
      end
  | _ => false
  end.

(** The automaton of the design document for SINGLE | START CONT* END,
    with the two things the code adds: short fragments are passed over, and
    a fragment that does not fit ends the reassembly.  From "in progress"
    and the fragment, "in progress" afterwards and "a message is
    returned". *)
Definition asmbl_spec (ip : bool) (k : kind) (ov : bool) : bool * bool :=
  match k with
  | Short => (ip, false)
  | Single => (false, true)
  | Start => (negb ov, false)
  | Cont => (ip && negb ov, false)
  | End_ => (false, ip && negb ov)
  end.

(** The same two bits of what a call of [avdt_msg_asmbl] leaves. *)
Definition observed (r : AvdtpCcb * option BT_HDR * list effect)
  : bool * bool :=
  (in_progress (fst (fst r)), negb (is_null (snd (fst r)))).

(** Fragments that leave a reassembly in progress as it is or add to it. *)
Definition passes (b : BT_HDR) : bool :=
  match kind_of b with
  | Short | Cont => true
  | _ => false
  end.

(** The bytes a list of CONT and END fragments adds to a reassembly. *)
Definition payload_sum (l : list BT_HDR) : Z :=
  foldr (fun b acc => len b - AVDT_LEN_TYPE_CONT + acc) 0 l.

(** The two header fields are [uint16_t]. *)
Definition fields_u16 (b : BT_HDR) : Prop :=
  0 <= len b < 65536 /\ 0 <= offset b < 65536.

(** The calls that free the reassembly in progress, if there is one. *)
Definition frees_rx (ccb : AvdtpCcb) : list effect :=
  match p_rx_msg ccb with
  | Some rx => [Call_osi_free rx]
  | None => []
  end.

(** A START fragment with two bytes of payload, a fragment of one byte
    whose packet type reads SINGLE, and an END fragment with one byte. *)
Definition frag_start : BT_HDR := mkBT_HDR 0 5 0 0 [4; 2; 3; 7; 8].
Definition frag_stub : BT_HDR := mkBT_HDR 0 1 0 0 [0].
Definition frag_end : BT_HDR := mkBT_HDR 0 2 0 0 [12; 9].

(** A CONT fragment with two bytes. *)
Definition frag_cont : BT_HDR := mkBT_HDR 0 3 0 0 [8; 5; 6].

End Avdt.

(** ** AVDTP signalling: the rest of the file *)

Module AvdtMore.
Import Bt Avdt.

(** The reject [avdt_msg_ind] takes for a general reject. *)
Definition is_gen_rej `{E : Env} (b : BT_HDR) : bool :=
  (hdr_msg_type (u8 (rd (data b) (offset b))) =? AVDT_MSG_TYPE_REJ)
  && (len b =? AVDT_LEN_GEN_REJ).

(** A call of [osi_free]. *)
Definition is_free (e : effect) : bool :=
  match e with Call_osi_free _ => true | _ => false end.

(** [msg] as [avdt_msg_ind] has filled it in once the signal is read. *)
Definition ind_msg `{E : Env} (ccb : AvdtpCcb) (p_buf : BT_HDR) : tAVDT_MSG :=
  upd_hdr (set_sig_id (pdu_sig p_buf))
    (mkMsg (mkEvtHdr 0 (pdu_label p_buf) 0 0 (u8 (avdt_ccb_to_idx ccb)) 0)
       Body_none).

(** The bytes behind the two header bytes, which [avdt_msg_ind] hands to
    the parsing function, and their number. *)
Definition ind_body (p_buf : BT_HDR) : list Z :=
  drop (Z.to_nat (offset p_buf + 2)) (data p_buf).

Definition ind_body_len (p_buf : BT_HDR) : Z :=
  u16 (len p_buf - AVDT_LEN_TYPE_SINGLE).

(** [( *avdt_msg_prs_cmd[sig - 1])(&msg, p, p_buf->len)] as [avdt_msg_ind]
    calls it. *)
Definition ind_cmd_parse `{E : Env} (ccb : AvdtpCcb) (p_buf : BT_HDR)
  : outcome (tAVDT_MSG * Z) :=
  call_prs avdt_msg_prs_cmd (pdu_sig p_buf)
    (ind_setup ccb AVDT_MSG_TYPE_CMD (pdu_sig p_buf) (ind_msg ccb p_buf))
    (ind_body p_buf) (ind_body_len p_buf).

(** The message buffer as it is freed after its body has been parsed:
    [p_buf->len -= AVDT_LEN_TYPE_SINGLE]. *)
Definition ind_parsed_buf (p_buf : BT_HDR) : BT_HDR :=
  set_len (ind_body_len p_buf) p_buf.

(** A Get Capabilities command with label 1 and no SEID. *)
Definition getcap_no_seid : BT_HDR := mkBT_HDR 0 2 0 0 [16; 2].

(** A Get Capabilities response with label 2, and a CCB waiting for the
    answer to its Get Capabilities with label 1. *)
Definition getcap_rsp_label2 : BT_HDR := mkBT_HDR 0 4 0 0 [34; 2; 1; 0].
Definition getcap_cmd_label1 : BT_HDR := mkBT_HDR 2 1 22 1 [1].
Definition ccb_getcap_sent : AvdtpCcb :=
  mkCcb false None None (Some getcap_cmd_label1) [] 1 [] (Some cfg_zero) 0.

(** A general reject with label 1, and a message whose type field reads
    general reject. *)
Definition gen_rej_label1 : BT_HDR := mkBT_HDR 0 2 0 0 [19; 2].
Definition grj_msg : BT_HDR := mkBT_HDR 0 2 0 0 [1; 2].

(** The label of the outstanding command, if there is one, is [label]. *)
Definition label_matches `{E : Env} (ccb : AvdtpCcb) (label : Z) : bool :=
  match p_curr_cmd ccb with
  | Some c => AVDT_LAYERSPEC_LABEL (layer_specific c) =? label
  | None => false
  end.

(** The outstanding command, if there is one, carries a signal of the
    tables in its [event], where [avdt_msg_send_cmd] puts it. *)
Definition curr_cmd_in_tables (ccb : AvdtpCcb) : Prop :=
  match p_curr_cmd ccb with
  | Some c => 1 <= u8 (event c) <= AVDT_SIG_MAX
  | None => True
  end.

(** No call of [osi_free] in a trace. *)
Definition no_free (l : list effect) : bool :=
  forallb (fun e => negb (is_free e)) l.

(** [msg] as [avdt_msg_ind] builds it for a general reject of the
    outstanding command [c]: no body is parsed. *)
Definition gen_rej_msg `{E : Env} (ccb : AvdtpCcb) (p_buf c : BT_HDR)
  : tAVDT_MSG :=
  mkMsg (mkEvtHdr (event c) (pdu_label p_buf) AVDT_ERR_NSC 0
           (u8 (avdt_ccb_to_idx ccb)) 0) Body_none.

(** The event the tables of [avdt_msg_ind] choose for a reject of the
    command [c], sent to the CCB or to the SCB whose handle the command
    buffer carries in its first byte. *)
Definition rej_event `{E : Env} (c : BT_HDR) (m : tAVDT_MSG) : list effect :=
  match evt_of avdt_msg_rej_2_evt (event c) with
  | Evt_ccb ce => [Call_avdt_ccb_event ce (Some m)]
  | Evt_scb se =>
      match avdt_scb_by_hdl (u8 (rd (data c) 0)) with
      | Some scb => [Call_avdt_scb_event scb se m]
      | None => []
      end
  | Evt_none => []
  end.

(** The SEIDs in the first [n] bytes of a message body. *)
Definition multi_seid (buf : list Z) (i : nat) : Z :=
  prs_seid (u8 (rd buf (Z.of_nat i))).

Definition multi_seids (buf : list Z) (n : nat) : list Z :=
  map (multi_seid buf) (seq 0 n).

(** [avdt_scb_by_hdl(sd) != NULL]. *)
Definition has_scb `{E : Env} (sd : Z) : bool :=
  negb (is_null (avdt_scb_by_hdl sd)).

(** A Start command body naming the streams 1 and 2. *)
Definition seids_1_2 : list Z := [4; 8].

(** Two buffers hold the same first [n] bytes. *)
Definition agree (n : Z) (b1 b2 : list Z) : Prop :=
  forall i, 0 <= i < n -> rd b1 i = rd b2 i.

(** The total length of a list of packets. *)
Definition total_len (l : list BT_HDR) : Z :=
  fold_right (fun b a => len b + a) 0 l.

(** The bytes of the current message that are still to be sent. *)
Definition remaining (ccb : AvdtpCcb) : Z :=
  match p_curr_msg ccb with
  | Some m => len m
  | None => 0
  end.

(** The current message is being fragmented: its offset has moved past
    [AVDT_MSG_OFFSET], and [curr_msg_len] is its length. *)
Definition send_cont_inv `{E : Env} (s : send_state) : Prop :=
  match p_curr_msg (s_ccb s) with
  | Some m => curr_msg_len s = len m /\ 0 <= len m
              /\ AVDT_MSG_OFFSET < offset m /\ offset m + len m < 65536
  | None => True
  end.

(** The reassembly in progress lies inside its buffer of
    [BT_DEFAULT_BUFFER_SIZE] bytes: [offset] is where the next fragment
    goes, [len] bytes before it are the message so far. *)
Definition rx_in_bounds `{E : Env} (ccb : AvdtpCcb) : Prop :=
  match p_rx_msg ccb with
  | Some rx => 0 <= len rx <= offset rx
               /\ offset rx <= BT_DEFAULT_BUFFER_SIZE - sizeof_BT_HDR
  | None => True
  end.

(** The message lies inside a buffer of [BT_DEFAULT_BUFFER_SIZE] bytes. *)
Definition msg_in_bounds `{E : Env} (m : BT_HDR) : Prop :=
  0 <= offset m /\ 0 <= len m
  /\ offset m + len m <= BT_DEFAULT_BUFFER_SIZE - sizeof_BT_HDR.

(** The error parameter a reject of [sig] carries: a byte for the two
    configuration signals, a SEID of six bits for Start and Suspend, none
    for the other signals. *)
Definition rej_param (sig ep old : Z) : Z :=
  if (sig =? AVDT_SIG_SETCONFIG) || (sig =? AVDT_SIG_RECONFIG) then u8 ep
  else if (sig =? AVDT_SIG_START) || (sig =? AVDT_SIG_SUSPEND) then ep mod 64
  else old.

(** The bytes of a message from its offset on. *)
Definition body_of (b : BT_HDR) : list Z :=
  drop (Z.to_nat (offset b)) (data b).

(** The [n] bytes of a buffer from position [off] on. *)
Definition bytes (d : list Z) (off n : Z) : list Z :=
  map (fun i => u8 (rd d (off + Z.of_nat i))) (seq 0 (Z.to_nat n)).

(** The bytes of a message: [len] bytes from [offset] on. *)
Definition msg_bytes (b : BT_HDR) : list Z :=
  bytes (data b) (offset b) (len b).

(** What a START packet contributes to the reassembled message: its first
    header byte, and what follows its packet count byte. *)
Definition start_stream (s : BT_HDR) : list Z :=
  u8 (rd (data s) (offset s)) :: bytes (data s) (offset s + 2) (len s - 2).

(** What a CONT or END packet contributes: what follows its header
    byte. *)
Definition cont_stream (b : BT_HDR) : list Z :=
  bytes (data b) (offset b + 1) (len b - 1).

(** The header fields of a received buffer: two [uint16_t] whose sum is
    the end of the data. *)
Definition frag_ok (b : BT_HDR) : Prop :=
  0 <= len b /\ 0 <= offset b /\ offset b + len b < 65536.

(** The reassembly buffer after a START packet [s]. *)
Definition rx_after_start `{E : Env} (s : BT_HDR) : BT_HDR :=
  let d0 := memcpy (data (osi_malloc BT_DEFAULT_BUFFER_SIZE)) 0 (data s) 0
              (offset s + len s) in
  mkBT_HDR (event s) (len s - 1) (offset s + len s) (layer_specific s)
    (wr d0 (offset s + 1) (rd d0 (offset s))).

(** The data of the reassembly buffer [rx] after the packet [b] has been
    appended. *)
Definition rx_data_after (rx b : BT_HDR) : list Z :=
  memcpy (data rx) (offset rx) (data b) (offset b + 1) (len b - 1).

(** The reassembly holds the stream [st]. *)
Definition rx_holds `{E : Env} (rx : BT_HDR) (st : list Z) : Prop :=
  0 <= len rx <= offset rx
  /\ offset rx <= BT_DEFAULT_BUFFER_SIZE - sizeof_BT_HDR
  /\ length (data rx) = Z.to_nat (BT_DEFAULT_BUFFER_SIZE - sizeof_BT_HDR)
  /\ bytes (data rx) (offset rx - len rx) (len rx) = st.

(** [cur] is the message [m] with its first [k] bytes gone: the state of
    [p_curr_msg] between two packets. *)
Definition is_advanced (m : BT_HDR) (k : Z) (cur : BT_HDR) : Prop :=
  data cur = data m /\ layer_specific cur = layer_specific m
  /\ event cur = event m /\ offset cur = offset m + k
  /\ len cur = len m - k.

(** What the sender needs of its message and of the channel: the label
    and message type stored in [layer_specific] fit their header fields,
    the message lies inside its buffer, a fragment buffer holds a packet
    of the peer's MTU behind [L2CAP_MIN_OFFSET], and the channel never
    reports congestion. *)
Definition send_ready `{E : Env} (mtu : Z) (m : BT_HDR) : Prop :=
  0 <= AVDT_LAYERSPEC_LABEL (layer_specific m)
  /\ 0 <= AVDT_LAYERSPEC_MSG (layer_specific m) < 4
  /\ 0 <= AVDT_MSG_OFFSET
  /\ (Z.to_nat (AVDT_MSG_OFFSET + len m) <= length (data m))%nat
  /\ AVDT_MSG_OFFSET + len m < 65536
  /\ 0 <= L2CAP_MIN_OFFSET
  /\ L2CAP_MIN_OFFSET + mtu + sizeof_BT_HDR <= AVDT_CMD_BUF_SIZE
  /\ AVDT_CMD_BUF_SIZE <= 65536
  /\ (forall c b, cong_after_write c b = false).

(** A Set Configuration command of 92 bytes: behind a START packet for
    a peer MTU of 48 its rest fills one packet exactly. *)
Definition msg92 : BT_HDR :=
  mkBT_HDR 3 92 22 0 (repeat 0 22%nat ++ repeat 7 92%nat).

(** The value of a call that returned. *)
Definition done_or {A} (d : A) (o : outcome A) : A :=
  match o with Done a => a | _ => d end.

(** An empty Start command and an empty Set Configuration command with
    room for the configuration. *)
Definition msg_start_cmd : tAVDT_MSG :=
  mkMsg (mkEvtHdr 7 0 0 0 0 0) Body_none.
Definition msg_setconfig_cmd : tAVDT_MSG :=
  mkMsg (mkEvtHdr 3 0 0 0 0 0) (Body_cfg 0 (Some cfg_zero)).

(** A Set Configuration body: ACP SEID 1, INT SEID 1, media transport and
    a codec element of two bytes. *)
Definition setconfig_body : list Z := [4; 4; 1; 0; 7; 2; 0; 0].

(** A reject of a Start command for SEID 5 with error 18. *)
Definition msg_start_rej : tAVDT_MSG :=
  mkMsg (mkEvtHdr 7 0 18 5 0 0) Body_none.

(** Media transport alone, and the same two bytes followed by something
    else. *)
Definition trans_only : list Z := [1; 0].
Definition trans_and_more : list Z := [1; 0; 99].

End AvdtMore.
(** * Properties *)

(** ** AVCTP API *)

Module AvctProofs.
Import Bt Avct.

Section Api.
Context `{E : Env}.

Lemma AVCT_MsgReq_send_cases c label cr m :
  let o := AVCT_MsgReq_send c label cr m in
  (result o = AVCT_BAD_HANDLE /\ effects o = [Call_osi_free m] /\
   layer_specific m = AVCT_DATA_BROWSE /\ p_bcb c = None /\
   Z.land (allocated c) AVCT_ALOC_BCB = 0)
  \/ (result o = AVCT_SUCCESS /\ exists e, effects o = [e] /\ forwards m e).
Proof.
  unfold AVCT_MsgReq_send.
  destruct (Z.eqb_spec (layer_specific m) AVCT_DATA_BROWSE) as [Hb|Hb].
  - destruct (p_bcb c) as [b|] eqn:Hp; simpl.
    + right. split; [reflexivity|]. eexists. split; [reflexivity|]. reflexivity.
    + destruct (Z.eqb_spec (Z.land (allocated c) AVCT_ALOC_BCB) 0) as [Ha|Ha].
      * left. simpl. auto.
      * right. simpl. split; [reflexivity|].
        eexists. split; [reflexivity|]. reflexivity.
  - right. simpl. split; [reflexivity|].
    eexists. split; [reflexivity|]. reflexivity.
Qed.

(** C10.  [AVCT_MsgReq]: a NULL message gives [AVCT_NO_RESOURCES] (nothing
    is freed or forwarded); a handle with no CCB gives [AVCT_BAD_HANDLE] and
    frees the buffer; a CCB not bound to a link gives [AVCT_NOT_OPEN] and
    frees the buffer; a browse message on a bound CCB with neither an open
    nor an allocated browse channel gives [AVCT_BAD_HANDLE] and frees the
    buffer; and the message is handed to the link or browse state machine
    exactly when the result is [AVCT_SUCCESS]. *)
Theorem AVCT_MsgReq_results handle label cr :
  (let o := AVCT_MsgReq handle label cr None in
   result o = AVCT_NO_RESOURCES /\ effects o = [])
  /\ (forall m, let o := AVCT_MsgReq handle label cr (Some m) in
      (avct_ccb_by_idx handle = None ->
         result o = AVCT_BAD_HANDLE /\ effects o = [Call_osi_free m])
      /\ (forall c, avct_ccb_by_idx handle = Some c -> p_lcb c = None ->
         result o = AVCT_NOT_OPEN /\ effects o = [Call_osi_free m])
      /\ (forall c l, avct_ccb_by_idx handle = Some c -> p_lcb c = Some l ->
         layer_specific m = AVCT_DATA_BROWSE -> p_bcb c = None ->
         Z.land (allocated c) AVCT_ALOC_BCB = 0 ->
         result o = AVCT_BAD_HANDLE /\ effects o = [Call_osi_free m])
      /\ (result o = AVCT_SUCCESS <-> Exists (forwards m) (effects o))
      /\ (result o <> AVCT_SUCCESS <-> Exists (frees m) (effects o))).
Proof.
  split; [split; reflexivity|].
  intros m o. subst o. unfold AVCT_MsgReq.
  destruct (avct_ccb_by_idx handle) as [c|] eqn:Hc.
  2:{ repeat split; try discriminate; try (intros; congruence); simpl.
      - intros H. inversion H as [? ? Hf|? ? Hf]; subst; [destruct Hf|inversion Hf].
      - intros _. constructor. reflexivity. }
  destruct (p_lcb c) as [l|] eqn:Hl; simpl.
  2:{ repeat split; try discriminate; try (intros; congruence).
      - intros H. inversion H as [? ? Hf|? ? Hf]; subst; [destruct Hf|inversion Hf].
      - intros _. constructor. reflexivity. }
  pose proof (AVCT_MsgReq_send_cases c label cr m) as Hs. simpl in Hs.
  destruct Hs as [(Hr & He & Hb & Hp & Ha)|(Hr & e & He & Hf)];
    rewrite Hr, He.
  - repeat split; try discriminate; try (intros; congruence).
    + intros H. inversion H as [? ? Hf|? ? Hf]; subst; [destruct Hf|inversion Hf].
    + intros _. constructor. reflexivity.
  - split; [intros; discriminate|].
    split; [intros c0 H0 H1; congruence|].
    split.
    + intros c0 l0 H0 H1 Hb Hp Ha. injection H0 as <-.
      unfold AVCT_MsgReq_send in Hr. rewrite Hb, Z.eqb_refl, Hp, Ha in Hr.
      simpl in Hr. discriminate.
    + split; split; try congruence.
      * intros _. constructor. exact Hf.
      * intros H. inversion H as [? ? Hx|? ? Hx]; subst.
        -- unfold frees in Hx. subst e. destruct Hf.
        -- inversion Hx.
Qed.

End Api.

Lemma AVCT_MsgReq_results_witness :
  result (@AVCT_MsgReq (run_env tbl) 7 0 0 (Some msg_browse)) = AVCT_BAD_HANDLE
  /\ result (@AVCT_MsgReq (run_env tbl) 1 0 0 (Some msg_browse)) = AVCT_NOT_OPEN
  /\ result (@AVCT_MsgReq (run_env tbl) 0 0 0 (Some msg_browse)) = AVCT_BAD_HANDLE.
Proof.
  pose proof (@AVCT_MsgReq_results (run_env tbl) 7 0 0) as [_ H7].
  pose proof (@AVCT_MsgReq_results (run_env tbl) 1 0 0) as [_ H1].
  pose proof (@AVCT_MsgReq_results (run_env tbl) 0 0 0) as [_ H0].
  specialize (H7 msg_browse). specialize (H1 msg_browse).
  specialize (H0 msg_browse).
  destruct H7 as (H7 & _). destruct H1 as (_ & H1 & _).
  destruct H0 as (_ & _ & H0 & _).
  split; [apply H7; reflexivity|].
  split; [eapply H1; reflexivity|].
  eapply H0; reflexivity.
Defined.

End AvctProofs.

(** ** SMP pairing actions *)

Module SmpProofs.
Import Bt Smp.

Lemma u8_land (v : Z) : u8 v = Z.land v 255.
Proof.
  unfold u8. change 256 with (2 ^ 8). change 255 with (Z.ones 8).
  rewrite Z.land_ones by lia. reflexivity.
Qed.

Lemma testbit_255 n : 0 <= n -> Z.testbit 255 n = (n <? 8).
Proof.
  intros Hn. change 255 with (Z.ones 8).
  destruct (Z.ltb_spec n 8).
  - apply Z.ones_spec_low. lia.
  - apply Z.ones_spec_high. lia.
Qed.

(** Turn an equation between masks into one Boolean equation per bit. *)
Ltac bits :=
  unfold mask_subset, clear_bits in *; rewrite ?u8_land in *;
  apply Z.bits_inj'; intros n Hn;
  repeat match goal with
  | H : Z.land _ _ = _ |- _ =>
      apply (f_equal (fun z => Z.testbit z n)) in H
  | H : Z.lor _ _ = _ |- _ =>
      apply (f_equal (fun z => Z.testbit z n)) in H
  end;
  rewrite ?Z.land_spec, ?Z.lor_spec, ?Z.lnot_spec, ?testbit_255 in * by lia.

Lemma clear_bits_subset v m : mask_subset (clear_bits v m) v.
Proof.
  bits. destruct (Z.testbit v n), (Z.testbit m n), (n <? 8); reflexivity.
Qed.

Lemma clear_bits_clear v m : Z.land (clear_bits v m) m = 0.
Proof.
  bits. rewrite Z.bits_0.
  destruct (Z.testbit v n), (Z.testbit m n), (n <? 8); reflexivity.
Qed.

Lemma mask_subset_trans a b c :
  mask_subset a b -> mask_subset b c -> mask_subset a c.
Proof.
  unfold mask_subset. intros Hab Hbc.
  rewrite <- Hab. rewrite <- Z.land_assoc, Hbc. reflexivity.
Qed.

Lemma mask_subset_refl a : mask_subset a a.
Proof. apply Z.land_diag. Qed.

Section Actions.
Context `{E : Env}.

(** *** Running an action one statement at a time *)

Lemma run_get {B} (k : tSMP_CB -> act B) cb : bind get k cb = k cb cb.
Proof. reflexivity. Qed.

Lemma run_modify {B} f (k : unit -> act B) cb :
  bind (modify f) k cb = k tt (f cb).
Proof. reflexivity. Qed.

Lemma run_ret {A B} (a : A) (k : A -> act B) cb : bind (ret a) k cb = k a cb.
Proof. reflexivity. Qed.

Lemma run_call {B} e (k : unit -> act B) cb :
  bind (call e) k cb = prepend [e] (k tt cb).
Proof. reflexivity. Qed.

Lemma run_extern {A B} f e (k : A -> act B) cb :
  bind (extern f e) k cb = prepend e (k (snd (f cb)) (fst (f cb))).
Proof. reflexivity. Qed.

Lemma run_bind {A B} (m : act A) (k : A -> act B) cb :
  bind m k cb = prepend (tr (m cb)) (k (val (m cb)) (st (m cb))).
Proof. reflexivity. Qed.

Lemma bind_if {A B} (c : bool) (m1 m2 : act A) (k : A -> act B) :
  bind (if c then m1 else m2) k = if c then bind m1 k else bind m2 k.
Proof. destruct c; reflexivity. Qed.

Lemma bind_assoc {A B C} (m : act A) (k1 : A -> act B) (k2 : B -> act C) cb :
  bind (bind m k1) k2 cb = bind m (fun a => bind (k1 a) k2) cb.
Proof. unfold bind. cbn [val st tr]. rewrite app_assoc. reflexivity. Qed.

Lemma prepend_nil {A} (r : res A) : prepend [] r = r.
Proof. reflexivity. Qed.

(** One statement of the action at the head of the goal. *)
Ltac act_step :=
  first [ rewrite run_get | rewrite run_modify | rewrite run_ret
        | rewrite run_call | rewrite run_extern | rewrite bind_assoc
        | rewrite bind_if ];
  cbv beta.

Ltac act_run := repeat act_step.

(** Run to the end, splitting on every condition met on the way. *)
Ltac act_cases :=
  repeat (match goal with
          | |- context [if ?c then _ else _] => destruct c
          end; act_run).

(** *** smp_update_key_mask *)

(** The masks [smp_update_key_mask] leaves, as functions of the masks it
    found. *)
Lemma smp_update_key_mask_masks key_type recv cb :
  let both := (le_secure_connections_mode_is_used cb || smp_over_br cb)
              && ((key_type =? SMP_SEC_KEY_TYPE_ENC)
                  || (key_type =? SMP_SEC_KEY_TYPE_LK)) in
  let on_i := both || (if role cb =? HCI_ROLE_SLAVE then recv else negb recv) in
  let on_r := both || (if role cb =? HCI_ROLE_SLAVE then negb recv else recv) in
  let cb' := st (smp_update_key_mask key_type recv cb) in
  local_i_key cb'
  = (if on_i then clear_bits (local_i_key cb) key_type else local_i_key cb)
  /\ local_r_key cb'
     = (if on_r then clear_bits (local_r_key cb) key_type else local_r_key cb).
Proof.
  unfold smp_update_key_mask. act_step.
  destruct (_ && _); cbn [orb].
  - act_run. split; reflexivity.
  - destruct (role cb =? HCI_ROLE_SLAVE), recv; split; reflexivity.
Qed.

Lemma smp_update_key_mask_shrinks key_type recv cb :
  mask_subset (local_i_key (st (smp_update_key_mask key_type recv cb)))
    (local_i_key cb)
  /\ mask_subset (local_r_key (st (smp_update_key_mask key_type recv cb)))
       (local_r_key cb).
Proof.
  destruct (smp_update_key_mask_masks key_type recv cb) as [-> ->].
  split; match goal with |- context [if ?c then _ else _] => destruct c end;
    first [apply clear_bits_subset | apply mask_subset_refl].
Qed.

Lemma smp_update_key_mask_preserves key_type recv :
  preserves_masks (smp_update_key_mask key_type recv).
Proof.
  intros ni nr cb [Hi Hr].
  destruct (smp_update_key_mask_shrinks key_type recv cb) as [Si Sr].
  split; eapply mask_subset_trans; eauto.
Qed.

Lemma smp_update_key_mask_derived key_type recv cb :
  le_secure_connections_mode_is_used cb = true \/ smp_over_br cb = true ->
  key_type = SMP_SEC_KEY_TYPE_ENC \/ key_type = SMP_SEC_KEY_TYPE_LK ->
  let cb' := st (smp_update_key_mask key_type recv cb) in
  Z.land (local_i_key cb') key_type = 0
  /\ Z.land (local_r_key cb') key_type = 0.
Proof.
  intros Hmode Hkey cb'.
  destruct (smp_update_key_mask_masks key_type recv cb) as [Hi Hr].
  fold cb' in Hi, Hr. rewrite Hi, Hr.
  assert (Hc : (le_secure_connections_mode_is_used cb || smp_over_br cb)
               && ((key_type =? SMP_SEC_KEY_TYPE_ENC)
                   || (key_type =? SMP_SEC_KEY_TYPE_LK)) = true).
  { apply andb_true_intro. split.
    - destruct Hmode as [-> | ->]; [reflexivity | apply orb_true_r].
    - destruct Hkey as [-> | ->]; reflexivity. }
  rewrite Hc. cbn [orb]. split; apply clear_bits_clear.
Qed.

(** *** smp_check_auth_req *)

Lemma testbit_u8 v n :
  0 <= n -> Z.testbit (u8 v) n = Z.testbit v n && (n <? 8).
Proof. intros Hn. rewrite u8_land, Z.land_spec, testbit_255; auto. Qed.

Lemma testbit_clear_bits v m n :
  0 <= n ->
  Z.testbit (clear_bits v m) n
  = Z.testbit v n && negb (Z.testbit m n) && (n <? 8).
Proof.
  intros Hn. unfold clear_bits.
  rewrite testbit_u8, Z.land_spec, Z.lnot_spec; auto.
Qed.

Lemma has_bits_pow2 v k :
  0 <= k -> has_bits v (2 ^ k) = Z.testbit v k.
Proof.
  intros Hk. unfold has_bits.
  destruct (Z.testbit v k) eqn:Hb.
  - apply negb_true_iff, Z.eqb_neq. intros H0.
    apply (f_equal (fun z => Z.testbit z k)) in H0.
    rewrite Z.land_spec, Hb, Z.pow2_bits_true, Z.bits_0 in H0 by lia.
    discriminate.
  - apply negb_false_iff, Z.eqb_eq. apply Z.bits_inj'. intros n Hn.
    rewrite Z.land_spec, Z.bits_0, Z.pow2_bits_eqb by lia.
    destruct (Z.eqb_spec k n) as [<-|]; [rewrite Hb|]; auto using andb_false_r.
Qed.

Lemma has_LK v : has_bits v SMP_SEC_KEY_TYPE_LK = Z.testbit v 3.
Proof. apply (has_bits_pow2 v 3). lia. Qed.

Lemma has_ENC v : has_bits v SMP_SEC_KEY_TYPE_ENC = Z.testbit v 0.
Proof. apply (has_bits_pow2 v 0). lia. Qed.

Lemma smp_check_auth_req_masks p_data cb :
  data_status p_data = 1 ->
  let cb' := st (smp_check_auth_req p_data cb) in
  local_i_key cb'
  = auth_req_i_key (le_secure_connections_mode_is_used cb)
      (local_i_key cb) (local_r_key cb)
  /\ local_r_key cb'
     = auth_req_r_key (le_secure_connections_mode_is_used cb) (role cb)
         (local_i_key cb) (local_r_key cb).
Proof.
  intros Hs. unfold smp_check_auth_req, auth_req_i_key, auth_req_r_key.
  rewrite Hs. change (1 =? 1) with true. cbv iota zeta. act_step.
  destruct (le_secure_connections_mode_is_used cb); act_run;
    cbn [local_i_key local_r_key set_local_i_key set_local_r_key];
    act_cases; split; reflexivity.
Qed.

Lemma smp_check_auth_req_other p_data cb :
  data_status p_data <> 1 ->
  let cb' := st (smp_check_auth_req p_data cb) in
  local_i_key cb' = local_i_key cb /\ local_r_key cb' = local_r_key cb.
Proof.
  intros Hs. unfold smp_check_auth_req.
  destruct (Z.eqb_spec (data_status p_data) 1) as [|_]; [contradiction|].
  cbv zeta.
  destruct (data_status p_data =? 0); [|split; reflexivity].
  act_step.
  destruct (has_bits _ _); [split; reflexivity|].
  destruct (role cb =? HCI_ROLE_MASTER); split; reflexivity.
Qed.

(** Per-bit view of the two mask functions. *)
Ltac mask_bits :=
  unfold mask_subset; apply Z.bits_inj'; intros n Hn;
  repeat first [ rewrite Z.land_spec | rewrite Z.lor_spec
               | rewrite testbit_clear_bits by lia
               | rewrite testbit_u8 by lia ];
  repeat match goal with
  | |- context [Z.testbit ?v n] =>
      let b := fresh "b" in
      generalize (Z.testbit v n); intros b
  end;
  repeat match goal with b : bool |- _ => destruct b end;
  try reflexivity.

Lemma auth_req_i_key_grows_by_ENC sc i r :
  mask_subset (auth_req_i_key sc i r) (Z.lor i SMP_SEC_KEY_TYPE_ENC).
Proof.
  unfold auth_req_i_key.
  destruct sc; [destruct (negb _ || negb _)|]; mask_bits;
    destruct (n <? 8); reflexivity.
Qed.

Lemma auth_req_r_key_grows_by_ENC sc role i r :
  mask_subset (auth_req_r_key sc role i r) (Z.lor r SMP_SEC_KEY_TYPE_ENC).
Proof.
  unfold auth_req_r_key.
  destruct sc; [destruct (negb _ || negb _); destruct (role =? _)|];
    mask_bits; destruct (n <? 8); reflexivity.
Qed.

Lemma auth_req_legacy_shrinks role i r :
  mask_subset (auth_req_i_key false i r) i
  /\ mask_subset (auth_req_r_key false role i r) r
  /\ has_bits (auth_req_i_key false i r) SMP_SEC_KEY_TYPE_LK = false
  /\ has_bits (auth_req_r_key false role i r) SMP_SEC_KEY_TYPE_LK = false.
Proof.
  unfold auth_req_i_key, auth_req_r_key.
  repeat split; try apply clear_bits_subset;
    rewrite has_LK, testbit_clear_bits by lia;
    change (Z.testbit SMP_SEC_KEY_TYPE_LK 3) with true;
    simpl; rewrite andb_false_r; reflexivity.
Qed.

Lemma auth_req_sc_sets_ENC role i r :
  has_bits (auth_req_i_key true i r) SMP_SEC_KEY_TYPE_ENC = true
  /\ (role <> HCI_ROLE_MASTER ->
      has_bits (auth_req_r_key true role i r) SMP_SEC_KEY_TYPE_ENC = true).
Proof.
  unfold auth_req_i_key, auth_req_r_key. split.
  - destruct (negb _ || negb _); rewrite has_ENC;
      rewrite ?testbit_clear_bits, ?testbit_u8, Z.lor_spec by lia;
      change (Z.testbit SMP_SEC_KEY_TYPE_ENC 0) with true;
      change (Z.testbit SMP_SEC_KEY_TYPE_LK 0) with false;
      rewrite orb_true_r; reflexivity.
  - intros Hr. destruct (Z.eqb_spec role HCI_ROLE_MASTER); [contradiction|].
    destruct (negb _ || negb _); rewrite has_ENC;
      rewrite ?testbit_clear_bits, ?testbit_u8, Z.lor_spec by lia;
      change (Z.testbit SMP_SEC_KEY_TYPE_ENC 0) with true;
      change (Z.testbit SMP_SEC_KEY_TYPE_LK 0) with false;
      rewrite orb_true_r; reflexivity.
Qed.

Lemma auth_req_LK_needs_both sc role i r :
  has_bits (auth_req_i_key sc i r) SMP_SEC_KEY_TYPE_LK = true
  \/ has_bits (auth_req_r_key sc role i r) SMP_SEC_KEY_TYPE_LK = true ->
  sc = true
  /\ has_bits i SMP_SEC_KEY_TYPE_LK = true
  /\ has_bits r SMP_SEC_KEY_TYPE_LK = true.
Proof.
  destruct sc.
  2:{ destruct (auth_req_legacy_shrinks role i r) as (_ & _ & Hi & Hr).
      rewrite Hi, Hr. intros [?|?]; discriminate. }
  unfold auth_req_i_key, auth_req_r_key.
  rewrite !has_LK.
  assert (Hi1 : Z.testbit (u8 (Z.lor i SMP_SEC_KEY_TYPE_ENC)) 3
                = Z.testbit i 3).
  { rewrite testbit_u8, Z.lor_spec by lia.
    change (Z.testbit SMP_SEC_KEY_TYPE_ENC 3) with false.
    rewrite orb_false_r. apply andb_true_r. }
  assert (Hr1 : Z.testbit (u8 (Z.lor r SMP_SEC_KEY_TYPE_ENC)) 3
                = Z.testbit r 3).
  { rewrite testbit_u8, Z.lor_spec by lia.
    change (Z.testbit SMP_SEC_KEY_TYPE_ENC 3) with false.
    rewrite orb_false_r. apply andb_true_r. }
  rewrite Hi1, Hr1.
  destruct (Z.testbit i 3), (Z.testbit r 3); cbn [negb orb];
    destruct (role =? HCI_ROLE_MASTER);
    repeat first [ rewrite Hi1 | rewrite Hr1 | rewrite Z.land_spec
                 | rewrite testbit_clear_bits by lia
                 | rewrite testbit_u8 by lia ];
    change (Z.testbit SMP_SEC_KEY_TYPE_LK 3) with true;
    change (Z.testbit (Z.lor SMP_SEC_KEY_TYPE_ID SMP_SEC_KEY_TYPE_CSRK) 3)
      with false;
    cbn [negb andb]; rewrite ?andb_false_r;
    intros [?|?]; try discriminate; auto.
Qed.

(** C7, in the form that holds. [smp_update_key_mask] only clears bits, so
    it keeps both masks inside any bounds they were in, and in Secure
    Connections mode or over BR/EDR an update for ENC or for LK clears that
    bit from both masks. [smp_check_auth_req] after a successful encryption
    change adds at most the ENC bit to either mask; in legacy mode it adds
    nothing; in Secure Connections mode it does set ENC in [local_i_key];
    and the LK bit is left in a mask only in Secure Connections mode and
    only if it was set in both masks. For any other status it leaves the
    masks alone. *)
Theorem smp_key_masks_updates :
  (forall key_type recv, preserves_masks (smp_update_key_mask key_type recv))
  /\ (forall key_type recv cb,
        le_secure_connections_mode_is_used cb = true \/ smp_over_br cb = true ->
        key_type = SMP_SEC_KEY_TYPE_ENC \/ key_type = SMP_SEC_KEY_TYPE_LK ->
        let cb' := st (smp_update_key_mask key_type recv cb) in
        Z.land (local_i_key cb') key_type = 0
        /\ Z.land (local_r_key cb') key_type = 0)
  /\ (forall p_data cb,
        data_status p_data = 1 ->
        let cb' := st (smp_check_auth_req p_data cb) in
        mask_subset (local_i_key cb')
          (Z.lor (local_i_key cb) SMP_SEC_KEY_TYPE_ENC)
        /\ mask_subset (local_r_key cb')
             (Z.lor (local_r_key cb) SMP_SEC_KEY_TYPE_ENC)
        /\ (le_secure_connections_mode_is_used cb = false ->
            mask_subset (local_i_key cb') (local_i_key cb)
            /\ mask_subset (local_r_key cb') (local_r_key cb))
        /\ (le_secure_connections_mode_is_used cb = true ->
            has_bits (local_i_key cb') SMP_SEC_KEY_TYPE_ENC = true)
        /\ (has_bits (local_i_key cb') SMP_SEC_KEY_TYPE_LK = true
            \/ has_bits (local_r_key cb') SMP_SEC_KEY_TYPE_LK = true ->
            le_secure_connections_mode_is_used cb = true
            /\ has_bits (local_i_key cb) SMP_SEC_KEY_TYPE_LK = true
            /\ has_bits (local_r_key cb) SMP_SEC_KEY_TYPE_LK = true))
  /\ (forall p_data cb,
        data_status p_data <> 1 ->
        let cb' := st (smp_check_auth_req p_data cb) in
        local_i_key cb' = local_i_key cb /\ local_r_key cb' = local_r_key cb).
Proof.
  split; [exact smp_update_key_mask_preserves|].
  split; [exact smp_update_key_mask_derived|].
  split; [|exact smp_check_auth_req_other].
  intros p_data cb Hs cb'.
  destruct (smp_check_auth_req_masks p_data cb Hs) as [Hi Hr].
  fold cb' in Hi, Hr. rewrite Hi, Hr.
  split; [apply auth_req_i_key_grows_by_ENC|].
  split; [apply auth_req_r_key_grows_by_ENC|].
  split.
  { intros ->.
    destruct (auth_req_legacy_shrinks (role cb) (local_i_key cb)
                (local_r_key cb)) as (? & ? & _). auto. }
  split.
  { intros ->. apply (auth_req_sc_sets_ENC (role cb)). }
  apply auth_req_LK_needs_both.
Qed.

(** *** smp_proc_pair_fail and smp_send_pair_fail *)

Lemma smp_send_pair_fail_sends p_data cb :
  Exists is_send_cmd (tr (smp_send_pair_fail p_data cb)) <->
  data_status p_data <= SMP_MAX_FAIL_RSN_PER_SPEC
  /\ data_status p_data <> SMP_SUCCESS.
Proof.
  unfold smp_send_pair_fail. act_run.
  cbn [status set_status set_failure].
  destruct (Z.leb_spec (data_status p_data) SMP_MAX_FAIL_RSN_PER_SPEC);
    destruct (Z.eqb_spec (data_status p_data) SMP_SUCCESS); cbn [andb negb];
    act_run; cbn [tr prepend modify ret app];
    split; try (intros H'; inversion H'; fail);
    try (intros [? ?]; lia).
  - intros _. split; assumption.
  - intros _. constructor. exact I.
Qed.

(** C8.  [smp_proc_pair_fail], the action for a received Pairing-Failed:
    a command shorter than 2 bytes records [SMP_INVALID_PARAMETERS], any
    other records the peer's reason; whatever the length, the action calls
    [smp_send_cmd] for no opcode at all, so no Pairing-Failed goes out: its
    only call is the cancellation of the delayed-auth timer. *)
Theorem smp_proc_pair_fail_no_reply p_data cb :
  let r := smp_proc_pair_fail p_data cb in
  (rcvd_cmd_len cb < 2 -> status (st r) = SMP_INVALID_PARAMETERS)
  /\ (2 <= rcvd_cmd_len cb -> status (st r) = data_status p_data)
  /\ tr r = [Call_alarm_cancel_delayed_auth_timer]
  /\ ~ Exists is_send_cmd (tr r).
Proof.
  unfold smp_proc_pair_fail. act_step.
  destruct (Z.ltb_spec (rcvd_cmd_len cb) 2); act_run;
    cbn [val st tr prepend call app status set_status];
    (split; [intros; first [reflexivity | lia]|]);
    (split; [intros; first [reflexivity | lia]|]);
    (split; [reflexivity|]);
    intros Hx; inversion Hx as [? ? H1|? ? H1]; subst;
    first [exact H1 | inversion H1].
Qed.

(** *** smp_process_pairing_public_key *)

Lemma rd_lookup (d : list Z) (i : nat) (v : Z) :
  d !! i = Some v -> rd d (Z.of_nat i) = v.
Proof.
  intros H. unfold rd.
  destruct (Z.ltb_spec (Z.of_nat i) 0); [lia|].
  rewrite Nat2Z.id, H. reflexivity.
Qed.

(** On two arrays of [n] bytes, [memcmp(a, b, n) == 0] is equality. *)
Lemma memcmp_eq_iff (a b : list Z) :
  length a = length b ->
  memcmp_eq a b (Z.of_nat (length a)) = true <-> a = b.
Proof.
  intros Hl. unfold memcmp_eq. rewrite Nat2Z.id, forallb_forall. split.
  - intros H. apply list_eq. intros i.
    destruct (a !! i) as [v|] eqn:Ha.
    + assert (Hi : (i < length a)%nat) by (eapply lookup_lt_Some; eauto).
      destruct (lookup_lt_is_Some_2 b i) as [w Hb]; [lia|].
      specialize (H i).
      rewrite (rd_lookup _ _ _ Ha), (rd_lookup _ _ _ Hb) in H.
      rewrite Hb. f_equal. apply Z.eqb_eq. apply H. apply in_seq. lia.
    + symmetry. apply lookup_ge_None. apply lookup_ge_None in Ha. lia.
  - intros -> i _. apply Z.eqb_refl.
Qed.

Lemma stream_to_array_length p off n :
  length (stream_to_array p off n) = Z.to_nat n.
Proof. unfold stream_to_array. rewrite length_map, length_seq. reflexivity. Qed.

(** C6.  [smp_process_pairing_public_key] on a command that passes the
    length and parameter check: the received coordinates are stored; if the
    x-coordinate equals the local one ([memcmp] over 32 bytes, which on a
    32-byte local key is equality) or [ECC_ValidatePoint] rejects the point,
    the only call is [smp_sm_event] with [SMP_AUTH_CMPL_EVT] and
    [SMP_PAIR_AUTH_FAIL], the flags are untouched and
    [smp_wait_for_both_public_keys] is not entered; otherwise
    [SMP_PAIR_FLAG_HAVE_PEER_PUBL_KEY] is set and the action continues as
    [smp_wait_for_both_public_keys]. *)
Theorem smp_process_pairing_public_key_checks p_data cb :
  smp_command_has_invalid_parameters cb = false ->
  let key := received_key (data_p_data p_data) in
  let r := smp_process_pairing_public_key p_data cb in
  let same_x := memcmp_eq (x key) (x (loc_publ_key cb)) BT_OCTET32_LEN in
  peer_publ_key (st r) = key
  /\ (length (x (loc_publ_key cb)) = 32%nat ->
      (same_x = true <-> x key = x (loc_publ_key cb)))
  /\ (same_x = true \/ ECC_ValidatePoint key = false ->
      tr r = [Call_smp_sm_event SMP_AUTH_CMPL_EVT
                (Some (Int_status SMP_PAIR_AUTH_FAIL))]
      /\ flags (st r) = flags cb)
  /\ (same_x = false -> ECC_ValidatePoint key = true ->
      let cb' :=
        set_flags (Z.lor (flags cb) SMP_PAIR_FLAG_HAVE_PEER_PUBL_KEY)
          (set_peer_publ_key key cb) in
      st r = cb' /\ tr r = tr (smp_wait_for_both_public_keys cb')).
Proof.
  intros Hok key r same_x.
  assert (Hr : r =
    (if same_x then auth_cmpl SMP_PAIR_AUTH_FAIL
     else if negb (ECC_ValidatePoint key) then auth_cmpl SMP_PAIR_AUTH_FAIL
     else fun c =>
       smp_wait_for_both_public_keys
         (set_flags (Z.lor (flags c) SMP_PAIR_FLAG_HAVE_PEER_PUBL_KEY) c))
      (set_peer_publ_key key cb)).
  { subst r. unfold smp_process_pairing_public_key. cbv zeta.
    act_step. rewrite Hok. do 3 act_step. reflexivity. }
  assert (Hw : forall c, st (smp_wait_for_both_public_keys c) = c).
  { intros c. unfold smp_wait_for_both_public_keys. act_step.
    act_cases; reflexivity. }
  split.
  { rewrite Hr. destruct same_x; [reflexivity|].
    destruct (ECC_ValidatePoint key); cbn [negb]; [|reflexivity].
    rewrite Hw. reflexivity. }
  split.
  { intros Hlen. unfold same_x.
    assert (Hk : length (x key) = 32%nat)
      by apply (stream_to_array_length (data_p_data p_data) 0 32).
    change BT_OCTET32_LEN with (Z.of_nat 32). rewrite <- Hk.
    apply memcmp_eq_iff. rewrite Hk. symmetry. exact Hlen. }
  split.
  { intros [Hs|Hv]; rewrite Hr.
    - rewrite Hs. split; reflexivity.
    - destruct same_x; [split; reflexivity|]. rewrite Hv.
      split; reflexivity. }
  intros Hs Hv cb'. rewrite Hr, Hs, Hv. cbn [negb].
  rewrite Hw. split; reflexivity.
Qed.

(** *** smp_proc_pair_cmd and smp_process_io_response *)


Lemma pts_test_st cb :
  st (pts_test_send_authentication_complete_failure cb) = cb.
Proof.
  unfold pts_test_send_authentication_complete_failure. act_step.
  destruct (_ || _); reflexivity.
Qed.

Lemma pts_test_false_tr cb :
  val (pts_test_send_authentication_complete_failure cb) = false ->
  tr (pts_test_send_authentication_complete_failure cb) = [].
Proof.
  unfold pts_test_send_authentication_complete_failure. act_step.
  destruct (_ || _); [discriminate | reflexivity].
Qed.


(** [smp_proc_pair_cmd] from its first statement to the test of the role,
    for a well-formed command and no forced test failure. *)
Lemma smp_proc_pair_cmd_head p_data cb :
  let cb1 := pair_cmd_parsed (data_p_data p_data) cb in
  smp_command_has_invalid_length (pair_cmd_flagged cb) = false ->
  smp_command_has_invalid_parameters cb1 = false ->
  val (pts_test_send_authentication_complete_failure cb1) = false ->
  smp_proc_pair_cmd p_data cb
  = prepend (clear_keys_trace cb) (proc_pair_cmd_by_role cb1).
Proof.
  intros cb1 Hlen Hpar Hpts.
  unfold smp_proc_pair_cmd. cbv zeta. act_step.
  rewrite run_bind.
  assert (Hhead : forall m : act unit,
    m = (match btm_find_dev (pairing_bda cb) with
         | Some dev =>
             if role cb =? HCI_ROLE_SLAVE
             then call (Call_btm_sec_clear_ble_keys dev) else ret tt
         | None => ret tt
         end) ->
    tr (m cb) = clear_keys_trace cb /\ st (m cb) = cb).
  { intros m ->. unfold clear_keys_trace.
    destruct (btm_find_dev (pairing_bda cb));
      [destruct (role cb =? HCI_ROLE_SLAVE)|]; split; reflexivity. }
  destruct (Hhead _ eq_refl) as [-> ->]. clear Hhead. cbv beta.
  do 2 act_step. fold (pair_cmd_flagged cb). rewrite Hlen.
  do 7 act_step.
  change (set_peer_r_key _ _) with cb1.
  rewrite Hpar. rewrite run_bind, (pts_test_st cb1), Hpts,
    (pts_test_false_tr cb1 Hpts), prepend_nil.
  reflexivity.
Qed.











End Actions.

(** C7 as the design document states it does not hold: a responder in Secure
    Connections mode whose masks were negotiated down to the identity key
    (ID = 2 on both sides, no ENC, no LK) leaves [smp_check_auth_req] with
    ENC set in both masks, so the action does not keep the masks inside the
    negotiated sets. *)
Lemma smp_check_auth_req_adds_ENC :
  let E := run_env true SMP_MODEL_SEC_CONN_NUM_COMP false true in
  let cb' := st (@smp_check_auth_req E (Int_status 1) cb_sc_id_only) in
  masks_within 2 2 cb_sc_id_only
  /\ local_i_key cb' = 3 /\ local_r_key cb' = 3
  /\ ~ masks_within 2 2 cb'
  /\ ~ preserves_masks (@smp_check_auth_req E (Int_status 1)).
Proof.
  cbv zeta.
  assert (Hpre : masks_within 2 2 cb_sc_id_only) by (split; reflexivity).
  assert (Hpost : ~ masks_within 2 2
                     (st (@smp_check_auth_req
                            (run_env true SMP_MODEL_SEC_CONN_NUM_COMP
                               false true)
                            (Int_status 1) cb_sc_id_only))).
  { intros [Hi _]. vm_compute in Hi. discriminate. }
  split; [exact Hpre|].
  split; [reflexivity|]. split; [reflexivity|].
  split; [exact Hpost|].
  intros Hp. exact (Hpost (Hp 2 2 cb_sc_id_only Hpre)).
Qed.


(** A peer key that is not on the curve. *)
Lemma smp_process_pairing_public_key_checks_witness :
  let E := run_env true SMP_MODEL_SEC_CONN_NUM_COMP false false in
  let r := @smp_process_pairing_public_key E (Int_p_data (repeat 1 64))
             (cb_init HCI_ROLE_SLAVE false) in
  tr r = [Call_smp_sm_event SMP_AUTH_CMPL_EVT (Some (Int_status 3))]
  /\ flags (st r) = 0.
Proof.
  cbv zeta.
  refine (proj1 (proj2 (proj2 (@smp_process_pairing_public_key_checks
            (run_env true SMP_MODEL_SEC_CONN_NUM_COMP false false)
            (Int_p_data (repeat 1 64))
            (cb_init HCI_ROLE_SLAVE false) _))) _).
  - reflexivity.
  - right. reflexivity.
Defined.

Lemma smp_key_masks_updates_witness :
  let cb' := st (smp_update_key_mask SMP_SEC_KEY_TYPE_ENC false
                   cb_sc_id_only) in
  Z.land (local_i_key cb') SMP_SEC_KEY_TYPE_ENC = 0
  /\ Z.land (local_r_key cb') SMP_SEC_KEY_TYPE_ENC = 0.
Proof.
  cbv zeta.
  refine (proj1 (proj2 (@smp_key_masks_updates
            (run_env true SMP_MODEL_SEC_CONN_NUM_COMP false true)))
            SMP_SEC_KEY_TYPE_ENC false cb_sc_id_only _ _).
  - left. reflexivity.
  - left. reflexivity.
Defined.

Lemma smp_proc_pair_fail_no_reply_witness :
  status (st (@smp_proc_pair_fail (run_env false SMP_MODEL_ENCRYPTION_ONLY
                                     false true)
                (Int_status 5)
                (set_rcvd_len_1 (cb_init HCI_ROLE_SLAVE false)))) = 10.
Proof.
  refine (proj1 (@smp_proc_pair_fail_no_reply
                   (run_env false SMP_MODEL_ENCRYPTION_ONLY false true)
                   (Int_status 5)
                   (set_rcvd_len_1 (cb_init HCI_ROLE_SLAVE false))) _).
  vm_compute. reflexivity.
Defined.

End SmpProofs.

(** ** AVDTP signalling: properties *)

Module AvdtProofs.
Import Bt Avdt.

Section Codec.
Context `{E : Env}.

Lemma first_bad_spec buf todo : forall i,
  match first_bad buf todo i with
  | Some j =>
      (i <= j < i + todo)%nat
      /\ bad_seid (sep_seid (disc_entry buf j)) = true
      /\ forall l, (i <= l < j)%nat ->
                   bad_seid (sep_seid (disc_entry buf l)) = false
  | None =>
      forall l, (i <= l < i + todo)%nat ->
                bad_seid (sep_seid (disc_entry buf l)) = false
  end.
Proof.
  induction todo as [|k IH]; intros i; cbn [first_bad].
  - intros l Hl. lia.
  - destruct (bad_seid (sep_seid (disc_entry buf i))) eqn:Hb.
    + split; [lia|]. split; [exact Hb|]. intros l Hl. lia.
    + specialize (IH (S i)).
      destruct (first_bad buf k (S i)) as [j|].
      * destruct IH as (Hj & Hbad & Hgood).
        split; [lia|]. split; [exact Hbad|].
        intros l Hl. destruct (Nat.eq_dec l i) as [->|Hne]; [exact Hb|].
        apply Hgood. lia.
      * intros l Hl. destruct (Nat.eq_dec l i) as [->|Hne]; [exact Hb|].
        apply IH. lia.
Qed.

(** The loop writes the entries from [i] up to the first bad one (or all
    [todo] of them), nothing else, and reports whether it met a bad one. *)
Lemma prs_discover_loop_spec buf todo : forall i info,
  (i + todo <= length info)%nat ->
  let r := prs_discover_loop todo i buf info in
  let k := match first_bad buf todo i with
           | Some j => S j
           | None => (i + todo)%nat
           end in
  snd r = match first_bad buf todo i with
          | Some _ => AVDT_ERR_SEID
          | None => 0
          end
  /\ length (fst r) = length info
  /\ (forall l, (i <= l < k)%nat -> fst r !! l = Some (disc_entry buf l))
  /\ (forall l, (l < i \/ k <= l)%nat -> fst r !! l = info !! l).
Proof.
  induction todo as [|n IH]; intros i info Hlen; cbn [prs_discover_loop first_bad].
  - cbn [fst snd]. split; [reflexivity|]. split; [reflexivity|].
    split; intros l Hl; [lia|reflexivity].
  - assert (Hi : (i < length info)%nat) by lia.
    destruct (bad_seid (sep_seid (disc_entry buf i))) eqn:Hb.
    + cbn [fst snd]. split; [reflexivity|].
      split; [apply length_insert|]. split.
      * intros l Hl. assert (l = i) by lia. subst l.
        apply list_lookup_insert_eq. exact Hi.
      * intros l Hl. apply list_lookup_insert_ne. lia.
    + specialize (IH (S i) (<[i := disc_entry buf i]> info)).
      rewrite length_insert in IH. specialize (IH ltac:(lia)).
      cbv zeta in IH. destruct IH as (He & Hl & Hw & Ho).
      pose proof (first_bad_spec buf n (S i)) as Hfb.
      split; [exact He|]. split; [exact Hl|]. split.
      * intros l Hlk. destruct (Nat.eq_dec l i) as [->|Hne].
        -- rewrite Ho.
           ++ apply list_lookup_insert_eq. exact Hi.
           ++ left. lia.
        -- apply Hw. destruct (first_bad buf n (S i)); lia.
      * intros l Hlk. rewrite Ho.
        -- apply list_lookup_insert_ne.
           destruct (first_bad buf n (S i)) as [j|];
             [destruct Hfb as (Hj & _)|]; lia.
        -- destruct (first_bad buf n (S i)); lia.
Qed.

(** Every turn that does not leave the loop consumes the two bytes of the
    element header at least. *)
Lemma prs_cfg_body_advances buf p_end sig s s' :
  prs_cfg_body buf p_end sig s = (s', false) -> p s + 2 <= p s'.
Proof.
  unfold prs_cfg_body.
  pose proof (Z.mod_pos_bound (rd buf (p s + 1)) 256 ltac:(lia)) as Hel.
  fold (u8 (rd buf (p s + 1))) in Hel.
  set (el := u8 (rd buf (p s + 1))) in *.
  destruct (p_end - p s <? AVDT_LEN_CFG_MIN); [discriminate|].
  cbv zeta. cbn [cfg p elem err protect_offset].
  destruct (unknown_category _).
  { destruct (is_config_sig sig); [discriminate|].
    intros [= <-]. cbn [p]. lia. }
  destruct (_ || _); [discriminate|].
  intros [= <-].
  repeat match goal with
         | |- context [if ?c then _ else _] => destruct c
         end;
    unfold prs_cfg_recov, prs_cfg_protect, prs_cfg_hdrcmp, prs_cfg_codec;
    cbn [cfg p elem err protect_offset];
    repeat match goal with
           | |- context [if ?c then _ else _] => destruct c
           end; cbn [p]; lia.
Qed.

(** With as many turns allowed as bytes are left the loop runs to its end,
    and allowing more changes nothing. *)
Lemma prs_cfg_loop_done buf p_end sig : forall m f s,
  (Z.to_nat (p_end - p s) <= m)%nat -> (m <= f)%nat ->
  exists r, prs_cfg_loop f buf p_end sig s = Done r
            /\ prs_cfg_loop m buf p_end sig s = Done r.
Proof.
  induction m as [|m IH]; intros f s Hm Hf.
  - assert (Hp : (p s <? p_end) = false) by (apply Z.ltb_ge; lia).
    exists s. destruct f; cbn [prs_cfg_loop]; rewrite Hp; split; reflexivity.
  - destruct f as [|f]; [lia|]. cbn [prs_cfg_loop].
    destruct ((p s <? p_end) && (err s =? 0)) eqn:Ht;
      [|exists s; split; reflexivity].
    destruct (prs_cfg_body buf p_end sig s) as [s' brk] eqn:Hb.
    destruct brk; [exists s'; split; reflexivity|].
    apply prs_cfg_body_advances in Hb.
    apply IH; lia.
Qed.

Lemma prs_cfg_turns_advance buf p_end sig : forall n s s',
  prs_cfg_turns n buf p_end sig s = Some s' -> p s + 2 * Z.of_nat n <= p s'.
Proof.
  induction n as [|n IH]; intros s s'; cbn [prs_cfg_turns].
  - intros [= ->]. lia.
  - destruct ((p s <? p_end) && (err s =? 0)); [|discriminate].
    destruct (prs_cfg_body buf p_end sig s) as [s1 brk] eqn:Hb.
    destruct brk; [discriminate|]. intros Ht.
    apply prs_cfg_body_advances in Hb. apply IH in Ht. lia.
Qed.

Lemma prs_cfg_turns_loop buf p_end sig f : forall n s s',
  prs_cfg_turns n buf p_end sig s = Some s' ->
  prs_cfg_loop (n + f) buf p_end sig s = prs_cfg_loop f buf p_end sig s'.
Proof.
  induction n as [|n IH]; intros s s'; cbn [prs_cfg_turns].
  - intros [= ->]. reflexivity.
  - cbn [Nat.add prs_cfg_loop].
    destruct ((p s <? p_end) && (err s =? 0)); [|discriminate].
    destruct (prs_cfg_body buf p_end sig s) as [s1 brk].
    destruct brk; [discriminate|]. apply IH.
Qed.

Lemma prs_cfg_turns_app buf p_end sig m : forall n s s',
  prs_cfg_turns n buf p_end sig s = Some s' ->
  prs_cfg_turns (n + m) buf p_end sig s = prs_cfg_turns m buf p_end sig s'.
Proof.
  induction n as [|n IH]; intros s s'; cbn [prs_cfg_turns].
  - intros [= ->]. reflexivity.
  - cbn [Nat.add prs_cfg_turns].
    destruct ((p s <? p_end) && (err s =? 0)); [|discriminate].
    destruct (prs_cfg_body buf p_end sig s) as [s1 brk].
    destruct brk; [discriminate|]. apply IH.
Qed.

(** The loop of [avdt_msg_prs_cfg] picked up after [n] turns. *)
Lemma avdt_msg_prs_cfg_resume c buf len sig n s :
  prs_cfg_turns n buf len sig (prs_cfg_init c) = Some s ->
  avdt_msg_prs_cfg (Some c) buf len sig
  = prs_cfg_finish (prs_cfg_loop (Z.to_nat len) buf len sig s).
Proof.
  intros Ht. unfold avdt_msg_prs_cfg. f_equal.
  pose proof (prs_cfg_turns_advance _ _ _ _ _ _ Ht) as Hadv.
  destruct (prs_cfg_loop_done buf len sig (Z.to_nat len)
              (n + Z.to_nat len) (prs_cfg_init c)) as (r & Hbig & Hsmall);
    [cbn [prs_cfg_init p]; lia | lia |].
  rewrite Hsmall, <- Hbig. apply prs_cfg_turns_loop. exact Ht.
Qed.

Lemma avdt_msg_prs_cfg_returns p_cfg buf len sig :
  exists r, avdt_msg_prs_cfg p_cfg buf len sig = Done r.
Proof.
  destruct p_cfg as [c|]; cbn [avdt_msg_prs_cfg]; [|eexists; reflexivity].
  destruct (prs_cfg_loop_done buf len sig (Z.to_nat len) (Z.to_nat len)
              (prs_cfg_init c)) as (r & Hr & _);
    [cbn [prs_cfg_init p]; lia | lia |].
  rewrite Hr. eexists. reflexivity.
Qed.

(** C5.  An information element of category 0 or above the last known one,
    met by [avdt_msg_prs_cfg] after [n] turns of its loop: inside Set
    Configuration or Reconfigure the function stops there and returns
    [AVDT_ERR_CATEGORY], the category in [*p_elem] and the configuration as
    parsed so far; inside any other signal the turn skips the element (two
    bytes of header and [elem_len] of payload), sets no error, leaves the
    configuration alone, and the function goes on from the byte after the
    element and returns. *)
Theorem avdt_msg_prs_cfg_unknown_category c buf len sig n s :
  prs_cfg_turns n buf len sig (prs_cfg_init c) = Some s ->
  p s < len -> err s = 0 ->
  AVDT_LEN_CFG_MIN <= len - p s ->
  let e := u8 (rd buf (p s)) in
  let elem_len := u8 (rd buf (p s + 1)) in
  unknown_category e = true ->
  if is_config_sig sig then
    avdt_msg_prs_cfg (Some c) buf len sig
    = Done (mkPrsRes (Some (cfg s)) (Some e) AVDT_ERR_CATEGORY)
  else
    let s' := mkPrs (cfg s) (p s + 2 + elem_len) e 0 (protect_offset s) in
    prs_cfg_turns (S n) buf len sig (prs_cfg_init c) = Some s'
    /\ avdt_msg_prs_cfg (Some c) buf len sig
       = prs_cfg_finish (prs_cfg_loop (Z.to_nat len) buf len sig s')
    /\ exists r, avdt_msg_prs_cfg (Some c) buf len sig = Done r.
Proof.
  intros Ht Hp He Hmin e elem_len Hunk.
  pose proof (prs_cfg_turns_advance _ _ _ _ _ _ Ht) as Hadv.
  cbn [prs_cfg_init p] in Hadv.
  assert (Htest : (p s <? len) && (err s =? 0) = true).
  { rewrite He. apply andb_true_intro. split; [apply Z.ltb_lt; lia|reflexivity]. }
  assert (Hfit : (len - p s <? AVDT_LEN_CFG_MIN) = false)
    by (apply Z.ltb_ge; lia).
  destruct (is_config_sig sig) eqn:Hsig.
  - rewrite (avdt_msg_prs_cfg_resume c buf len sig n s Ht).
    destruct (Z.to_nat len) as [|f] eqn:Hf; [lia|].
    cbn [prs_cfg_loop]. rewrite Htest. unfold prs_cfg_body.
    rewrite Hfit. cbv zeta. fold e. rewrite Hunk, Hsig.
    reflexivity.
  - intros s'.
    assert (Hone : prs_cfg_turns 1 buf len sig s = Some s').
    { cbn [prs_cfg_turns]. rewrite Htest. unfold prs_cfg_body.
      rewrite Hfit. cbv zeta. fold e. rewrite Hunk, Hsig.
      cbn [cfg p elem err protect_offset]. fold elem_len.
      subst s'. rewrite He. reflexivity. }
    assert (Hnext : prs_cfg_turns (S n) buf len sig (prs_cfg_init c) = Some s').
    { replace (S n) with (n + 1)%nat by lia.
      rewrite (prs_cfg_turns_app buf len sig 1 n _ s Ht). exact Hone. }
    split; [exact Hnext|]. split.
    + apply (avdt_msg_prs_cfg_resume c buf len sig (S n) s' Hnext).
    + apply avdt_msg_prs_cfg_returns.
Qed.

(** C9.  [avdt_msg_prs_discover_rsp] with room for [num_seps] entries and
    [len] bytes of response: it parses entries 0, 1, ... and stops behind
    the first one whose SEID is outside 1..62, or after
    [min(num_seps, len / 2)] entries when there is none.  So the [k] entries
    it writes are at most [min(num_seps, len / 2)], entry [i < k] is the
    [i]-th pair of bytes, the entries from [k] on are untouched, [num_seps]
    becomes the minimum, and the result is [AVDT_ERR_SEID] when a parsed
    entry has a bad SEID (the last one parsed, and no earlier one) and 0
    when none has. *)
Theorem avdt_msg_prs_discover_rsp_entries d buf len :
  0 <= len ->
  0 <= num_seps d < 256 ->
  (Z.to_nat (num_seps d) <= length (p_sep_info d))%nat ->
  let n := Z.min (num_seps d) (len / 2) in
  let bad := first_bad buf (Z.to_nat n) 0 in
  let k := match bad with Some j => S j | None => Z.to_nat n end in
  let r := avdt_msg_prs_discover_rsp d buf len in
  Z.of_nat k <= n
  /\ num_seps (fst r) = n
  /\ (forall i, (i < k)%nat ->
        p_sep_info (fst r) !! i = Some (disc_entry buf i))
  /\ (forall i, (k <= i)%nat -> p_sep_info (fst r) !! i = p_sep_info d !! i)
  /\ snd r = match bad with Some _ => AVDT_ERR_SEID | None => 0 end
  /\ match bad with
     | Some j =>
         bad_seid (sep_seid (disc_entry buf j)) = true
         /\ forall i, (i < j)%nat ->
                      bad_seid (sep_seid (disc_entry buf i)) = false
     | None =>
         forall i, (i < k)%nat ->
                   bad_seid (sep_seid (disc_entry buf i)) = false
     end.
Proof.
  intros Hlen Hnum Hcap n bad k r.
  assert (Hhalf : 0 <= len / 2) by (apply Z.div_pos; lia).
  assert (Hn : (if num_seps d >? len / 2 then u8 (len / 2) else num_seps d)
               = n).
  { subst n. destruct (Z.gtb_spec (num_seps d) (len / 2)) as [Hgt|Hle].
    - unfold u8. rewrite Z.mod_small by lia. lia.
    - lia. }
  assert (Hr : r = (mkDISCOVER
                      (fst (prs_discover_loop (Z.to_nat n) 0 buf
                              (p_sep_info d))) n,
                    snd (prs_discover_loop (Z.to_nat n) 0 buf
                           (p_sep_info d)))).
  { subst r. unfold avdt_msg_prs_discover_rsp. cbv zeta. rewrite Hn.
    destruct (prs_discover_loop (Z.to_nat n) 0 buf (p_sep_info d)).
    reflexivity. }
  destruct (prs_discover_loop_spec buf (Z.to_nat n) 0%nat (p_sep_info d))
    as (He & _ & Hw & Ho); [subst n; lia|].
  pose proof (first_bad_spec buf (Z.to_nat n) 0%nat) as Hfb.
  fold bad in He, Hw, Ho, Hfb. rewrite Hr. cbn [fst snd num_seps p_sep_info].
  assert (Hk : match bad with Some j => S j | None => (0 + Z.to_nat n)%nat end
               = k) by reflexivity.
  rewrite Hk in Hw, Ho. clear Hk.
  split.
  { subst k. destruct bad as [j|]; [destruct Hfb as (Hj & _)|]; subst n; lia. }
  split; [reflexivity|]. split.
  { intros i Hi. apply Hw. lia. }
  split.
  { intros i Hi. apply Ho. right. exact Hi. }
  split; [exact He|].
  subst k. destruct bad as [j|].
  - destruct Hfb as (_ & Hb & Hg). split; [exact Hb|].
    intros i Hi. apply Hg. lia.
  - intros i Hi. apply Hfb. lia.
Qed.

End Codec.

Section Engine.
Context `{E : Env}.

Lemma u8_idem x : u8 (u8 x) = u8 x.
Proof. unfold u8. apply Z.mod_mod. lia. Qed.

Lemma u16_small x : 0 <= x < 65536 -> u16 x = x.
Proof. intros H. unfold u16. apply Z.mod_small. exact H. Qed.

Lemma length_wr d i v : length (wr d i v) = length d.
Proof. unfold wr. destruct (i <? 0); [reflexivity|apply length_insert]. Qed.

Lemma length_memcpy_nat src n : forall dst doff soff,
  length (memcpy_nat dst doff src soff n) = length dst.
Proof.
  induction n as [|n IH]; intros dst doff soff; cbn [memcpy_nat].
  - reflexivity.
  - rewrite IH. apply length_wr.
Qed.

Lemma length_memcpy dst doff src soff n :
  length (memcpy dst doff src soff n) = length dst.
Proof. apply length_memcpy_nat. Qed.

Lemma rd_wr_eq d i v :
  0 <= i -> (Z.to_nat i < length d)%nat -> rd (wr d i v) i = u8 v.
Proof.
  intros Hi Hlen. unfold rd, wr.
  assert (Hneg : (i <? 0) = false) by (apply Z.ltb_ge; lia).
  rewrite Hneg. rewrite list_lookup_insert_eq by exact Hlen. reflexivity.
Qed.

Lemma rd_wr_ne d i j v : 0 <= i -> 0 <= j -> i <> j ->
  rd (wr d i v) j = rd d j.
Proof.
  intros Hi Hj Hne. unfold rd, wr.
  assert (Hni : (i <? 0) = false) by (apply Z.ltb_ge; lia).
  assert (Hnj : (j <? 0) = false) by (apply Z.ltb_ge; lia).
  rewrite Hni, Hnj. rewrite list_lookup_insert_ne by lia. reflexivity.
Qed.

(** The header [build_header] writes in front of a START fragment. *)
Lemma build_header_start frag label msg nosp sig :
  3 <= offset frag < 65536 ->
  (Z.to_nat (offset frag) <= length (data frag))%nat ->
  let sent := build_header frag AVDT_LEN_TYPE_START label AVDT_PKT_TYPE_START
                msg nosp sig in
  offset sent = offset frag - 3
  /\ len sent = u16 (len frag + 3)
  /\ rd (data sent) (offset sent) = bld_hdr label AVDT_PKT_TYPE_START msg
  /\ rd (data sent) (offset sent + 1) = u8 nosp
  /\ rd (data sent) (offset sent + 2) = u8 sig.
Proof.
  intros Hoff Hlen sent. subst sent. unfold build_header.
  change (AVDT_PKT_TYPE_START =? AVDT_PKT_TYPE_START) with true.
  cbv zeta. cbn [orb]. unfold AVDT_LEN_TYPE_START.
  cbn [set_data set_offset set_len offset len data].
  rewrite (u16_small (offset frag - 3)) by lia.
  set (p0 := offset frag - 3).
  split; [reflexivity|]. split; [reflexivity|].
  assert (Hp0 : 0 <= p0) by (subst p0; lia).
  assert (Hin : (Z.to_nat (p0 + 2) < length (data frag))%nat)
    by (subst p0; lia).
  split; [|split].
  - rewrite rd_wr_ne by lia. rewrite rd_wr_ne by lia.
    rewrite rd_wr_eq by lia. unfold bld_hdr. apply u8_idem.
  - rewrite rd_wr_ne by lia. apply rd_wr_eq; [lia|].
    rewrite length_wr. lia.
  - replace (p0 + 2) with (p0 + 2) by reflexivity.
    apply rd_wr_eq; [lia|]. rewrite !length_wr. lia.
Qed.

(** One turn of the loop of [avdt_msg_send] goes through, and shortens the
    current message or finishes it. *)
Lemma send_body_progress mtu m s :
  4 <= mtu < 65536 ->
  curr_msg_len s = len m -> 0 <= len m < 65536 ->
  exists s', send_body mtu m s = Done s'
    /\ (exists e, s_eff s' = s_eff s ++ e)
    /\ match p_curr_msg (s_ccb s') with
       | Some m' => curr_msg_len s' = len m' /\ 0 <= len m' < len m
       | None => True
       end.
Proof.
  intros Hmtu Hcml Hlen. unfold send_body.
  unfold AVDT_LEN_TYPE_SINGLE, AVDT_LEN_TYPE_START, AVDT_LEN_TYPE_CONT,
    AVDT_LEN_TYPE_END.
  assert (Hdiv : (mtu - 1 =? 0) = false) by (apply Z.eqb_neq; lia).
  rewrite Hdiv, Hcml.
  assert (Hzero : u16 (len m - len m) = 0)
    by (rewrite Z.sub_diag; reflexivity).
  destruct (offset m =? AVDT_MSG_OFFSET) eqn:Hunf; cbn [andb].
  - destruct (Z.leb_spec (len m) (mtu - 2)) as [Hfit|Hbig].
    + (* SINGLE *)
      cbv zeta. cbv beta iota. rewrite Hzero.
      change (0 =? 0) with true. cbv iota.
      eexists. split; [reflexivity|]. cbn [s_eff s_ccb].
      split; [eexists; reflexivity|].
      cbn [set_cong set_p_curr_msg p_curr_msg]. exact I.
    + (* START *)
      assert (Hgt : (len m >? mtu - 2) = true) by (apply Z.gtb_lt; lia).
      rewrite Hgt. cbv zeta. cbv beta iota.
      unfold new_fragment. cbn [len offset].
      rewrite (u16_small (mtu - 3)) by lia.
      rewrite (u16_small (len m - (mtu - 3))) by lia.
      assert (Hne : (len m - (mtu - 3) =? 0) = false)
        by (apply Z.eqb_neq; lia).
      rewrite Hne. cbv iota.
      eexists. split; [reflexivity|]. cbn [s_eff s_ccb curr_msg_len].
      split; [eexists; reflexivity|].
      cbn [set_cong set_p_curr_msg p_curr_msg set_offset set_len len].
      lia.
  - destruct ((offset m >? AVDT_MSG_OFFSET) && (len m >? mtu - 1)) eqn:Hcont.
    + (* CONT *)
      apply andb_true_iff in Hcont. destruct Hcont as [_ Hgt].
      apply Z.gtb_lt in Hgt.
      cbv zeta. cbv beta iota.
      unfold new_fragment. cbn [len offset].
      rewrite (u16_small (mtu - 1)) by lia.
      rewrite (u16_small (len m - (mtu - 1))) by lia.
      assert (Hne : (len m - (mtu - 1) =? 0) = false)
        by (apply Z.eqb_neq; lia).
      rewrite Hne. cbv iota.
      eexists. split; [reflexivity|]. cbn [s_eff s_ccb curr_msg_len].
      split; [eexists; reflexivity|].
      cbn [set_cong set_p_curr_msg p_curr_msg set_offset set_len len].
      lia.
    + (* END *)
      cbv zeta. cbv beta iota. rewrite Hzero.
      change (0 =? 0) with true. cbv iota.
      eexists. split; [reflexivity|]. cbn [s_eff s_ccb].
      split; [eexists; reflexivity|].
      cbn [set_cong set_p_curr_msg p_curr_msg]. exact I.
Qed.

(** The loop of [avdt_msg_send] ends, whatever the congestion flag does, and
    only adds to the calls made so far. *)
Lemma send_loop_terminates mtu :
  4 <= mtu < 65536 ->
  forall n s, send_inv s -> (send_measure s <= n)%nat ->
  exists s', (forall fuel, (n <= fuel)%nat ->
                           send_loop fuel mtu s = Done s')
             /\ exists e, s_eff s' = s_eff s ++ e.
Proof.
  intros Hmtu. induction n as [|n IH]; intros s Hinv Hmeas.
  - exists s. split; [|exists []; symmetry; apply app_nil_r].
    intros fuel _. unfold send_measure in Hmeas.
    destruct fuel; cbn [send_loop]; destruct (cong (s_ccb s)); try reflexivity;
      destruct (p_curr_msg (s_ccb s)); try reflexivity; lia.
  - destruct (cong (s_ccb s)) eqn:Hcong.
    { exists s. split; [|exists []; symmetry; apply app_nil_r].
      intros fuel _. destruct fuel; cbn [send_loop]; rewrite Hcong;
        reflexivity. }
    unfold send_inv, send_measure in Hinv, Hmeas.
    destruct (p_curr_msg (s_ccb s)) as [m|] eqn:Hcur.
    2:{ exists s. split; [|exists []; symmetry; apply app_nil_r].
        intros fuel _. destruct fuel; cbn [send_loop]; rewrite Hcong, Hcur;
          reflexivity. }
    destruct Hinv as [Hcml Hlen].
    destruct (send_body_progress mtu m s Hmtu Hcml Hlen)
      as (s1 & Hbody & [e1 He1] & Hnext).
    destruct (IH s1) as (s' & Hrun & [e2 He2]).
    { unfold send_inv. destruct (p_curr_msg (s_ccb s1)); [|exact I]. lia. }
    { unfold send_measure. destruct (p_curr_msg (s_ccb s1)); lia. }
    exists s'. split.
    + intros fuel Hfuel. destruct fuel as [|fuel]; [lia|].
      cbn [send_loop]. rewrite Hcong, Hcur, Hbody. apply Hrun. lia.
    + exists (e1 ++ e2). rewrite He2, He1. symmetry. apply app_assoc.
Qed.

(** The turn of the loop that starts a fragmented message: one call, the
    write of the START fragment, and a shorter current message. *)
Lemma send_body_start mtu m s :
  4 <= mtu < 65536 ->
  offset m = AVDT_MSG_OFFSET ->
  mtu - 2 < len m < 65536 ->
  curr_msg_len s = len m ->
  exists s', send_body mtu m s = Done s'
    /\ s_eff s' = s_eff s ++
         [Call_avdt_ad_write_req
            (build_header (new_fragment m mtu AVDT_LEN_TYPE_START)
               AVDT_LEN_TYPE_START (AVDT_LAYERSPEC_LABEL (layer_specific m))
               AVDT_PKT_TYPE_START (AVDT_LAYERSPEC_MSG (layer_specific m))
               (start_nosp (len m) mtu) (u8 (event m)))]
    /\ send_inv s'
    /\ (send_measure s' <= Z.to_nat (len m))%nat.
Proof.
  intros Hmtu Hoff Hlen Hcml. unfold send_body.
  assert (Hunf : (offset m =? AVDT_MSG_OFFSET) = true)
    by (apply Z.eqb_eq; exact Hoff).
  assert (Hfit : (len m <=? mtu - AVDT_LEN_TYPE_SINGLE) = false)
    by (apply Z.leb_gt; unfold AVDT_LEN_TYPE_SINGLE; lia).
  assert (Hgt : (len m >? mtu - AVDT_LEN_TYPE_SINGLE) = true)
    by (apply Z.gtb_lt; unfold AVDT_LEN_TYPE_SINGLE; lia).
  assert (Hdiv : (mtu - 1 =? 0) = false) by (apply Z.eqb_neq; lia).
  rewrite Hunf, Hfit, Hgt, Hdiv, Hcml. cbn [andb].
  cbv zeta. cbv beta iota.
  assert (Hfrag : len (new_fragment m mtu AVDT_LEN_TYPE_START) = mtu - 3).
  { unfold new_fragment. cbn [len]. unfold AVDT_LEN_TYPE_START.
    apply u16_small. lia. }
  rewrite Hfrag.
  rewrite (u16_small (len m - (mtu - 3))) by lia.
  assert (Hne : (len m - (mtu - 3) =? 0) = false) by (apply Z.eqb_neq; lia).
  rewrite Hne. cbv iota.
  eexists. split; [reflexivity|]. cbn [s_eff s_ccb curr_msg_len app].
  split; [reflexivity|].
  unfold send_inv, send_measure.
  cbn [s_ccb curr_msg_len set_cong set_p_curr_msg p_curr_msg set_offset
         set_len len].
  split; [split; [reflexivity|lia]|lia].
Qed.

Lemma start_nosp_div len mtu :
  2 <= mtu -> mtu - 2 < len ->
  start_nosp len mtu = ((len + 2) / (mtu - 1) + 1) mod 256.
Proof.
  intros Hmtu Hlen. unfold start_nosp, u8, AVDT_LEN_TYPE_START.
  rewrite Z.quot_div_nonneg by lia.
  replace (len + 3 - mtu) with (len + 2 + (-1) * (mtu - 1)) by lia.
  rewrite Z.div_add by lia. f_equal. lia.
Qed.

(** C2, in the form that holds. A message that has not been fragmented yet
    and is longer than [peer_mtu - 2]: [avdt_msg_send] returns, and the
    first thing it hands to [avdt_ad_write_req] is a packet of [peer_mtu]
    bytes whose first byte is the header of a START packet and whose second
    byte, the number of signal packets, is [(len + AVDT_LEN_TYPE_START -
    peer_mtu) / (peer_mtu - 1) + 2] in 8 bits, that is [(len + 2) /
    (peer_mtu - 1) + 1] with the division rounding down. *)
Theorem avdt_msg_send_start_nosp ccb m :
  let mtu := sig_peer_mtu ccb in
  cong ccb = false ->
  offset m = AVDT_MSG_OFFSET ->
  4 <= mtu < 65536 ->
  mtu - AVDT_LEN_TYPE_SINGLE < len m < 65536 ->
  0 <= L2CAP_MIN_OFFSET < 65533 ->
  L2CAP_MIN_OFFSET + 3 + sizeof_BT_HDR <= AVDT_CMD_BUF_SIZE ->
  exists sent rest ccb' flag,
    (forall fuel, (Z.to_nat (len m) < fuel)%nat ->
       avdt_msg_send fuel ccb (Some m)
       = Done (ccb', Call_avdt_ad_write_req sent :: rest, flag))
    /\ rd (data sent) (offset sent)
       = bld_hdr (AVDT_LAYERSPEC_LABEL (layer_specific m)) AVDT_PKT_TYPE_START
           (AVDT_LAYERSPEC_MSG (layer_specific m))
    /\ rd (data sent) (offset sent + 1) = start_nosp (len m) mtu
    /\ start_nosp (len m) mtu = ((len m + 2) / (mtu - 1) + 1) mod 256
    /\ len sent = mtu.
Proof.
  intros mtu Hcong Hoff Hmtu Hlen Hl2 Hbuf.
  unfold AVDT_LEN_TYPE_SINGLE in Hlen. unfold sizeof_BT_HDR in Hbuf.
  set (s0 := mkSend (set_p_curr_msg (Some m) ccb) (len m) 0 []).
  destruct (send_body_start mtu m s0 Hmtu Hoff Hlen eq_refl)
    as (s1 & Hbody & Heff & Hinv & Hmeas).
  destruct (send_loop_terminates mtu Hmtu (Z.to_nat (len m)) s1 Hinv Hmeas)
    as (s2 & Hrun & [e He]).
  set (frag := new_fragment m mtu AVDT_LEN_TYPE_START) in *.
  set (sent := build_header frag AVDT_LEN_TYPE_START
                 (AVDT_LAYERSPEC_LABEL (layer_specific m)) AVDT_PKT_TYPE_START
                 (AVDT_LAYERSPEC_MSG (layer_specific m))
                 (start_nosp (len m) mtu) (u8 (event m))) in *.
  exists sent, e, (s_ccb s2), (cong (s_ccb s2)).
  assert (Hfoff : offset frag = L2CAP_MIN_OFFSET + 3).
  { subst frag. unfold new_fragment. cbn [offset].
    unfold AVDT_LEN_TYPE_START. apply u16_small. lia. }
  assert (Hflen : len frag = mtu - 3).
  { subst frag. unfold new_fragment. cbn [len].
    unfold AVDT_LEN_TYPE_START. apply u16_small. lia. }
  assert (Hfdata : length (data frag)
                   = Z.to_nat (AVDT_CMD_BUF_SIZE - sizeof_BT_HDR)).
  { subst frag. unfold new_fragment. cbn [data].
    rewrite length_memcpy. unfold osi_malloc. cbn [data].
    apply repeat_length. }
  destruct (build_header_start frag
              (AVDT_LAYERSPEC_LABEL (layer_specific m))
              (AVDT_LAYERSPEC_MSG (layer_specific m))
              (start_nosp (len m) mtu) (u8 (event m)))
    as (_ & Hslen & Hb0 & Hb1 & _).
  { rewrite Hfoff. lia. }
  { rewrite Hfoff, Hfdata. unfold sizeof_BT_HDR. lia. }
  fold sent in Hslen, Hb0, Hb1.
  split; [|split; [exact Hb0|split; [|split]]].
  - intros fuel Hfuel. destruct fuel as [|fuel]; [lia|].
    unfold avdt_msg_send. fold mtu.
    cbn [set_p_curr_msg p_curr_msg]. fold s0.
    cbn [send_loop].
    assert (Hc0 : cong (s_ccb s0) = false) by exact Hcong.
    assert (Hp0 : p_curr_msg (s_ccb s0) = Some m) by reflexivity.
    rewrite Hc0, Hp0, Hbody.
    rewrite (Hrun fuel) by lia.
    rewrite He, Heff. reflexivity.
  - rewrite Hb1. unfold start_nosp. apply u8_idem.
  - apply start_nosp_div; lia.
  - rewrite Hslen, Hflen. replace (mtu - 3 + 3) with mtu by lia.
    apply u16_small. lia.
Qed.

(** *** avdt_msg_asmbl *)

Lemma avdt_msg_asmbl_short ccb b :
  too_short b = true ->
  avdt_msg_asmbl ccb b = (ccb, None, [Call_osi_free b]).
Proof.
  unfold too_short, avdt_msg_asmbl. destruct (len b <? 1); [reflexivity|].
  cbn [orb]. cbv zeta. intros ->. reflexivity.
Qed.

Lemma avdt_msg_asmbl_long ccb b :
  too_short b = false ->
  avdt_msg_asmbl ccb b =
  if pkt_type_of b =? AVDT_PKT_TYPE_SINGLE then
    (fst (free_rx ccb), Some b, snd (free_rx ccb))
  else if pkt_type_of b =? AVDT_PKT_TYPE_START then
    (fst (fst (asmbl_start (fst (free_rx ccb)) b)),
     snd (fst (asmbl_start (fst (free_rx ccb)) b)),
     snd (free_rx ccb) ++ snd (asmbl_start (fst (free_rx ccb)) b))
  else
    match p_rx_msg ccb with
    | None => (ccb, None, [Call_osi_free b])
    | Some rx => asmbl_append ccb rx b (pkt_type_of b)
    end.
Proof.
  unfold too_short, avdt_msg_asmbl. intros Hs.
  apply orb_false_iff in Hs. destruct Hs as [-> Hs]. cbv zeta. rewrite Hs.
  destruct (pkt_type_of b =? AVDT_PKT_TYPE_SINGLE).
  { destruct (free_rx ccb). reflexivity. }
  destruct (pkt_type_of b =? AVDT_PKT_TYPE_START); [|reflexivity].
  destruct (free_rx ccb) as [c1 e1]. cbn [fst snd].
  destruct (asmbl_start c1 b) as [[c2 r] e2]. reflexivity.
Qed.

Lemma free_rx_slot ccb : p_rx_msg (fst (free_rx ccb)) = None.
Proof.
  unfold free_rx. destruct (p_rx_msg ccb) eqn:H; cbn [fst]; [reflexivity|].
  exact H.
Qed.

Lemma free_rx_calls ccb : snd (free_rx ccb) = frees_rx ccb.
Proof. unfold free_rx, frees_rx. destruct (p_rx_msg ccb); reflexivity. Qed.

Lemma kind_of_short b : kind_of b = Short <-> too_short b = true.
Proof.
  unfold kind_of. destruct (too_short b).
  - split; reflexivity.
  - split; [|discriminate].
    repeat match goal with
           | |- context [if ?c then _ else _] => destruct c
           end; discriminate.
Qed.

Lemma pkt_type_of_range b : 0 <= pkt_type_of b <= 3.
Proof.
  unfold pkt_type_of, hdr_pkt_type.
  set (x := Z.shiftr (u8 (rd (data b) (offset b))) 2).
  assert (H : Z.land x 3 = x mod 4) by apply (Z.land_ones x 2 ltac:(lia)).
  rewrite H. pose proof (Z.mod_pos_bound x 4 ltac:(lia)). lia.
Qed.

(** With SINGLE, START and CONT excluded the packet type is END. *)
Lemma pkt_type_of_end b :
  (pkt_type_of b =? AVDT_PKT_TYPE_SINGLE) = false ->
  (pkt_type_of b =? AVDT_PKT_TYPE_START) = false ->
  (pkt_type_of b =? AVDT_PKT_TYPE_CONT) = false ->
  pkt_type_of b = AVDT_PKT_TYPE_END.
Proof.
  intros H0 H1 H2. apply Z.eqb_neq in H0, H1, H2.
  pose proof (pkt_type_of_range b).
  unfold AVDT_PKT_TYPE_SINGLE, AVDT_PKT_TYPE_START, AVDT_PKT_TYPE_CONT,
    AVDT_PKT_TYPE_END in *. lia.
Qed.

(** One call of [avdt_msg_asmbl] is one step of the automaton. *)
Lemma avdt_msg_asmbl_refines ccb b :
  observed (avdt_msg_asmbl ccb b)
  = asmbl_spec (in_progress ccb) (kind_of b) (overflows ccb b).
Proof.
  unfold overflows, kind_of. destruct (too_short b) eqn:Hs.
  { rewrite avdt_msg_asmbl_short by exact Hs. reflexivity. }
  rewrite avdt_msg_asmbl_long by exact Hs.
  destruct (pkt_type_of b =? AVDT_PKT_TYPE_SINGLE) eqn:H0.
  { unfold observed, in_progress. cbn [fst snd asmbl_spec].
    rewrite free_rx_slot. reflexivity. }
  destruct (pkt_type_of b =? AVDT_PKT_TYPE_START) eqn:H1.
  { unfold observed, in_progress, asmbl_start, start_overflows.
    cbn [asmbl_spec].
    destruct (sizeof_BT_HDR + offset b + len b >? BT_DEFAULT_BUFFER_SIZE);
      cbn [fst snd]; [rewrite free_rx_slot|]; reflexivity. }
  unfold observed, in_progress.
  destruct (p_rx_msg ccb) as [rx|] eqn:Hrx.
  2:{ destruct (pkt_type_of b =? AVDT_PKT_TYPE_CONT);
        cbn [fst snd asmbl_spec]; rewrite Hrx; reflexivity. }
  unfold asmbl_append, append_overflows. cbv zeta.
  cbn [len offset set_len set_offset].
  destruct (offset rx + u16 (len b - AVDT_LEN_TYPE_CONT)
            >? BT_DEFAULT_BUFFER_SIZE - sizeof_BT_HDR).
  { destruct (pkt_type_of b =? AVDT_PKT_TYPE_CONT); reflexivity. }
  destruct (pkt_type_of b =? AVDT_PKT_TYPE_CONT) eqn:H2.
  - apply Z.eqb_eq in H2. rewrite H2. reflexivity.
  - rewrite (pkt_type_of_end b H0 H1 H2). reflexivity.
Qed.

Lemma kind_of_cases b :
  match kind_of b with
  | Short => too_short b = true
  | Single => too_short b = false /\ pkt_type_of b = AVDT_PKT_TYPE_SINGLE
  | Start => too_short b = false /\ pkt_type_of b = AVDT_PKT_TYPE_START
  | Cont => too_short b = false /\ pkt_type_of b = AVDT_PKT_TYPE_CONT
  | End_ => too_short b = false /\ pkt_type_of b = AVDT_PKT_TYPE_END
  end.
Proof.
  unfold kind_of. destruct (too_short b); [reflexivity|].
  destruct (pkt_type_of b =? AVDT_PKT_TYPE_SINGLE) eqn:H0;
    [split; [reflexivity|apply Z.eqb_eq; exact H0]|].
  destruct (pkt_type_of b =? AVDT_PKT_TYPE_START) eqn:H1;
    [split; [reflexivity|apply Z.eqb_eq; exact H1]|].
  destruct (pkt_type_of b =? AVDT_PKT_TYPE_CONT) eqn:H2;
    [split; [reflexivity|apply Z.eqb_eq; exact H2]|].
  split; [reflexivity|apply pkt_type_of_end; assumption].
Qed.

Lemma too_short_len b : too_short b = false -> 1 <= len b.
Proof.
  unfold too_short. intros H. apply orb_false_iff in H.
  destruct H as [H _]. apply Z.ltb_ge in H. exact H.
Qed.

(** A CONT or END fragment with no reassembly in progress is dropped. *)
Lemma avdt_msg_asmbl_out_of_order ccb b :
  in_progress ccb = false ->
  kind_of b = Cont \/ kind_of b = End_ ->
  avdt_msg_asmbl ccb b = (ccb, None, [Call_osi_free b]).
Proof.
  intros Hip Hk. pose proof (kind_of_cases b) as Hc.
  assert (Hrx : p_rx_msg ccb = None).
  { unfold in_progress in Hip. destruct (p_rx_msg ccb); [discriminate|].
    reflexivity. }
  destruct Hk as [Hk|Hk]; rewrite Hk in Hc; destruct Hc as [Hs Hpt];
    rewrite avdt_msg_asmbl_long by exact Hs; rewrite Hpt, Hrx; reflexivity.
Qed.

(** A SINGLE or START fragment frees the reassembly in progress first;
    a SINGLE is returned as it is. *)
Lemma avdt_msg_asmbl_discards ccb b :
  kind_of b = Single \/ kind_of b = Start ->
  exists rest, snd (avdt_msg_asmbl ccb b) = frees_rx ccb ++ rest.
Proof.
  intros Hk. pose proof (kind_of_cases b) as Hc.
  destruct Hk as [Hk|Hk]; rewrite Hk in Hc; destruct Hc as [Hs Hpt];
    rewrite avdt_msg_asmbl_long by exact Hs; rewrite Hpt.
  - exists []. cbn [Z.eqb AVDT_PKT_TYPE_SINGLE snd].
    rewrite free_rx_calls. symmetry. apply app_nil_r.
  - eexists. change (AVDT_PKT_TYPE_START =? AVDT_PKT_TYPE_SINGLE) with false.
    change (AVDT_PKT_TYPE_START =? AVDT_PKT_TYPE_START) with true.
    cbn [snd]. rewrite free_rx_calls. reflexivity.
Qed.

Lemma avdt_msg_asmbl_single ccb b :
  kind_of b = Single -> snd (fst (avdt_msg_asmbl ccb b)) = Some b.
Proof.
  intros Hk. pose proof (kind_of_cases b) as Hc. rewrite Hk in Hc.
  destruct Hc as [Hs Hpt]. rewrite avdt_msg_asmbl_long by exact Hs.
  rewrite Hpt. reflexivity.
Qed.

Lemma asmbl_run_cons ccb b rest :
  asmbl_run ccb (b :: rest)
  = (fst (asmbl_run (fst (fst (avdt_msg_asmbl ccb b))) rest),
     snd (fst (avdt_msg_asmbl ccb b))
       :: snd (asmbl_run (fst (fst (avdt_msg_asmbl ccb b))) rest)).
Proof.
  cbn [asmbl_run]. destruct (avdt_msg_asmbl ccb b) as [[c1 r] e].
  cbn [fst snd]. destruct (asmbl_run c1 rest). reflexivity.
Qed.

Lemma asmbl_run_app : forall l1 l2 ccb,
  asmbl_run ccb (l1 ++ l2)
  = (fst (asmbl_run (fst (asmbl_run ccb l1)) l2),
     snd (asmbl_run ccb l1) ++ snd (asmbl_run (fst (asmbl_run ccb l1)) l2)).
Proof.
  induction l1 as [|b l1 IH]; intros l2 ccb.
  - cbn [app asmbl_run fst snd]. destruct (asmbl_run ccb l2). reflexivity.
  - cbn [app]. rewrite !asmbl_run_cons, IH. reflexivity.
Qed.

(** A reassembly is in progress after a run only if it was before and
    nothing but short and CONT fragments came, or a START that fits came
    and nothing but short and CONT fragments after it. *)
Lemma asmbl_run_slot : forall frags ccb,
  in_progress (fst (asmbl_run ccb frags)) = true ->
  (in_progress ccb = true /\ forallb passes frags = true)
  \/ exists pre s post,
       frags = pre ++ s :: post /\ kind_of s = Start
       /\ start_overflows s = false /\ forallb passes post = true.
Proof.
  induction frags as [|b rest IH]; intros ccb Hip.
  - left. split; [exact Hip|reflexivity].
  - rewrite asmbl_run_cons in Hip. cbn [fst] in Hip.
    destruct (IH _ Hip) as [[Hip1 Hrest]|(pre & s & post & -> & Hs & Hov & Hp)].
    2:{ right. exists (b :: pre), s, post. repeat split; assumption. }
    pose proof (avdt_msg_asmbl_refines ccb b) as Href.
    unfold observed in Href. rewrite Hip1 in Href.
    unfold overflows in Href.
    destruct (kind_of b) eqn:Hk; cbn [asmbl_spec] in Href.
    + left. injection Href as Hi _. split; [symmetry; exact Hi|].
      cbn [forallb]. unfold passes at 1. rewrite Hk. exact Hrest.
    + discriminate.
    + right. exists [], b, rest. injection Href as Hi _.
      repeat split; try assumption.
      destruct (start_overflows b); [discriminate|reflexivity].
    + left. injection Href as Hi _. symmetry in Hi.
      apply andb_true_iff in Hi. destruct Hi as [Hi _].
      split; [exact Hi|].
      cbn [forallb]. unfold passes at 1. rewrite Hk. exact Hrest.
    + discriminate.
Qed.

(** A call returns a message only for a SINGLE, which it returns as it
    is, or for an END that closes a reassembly started by a START. *)
Lemma asmbl_run_returns ccb frags f rets m :
  in_progress ccb = false ->
  snd (asmbl_run ccb (frags ++ [f])) = rets ++ [Some m] ->
  (kind_of f = Single /\ m = f)
  \/ (kind_of f = End_
      /\ exists pre s mid,
           frags = pre ++ s :: mid /\ kind_of s = Start
           /\ start_overflows s = false /\ forallb passes mid = true).
Proof.
  intros Hip Hrun. rewrite asmbl_run_app in Hrun. cbn [snd] in Hrun.
  rewrite asmbl_run_cons in Hrun. cbn [asmbl_run snd] in Hrun.
  apply app_inj_tail in Hrun. destruct Hrun as [_ Hret].
  set (c1 := fst (asmbl_run ccb frags)) in *.
  pose proof (avdt_msg_asmbl_refines c1 f) as Href.
  unfold observed in Href. rewrite Hret in Href. cbn [is_null negb] in Href.
  destruct (kind_of f) eqn:Hk; cbn [asmbl_spec] in Href; try discriminate.
  - left. split; [reflexivity|].
    rewrite (avdt_msg_asmbl_single c1 f Hk) in Hret. congruence.
  - right. split; [reflexivity|]. injection Href as _ Hi. symmetry in Hi.
    apply andb_true_iff in Hi. destruct Hi as [Hi _].
    destruct (asmbl_run_slot frags ccb Hi) as [[Hc _]|Hdec];
      [congruence|exact Hdec].
Qed.

(** A START fragment that fits opens a reassembly; the next byte goes
    behind what the fragment brought. *)
Lemma avdt_msg_asmbl_start_fits ccb s :
  kind_of s = Start -> fields_u16 s ->
  sizeof_BT_HDR + offset s + len s <= BT_DEFAULT_BUFFER_SIZE ->
  BT_DEFAULT_BUFFER_SIZE - sizeof_BT_HDR < 65536 ->
  exists rx e,
    avdt_msg_asmbl ccb s = (set_p_rx_msg (Some rx) (fst (free_rx ccb)), None, e)
    /\ offset rx = offset s + len s.
Proof.
  intros Hk [Hlen Hoff] Hfit Hbuf. pose proof (kind_of_cases s) as Hc.
  rewrite Hk in Hc. destruct Hc as [Hs Hpt].
  rewrite avdt_msg_asmbl_long by exact Hs. rewrite Hpt.
  change (AVDT_PKT_TYPE_START =? AVDT_PKT_TYPE_SINGLE) with false.
  change (AVDT_PKT_TYPE_START =? AVDT_PKT_TYPE_START) with true.
  cbv iota. unfold asmbl_start.
  assert (Hno : (sizeof_BT_HDR + offset s + len s >? BT_DEFAULT_BUFFER_SIZE)
                = false).
  { destruct (Z.gtb_spec (sizeof_BT_HDR + offset s + len s)
                BT_DEFAULT_BUFFER_SIZE); [lia|reflexivity]. }
  rewrite Hno. cbv zeta. cbn [fst snd offset len].
  eexists. eexists. split; [reflexivity|]. cbn [offset].
  apply u16_small. unfold sizeof_BT_HDR in *. lia.
Qed.

(** A CONT fragment that fits is appended. *)
Lemma avdt_msg_asmbl_cont_fits ccb rx b :
  p_rx_msg ccb = Some rx -> kind_of b = Cont -> fields_u16 b ->
  0 <= offset rx ->
  offset rx + (len b - AVDT_LEN_TYPE_CONT)
    <= BT_DEFAULT_BUFFER_SIZE - sizeof_BT_HDR ->
  BT_DEFAULT_BUFFER_SIZE - sizeof_BT_HDR < 65536 ->
  exists rx' e,
    avdt_msg_asmbl ccb b = (set_p_rx_msg (Some rx') ccb, None, e)
    /\ offset rx' = offset rx + (len b - AVDT_LEN_TYPE_CONT).
Proof.
  intros Hrx Hk [Hlen Hoff] Hrxo Hfit Hbuf.
  pose proof (kind_of_cases b) as Hc.
  rewrite Hk in Hc. destruct Hc as [Hs Hpt].
  pose proof (too_short_len b Hs) as Hl1.
  rewrite avdt_msg_asmbl_long by exact Hs. rewrite Hpt, Hrx.
  change (AVDT_PKT_TYPE_CONT =? AVDT_PKT_TYPE_SINGLE) with false.
  change (AVDT_PKT_TYPE_CONT =? AVDT_PKT_TYPE_START) with false.
  cbv iota. unfold asmbl_append. cbv zeta.
  cbn [len offset set_len set_offset].
  unfold AVDT_LEN_TYPE_CONT in *.
  rewrite (u16_small (len b - 1)) by lia.
  assert (Hno : (offset rx + (len b - 1)
                 >? BT_DEFAULT_BUFFER_SIZE - sizeof_BT_HDR) = false).
  { destruct (Z.gtb_spec (offset rx + (len b - 1))
                (BT_DEFAULT_BUFFER_SIZE - sizeof_BT_HDR)); [lia|reflexivity]. }
  rewrite Hno.
  change (AVDT_PKT_TYPE_CONT =? AVDT_PKT_TYPE_END) with false. cbv iota.
  eexists. eexists. split; [reflexivity|]. cbn [offset].
  apply u16_small. lia.
Qed.

(** An END fragment that fits completes the message. *)
Lemma avdt_msg_asmbl_end_fits ccb rx b :
  p_rx_msg ccb = Some rx -> kind_of b = End_ -> fields_u16 b ->
  0 <= offset rx ->
  offset rx + (len b - AVDT_LEN_TYPE_CONT)
    <= BT_DEFAULT_BUFFER_SIZE - sizeof_BT_HDR ->
  exists m e,
    avdt_msg_asmbl ccb b = (set_p_rx_msg None ccb, Some m, e).
Proof.
  intros Hrx Hk [Hlen Hoff] Hrxo Hfit.
  pose proof (kind_of_cases b) as Hc.
  rewrite Hk in Hc. destruct Hc as [Hs Hpt].
  pose proof (too_short_len b Hs) as Hl1.
  rewrite avdt_msg_asmbl_long by exact Hs. rewrite Hpt, Hrx.
  change (AVDT_PKT_TYPE_END =? AVDT_PKT_TYPE_SINGLE) with false.
  change (AVDT_PKT_TYPE_END =? AVDT_PKT_TYPE_START) with false.
  cbv iota. unfold asmbl_append. cbv zeta.
  cbn [len offset set_len set_offset].
  unfold AVDT_LEN_TYPE_CONT in *.
  rewrite (u16_small (len b - 1)) by lia.
  assert (Hno : (offset rx + (len b - 1)
                 >? BT_DEFAULT_BUFFER_SIZE - sizeof_BT_HDR) = false).
  { destruct (Z.gtb_spec (offset rx + (len b - 1))
                (BT_DEFAULT_BUFFER_SIZE - sizeof_BT_HDR)); [lia|reflexivity]. }
  rewrite Hno.
  change (AVDT_PKT_TYPE_END =? AVDT_PKT_TYPE_END) with true. cbv iota.
  eexists. eexists. reflexivity.
Qed.

Lemma payload_sum_conts cs e :
  Forall (fun c => kind_of c = Cont /\ fields_u16 c) cs ->
  kind_of e = End_ ->
  0 <= payload_sum (cs ++ [e]).
Proof.
  intros Hcs He. unfold payload_sum.
  induction Hcs as [|c cs [Hk _] _ IH]; cbn [app foldr].
  - pose proof (kind_of_cases e) as Hc. rewrite He in Hc.
    destruct Hc as [Hs _]. apply too_short_len in Hs.
    unfold AVDT_LEN_TYPE_CONT. lia.
  - pose proof (kind_of_cases c) as Hc. rewrite Hk in Hc.
    destruct Hc as [Hs _]. apply too_short_len in Hs.
    unfold AVDT_LEN_TYPE_CONT in *. lia.
Qed.

(** CONT fragments and an END, all fitting, behind a reassembly in
    progress: no call but the last returns a message. *)
Lemma asmbl_run_conts : forall cs ccb rx e,
  p_rx_msg ccb = Some rx ->
  BT_DEFAULT_BUFFER_SIZE - sizeof_BT_HDR < 65536 ->
  0 <= offset rx ->
  offset rx + payload_sum (cs ++ [e])
    <= BT_DEFAULT_BUFFER_SIZE - sizeof_BT_HDR ->
  Forall (fun c => kind_of c = Cont /\ fields_u16 c) cs ->
  kind_of e = End_ -> fields_u16 e ->
  exists m,
    snd (asmbl_run ccb (cs ++ [e])) = repeat None (length cs) ++ [Some m]
    /\ in_progress (fst (asmbl_run ccb (cs ++ [e]))) = false.
Proof.
  induction cs as [|c cs IH]; intros ccb rx e Hrx Hbuf Hoff Hfit Hcs He Hu.
  - cbn [app] in *. unfold payload_sum in Hfit. cbn [foldr] in Hfit.
    destruct (avdt_msg_asmbl_end_fits ccb rx e Hrx He Hu Hoff ltac:(lia))
      as (m & eff & Hstep).
    exists m. rewrite asmbl_run_cons, Hstep. cbn [fst snd asmbl_run].
    split; reflexivity.
  - inversion Hcs as [|c' cs' [Hk Hcu] Hcs']; subst.
    pose proof (payload_sum_conts cs e Hcs' He) as Hnn.
    change (payload_sum ((c :: cs) ++ [e]))
      with (len c - AVDT_LEN_TYPE_CONT + payload_sum (cs ++ [e])) in Hfit.
    destruct (avdt_msg_asmbl_cont_fits ccb rx c Hrx Hk Hcu Hoff ltac:(lia)
                Hbuf) as (rx' & eff & Hstep & Hoff').
    pose proof (kind_of_cases c) as Hc. rewrite Hk in Hc.
    destruct Hc as [Hs _]. apply too_short_len in Hs.
    destruct (IH (set_p_rx_msg (Some rx') ccb) rx' e eq_refl Hbuf)
      as (m & Hrets & Hip); try assumption.
    { unfold AVDT_LEN_TYPE_CONT in *. lia. }
    { lia. }
    exists m. cbn [app]. rewrite asmbl_run_cons, Hstep. cbn [fst snd].
    rewrite Hrets. split; [reflexivity|exact Hip].
Qed.

(** START, CONT ... CONT, END, all fitting: the last call returns the
    message and the others nothing, whatever was in progress before. *)
Lemma asmbl_run_accepts ccb s cs e :
  kind_of s = Start -> fields_u16 s ->
  Forall (fun c => kind_of c = Cont /\ fields_u16 c) cs ->
  kind_of e = End_ -> fields_u16 e ->
  BT_DEFAULT_BUFFER_SIZE - sizeof_BT_HDR < 65536 ->
  sizeof_BT_HDR + offset s + len s + payload_sum (cs ++ [e])
    <= BT_DEFAULT_BUFFER_SIZE ->
  exists m,
    snd (asmbl_run ccb (s :: cs ++ [e]))
    = repeat None (S (length cs)) ++ [Some m]
    /\ in_progress (fst (asmbl_run ccb (s :: cs ++ [e]))) = false.
Proof.
  intros Hk Hu Hcs He Heu Hbuf Hfit.
  pose proof (payload_sum_conts cs e Hcs He) as Hnn.
  destruct (avdt_msg_asmbl_start_fits ccb s Hk Hu ltac:(lia) Hbuf)
    as (rx & eff & Hstep & Hoff).
  destruct (asmbl_run_conts cs (set_p_rx_msg (Some rx) (fst (free_rx ccb)))
              rx e eq_refl Hbuf) as (m & Hrets & Hip); try assumption.
  { rewrite Hoff. destruct Hu. lia. }
  { rewrite Hoff. lia. }
  exists m. rewrite asmbl_run_cons, Hstep. cbn [fst snd].
  rewrite Hrets. split; [reflexivity|exact Hip].
Qed.

(** C3, in the form that holds. [avdt_msg_asmbl] is the automaton of SINGLE
    | START CONT* END on the fragments that are long enough for their packet
    type: each call is one step of [asmbl_spec]; a fragment too short for
    its type is freed and changes nothing; a CONT or END with no reassembly
    in progress is freed and returns nothing; a SINGLE or START frees the
    reassembly in progress first; a SINGLE is returned as it is. Over a run
    that starts with nothing in progress, a call returns a message only for
    a SINGLE or for an END that follows a fitting START with only CONT (and
    short) fragments in between, and a reassembly is in progress afterwards
    only if a fitting START came and only CONT (and short) fragments since.
    A START, CONT fragments and an END whose bytes fit the buffer are
    accepted: the last call, and only the last, returns a message. *)
Theorem avdt_msg_asmbl_language :
  (forall ccb b,
     observed (avdt_msg_asmbl ccb b)
     = asmbl_spec (in_progress ccb) (kind_of b) (overflows ccb b))
  /\ (forall ccb b,
        kind_of b = Short ->
        avdt_msg_asmbl ccb b = (ccb, None, [Call_osi_free b]))
  /\ (forall ccb b,
        in_progress ccb = false ->
        kind_of b = Cont \/ kind_of b = End_ ->
        avdt_msg_asmbl ccb b = (ccb, None, [Call_osi_free b]))
  /\ (forall ccb b,
        kind_of b = Single \/ kind_of b = Start ->
        exists rest, snd (avdt_msg_asmbl ccb b) = frees_rx ccb ++ rest)
  /\ (forall ccb b,
        kind_of b = Single -> snd (fst (avdt_msg_asmbl ccb b)) = Some b)
  /\ (forall ccb frags f rets m,
        in_progress ccb = false ->
        snd (asmbl_run ccb (frags ++ [f])) = rets ++ [Some m] ->
        (kind_of f = Single /\ m = f)
        \/ (kind_of f = End_
            /\ exists pre s mid,
                 frags = pre ++ s :: mid /\ kind_of s = Start
                 /\ start_overflows s = false
                 /\ forallb passes mid = true))
  /\ (forall ccb frags,
        in_progress ccb = false ->
        in_progress (fst (asmbl_run ccb frags)) = true ->
        exists pre s post,
          frags = pre ++ s :: post /\ kind_of s = Start
          /\ start_overflows s = false /\ forallb passes post = true)
  /\ (forall ccb s cs e,
        kind_of s = Start -> fields_u16 s ->
        Forall (fun c => kind_of c = Cont /\ fields_u16 c) cs ->
        kind_of e = End_ -> fields_u16 e ->
        BT_DEFAULT_BUFFER_SIZE - sizeof_BT_HDR < 65536 ->
        sizeof_BT_HDR + offset s + len s + payload_sum (cs ++ [e])
          <= BT_DEFAULT_BUFFER_SIZE ->
        exists m,
          snd (asmbl_run ccb (s :: cs ++ [e]))
          = repeat None (S (length cs)) ++ [Some m]
          /\ in_progress (fst (asmbl_run ccb (s :: cs ++ [e]))) = false).
Proof.
  split; [exact avdt_msg_asmbl_refines|].
  split.
  { intros ccb b Hk. apply avdt_msg_asmbl_short.
    apply kind_of_short. exact Hk. }
  split; [exact avdt_msg_asmbl_out_of_order|].
  split; [exact avdt_msg_asmbl_discards|].
  split; [exact avdt_msg_asmbl_single|].
  split; [exact asmbl_run_returns|].
  split.
  { intros ccb frags Hno Hip.
    destruct (asmbl_run_slot frags ccb Hip) as [[Hc _]|Hdec];
      [congruence|exact Hdec]. }
  exact asmbl_run_accepts.
Qed.

(** C4, in the form that holds. A complete PDU whose signal field is 0 or
    above [AVDT_SIG_MAX] (13, delay report, the last entry of the signal
    tables): as a command it is answered with a general reject (queued, and
    [AVDT_CCB_SENDMSG_EVT] raised to transmit the queue) and freed, and no
    message event reaches the CCB or an SCB; as a response, or as a reject
    whose length is not that of a general reject, it is freed and nothing
    else happens. *)
Theorem avdt_msg_ind_bad_signal ccb p_buf :
  pdu_sig p_buf = 0 \/ pdu_sig p_buf > AVDT_SIG_MAX ->
  (pdu_msg_type p_buf = AVDT_MSG_TYPE_CMD ->
   avdt_msg_ind_pdu ccb p_buf
   = Done (set_rsp_q
             (rsp_q ccb ++ [grej_buf (pdu_sig p_buf) (pdu_label p_buf)]) ccb,
           [Call_avdt_ccb_event AVDT_CCB_SENDMSG_EVT None;
            Call_osi_free p_buf]))
  /\ (pdu_msg_type p_buf = AVDT_MSG_TYPE_RSP
      \/ (pdu_msg_type p_buf = AVDT_MSG_TYPE_REJ
          /\ len p_buf <> AVDT_LEN_GEN_REJ) ->
      avdt_msg_ind_pdu ccb p_buf = Done (ccb, [Call_osi_free p_buf])).
Proof.
  intros Hsig.
  assert (Hbad : (pdu_sig p_buf =? 0) || (pdu_sig p_buf >? AVDT_SIG_MAX)
                 = true).
  { apply orb_true_iff. destruct Hsig as [H0|Hmax].
    - left. apply Z.eqb_eq. exact H0.
    - right. apply Z.gtb_lt. lia. }
  unfold pdu_sig, pdu_msg_type, pdu_label in *.
  split.
  - intros Hcmd. unfold avdt_msg_ind_pdu, ind_verify. cbv zeta.
    rewrite Hcmd, Hbad.
    change (AVDT_MSG_TYPE_CMD =? AVDT_MSG_TYPE_GRJ) with false.
    change (AVDT_MSG_TYPE_CMD =? AVDT_MSG_TYPE_REJ) with false.
    change (AVDT_MSG_TYPE_CMD =? AVDT_MSG_TYPE_CMD) with true.
    cbn [andb negb]. unfold avdt_msg_send_grej, queue_rsp.
    cbn [ok gen_rej andb negb]. unfold ind_parse.
    cbn [ok gen_rej andb negb obind]. unfold ind_dispatch.
    cbn [ok gen_rej andb negb i_ccb i_eff app upd_hdr hdr hdr_label_f
           set_sig_id].
    reflexivity.
  - intros Hty. unfold avdt_msg_ind_pdu, ind_verify. cbv zeta.
    rewrite Hbad.
    assert (Hgrj : (hdr_msg_type (u8 (rd (data p_buf) (offset p_buf)))
                    =? AVDT_MSG_TYPE_GRJ) = false).
    { destruct Hty as [->|[-> _]]; reflexivity. }
    assert (Hgen : (hdr_msg_type (u8 (rd (data p_buf) (offset p_buf)))
                    =? AVDT_MSG_TYPE_REJ) && (len p_buf =? AVDT_LEN_GEN_REJ)
                   = false).
    { destruct Hty as [->|[-> Hlen]]; [reflexivity|].
      apply andb_false_iff. right. apply Z.eqb_neq. exact Hlen. }
    assert (Hcmd : (hdr_msg_type (u8 (rd (data p_buf) (offset p_buf)))
                    =? AVDT_MSG_TYPE_CMD) = false).
    { destruct Hty as [->|[-> _]]; reflexivity. }
    rewrite Hgrj, Hgen, Hcmd.
    cbn [andb negb ok gen_rej]. unfold ind_parse.
    cbn [ok gen_rej andb negb obind]. unfold ind_dispatch.
    cbn [ok gen_rej andb negb i_ccb i_eff app].
    reflexivity.
Qed.

End Engine.

(** Set Configuration carrying media transport, then category 9. *)
Lemma avdt_msg_prs_cfg_unknown_category_witness :
  @avdt_msg_prs_cfg (run_env 48) (Some cfg_zero) cfg_buf 5 AVDT_SIG_SETCONFIG
  = Done (mkPrsRes (Some (mkCfg 2 0 0 0 0 0 0 (repeat 0 20%nat)
                            (repeat 0 90%nat)))
            (Some 9) 23).
Proof.
  refine (@avdt_msg_prs_cfg_unknown_category (run_env 48) cfg_zero cfg_buf 5
            AVDT_SIG_SETCONFIG 1
            (mkPrs (mkCfg 2 0 0 0 0 0 0 (repeat 0 20%nat) (repeat 0 90%nat))
               2 1 0 0) _ _ _ _ _).
  - reflexivity.
  - reflexivity.
  - reflexivity.
  - vm_compute. discriminate.
  - reflexivity.
Defined.

(** Three entries announced, the second with SEID 0. *)
Lemma avdt_msg_prs_discover_rsp_entries_witness :
  let r := @avdt_msg_prs_discover_rsp (run_env 48) disc_room disc_buf 6 in
  snd r = 18 /\ p_sep_info (fst r) !! 2%nat = Some (mkSEP_INFO 0 0 0 0).
Proof.
  cbv zeta.
  pose proof (@avdt_msg_prs_discover_rsp_entries (run_env 48) disc_room
                disc_buf 6 ltac:(lia) ltac:(cbn; lia) ltac:(cbn; lia)) as H.
  cbv zeta in H. destruct H as (_ & _ & _ & Ho & He & _).
  split; [exact He | exact (Ho 2%nat ltac:(vm_compute; lia))].
Defined.

(** C2 with the formula of the design document, [ceil((len + 1) / (peer_mtu
    - 1)) + 1], does not hold: a message of 100 bytes over a channel with a
    peer MTU of 48 goes out as a START packet announcing 3 signal packets,
    and 3 packets are sent (45, 47 and 8 bytes of the message), where the
    formula gives 4. *)
Lemma avdt_msg_send_nosp_not_ceil :
  match @avdt_msg_send (run_env 48) 101 ccb_idle (Some msg100) with
  | Done (_, eff, _) =>
      match written eff with
      | sent :: others =>
          hdr_pkt_type (rd (data sent) (offset sent)) = AVDT_PKT_TYPE_START
          /\ nosp_field sent = 3
          /\ length others = 2%nat
      | [] => False
      end
  | _ => False
  end
  /\ offset msg100 = 22 /\ len msg100 = 100 /\ 100 > 48 - 2
  /\ doc_nosp 100 48 = 4.
Proof. vm_compute. repeat split. Qed.

Lemma avdt_msg_send_start_nosp_witness :
  exists sent rest ccb' flag,
    @avdt_msg_send (run_env 48) 101 ccb_idle (Some msg100)
    = Done (ccb', Call_avdt_ad_write_req sent :: rest, flag)
    /\ rd (data sent) (offset sent + 1) = 3.
Proof.
  destruct (@avdt_msg_send_start_nosp (run_env 48) ccb_idle msg100)
    as (sent & rest & ccb' & flag & Hrun & _ & Hn & _).
  - reflexivity.
  - reflexivity.
  - cbn. lia.
  - unfold AVDT_LEN_TYPE_SINGLE. cbn. lia.
  - cbn. lia.
  - unfold sizeof_BT_HDR. cbn. lia.
  - exists sent, rest, ccb', flag. split.
    + apply Hrun. cbn. lia.
    + rewrite Hn. reflexivity.
Defined.

(** C3 as the design document states it does not hold: a fragment whose
    packet type reads SINGLE but which is one byte long arrives while a
    reassembly is in progress; it is dropped, the reassembly stays as it
    was, and the END that follows completes the message, so START, SINGLE,
    END returns a message. *)
Lemma avdt_msg_asmbl_stub_keeps_reassembly :
  pkt_type_of frag_stub = AVDT_PKT_TYPE_SINGLE
  /\ in_progress (fst (@asmbl_run (run_env 48) ccb_idle [frag_start])) = true
  /\ fst (@asmbl_run (run_env 48) ccb_idle [frag_start; frag_stub])
     = fst (@asmbl_run (run_env 48) ccb_idle [frag_start])
  /\ match snd (@asmbl_run (run_env 48) ccb_idle
                  [frag_start; frag_stub; frag_end]) with
     | [None; None; Some m] =>
         len m = 5 /\ offset m = 1 /\ firstn 6 (data m) = [4; 4; 3; 7; 8; 9]
     | _ => False
     end.
Proof. vm_compute. repeat split. Qed.

(** START, CONT, END. *)
Lemma avdt_msg_asmbl_language_witness :
  exists m,
    snd (@asmbl_run (run_env 48) ccb_idle
           (frag_start :: [frag_cont] ++ [frag_end]))
    = repeat None 2 ++ [Some m]
    /\ in_progress (fst (@asmbl_run (run_env 48) ccb_idle
                           (frag_start :: [frag_cont] ++ [frag_end])))
       = false.
Proof.
  refine (proj2 (proj2 (proj2 (proj2 (proj2 (proj2 (proj2
            (@avdt_msg_asmbl_language (run_env 48))))))))
            ccb_idle frag_start [frag_cont] frag_end _ _ _ _ _ _ _).
  - reflexivity.
  - unfold fields_u16. cbn. lia.
  - constructor; [|constructor].
    split; [reflexivity|]. unfold fields_u16. cbn. lia.
  - reflexivity.
  - unfold fields_u16. cbn. lia.
  - unfold sizeof_BT_HDR. cbn. lia.
  - unfold sizeof_BT_HDR. cbn. unfold AVDT_LEN_TYPE_CONT. lia.
Defined.

(** C4 as the design document states it does not hold, twice over. A Delay
    Report command, signal 13, is in the tables: it is parsed and handed to
    the stream, not rejected. And a reject of two bytes is taken for a
    general reject whatever its second byte holds: with 0 there it still
    ends the outstanding Set Configuration. *)
Lemma avdt_msg_ind_sig13_and_short_rej :
  (pdu_sig delay_rpt_cmd = 13
   /\ pdu_msg_type delay_rpt_cmd = AVDT_MSG_TYPE_CMD
   /\ @avdt_msg_ind_pdu (run_env 48) ccb_idle delay_rpt_cmd
      = Done (ccb_idle,
              [Call_avdt_scb_event 0 AVDT_SCB_MSG_DELAY_RPT_CMD_EVT
                 (mkMsg (mkEvtHdr 13 0 0 0 0 1) (Body_delay 100));
               Call_osi_free (mkBT_HDR 0 3 0 0 [0; 13; 4; 0; 100])]))
  /\ (pdu_sig short_rej = 0
      /\ pdu_msg_type short_rej = AVDT_MSG_TYPE_REJ
      /\ @avdt_msg_ind_pdu (run_env 48) ccb_setconfig_sent short_rej
         = Done (set_ret_count 0 ccb_setconfig_sent,
                 [Call_alarm_cancel idle_ccb_timer;
                  Call_alarm_cancel ret_ccb_timer;
                  Call_alarm_cancel rsp_ccb_timer;
                  Call_avdt_scb_event 0 AVDT_SCB_MSG_SETCONFIG_REJ_EVT
                    (mkMsg (mkEvtHdr 3 0 25 0 0 0) Body_none);
                  Call_osi_free short_rej;
                  Call_avdt_ccb_event AVDT_CCB_RCVRSP_EVT None])).
Proof. vm_compute. repeat split. Qed.

(** A command with signal 14. *)
Lemma avdt_msg_ind_bad_signal_witness :
  @avdt_msg_ind_pdu (run_env 48) ccb_idle bad_sig_cmd
  = Done (set_rsp_q [@grej_buf (run_env 48) 14 1] ccb_idle,
          [Call_avdt_ccb_event AVDT_CCB_SENDMSG_EVT None;
           Call_osi_free bad_sig_cmd]).
Proof.
  refine (proj1 (@avdt_msg_ind_bad_signal (run_env 48) ccb_idle bad_sig_cmd
                   _) _).
  - right. reflexivity.
  - reflexivity.
Defined.

End AvdtProofs.

(** ** AVDTP signalling: further properties *)

Module AvdtExtra.
Import Bt Avdt AvdtMore.

Section Ind.
Context `{E : Env}.

(** A general-reject message type, and a response or reject that answers
    no outstanding command with its signal, are freed and nothing else
    happens: no parsing, no event, no timer touched, the CCB as it was. *)
Theorem avdt_msg_ind_drops ccb p_buf :
  let b0 := u8 (rd (data p_buf) (offset p_buf)) in
  let sig := prs_sig (u8 (rd (data p_buf) (offset p_buf + 1))) in
  (hdr_msg_type b0 = AVDT_MSG_TYPE_GRJ ->
   avdt_msg_ind_pdu ccb p_buf = Done (ccb, [Call_osi_free p_buf]))
  /\ (hdr_msg_type b0 = AVDT_MSG_TYPE_RSP
      \/ hdr_msg_type b0 = AVDT_MSG_TYPE_REJ ->
      is_gen_rej p_buf = false ->
      no_cmd_for ccb sig = true ->
      avdt_msg_ind_pdu ccb p_buf = Done (ccb, [Call_osi_free p_buf])).
Proof.
  intros b0 sig. split.
  - intros Hg. unfold avdt_msg_ind_pdu, ind_verify. cbv zeta.
    fold b0. rewrite Hg.
    change (AVDT_MSG_TYPE_GRJ =? AVDT_MSG_TYPE_GRJ) with true.
    cbv iota. unfold ind_parse. cbn [ok gen_rej andb negb obind].
    unfold ind_dispatch. cbn [ok gen_rej andb negb i_ccb i_eff app].
    reflexivity.
  - intros Hty Hgen Hno. unfold is_gen_rej in Hgen. fold b0 in Hgen.
    unfold avdt_msg_ind_pdu, ind_verify. cbv zeta. fold b0. fold sig.
    rewrite Hgen.
    assert (Hgrj : (hdr_msg_type b0 =? AVDT_MSG_TYPE_GRJ) = false)
      by (destruct Hty as [->| ->]; reflexivity).
    assert (Hcmd : (hdr_msg_type b0 =? AVDT_MSG_TYPE_CMD) = false)
      by (destruct Hty as [->| ->]; reflexivity).
    assert (Hrr : is_rsp_or_rej (hdr_msg_type b0) = true)
      by (destruct Hty as [->| ->]; reflexivity).
    rewrite Hgrj, Hcmd, Hrr. rewrite andb_false_r. cbv iota.
    rewrite Hno. cbn [andb negb]. rewrite andb_false_r.
    unfold ind_parse. cbn [ok gen_rej andb negb obind].
    unfold ind_dispatch. cbn [ok gen_rej andb negb i_ccb i_eff app].
    reflexivity.
Qed.

Lemma hdr_msg_type_range b : 0 <= hdr_msg_type b <= 3.
Proof.
  unfold hdr_msg_type.
  assert (H : Z.land b 3 = b mod 4) by apply (Z.land_ones b 2 ltac:(lia)).
  rewrite H. pose proof (Z.mod_pos_bound b 4 ltac:(lia)). lia.
Qed.

Lemma prs_cfg_done p_cfg buf len sig :
  exists r, avdt_msg_prs_cfg p_cfg buf len sig = Done r
            /\ (p_cfg <> None -> res_cfg r <> None).
Proof.
  destruct p_cfg as [c|]; cbn [avdt_msg_prs_cfg];
    [|eexists; split; [reflexivity|congruence]].
  destruct (AvdtProofs.prs_cfg_loop_done buf len sig (Z.to_nat len)
              (Z.to_nat len) (prs_cfg_init c)) as (r & Hr & _);
    [cbn [prs_cfg_init p]; lia | lia |].
  rewrite Hr. cbn [prs_cfg_finish]. eexists. split; [reflexivity|].
  cbn [res_cfg]. congruence.
Qed.

Lemma store_cfg_result_p_cfg r m :
  res_cfg r <> None -> body_p_cfg (store_cfg_result r m) <> None.
Proof.
  unfold store_cfg_result. destruct (res_cfg r); [|congruence].
  intros _. unfold body_p_cfg, set_body. cbn [body]. congruence.
Qed.

(** Set Configuration and Reconfigure run to their end when the caller
    supplied the structure to parse into. *)
Lemma prs_setconfig_done m buf len :
  body_p_cfg m <> None ->
  exists r, avdt_msg_prs_setconfig_cmd m buf len = Done r.
Proof.
  intros Hcfg. unfold avdt_msg_prs_setconfig_cmd. cbv zeta.
  destruct (len <? AVDT_LEN_SETCONFIG_MIN).
  - destruct (AVDT_ERR_LENGTH =? 0); [|eexists; reflexivity].
    destruct (prs_cfg_done (body_p_cfg (upd_hdr (set_err_param 0) m))
                (drop (Z.to_nat 0) buf) (u16 (len - 2)) AVDT_SIG_SETCONFIG)
      as (r & Hr & Hsome).
    rewrite Hr. cbn [obind].
    destruct (res_err r =? 0); [|eexists; reflexivity].
    pose proof (store_cfg_result_p_cfg r (upd_hdr (set_err_param 0) m)
                  (Hsome Hcfg)) as Hb.
    destruct (body_p_cfg (store_cfg_result r (upd_hdr (set_err_param 0) m)));
      [|congruence].
    destruct (_ || _); eexists; reflexivity.
  - match goal with
    | |- context [if ?c =? 0 then _ else _] => destruct (c =? 0)
    end; [|eexists; reflexivity].
    match goal with
    | |- context [avdt_msg_prs_cfg ?pc ?b ?l ?s] =>
        destruct (prs_cfg_done pc b l s) as (r & Hr & Hsome)
    end.
    rewrite Hr. cbn [obind].
    destruct (res_err r =? 0); [|eexists; reflexivity].
    match goal with
    | |- context [store_cfg_result r ?mm] =>
        pose proof (store_cfg_result_p_cfg r mm (Hsome Hcfg)) as Hb;
        destruct (body_p_cfg (store_cfg_result r mm)); [|congruence]
    end.
    destruct (_ || _); eexists; reflexivity.
Qed.

Lemma prs_reconfig_done m buf len :
  body_p_cfg m <> None ->
  exists r, avdt_msg_prs_reconfig_cmd m buf len = Done r.
Proof.
  intros Hcfg. unfold avdt_msg_prs_reconfig_cmd. cbv zeta.
  destruct (len <? AVDT_LEN_RECONFIG_MIN); [eexists; reflexivity|].
  destruct (is_null _); [eexists; reflexivity|].
  match goal with
  | |- context [avdt_msg_prs_cfg ?pc ?b ?l ?s] =>
      destruct (prs_cfg_done pc b l s) as (r & Hr & Hsome)
  end.
  rewrite Hr. cbn [obind].
  destruct (res_err r =? 0); [|eexists; reflexivity].
  match goal with
  | |- context [store_cfg_result r ?mm] =>
      pose proof (store_cfg_result_p_cfg r mm (Hsome Hcfg)) as Hb;
      destruct (body_p_cfg (store_cfg_result r mm)); [|congruence]
  end.
  destruct (_ || _); eexists; reflexivity.
Qed.

Lemma sig_cases sig :
  1 <= sig <= AVDT_SIG_MAX ->
  sig = 1 \/ sig = 2 \/ sig = 3 \/ sig = 4 \/ sig = 5 \/ sig = 6 \/ sig = 7
  \/ sig = 8 \/ sig = 9 \/ sig = 10 \/ sig = 11 \/ sig = 12 \/ sig = 13.
Proof. unfold AVDT_SIG_MAX, AVDT_SIG_DELAY_RPT. lia. Qed.

Lemma prs_single_done m buf n : exists r, avdt_msg_prs_single m buf n = Done r.
Proof.
  unfold avdt_msg_prs_single. destruct (negb _); eexists; reflexivity.
Qed.

Lemma prs_multi_done m buf n : exists r, avdt_msg_prs_multi m buf n = Done r.
Proof.
  unfold avdt_msg_prs_multi. cbv zeta. destruct (_ || _);
    [eexists; reflexivity|].
  destruct (prs_multi_loop (Z.to_nat n) 0 buf []) as [[l i] [sd|]];
    eexists; reflexivity.
Qed.

Lemma prs_security_cmd_done m buf n :
  exists r, avdt_msg_prs_security_cmd m buf n = Done r.
Proof.
  unfold avdt_msg_prs_security_cmd. cbv zeta.
  destruct (n <? AVDT_LEN_SECURITY_MIN); [eexists; reflexivity|].
  destruct (is_null _); eexists; reflexivity.
Qed.

Lemma prs_delay_rpt_done m buf n :
  exists r, avdt_msg_prs_delay_rpt m buf n = Done r.
Proof.
  unfold avdt_msg_prs_delay_rpt. cbv zeta.
  destruct (negb _); [eexists; reflexivity|].
  destruct (is_null _); eexists; reflexivity.
Qed.

Lemma prs_svccap_with_done sig mask m buf n :
  exists r, prs_svccap_with sig mask m buf n = Done r.
Proof.
  unfold prs_svccap_with.
  destruct (prs_cfg_done (body_p_cfg m) buf n sig) as (r & Hr & _).
  rewrite Hr. cbn [obind]. eexists. reflexivity.
Qed.

Lemma prs_discover_rsp_msg_done m buf n :
  exists r, avdt_msg_prs_discover_rsp_msg m buf n = Done r.
Proof.
  unfold avdt_msg_prs_discover_rsp_msg.
  destruct (avdt_msg_prs_discover_rsp (body_discover m) buf n).
  eexists. reflexivity.
Qed.

Lemma prs_rej_done m buf n sig :
  exists r, avdt_msg_prs_rej m buf n sig = Done r.
Proof.
  unfold avdt_msg_prs_rej.
  destruct (n >? 0); [destruct (_ || _); [|destruct (_ || _)]|];
    cbv beta iota zeta;
    match goal with
    | |- context [if ?c then _ else _] => destruct c
    end; eexists; reflexivity.
Qed.

(** Inside the tables every command parser runs to its end, given the
    structure Set Configuration and Reconfigure parse into. *)
Lemma call_prs_cmd_done sig m buf n :
  1 <= sig <= AVDT_SIG_MAX ->
  (sig = AVDT_SIG_SETCONFIG \/ sig = AVDT_SIG_RECONFIG ->
   body_p_cfg m <> None) ->
  exists r, call_prs avdt_msg_prs_cmd sig m buf n = Done r.
Proof.
  intros Hsig Hcfg.
  destruct (sig_cases sig Hsig)
    as [->|[->|[->|[->|[->|[->|[->|[->|[->|[->|[->|[->| ->]]]]]]]]]]]].
  - change (call_prs avdt_msg_prs_cmd 1 m buf n)
      with (avdt_msg_prs_none m buf n). eexists. reflexivity.
  - apply prs_single_done.
  - apply prs_setconfig_done. apply Hcfg. left. reflexivity.
  - apply prs_single_done.
  - apply prs_reconfig_done. apply Hcfg. right. reflexivity.
  - apply prs_single_done.
  - apply prs_multi_done.
  - apply prs_single_done.
  - apply prs_multi_done.
  - apply prs_single_done.
  - apply prs_security_cmd_done.
  - apply prs_single_done.
  - apply prs_delay_rpt_done.
Qed.

Lemma call_prs_rsp_done sig m buf n :
  1 <= sig <= AVDT_SIG_MAX ->
  exists r, call_prs avdt_msg_prs_rsp sig m buf n = Done r.
Proof.
  intros Hsig.
  destruct (sig_cases sig Hsig)
    as [->|[->|[->|[->|[->|[->|[->|[->|[->|[->|[->|[->| ->]]]]]]]]]]]];
    first [ apply prs_discover_rsp_msg_done
          | apply prs_svccap_with_done
          | apply (prs_svccap_with_done AVDT_SIG_GET_ALLCAP AVDT_MSG_PSC_MASK)
          | (eexists; reflexivity) ].
Qed.

Lemma ind_setup_cmd_p_cfg ccb sig m :
  sig = AVDT_SIG_SETCONFIG \/ sig = AVDT_SIG_RECONFIG ->
  body_p_cfg (ind_setup ccb AVDT_MSG_TYPE_CMD sig m) <> None.
Proof.
  intros [-> | ->]; unfold ind_setup; cbv zeta;
    change (AVDT_MSG_TYPE_CMD =? AVDT_MSG_TYPE_RSP) with false;
    cbn [andb]; cbv iota; cbn; congruence.
Qed.

Lemma avdt_msg_send_rej_calls ccb sig m :
  avdt_msg_send_rej ccb sig m
  = (fst (avdt_msg_send_rej ccb sig m),
     [Call_avdt_ccb_event AVDT_CCB_SENDMSG_EVT None]).
Proof.
  unfold avdt_msg_send_rej, queue_rsp. cbv zeta.
  repeat match goal with
         | |- context [let '(_, _) := ?x in _] => destruct x
         end.
  reflexivity.
Qed.

(** A command inside the tables whose body does not parse: a reject for
    its signal is queued and the queue kicked, except for Abort, which is
    never rejected; the message is freed and no event is dispatched. *)
Theorem avdt_msg_ind_cmd_parse_error ccb p_buf m' e :
  pdu_msg_type p_buf = AVDT_MSG_TYPE_CMD ->
  1 <= pdu_sig p_buf <= AVDT_SIG_MAX ->
  ind_cmd_parse ccb p_buf = Done (m', e) ->
  e <> 0 ->
  avdt_msg_ind_pdu ccb p_buf
  = Done (if pdu_sig p_buf =? AVDT_SIG_ABORT
          then (ccb, [Call_osi_free (ind_parsed_buf p_buf)])
          else (fst (avdt_msg_send_rej ccb (pdu_sig p_buf)
                       (upd_hdr (set_err_code e) m')),
                [Call_avdt_ccb_event AVDT_CCB_SENDMSG_EVT None;
                 Call_osi_free (ind_parsed_buf p_buf)])).
Proof.
  unfold pdu_msg_type, pdu_sig, ind_cmd_parse, ind_msg, ind_body,
    ind_body_len, ind_parsed_buf, pdu_label, pdu_sig.
  intros Hcmd Hsig Hparse He.
  assert (Hbad : (prs_sig (u8 (rd (data p_buf) (offset p_buf + 1))) =? 0)
                 || (prs_sig (u8 (rd (data p_buf) (offset p_buf + 1)))
                     >? AVDT_SIG_MAX) = false).
  { apply orb_false_iff. split; [apply Z.eqb_neq; lia|].
    destruct (Z.gtb_spec (prs_sig (u8 (rd (data p_buf) (offset p_buf + 1))))
                AVDT_SIG_MAX); [lia|reflexivity]. }
  assert (Hne : (e =? 0) = false) by (apply Z.eqb_neq; exact He).
  unfold avdt_msg_ind_pdu, ind_verify. cbv zeta.
  rewrite Hcmd, Hbad.
  change (AVDT_MSG_TYPE_CMD =? AVDT_MSG_TYPE_GRJ) with false.
  change (AVDT_MSG_TYPE_CMD =? AVDT_MSG_TYPE_REJ) with false.
  change (is_rsp_or_rej AVDT_MSG_TYPE_CMD) with false.
  cbn [andb negb]. cbn [ok gen_rej andb negb].
  unfold ind_parse. cbn [ok gen_rej andb negb i_ccb i_sig i_msg i_pos i_eff].
  change (AVDT_MSG_TYPE_CMD =? AVDT_MSG_TYPE_CMD) with true. cbv iota.
  rewrite Hparse. cbn [obind fst snd]. rewrite Hne. cbn [negb andb].
  unfold store_proc.
  change (AVDT_MSG_TYPE_CMD =? AVDT_MSG_TYPE_RSP) with false.
  cbn [andb]. cbv iota.
  destruct (prs_sig (u8 (rd (data p_buf) (offset p_buf + 1)))
            =? AVDT_SIG_ABORT); cbn [negb].
  - cbn [obind]. unfold ind_dispatch.
    cbn [ok gen_rej andb negb i_ccb i_eff app]. reflexivity.
  - rewrite avdt_msg_send_rej_calls.
    cbn [obind fst snd]. unfold ind_dispatch.
    cbn [ok gen_rej andb negb i_ccb i_eff app]. reflexivity.
Qed.

Lemma store_proc_area ccb mt sig m :
  store_proc ccb mt sig m
  = set_proc_cfg (proc_cfg (store_proc ccb mt sig m))
      (set_proc_sep_info (proc_sep_info (store_proc ccb mt sig m)) ccb).
Proof.
  unfold store_proc. destruct ccb.
  repeat match goal with |- context [if ?c then _ else _] => destruct c end;
    reflexivity.
Qed.

Lemma is_rsp_or_rej_cases mt :
  is_rsp_or_rej mt = true ->
  (mt =? AVDT_MSG_TYPE_GRJ) = false /\ (mt =? AVDT_MSG_TYPE_CMD) = false.
Proof.
  unfold is_rsp_or_rej, AVDT_MSG_TYPE_RSP, AVDT_MSG_TYPE_REJ,
    AVDT_MSG_TYPE_GRJ, AVDT_MSG_TYPE_CMD.
  intros H. apply orb_true_iff in H.
  split; apply Z.eqb_neq; destruct H as [H | H]; apply Z.eqb_eq in H; lia.
Qed.

(** The parsing step of a response or reject whose signal is in the
    tables: it returns, makes no call, and touches nothing in the CCB but
    the area the application gave for the result. *)
Lemma ind_parse_rsp p_buf mt s :
  is_rsp_or_rej mt = true ->
  (ok s && negb (gen_rej s) = true -> 1 <= i_sig s <= AVDT_SIG_MAX) ->
  exists s1,
    ind_parse p_buf mt s = Done s1
    /\ (exists si cf,
          i_ccb s1 = set_proc_cfg cf (set_proc_sep_info si (i_ccb s)))
    /\ i_eff s1 = i_eff s /\ i_sig s1 = i_sig s /\ gen_rej s1 = gen_rej s
    /\ (ok s1 = true -> ok s = true).
Proof.
  intros Hmt Hsig. destruct (is_rsp_or_rej_cases _ Hmt) as [_ Hcmd].
  unfold ind_parse. destruct (ok s && negb (gen_rej s)) eqn:Hgo.
  2:{ exists s. split; [reflexivity|]. split.
      - exists (proc_sep_info (i_ccb s)), (proc_cfg (i_ccb s)).
        destruct (i_ccb s); reflexivity.
      - tauto. }
  specialize (Hsig eq_refl). cbv zeta. rewrite Hcmd. cbn [andb].
  set (n := u16 (len p_buf - AVDT_LEN_TYPE_SINGLE)).
  set (buf := drop _ _). set (m := ind_setup _ _ _ _).
  assert (Hp : exists m' e evt,
             (if mt =? AVDT_MSG_TYPE_RSP
              then obind (call_prs avdt_msg_prs_rsp (i_sig s) m buf n)
                     (fun r => Done (upd_hdr (set_err_code (snd r)) (fst r),
                                     snd r,
                                     evt_of avdt_msg_rsp_2_evt (i_sig s)))
              else obind (avdt_msg_prs_rej m buf n (i_sig s))
                     (fun r => Done (fst r, snd r,
                                     evt_of avdt_msg_rej_2_evt (i_sig s))))
             = Done (m', e, evt)).
  { destruct (mt =? AVDT_MSG_TYPE_RSP).
    - destruct (call_prs_rsp_done (i_sig s) m buf n Hsig) as [r ->].
      cbn [obind]. eauto.
    - destruct (prs_rej_done m buf n (i_sig s)) as [r ->].
      cbn [obind]. eauto. }
  destruct Hp as (m' & e & evt & ->). cbn [obind].
  destruct (negb (e =? 0)).
  - eexists. split; [reflexivity|]. cbn [i_ccb i_eff i_sig gen_rej ok].
    split.
    + eexists _, _. apply store_proc_area.
    + rewrite app_nil_r. repeat split; discriminate.
  - eexists. split; [reflexivity|]. cbn [i_ccb i_eff i_sig gen_rej ok].
    split.
    + eexists _, _. apply store_proc_area.
    + repeat split; tauto.
Qed.

Lemma ind_verify_rsp ccb p_buf msg0 mt :
  is_rsp_or_rej mt = true ->
  let s0 := ind_verify ccb p_buf msg0 mt in
  i_ccb s0 = ccb /\ i_eff s0 = []
  /\ (ok s0 && negb (gen_rej s0) = true -> 1 <= i_sig s0 <= AVDT_SIG_MAX).
Proof.
  intros Hmt. destruct (is_rsp_or_rej_cases _ Hmt) as [Hgrj Hcmd].
  unfold ind_verify. rewrite Hgrj.
  destruct ((mt =? AVDT_MSG_TYPE_REJ) && (len p_buf =? AVDT_LEN_GEN_REJ)).
  - destruct (p_curr_cmd ccb); cbn [i_ccb i_eff ok gen_rej negb andb];
      (split; [reflexivity|split; [reflexivity|discriminate]]).
  - cbv zeta. rewrite Hcmd, andb_false_r.
    cbn [i_ccb i_eff ok gen_rej i_sig].
    split; [reflexivity|split; [reflexivity|]].
    intros H0. cbn [negb] in H0. rewrite andb_true_r in H0.
    apply andb_true_iff in H0. destruct H0 as [H0 _].
    apply negb_true_iff, orb_false_iff in H0. destruct H0 as [H1 H2].
    apply Z.eqb_neq in H1.
    unfold prs_sig in *.
    destruct (Z.gtb_spec (Z.land (u8 (rd (data p_buf) (offset p_buf + 1))) 63)
                AVDT_SIG_MAX); [discriminate|].
    assert (0 <= Z.land (u8 (rd (data p_buf) (offset p_buf + 1))) 63)
      by (apply Z.land_nonneg; right; lia).
    lia.
Qed.

Lemma label_mismatch_no_match ccb ccb' sig label :
  label_matches ccb label = false ->
  p_curr_cmd ccb' = p_curr_cmd ccb ->
  matches_curr_cmd ccb' sig label = false.
Proof.
  unfold label_matches, matches_curr_cmd. intros H ->.
  destruct (p_curr_cmd ccb); [|reflexivity].
  rewrite H. apply andb_false_r.
Qed.

(** A response or reject whose label is not the label of the outstanding
    command (or that arrives when no command is outstanding) is freed and
    nothing else is called: no event, no timer stopped, nothing queued.
    The CCB keeps its command, its queues and its retransmission count;
    only the area the application gave for the result may have been
    written, because the body is parsed before the label is compared. *)
Theorem avdt_msg_ind_label_mismatch ccb p_buf :
  is_rsp_or_rej (pdu_msg_type p_buf) = true ->
  label_matches ccb (pdu_label p_buf) = false ->
  exists si cf b,
    avdt_msg_ind_pdu ccb p_buf
    = Done (set_proc_cfg cf (set_proc_sep_info si ccb), [Call_osi_free b])
    /\ data b = data p_buf /\ offset b = offset p_buf.
Proof.
  unfold pdu_msg_type, pdu_label. intros Hmt Hlab.
  unfold avdt_msg_ind_pdu. cbv zeta.
  set (mt := hdr_msg_type _) in *. set (label := hdr_label _) in *.
  set (msg0 := mkMsg _ _).
  destruct (ind_verify_rsp ccb p_buf msg0 mt Hmt) as (Hc0 & He0 & Hs0).
  set (s0 := ind_verify ccb p_buf msg0 mt) in *.
  destruct (ind_parse_rsp p_buf mt s0 Hmt Hs0)
    as (s1 & -> & (si & cf & Hc1) & He1 & _ & _ & _).
  cbn [obind]. rewrite Hc0 in Hc1. rewrite He0 in He1.
  assert (Hm : matches_curr_cmd (i_ccb s1) (i_sig s1) label = false).
  { apply (label_mismatch_no_match ccb); [exact Hlab|].
    rewrite Hc1. destruct ccb; reflexivity. }
  exists si, cf.
  exists (if ok s0 && negb (gen_rej s0)
          then set_len (u16 (len p_buf - AVDT_LEN_TYPE_SINGLE)) p_buf
          else p_buf).
  split.
  - unfold ind_dispatch. rewrite Hmt, Hm, andb_true_r.
    destruct (ok s1) eqn:Hok; cbn [ok i_ccb i_eff]; rewrite ?Hok;
      rewrite He1, Hc1; reflexivity.
  - destruct (ok s0 && negb (gen_rej s0)); split; reflexivity.
Qed.

(** A general reject (a reject of exactly [AVDT_LEN_GEN_REJ] bytes) that
    carries the label of the outstanding command is delivered as the
    reject of that command with error "not supported command": the three
    timers are stopped, the retransmission count is cleared, the reject
    event of the command's signal is dispatched, the message is freed and
    the CCB is told that the response has arrived. *)
Theorem avdt_msg_ind_general_reject ccb p_buf c :
  pdu_msg_type p_buf = AVDT_MSG_TYPE_REJ ->
  len p_buf = AVDT_LEN_GEN_REJ ->
  p_curr_cmd ccb = Some c ->
  1 <= event c <= AVDT_SIG_MAX ->
  AVDT_LAYERSPEC_LABEL (layer_specific c) = pdu_label p_buf ->
  avdt_msg_ind_pdu ccb p_buf
  = Done (set_ret_count 0 ccb,
          [Call_alarm_cancel idle_ccb_timer;
           Call_alarm_cancel ret_ccb_timer;
           Call_alarm_cancel rsp_ccb_timer]
          ++ rej_event c (gen_rej_msg ccb p_buf c)
          ++ [Call_osi_free p_buf;
              Call_avdt_ccb_event AVDT_CCB_RCVRSP_EVT None]).
Proof.
  unfold pdu_msg_type, pdu_label, gen_rej_msg, rej_event, pdu_label.
  intros Hmt Hlen Hc Hsig Hlab.
  assert (Hu : u8 (event c) = event c).
  { unfold u8. apply Z.mod_small.
    unfold AVDT_SIG_MAX, AVDT_SIG_DELAY_RPT in Hsig. lia. }
  unfold avdt_msg_ind_pdu, ind_verify. cbv zeta.
  rewrite Hmt, Hlen, Hc, Hu.
  change (AVDT_MSG_TYPE_REJ =? AVDT_MSG_TYPE_GRJ) with false.
  rewrite !Z.eqb_refl. cbn [andb]. cbv iota.
  unfold ind_parse. cbn [ok gen_rej negb andb obind].
  unfold ind_dispatch. cbn [ok gen_rej i_ccb i_sig i_eff i_msg i_evt i_pos].
  change (is_rsp_or_rej AVDT_MSG_TYPE_REJ) with true. cbn [andb].
  unfold matches_curr_cmd. rewrite Hc, Hlab, !Z.eqb_refl. cbn [andb].
  cbn [ok gen_rej i_ccb i_sig i_eff i_msg i_evt i_pos app].
  change (AVDT_MSG_TYPE_REJ =? AVDT_MSG_TYPE_CMD) with false. cbv iota.
  replace (p_curr_cmd (set_ret_count 0 ccb)) with (Some c)
    by (rewrite <- Hc; destruct ccb; reflexivity).
  unfold upd_hdr, set_err_param, set_err_code, set_sig_id.
  cbn [hdr body sig_id hdr_label_f err_code err_param ccb_idx seid].
  destruct (evt_of avdt_msg_rej_2_evt (event c)); [| |reflexivity].
  - reflexivity.
  - destruct (avdt_scb_by_hdl (u8 (rd (data c) 0))); reflexivity.
Qed.

Lemma avdt_msg_send_grej_calls ccb sig m :
  snd (avdt_msg_send_grej ccb sig m)
  = [Call_avdt_ccb_event AVDT_CCB_SENDMSG_EVT None].
Proof. reflexivity. Qed.

Lemma prs_sig_range b : 0 <= prs_sig b <= 63.
Proof.
  unfold prs_sig.
  assert (H : Z.land b 63 = b mod 64) by apply (Z.land_ones b 6 ltac:(lia)).
  rewrite H. pose proof (Z.mod_pos_bound b 64). lia.
Qed.

Lemma ind_verify_any ccb p_buf msg0 mt :
  let s0 := ind_verify ccb p_buf msg0 mt in
  no_free (i_eff s0) = true
  /\ (ok s0 && negb (gen_rej s0) = true -> 1 <= i_sig s0 <= AVDT_SIG_MAX).
Proof.
  unfold ind_verify.
  destruct (mt =? AVDT_MSG_TYPE_GRJ); [split; [reflexivity|discriminate]|].
  destruct ((mt =? AVDT_MSG_TYPE_REJ) && (len p_buf =? AVDT_LEN_GEN_REJ)).
  { destruct (p_curr_cmd ccb); (split; [reflexivity|discriminate]). }
  cbv zeta.
  set (sig := prs_sig _).
  destruct ((sig =? 0) || (sig >? AVDT_SIG_MAX)) eqn:Hbad.
  - destruct (true && (mt =? AVDT_MSG_TYPE_CMD));
      [destruct (avdt_msg_send_grej ccb sig _) eqn:Hg|];
      (split; [|discriminate]).
    + pose proof (avdt_msg_send_grej_calls ccb sig
                    (upd_hdr (set_sig_id sig) msg0)) as Hs.
      rewrite Hg in Hs. cbn [snd] in Hs. cbn [i_eff]. rewrite Hs.
      reflexivity.
    + reflexivity.
  - cbn [andb i_eff i_sig]. split; [reflexivity|]. intros _.
    apply orb_false_iff in Hbad. destruct Hbad as [H1 H2].
    apply Z.eqb_neq in H1. pose proof (prs_sig_range
      (u8 (rd (data p_buf) (offset p_buf + 1)))) as Hr. fold sig in Hr.
    destruct (Z.gtb_spec sig AVDT_SIG_MAX); [discriminate|]. lia.
Qed.

Lemma no_free_app l1 l2 :
  no_free l1 = true -> no_free l2 = true -> no_free (l1 ++ l2) = true.
Proof.
  unfold no_free. intros H1 H2. rewrite forallb_app, H1, H2. reflexivity.
Qed.

(** The parsing step returns whenever the signal is in the tables, and
    frees nothing. *)
Lemma ind_parse_any p_buf mt s :
  (ok s && negb (gen_rej s) = true -> 1 <= i_sig s <= AVDT_SIG_MAX) ->
  no_free (i_eff s) = true ->
  exists s1, ind_parse p_buf mt s = Done s1 /\ no_free (i_eff s1) = true.
Proof.
  intros Hsig Hnf. unfold ind_parse.
  destruct (ok s && negb (gen_rej s)) eqn:Hgo; [|eauto].
  specialize (Hsig eq_refl). cbv zeta.
  set (n := u16 (len p_buf - AVDT_LEN_TYPE_SINGLE)).
  set (buf := drop _ _).
  assert (Hp : exists m' e evt,
             (if mt =? AVDT_MSG_TYPE_CMD
              then obind (call_prs avdt_msg_prs_cmd (i_sig s)
                            (ind_setup (i_ccb s) mt (i_sig s) (i_msg s))
                            buf n)
                     (fun r => Done (upd_hdr (set_err_code (snd r)) (fst r),
                                     snd r,
                                     evt_of avdt_msg_cmd_2_evt (i_sig s)))
              else if mt =? AVDT_MSG_TYPE_RSP
              then obind (call_prs avdt_msg_prs_rsp (i_sig s)
                            (ind_setup (i_ccb s) mt (i_sig s) (i_msg s))
                            buf n)
                     (fun r => Done (upd_hdr (set_err_code (snd r)) (fst r),
                                     snd r,
                                     evt_of avdt_msg_rsp_2_evt (i_sig s)))
              else obind (avdt_msg_prs_rej
                            (ind_setup (i_ccb s) mt (i_sig s) (i_msg s))
                            buf n (i_sig s))
                     (fun r => Done (fst r, snd r,
                                     evt_of avdt_msg_rej_2_evt (i_sig s))))
             = Done (m', e, evt)).
  { destruct (Z.eqb_spec mt AVDT_MSG_TYPE_CMD) as [-> | _].
    - destruct (call_prs_cmd_done (i_sig s)
                  (ind_setup (i_ccb s) AVDT_MSG_TYPE_CMD (i_sig s) (i_msg s))
                  buf n Hsig (ind_setup_cmd_p_cfg _ _ _)) as [r ->].
      cbn [obind]. eauto.
    - destruct (mt =? AVDT_MSG_TYPE_RSP).
      + destruct (call_prs_rsp_done (i_sig s)
                    (ind_setup (i_ccb s) mt (i_sig s) (i_msg s)) buf n Hsig)
          as [r ->].
        cbn [obind]. eauto.
      + destruct (prs_rej_done (ind_setup (i_ccb s) mt (i_sig s) (i_msg s))
                    buf n (i_sig s)) as [r ->].
        cbn [obind]. eauto. }
  destruct Hp as (m' & e & evt & ->). cbn [obind].
  destruct (negb (e =? 0)); [|eexists; split; [reflexivity|exact Hnf]].
  destruct ((mt =? AVDT_MSG_TYPE_CMD) && negb (i_sig s =? AVDT_SIG_ABORT)).
  - rewrite avdt_msg_send_rej_calls. eexists. split; [reflexivity|].
    cbn [i_eff]. apply no_free_app; [exact Hnf|reflexivity].
  - eexists. split; [reflexivity|]. cbn [i_eff].
    rewrite app_nil_r. exact Hnf.
Qed.

Lemma ind_dispatch_any mt label s :
  no_free (i_eff s) = true ->
  no_free (i_eff (fst (ind_dispatch mt label s))) = true.
Proof.
  intros Hnf. unfold ind_dispatch.
  assert (Hev : forall s1 : ind_state,
             no_free (i_eff s1) = true ->
             forall h : bool,
             no_free
               (i_eff
                  (fst
                     (if ok s1
                      then
                        (mkInd (i_ccb s1) (i_msg s1) true (gen_rej s1)
                           (i_sig s1) (i_evt s1) (i_pos s1)
                           (i_eff s1 ++
                            match i_evt s1 with
                            | Evt_ccb ce =>
                                [Call_avdt_ccb_event ce (Some (i_msg s1))]
                            | Evt_scb se =>
                                match
                                  avdt_scb_by_hdl
                                    (if mt =? AVDT_MSG_TYPE_CMD
                                     then seid (hdr (i_msg s1))
                                     else match p_curr_cmd (i_ccb s1) with
                                          | Some c => u8 (rd (data c) 0)
                                          | None => 0
                                          end)
                                with
                                | Some scb =>
                                    [Call_avdt_scb_event scb se (i_msg s1)]
                                | None => []
                                end
                            | Evt_none => []
                            end), h)
                      else (s1, h)))) = true).
  { intros s1 H1 h. destruct (ok s1); [|exact H1]. cbn [fst i_eff].
    apply no_free_app; [exact H1|].
    destruct (i_evt s1); [reflexivity|reflexivity|].
    destruct (avdt_scb_by_hdl _); reflexivity. }
  destruct (ok s && is_rsp_or_rej mt).
  - destruct (matches_curr_cmd (i_ccb s) (i_sig s) label).
    + apply Hev. cbn [i_eff]. apply no_free_app; [exact Hnf|reflexivity].
    + apply Hev. exact Hnf.
  - apply Hev. exact Hnf.
Qed.

Lemma ind_dispatch_handle mt label s :
  snd (ind_dispatch mt label s)
  = ok s && is_rsp_or_rej mt && matches_curr_cmd (i_ccb s) (i_sig s) label.
Proof.
  unfold ind_dispatch.
  destruct (ok s && is_rsp_or_rej mt); cbn [andb].
  - destruct (matches_curr_cmd (i_ccb s) (i_sig s) label); cbn [ok];
      reflexivity.
  - destruct (ok s); reflexivity.
Qed.

(** Whatever complete message arrives while the outstanding command, if
    any, carries a signal of the tables (where [avdt_msg_send_cmd] puts
    it; the event table of a general reject is read at that index),
    [avdt_msg_ind] returns: each parsing table is indexed inside its
    bounds.  The message buffer is freed exactly once, after every other
    call except the closing [AVDT_CCB_RCVRSP_EVT]. *)
Theorem avdt_msg_ind_frees_once ccb p_buf :
  curr_cmd_in_tables ccb ->
  exists ccb' pre b post,
    avdt_msg_ind_pdu ccb p_buf = Done (ccb', pre ++ Call_osi_free b :: post)
    /\ no_free pre = true
    /\ (post = [] \/ post = [Call_avdt_ccb_event AVDT_CCB_RCVRSP_EVT None])
    /\ data b = data p_buf /\ offset b = offset p_buf.
Proof.
  intros _. unfold avdt_msg_ind_pdu. cbv zeta.
  set (mt := hdr_msg_type _). set (label := hdr_label _).
  set (msg0 := mkMsg _ _).
  destruct (ind_verify_any ccb p_buf msg0 mt) as [Hnf0 Hs0].
  set (s0 := ind_verify ccb p_buf msg0 mt) in *.
  destruct (ind_parse_any p_buf mt s0 Hs0 Hnf0) as (s1 & -> & Hnf1).
  cbn [obind].
  pose proof (ind_dispatch_any mt label s1 Hnf1) as Hnf2.
  destruct (ind_dispatch mt label s1) as [s2 h]. cbn [fst] in Hnf2.
  eexists _, _, _, _. split; [reflexivity|].
  split; [exact Hnf2|]. split.
  - destruct h; [right|left]; reflexivity.
  - destruct (ok s0 && negb (gen_rej s0)); split; reflexivity.
Qed.

End Ind.

Section Parse.
Context `{E : Env}.

Lemma prs_multi_loop_all todo : forall i buf l,
  forallb has_scb (map (multi_seid buf) (seq i todo)) = true ->
  prs_multi_loop todo i buf l
  = (l ++ map (multi_seid buf) (seq i todo), (i + todo)%nat, None).
Proof.
  induction todo as [|k IH]; intros i buf l H.
  - cbn. rewrite app_nil_r, Nat.add_0_r. reflexivity.
  - cbn [seq map forallb] in H. apply andb_true_iff in H.
    destruct H as [Hi Hrest]. unfold has_scb, multi_seid in Hi.
    apply negb_true_iff in Hi.
    cbn [prs_multi_loop]. cbv zeta. rewrite Hi.
    rewrite (IH (S i) buf _ Hrest). cbn [seq map].
    rewrite <- app_assoc. cbn [app].
    replace (S i + k)%nat with (i + S k)%nat by lia. reflexivity.
Qed.

Lemma prs_multi_loop_stop todo : forall i j buf l,
  (j < todo)%nat ->
  forallb has_scb (map (multi_seid buf) (seq i j)) = true ->
  has_scb (multi_seid buf (i + j)) = false ->
  prs_multi_loop todo i buf l
  = (l ++ map (multi_seid buf) (seq i (S j)), (i + j)%nat,
     Some (multi_seid buf (i + j))).
Proof.
  induction todo as [|k IH]; intros i j buf l Hj Hgood Hbad; [lia|].
  cbn [prs_multi_loop]. cbv zeta. destruct j as [|j].
  - rewrite Nat.add_0_r in *. unfold has_scb, multi_seid in Hbad.
    apply negb_false_iff in Hbad. rewrite Hbad. reflexivity.
  - cbn [seq map forallb] in Hgood. apply andb_true_iff in Hgood.
    destruct Hgood as [Hi Hrest]. unfold has_scb, multi_seid in Hi.
    apply negb_true_iff in Hi. rewrite Hi.
    replace (i + S j)%nat with (S i + j)%nat in * by lia.
    rewrite (IH (S i) j buf _ ltac:(lia) Hrest Hbad).
    rewrite <- app_assoc. reflexivity.
Qed.

Lemma multi_len_ok len :
  AVDT_LEN_MULTI_MIN <= len <= AVDT_NUM_SEPS ->
  (len <? AVDT_LEN_MULTI_MIN) || (len >? AVDT_NUM_SEPS) = false.
Proof.
  intros H. apply orb_false_iff. split; [apply Z.ltb_ge; lia|].
  destruct (Z.gtb_spec len AVDT_NUM_SEPS); [lia|reflexivity].
Qed.

(** [avdt_msg_prs_multi] on a body of an acceptable length.  If every
    byte names a stream, the message gets the whole SEID list, the count
    is the length and the result is 0.  Otherwise parsing stops at the
    first byte that names no stream: the result is [AVDT_ERR_SEID], the
    error parameter is that SEID and the count is its position. *)
Theorem avdt_msg_prs_multi_seids m buf len :
  0 <= len ->
  AVDT_LEN_MULTI_MIN <= len <= AVDT_NUM_SEPS ->
  (forallb has_scb (multi_seids buf (Z.to_nat len)) = true ->
   avdt_msg_prs_multi m buf len
   = Done (set_body (Body_multi (multi_seids buf (Z.to_nat len)) (u8 len))
             (upd_hdr (set_err_param 0) m), 0))
  /\ (forall k,
        (k < Z.to_nat len)%nat ->
        forallb has_scb (multi_seids buf k) = true ->
        has_scb (multi_seid buf k) = false ->
        avdt_msg_prs_multi m buf len
        = Done (upd_hdr (set_err_param (multi_seid buf k))
                  (set_body
                     (Body_multi (multi_seids buf (S k)) (u8 (Z.of_nat k)))
                     (upd_hdr (set_err_param 0) m)),
                AVDT_ERR_SEID)).
Proof.
  intros H0 Hlen. pose proof (multi_len_ok len Hlen) as Hok.
  unfold multi_seids. split.
  - intros Hall. unfold avdt_msg_prs_multi. cbv zeta. rewrite Hok.
    rewrite (prs_multi_loop_all _ 0 buf [] Hall). cbn [app Nat.add].
    rewrite Z2Nat.id by lia. reflexivity.
  - intros k Hk Hgood Hbad. unfold avdt_msg_prs_multi. cbv zeta.
    rewrite Hok.
    rewrite (prs_multi_loop_stop _ 0 k buf [] Hk Hgood Hbad).
    cbn [app Nat.add]. reflexivity.
Qed.

Lemma prs_cfg_shape p_cfg buf len sig r :
  avdt_msg_prs_cfg p_cfg buf len sig = Done r ->
  (p_cfg = None /\ res_cfg r = None /\ res_elem r = None)
  \/ (exists c e, res_cfg r = Some c /\ res_elem r = Some e).
Proof.
  unfold avdt_msg_prs_cfg. destruct p_cfg as [c|].
  - destruct (prs_cfg_loop _ _ _ _ _) as [s| |]; cbn [prs_cfg_finish];
      try discriminate.
    intros H; inversion H. right. eauto.
  - intros H; inversion H. left. auto.
Qed.

(** [avdt_msg_prs_setconfig_cmd] returns 0 only for a body that is long
    enough, whose first SEID names a stream of this device, whose second
    SEID lies in the range of valid SEIDs, and whose configuration has a
    codec and no service category outside [AVDT_PSC]; the message then
    carries the two SEIDs and that configuration. *)
Theorem avdt_msg_prs_setconfig_cmd_accepts m buf len m' :
  AVDT_ERR_LENGTH <> 0 -> AVDT_ERR_SEID <> 0 -> AVDT_ERR_INVALID_CAP <> 0 ->
  avdt_msg_prs_setconfig_cmd m buf len = Done (m', 0) ->
  AVDT_LEN_SETCONFIG_MIN <= len
  /\ has_scb (prs_seid (u8 (rd buf 0))) = true
  /\ seid (hdr m') = prs_seid (u8 (rd buf 0))
  /\ AVDT_SEID_MIN <= prs_seid (u8 (rd buf 1)) <= AVDT_SEID_MAX
  /\ exists c,
       body m' = Body_cfg (prs_seid (u8 (rd buf 1))) (Some c)
       /\ Z.land (psc_mask c) (Z.lnot AVDT_PSC) = 0
       /\ num_codec c <> 0.
Proof.
  intros HL HS HC. unfold avdt_msg_prs_setconfig_cmd. cbv zeta.
  destruct (Z.ltb_spec len AVDT_LEN_SETCONFIG_MIN) as [Hlt | Hge].
  { destruct (Z.eqb_spec AVDT_ERR_LENGTH 0); [contradiction|].
    intros H; inversion H; congruence. }
  set (sd := prs_seid (u8 (rd buf 0))). set (isd := prs_seid (u8 (rd buf 1))).
  unfold has_scb. fold sd.
  destruct (bad_seid isd) eqn:Hbad.
  { destruct (Z.eqb_spec AVDT_ERR_SEID 0); [contradiction|].
    intros H; inversion H; congruence. }
  destruct (is_null (avdt_scb_by_hdl sd)) eqn:Hnull.
  { destruct (Z.eqb_spec AVDT_ERR_SEID 0); [contradiction|].
    intros H; inversion H; congruence. }
  rewrite Z.eqb_refl.
  destruct (avdt_msg_prs_cfg _ _ _ _) as [r| |] eqn:Hcfg; cbn [obind];
    [|discriminate|discriminate].
  destruct (Z.eqb_spec (res_err r) 0) as [He | He].
  2:{ intros H; inversion H; congruence. }
  apply prs_cfg_shape in Hcfg.
  unfold bad_seid in Hbad. apply orb_false_iff in Hbad.
  destruct Hbad as [Hb1 Hb2]. apply Z.ltb_ge in Hb1.
  destruct (Z.gtb_spec isd AVDT_SEID_MAX) as [|Hb3]; [discriminate|].
  destruct Hcfg as [(Hn & Hr1 & Hr2) | (c & e & Hr1 & Hr2)];
    unfold store_cfg_result; rewrite Hr1, Hr2.
  { unfold body_p_cfg in *. cbn [body set_body upd_hdr] in *.
    rewrite Hn. discriminate. }
  unfold body_p_cfg, body_int_seid. cbn [body hdr set_body upd_hdr].
  destruct (negb (Z.land (psc_mask c) (Z.lnot AVDT_PSC) =? 0)
            || (num_codec c =? 0)) eqn:Hcap;
    [intros H; inversion H; congruence|].
  apply orb_false_iff in Hcap. destruct Hcap as [Hc1 Hc2].
  apply negb_false_iff, Z.eqb_eq in Hc1. apply Z.eqb_neq in Hc2.
  intros H; inversion H; subst m'; clear H.
  cbn [hdr body seid set_seid set_err_param].
  split; [exact Hge|split; [reflexivity|split; [reflexivity|]]].
  split; [lia|exists c; split; [reflexivity|split; assumption]].
Qed.

Lemma memcpy_nat_agree src1 src2 n : forall dst doff soff,
  (forall i, soff <= i < soff + Z.of_nat n -> rd src1 i = rd src2 i) ->
  memcpy_nat dst doff src1 soff n = memcpy_nat dst doff src2 soff n.
Proof.
  induction n as [|k IH]; intros dst doff soff H; [reflexivity|].
  cbn [memcpy_nat]. rewrite (H soff) by lia.
  apply IH. intros i Hi. apply H. lia.
Qed.

Lemma memcpy_agree p_end src1 src2 dst doff soff n :
  agree p_end src1 src2 -> 0 <= soff -> soff + n <= p_end ->
  memcpy dst doff src1 soff n = memcpy dst doff src2 soff n.
Proof.
  intros H H0 Hn. unfold memcpy. apply memcpy_nat_agree.
  intros i Hi. apply H. lia.
Qed.

Lemma prs_cfg_body_agree buf1 buf2 p_end sig s :
  2 <= AVDT_LEN_CFG_MIN -> agree p_end buf1 buf2 -> 0 <= p s ->
  prs_cfg_body buf1 p_end sig s = prs_cfg_body buf2 p_end sig s.
Proof.
  intros Hmin H Hp. unfold prs_cfg_body.
  destruct (Z.ltb_spec (p_end - p s) AVDT_LEN_CFG_MIN) as [|Hfit];
    [reflexivity|].
  rewrite (H (p s)), (H (p s + 1)) by lia. cbv zeta.
  cbn [cfg p elem err protect_offset].
  set (e := u8 (rd buf2 (p s))). set (el := u8 (rd buf2 (p s + 1))).
  assert (Hel : 0 <= el) by (apply Z.mod_pos_bound; lia).
  destruct (unknown_category e); [reflexivity|].
  destruct (_ || _); [reflexivity|].
  f_equal.
  destruct (e =? AVDT_CAT_RECOV).
  { unfold prs_cfg_recov. cbn [cfg p elem err protect_offset].
    destruct (Z.ltb_spec (p_end - (p s + 2)) 3); [reflexivity|].
    rewrite (H (p s + 2)), (H (p s + 2 + 1)), (H (p s + 2 + 2)) by lia.
    reflexivity. }
  destruct (e =? AVDT_CAT_PROTECT).
  { unfold prs_cfg_protect. cbn [cfg p elem err protect_offset]. cbv zeta.
    destruct (Z.gtb_spec (p s + 2 + el) p_end); [reflexivity|].
    destruct (_ <? AVDT_PROTECT_SIZE); [|reflexivity].
    rewrite (memcpy_agree p_end buf1 buf2) by (assumption || lia).
    reflexivity. }
  destruct (e =? AVDT_CAT_HDRCMP).
  { unfold prs_cfg_hdrcmp. cbn [cfg p elem err protect_offset].
    destruct (Z.ltb_spec (p_end - (p s + 2)) 1); [reflexivity|].
    rewrite (H (p s + 2)) by lia. reflexivity. }
  destruct (e =? AVDT_CAT_CODEC); [|reflexivity].
  unfold prs_cfg_codec. cbn [cfg p elem err protect_offset]. cbv zeta.
  set (tmp := if el >=? AVDT_CODEC_SIZE then _ else _).
  destruct (Z.gtb_spec (p s + 2 + tmp) p_end); [reflexivity|].
  rewrite (memcpy_agree p_end buf1 buf2) by (assumption || lia).
  reflexivity.
Qed.

Lemma prs_cfg_loop_agree buf1 buf2 p_end sig :
  2 <= AVDT_LEN_CFG_MIN -> agree p_end buf1 buf2 ->
  forall fuel s, 0 <= p s ->
  prs_cfg_loop fuel buf1 p_end sig s = prs_cfg_loop fuel buf2 p_end sig s.
Proof.
  intros Hmin H. induction fuel as [|k IH]; intros s Hp; [reflexivity|].
  cbn [prs_cfg_loop].
  rewrite (prs_cfg_body_agree buf1 buf2 p_end sig s Hmin H Hp).
  destruct (prs_cfg_body buf2 p_end sig s) as [s' brk] eqn:Hb.
  destruct brk; [reflexivity|].
  destruct (_ && _); [|reflexivity].
  apply IH. pose proof (AvdtProofs.prs_cfg_body_advances _ _ _ _ _ Hb). lia.
Qed.

(** [avdt_msg_prs_cfg] looks at the first [len] bytes of the body and at
    nothing behind them: on two buffers that agree on these bytes it gives
    the same configuration, error parameter and result. *)
Theorem avdt_msg_prs_cfg_reads_len p_cfg buf1 buf2 len sig :
  2 <= AVDT_LEN_CFG_MIN ->
  agree len buf1 buf2 ->
  avdt_msg_prs_cfg p_cfg buf1 len sig = avdt_msg_prs_cfg p_cfg buf2 len sig.
Proof.
  intros Hmin H. unfold avdt_msg_prs_cfg. destruct p_cfg as [c|];
    [|reflexivity].
  rewrite (prs_cfg_loop_agree buf1 buf2 len sig Hmin H); [reflexivity|].
  cbn. lia.
Qed.

End Parse.

Section Send.
Context `{E : Env}.

Lemma len_build_header b hdr_len label pkt_type msg nosp sig :
  len (build_header b hdr_len label pkt_type msg nosp sig)
  = u16 (len b + hdr_len).
Proof.
  unfold build_header. cbv zeta.
  destruct (pkt_type =? AVDT_PKT_TYPE_START); reflexivity.
Qed.

Lemma written_app l1 l2 : written (l1 ++ l2) = written l1 ++ written l2.
Proof.
  induction l1 as [|e l1 IH]; [reflexivity|].
  destruct e; cbn [app written]; rewrite ?IH; reflexivity.
Qed.

Lemma written_timers msg sig : written (start_cmd_timer msg sig) = [].
Proof.
  unfold start_cmd_timer.
  repeat match goal with |- context [if ?c then _ else _] => destruct c end;
    reflexivity.
Qed.

(** One turn of the loop on a message that is being fragmented: a CONT
    packet of [peer_mtu] bytes, or the END packet with the rest. *)
Lemma send_body_cont mtu m s :
  4 <= mtu < 65536 ->
  curr_msg_len s = len m -> 0 <= len m ->
  AVDT_MSG_OFFSET < offset m -> offset m + len m < 65536 ->
  0 <= AVDT_MSG_OFFSET ->
  exists s' tm sent,
    send_body mtu m s = Done s'
    /\ s_eff s' = s_eff s ++ tm ++ [Call_avdt_ad_write_req sent]
    /\ written tm = []
    /\ len sent <= mtu
    /\ send_cont_inv s'
    /\ len sent + remaining (s_ccb s') = len m + 1
    /\ (send_measure s' <= Z.to_nat (len m))%nat.
Proof.
  intros Hmtu Hcml Hlen Hoff Hfit Hmo. unfold send_body.
  unfold AVDT_LEN_TYPE_SINGLE, AVDT_LEN_TYPE_START, AVDT_LEN_TYPE_CONT,
    AVDT_LEN_TYPE_END.
  rewrite Hcml.
  assert (Hzero : u16 (len m - len m) = 0)
    by (rewrite Z.sub_diag; reflexivity).
  assert (Hunf : (offset m =? AVDT_MSG_OFFSET) = false)
    by (apply Z.eqb_neq; lia).
  assert (Hgto : (offset m >? AVDT_MSG_OFFSET) = true)
    by (apply Z.gtb_lt; lia).
  rewrite Hunf, Hgto. cbn [andb].
  destruct (Z.gtb_spec (len m) (mtu - 1)) as [Hgt | Hle].
  - (* CONT *)
    cbv zeta. cbv beta iota. unfold new_fragment. cbn [len offset].
    rewrite (AvdtProofs.u16_small (mtu - 1)) by lia.
    rewrite (AvdtProofs.u16_small (len m - (mtu - 1))) by lia.
    assert (Hne : (len m - (mtu - 1) =? 0) = false)
      by (apply Z.eqb_neq; lia).
    rewrite Hne. cbv iota.
    eexists. exists []. eexists. split; [reflexivity|].
    cbn [s_eff s_ccb curr_msg_len app]. split; [reflexivity|].
    split; [reflexivity|].
    rewrite len_build_header. cbn [len].
    replace (mtu - 1 + 1) with mtu by lia.
    rewrite (AvdtProofs.u16_small mtu) by lia.
    split; [lia|].
    unfold send_cont_inv, remaining, send_measure.
    cbn [s_ccb curr_msg_len set_cong set_p_curr_msg p_curr_msg set_offset
         set_len len offset].
    rewrite (AvdtProofs.u16_small (offset m + (mtu - 1))) by lia.
    repeat split; lia.
  - (* END *)
    cbv zeta. cbv beta iota. rewrite Hzero.
    change (0 =? 0) with true. cbv iota.
    eexists. eexists. eexists. split; [reflexivity|].
    cbn [s_eff s_ccb]. split; [reflexivity|].
    split; [apply written_timers|].
    rewrite len_build_header.
    rewrite (AvdtProofs.u16_small (len m + 1)) by lia.
    split; [lia|].
    unfold send_cont_inv, remaining, send_measure.
    cbn [s_ccb set_cong set_p_curr_msg p_curr_msg].
    repeat split; lia.
Qed.

Lemma total_len_app l1 l2 :
  total_len (l1 ++ l2) = total_len l1 + total_len l2.
Proof.
  unfold total_len.
  induction l1 as [|b l1 IH]; cbn [app fold_right]; lia.
Qed.

(** The loop on a message that is being fragmented. *)
Lemma send_loop_cont mtu :
  4 <= mtu < 65536 -> 0 <= AVDT_MSG_OFFSET ->
  forall n s, send_cont_inv s -> (send_measure s <= n)%nat ->
  exists s' e,
    (forall fuel, (n <= fuel)%nat -> send_loop fuel mtu s = Done s')
    /\ s_eff s' = s_eff s ++ e
    /\ Forall (fun b => len b <= mtu) (written e)
    /\ total_len (written e) + remaining (s_ccb s')
       = remaining (s_ccb s) + Z.of_nat (length (written e))
    /\ (cong (s_ccb s') = false -> p_curr_msg (s_ccb s') = None).
Proof.
  intros Hmtu Hmo. induction n as [|n IH]; intros s Hinv Hmeas.
  - exists s, []. rewrite app_nil_r. unfold send_measure in Hmeas.
    split; [|split; [reflexivity|split; [constructor|split]]].
    + intros fuel _.
      destruct fuel; cbn [send_loop]; destruct (cong (s_ccb s));
        try reflexivity; destruct (p_curr_msg (s_ccb s)); try reflexivity;
        lia.
    + cbn. lia.
    + intros _. destruct (p_curr_msg (s_ccb s)); [lia|reflexivity].
  - destruct (cong (s_ccb s)) eqn:Hcong.
    { exists s, []. rewrite app_nil_r.
      split; [|split; [reflexivity|split; [constructor|split]]].
      - intros fuel _. destruct fuel; cbn [send_loop]; rewrite Hcong;
          reflexivity.
      - cbn. lia.
      - congruence. }
    destruct (p_curr_msg (s_ccb s)) as [m|] eqn:Hcur.
    2:{ exists s, []. rewrite app_nil_r.
        split; [|split; [reflexivity|split; [constructor|split]]].
        - intros fuel _. destruct fuel; cbn [send_loop];
            rewrite Hcong, Hcur; reflexivity.
        - cbn. lia.
        - intros _. exact Hcur. }
    unfold send_cont_inv in Hinv. unfold send_measure in Hmeas.
    rewrite Hcur in Hinv, Hmeas. destruct Hinv as (Hcml & Hlen & Hoff & Hfit).
    destruct (send_body_cont mtu m s Hmtu Hcml Hlen Hoff Hfit Hmo)
      as (s1 & tm & sent & Hbody & He1 & Htm & Hsent & Hinv1 & Hsum1 & Hm1).
    destruct (IH s1 Hinv1 ltac:(lia)) as (s' & e & Hrun & He & Hall & Hsum
                                            & Hend).
    exists s', (tm ++ [Call_avdt_ad_write_req sent] ++ e).
    split; [|split; [|split; [|split]]].
    + intros fuel Hfuel. destruct fuel as [|k]; [lia|].
      cbn [send_loop]. rewrite Hcong, Hcur, Hbody. apply Hrun. lia.
    + rewrite He, He1. rewrite <- !app_assoc. reflexivity.
    + rewrite written_app, Htm. cbn [app written]. constructor; assumption.
    + rewrite written_app, Htm. cbn [app written length].
      unfold total_len in *. cbn [fold_right].
      unfold remaining at 2. rewrite Hcur. lia.
    + exact Hend.
Qed.

(** The first turn of the loop on a message that has not been touched:
    a SINGLE packet with all of it, or a START packet of [peer_mtu]
    bytes. *)
Lemma send_body_first mtu m s :
  4 <= mtu < 65536 ->
  curr_msg_len s = len m -> 0 <= len m ->
  offset m = AVDT_MSG_OFFSET -> AVDT_MSG_OFFSET + len m < 65536 ->
  0 <= AVDT_MSG_OFFSET ->
  exists s' tm sent,
    send_body mtu m s = Done s'
    /\ s_eff s' = s_eff s ++ tm ++ [Call_avdt_ad_write_req sent]
    /\ written tm = []
    /\ len sent <= mtu
    /\ send_cont_inv s'
    /\ len sent + remaining (s_ccb s')
       = len m + (if len m <=? mtu - AVDT_LEN_TYPE_SINGLE then 2 else 3)
    /\ (send_measure s' <= Z.to_nat (len m))%nat.
Proof.
  intros Hmtu Hcml Hlen Hoff Hfit Hmo. unfold send_body.
  unfold AVDT_LEN_TYPE_SINGLE, AVDT_LEN_TYPE_START, AVDT_LEN_TYPE_CONT,
    AVDT_LEN_TYPE_END.
  assert (Hdiv : (mtu - 1 =? 0) = false) by (apply Z.eqb_neq; lia).
  rewrite Hdiv, Hcml.
  assert (Hzero : u16 (len m - len m) = 0)
    by (rewrite Z.sub_diag; reflexivity).
  assert (Hunf : (offset m =? AVDT_MSG_OFFSET) = true)
    by (apply Z.eqb_eq; exact Hoff).
  rewrite Hunf. cbn [andb].
  destruct (Z.leb_spec (len m) (mtu - 2)) as [Hle | Hgt].
  - (* SINGLE *)
    cbv zeta. cbv beta iota. rewrite Hzero.
    change (0 =? 0) with true. cbv iota.
    eexists. eexists. eexists. split; [reflexivity|].
    cbn [s_eff s_ccb]. split; [reflexivity|].
    split; [apply written_timers|].
    rewrite len_build_header.
    rewrite (AvdtProofs.u16_small (len m + 2)) by lia.
    split; [lia|].
    unfold send_cont_inv, remaining, send_measure.
    cbn [s_ccb set_cong set_p_curr_msg p_curr_msg].
    repeat split; lia.
  - (* START *)
    assert (Hg : (len m >? mtu - 2) = true) by (apply Z.gtb_lt; lia).
    rewrite Hg. cbv zeta. cbv beta iota.
    unfold new_fragment. cbn [len offset].
    rewrite (AvdtProofs.u16_small (mtu - 3)) by lia.
    rewrite (AvdtProofs.u16_small (len m - (mtu - 3))) by lia.
    assert (Hne : (len m - (mtu - 3) =? 0) = false)
      by (apply Z.eqb_neq; lia).
    rewrite Hne. cbv iota.
    eexists. exists []. eexists. split; [reflexivity|].
    cbn [s_eff s_ccb curr_msg_len app]. split; [reflexivity|].
    split; [reflexivity|].
    rewrite len_build_header. cbn [len].
    replace (mtu - 3 + 3) with mtu by lia.
    rewrite (AvdtProofs.u16_small mtu) by lia.
    split; [lia|].
    unfold send_cont_inv, remaining, send_measure.
    cbn [s_ccb curr_msg_len set_cong set_p_curr_msg p_curr_msg set_offset
         set_len len offset].
    rewrite (AvdtProofs.u16_small (offset m + (mtu - 3))) by lia.
    repeat split; lia.
Qed.

(** [avdt_msg_send] on a message that has not been touched returns, and
    no packet it hands to [avdt_ad_write_req] is longer than the MTU of
    the peer, however the channel becomes congested.  When it returns
    "not congested" the whole message has been sent and nothing is left
    in [p_curr_msg]: the packets carry its bytes plus one header byte each,
    plus the signal byte, plus the packet count byte when the message is
    fragmented. *)
Theorem avdt_msg_send_packets ccb m :
  let mtu := sig_peer_mtu ccb in
  offset m = AVDT_MSG_OFFSET ->
  4 <= mtu < 65536 ->
  0 <= len m -> 0 <= AVDT_MSG_OFFSET -> AVDT_MSG_OFFSET + len m < 65536 ->
  exists ccb' eff flag,
    (forall fuel, (Z.to_nat (len m) < fuel)%nat ->
       avdt_msg_send fuel ccb (Some m) = Done (ccb', eff, flag))
    /\ Forall (fun b => len b <= mtu) (written eff)
    /\ (flag = false ->
        p_curr_msg ccb' = None
        /\ total_len (written eff)
           = len m + Z.of_nat (length (written eff))
             + (if len m <=? mtu - AVDT_LEN_TYPE_SINGLE then 1 else 2)).
Proof.
  intros mtu Hoff Hmtu Hlen Hmo Hfit.
  set (s0 := mkSend (set_p_curr_msg (Some m) ccb) (len m) 0 []).
  unfold avdt_msg_send. fold mtu.
  cbn [set_p_curr_msg p_curr_msg]. fold (set_p_curr_msg (Some m) ccb).
  fold s0.
  destruct (cong ccb) eqn:Hcong.
  { exists (s_ccb s0), [], true. split; [|split; [constructor|discriminate]].
    intros fuel _.
    assert (Hl : send_loop fuel mtu s0 = Done s0).
    { destruct fuel; cbn [send_loop]; cbn [s0 s_ccb set_p_curr_msg cong];
        rewrite Hcong; reflexivity. }
    rewrite Hl. cbn [s0 s_ccb s_eff set_p_curr_msg cong]. rewrite Hcong.
    reflexivity. }
  destruct (send_body_first mtu m s0 Hmtu eq_refl Hlen Hoff Hfit Hmo)
    as (s1 & tm & sent & Hbody & He1 & Htm & Hsent & Hinv1 & Hsum1 & Hm1).
  destruct (send_loop_cont mtu Hmtu Hmo (Z.to_nat (len m)) s1 Hinv1 Hm1)
    as (s' & e & Hrun & He & Hall & Hsum & Hend).
  exists (s_ccb s'), (s_eff s'), (cong (s_ccb s')).
  split; [|split].
  - intros fuel Hfuel. destruct fuel as [|k]; [lia|].
    cbn [send_loop]. cbn [s0 s_ccb set_p_curr_msg cong p_curr_msg].
    rewrite Hcong. fold (set_p_curr_msg (Some m) ccb). fold s0.
    rewrite Hbody. rewrite (Hrun k) by lia. reflexivity.
  - rewrite He, He1. cbn [s0 s_eff app].
    rewrite !written_app, Htm. cbn [app written].
    constructor; assumption.
  - intros Hflag. split; [exact (Hend Hflag)|].
    rewrite He, He1. cbn [s0 s_eff app].
    rewrite !written_app, Htm. cbn [app written length].
    unfold total_len in *. cbn [fold_right].
    unfold remaining in Hsum at 1. rewrite (Hend Hflag) in Hsum.
    destruct (len m <=? mtu - AVDT_LEN_TYPE_SINGLE); lia.
Qed.

End Send.

Section Asmbl.
Context `{E : Env}.

(** [avdt_msg_asmbl] keeps the reassembly inside its buffer: after any
    fragment the write position is at most the size of the buffer and the
    message so far lies before it, and a message returned at an END
    fragment lies inside the buffer with its whole length.  (A SINGLE
    packet is returned as the buffer it came in.) *)
Theorem avdt_msg_asmbl_in_bounds ccb p_buf :
  BT_DEFAULT_BUFFER_SIZE - sizeof_BT_HDR < 65536 ->
  fields_u16 p_buf ->
  rx_in_bounds ccb ->
  rx_in_bounds (fst (fst (avdt_msg_asmbl ccb p_buf)))
  /\ match snd (fst (avdt_msg_asmbl ccb p_buf)) with
     | Some m => m = p_buf \/ msg_in_bounds m
     | None => True
     end.
Proof.
  intros Hbuf [Hlen Hoff] Hrx. unfold avdt_msg_asmbl.
  destruct (Z.ltb_spec (len p_buf) 1) as [|Hl1]; [split; [exact Hrx|exact I]|].
  cbv zeta.
  destruct (len p_buf <? rd avdt_msg_pkt_type_len (pkt_type_of p_buf));
    [split; [exact Hrx|exact I]|].
  assert (Hfree : rx_in_bounds (fst (free_rx ccb))).
  { unfold free_rx, rx_in_bounds.
    destruct (p_rx_msg ccb) eqn:Hcur; cbn [fst set_p_rx_msg p_rx_msg];
      [exact I|rewrite Hcur; exact I]. }
  destruct (pkt_type_of p_buf =? AVDT_PKT_TYPE_SINGLE).
  { destruct (free_rx ccb) as [ccb1 e1]. cbn [fst snd] in *.
    split; [exact Hfree|left; reflexivity]. }
  destruct (pkt_type_of p_buf =? AVDT_PKT_TYPE_START).
  { destruct (free_rx ccb) as [ccb1 e1]. cbn [fst] in Hfree.
    unfold asmbl_start.
    destruct (Z.gtb_spec (sizeof_BT_HDR + offset p_buf + len p_buf)
                BT_DEFAULT_BUFFER_SIZE) as [|Hfit];
      cbn [fst snd]; [split; [exact Hfree|exact I]|].
    split; [|exact I].
    unfold rx_in_bounds.
    cbn [set_p_rx_msg p_rx_msg len offset].
    rewrite (AvdtProofs.u16_small (len p_buf - 1)) by lia.
    rewrite (AvdtProofs.u16_small (offset p_buf + len p_buf)) by lia.
    lia. }
  unfold rx_in_bounds in Hrx.
  destruct (p_rx_msg ccb) as [rx|] eqn:Hcur.
  2:{ cbn [fst snd]. split; [|exact I]. unfold rx_in_bounds.
      rewrite Hcur. exact I. }
  destruct Hrx as [Hrl Hro].
  unfold asmbl_append. cbv zeta. unfold AVDT_LEN_TYPE_CONT.
  cbn [set_len set_offset len offset].
  rewrite (AvdtProofs.u16_small (len p_buf - 1)) by lia.
  destruct (Z.gtb_spec (offset rx + (len p_buf - 1))
              (BT_DEFAULT_BUFFER_SIZE - sizeof_BT_HDR)) as [|Hfit].
  { cbn [fst snd]. split; [|exact I]. unfold rx_in_bounds.
    cbn [set_p_rx_msg p_rx_msg]. exact I. }
  destruct (pkt_type_of p_buf =? AVDT_PKT_TYPE_END); cbn [fst snd].
  - split; [unfold rx_in_bounds; cbn [set_p_rx_msg p_rx_msg]; exact I|].
    right. unfold msg_in_bounds. cbn [len offset].
    rewrite (AvdtProofs.u16_small (len rx + (len p_buf - 1))) by lia.
    rewrite (AvdtProofs.u16_small (offset rx - len rx)) by lia.
    lia.
  - split; [|exact I]. unfold rx_in_bounds.
    cbn [set_p_rx_msg p_rx_msg len offset].
    rewrite (AvdtProofs.u16_small (len rx + (len p_buf - 1))) by lia.
    rewrite (AvdtProofs.u16_small (offset rx + (len p_buf - 1))) by lia.
    lia.
Qed.

End Asmbl.

Section Reject.
Context `{E : Env}.

Lemma rd_drop d n i :
  0 <= n -> 0 <= i -> rd (drop (Z.to_nat n) d) i = rd d (n + i).
Proof.
  intros Hn Hi. unfold rd.
  assert (H1 : (i <? 0) = false) by (apply Z.ltb_ge; lia).
  assert (H2 : (n + i <? 0) = false) by (apply Z.ltb_ge; lia).
  rewrite H1, H2, lookup_drop.
  replace (Z.to_nat n + Z.to_nat i)%nat with (Z.to_nat (n + i)) by lia.
  reflexivity.
Qed.

Lemma seid_round_trip ep : prs_seid (u8 (Z.shiftl ep 2)) = ep mod 64.
Proof.
  unfold prs_seid, u8. rewrite Z.shiftl_mul_pow2, Z.shiftr_div_pow2 by lia.
  change (2 ^ 2) with 4. change 256 with (64 * 4).
  rewrite Z.mul_mod_distr_r by lia. apply Z.div_mul. lia.
Qed.

(** What [avdt_msg_send_rej] queues, [avdt_msg_prs_rej] reads back: the
    reject of a signal parses without error, with the error code of the
    sender (as a byte) and, for the signals whose reject has one, the
    error parameter of the sender. *)
Theorem avdt_msg_send_rej_parses_back ccb sig m m0 :
  sig <> AVDT_SIG_NONE ->
  0 <= AVDT_MSG_OFFSET ->
  AVDT_MSG_OFFSET + 2 + sizeof_BT_HDR <= AVDT_CMD_BUF_SIZE ->
  exists b m1,
    fst (avdt_msg_send_rej ccb sig m) = set_rsp_q (rsp_q ccb ++ [b]) ccb
    /\ event b = sig
    /\ avdt_msg_prs_rej m0 (body_of b) (len b) sig = Done (m1, 0)
    /\ err_code (hdr m1) = u8 (err_code (hdr m))
    /\ err_param (hdr m1)
       = rej_param sig (err_param (hdr m)) (err_param (hdr m0)).
Proof.
  intros Hsig Hmo Hroom. unfold sizeof_BT_HDR in Hroom.
  unfold avdt_msg_send_rej, queue_rsp, rej_param. cbv zeta.
  assert (Hn : negb (sig =? AVDT_SIG_NONE) = true)
    by (apply negb_true_iff, Z.eqb_neq; exact Hsig).
  rewrite Hn.
  set (d0 := data (osi_malloc AVDT_CMD_BUF_SIZE)).
  assert (Hd0 : length d0 = Z.to_nat (AVDT_CMD_BUF_SIZE - 8)).
  { subst d0. unfold osi_malloc. cbn [data]. apply repeat_length. }
  set (p0 := AVDT_MSG_OFFSET) in *.
  destruct ((sig =? AVDT_SIG_SETCONFIG) || (sig =? AVDT_SIG_RECONFIG))
    eqn:Hcfg;
    [|destruct ((sig =? AVDT_SIG_START) || (sig =? AVDT_SIG_SUSPEND))
        eqn:Hst].
  - eexists. eexists. split; [reflexivity|]. split; [reflexivity|].
    unfold body_of. cbn [fst len offset data event].
    replace (p0 + 1 + 1 - p0) with 2 by lia. change (u16 2) with 2.
    unfold avdt_msg_prs_rej. change (2 >? 0) with true. rewrite Hcfg.
    cbv iota. change (u16 (2 - 1) <? 1) with false. cbv iota.
    split; [reflexivity|]. cbn [hdr upd_hdr err_code err_param set_err_code
                                 set_err_param].
    rewrite !rd_drop by lia.
    split.
    + rewrite AvdtProofs.rd_wr_eq
        by (rewrite ?AvdtProofs.length_wr; lia).
      apply AvdtProofs.u8_idem.
    + replace (p0 + 0) with p0 by lia.
      rewrite AvdtProofs.rd_wr_ne by lia.
      rewrite AvdtProofs.rd_wr_eq by lia.
      apply AvdtProofs.u8_idem.
  - eexists. eexists. split; [reflexivity|]. split; [reflexivity|].
    unfold body_of. cbn [fst len offset data event].
    replace (p0 + 1 + 1 - p0) with 2 by lia. change (u16 2) with 2.
    unfold avdt_msg_prs_rej. change (2 >? 0) with true. rewrite Hcfg, Hst.
    cbv iota. change (u16 (2 - 1) <? 1) with false. cbv iota.
    split; [reflexivity|]. cbn [hdr upd_hdr err_code err_param set_err_code
                                 set_err_param].
    rewrite !rd_drop by lia.
    split.
    + rewrite AvdtProofs.rd_wr_eq
        by (rewrite ?AvdtProofs.length_wr; lia).
      apply AvdtProofs.u8_idem.
    + replace (p0 + 0) with p0 by lia.
      rewrite AvdtProofs.rd_wr_ne by lia.
      rewrite AvdtProofs.rd_wr_eq by lia.
      rewrite AvdtProofs.u8_idem. apply seid_round_trip.
  - eexists. eexists. split; [reflexivity|]. split; [reflexivity|].
    unfold body_of. cbn [fst len offset data event].
    replace (p0 + 1 - p0) with 1 by lia. change (u16 1) with 1.
    unfold avdt_msg_prs_rej. change (1 >? 0) with true. rewrite Hcfg, Hst.
    cbv iota. change (1 <? 1) with false. cbv iota.
    split; [reflexivity|]. cbn [hdr upd_hdr err_code err_param set_err_code
                                 set_err_param].
    rewrite !rd_drop by lia. replace (p0 + 0) with p0 by lia.
    split; [|reflexivity].
    rewrite AvdtProofs.rd_wr_eq by lia. apply AvdtProofs.u8_idem.
Qed.

End Reject.

Section Reassembly.
Context `{E : Env}.

Lemma rd_neg d j : j < 0 -> rd d j = 0.
Proof.
  intros H. unfold rd.
  assert (Hn : (j <? 0) = true) by (apply Z.ltb_lt; exact H).
  rewrite Hn. reflexivity.
Qed.

Lemma rd_wr_other d i j v : i <> j -> rd (wr d i v) j = rd d j.
Proof.
  intros Hne. destruct (Z.lt_ge_cases j 0) as [Hj | Hj].
  { rewrite !rd_neg by exact Hj. reflexivity. }
  destruct (Z.lt_ge_cases i 0) as [Hi | Hi].
  { unfold wr. assert (Hn : (i <? 0) = true) by (apply Z.ltb_lt; exact Hi).
    rewrite Hn. reflexivity. }
  apply AvdtProofs.rd_wr_ne; assumption.
Qed.

Lemma rd_memcpy_nat_out src n : forall dst doff soff j,
  j < doff \/ doff + Z.of_nat n <= j ->
  rd (memcpy_nat dst doff src soff n) j = rd dst j.
Proof.
  induction n as [|k IH]; intros dst doff soff j Hj; [reflexivity|].
  cbn [memcpy_nat]. rewrite IH by lia. apply rd_wr_other. lia.
Qed.

Lemma rd_memcpy_nat_in src n : forall dst doff soff j,
  0 <= doff -> (Z.to_nat doff + n <= length dst)%nat ->
  doff <= j < doff + Z.of_nat n ->
  rd (memcpy_nat dst doff src soff n) j = u8 (rd src (soff + (j - doff))).
Proof.
  induction n as [|k IH]; intros dst doff soff j Hd Hlen Hj; [lia|].
  cbn [memcpy_nat]. destruct (Z.eq_dec j doff) as [-> | Hne].
  - rewrite rd_memcpy_nat_out by lia.
    rewrite AvdtProofs.rd_wr_eq by lia.
    replace (soff + (doff - doff)) with soff by lia. reflexivity.
  - rewrite IH; [| lia | rewrite AvdtProofs.length_wr; lia | lia].
    f_equal. f_equal. lia.
Qed.

Lemma rd_memcpy_out dst doff src soff n j :
  j < doff \/ doff + n <= j ->
  rd (memcpy dst doff src soff n) j = rd dst j.
Proof.
  intros Hj. unfold memcpy. apply rd_memcpy_nat_out. lia.
Qed.

Lemma rd_memcpy_in dst doff src soff n j :
  0 <= doff -> 0 <= n -> (Z.to_nat (doff + n) <= length dst)%nat ->
  doff <= j < doff + n ->
  rd (memcpy dst doff src soff n) j = u8 (rd src (soff + (j - doff))).
Proof.
  intros Hd Hn Hlen Hj. unfold memcpy. apply rd_memcpy_nat_in; lia.
Qed.

Lemma bytes_ext d1 o1 d2 o2 n :
  (forall i, 0 <= i < n -> u8 (rd d1 (o1 + i)) = u8 (rd d2 (o2 + i))) ->
  bytes d1 o1 n = bytes d2 o2 n.
Proof.
  intros H. unfold bytes. apply map_ext_in. intros i Hi.
  apply in_seq in Hi. apply H. lia.
Qed.

Lemma map_seq_from {A} (f : nat -> A) a : forall n,
  map f (seq a n) = map (fun i => f (a + i)%nat) (seq 0 n).
Proof.
  intros n. revert a f. induction n as [|k IH]; intros a f; [reflexivity|].
  cbn [seq map]. rewrite Nat.add_0_r. f_equal.
  rewrite (IH (S a)), (IH 1%nat). apply map_ext. intros i.
  f_equal. lia.
Qed.

Lemma bytes_app d o n1 n2 :
  0 <= n1 -> 0 <= n2 ->
  bytes d o (n1 + n2) = bytes d o n1 ++ bytes d (o + n1) n2.
Proof.
  intros H1 H2. unfold bytes.
  rewrite Z2Nat.inj_add by lia. rewrite seq_app, map_app. f_equal.
  cbn [Nat.add]. rewrite (map_seq_from _ (Z.to_nat n1)).
  apply map_ext_in. intros i _. f_equal. f_equal. lia.
Qed.

Lemma bytes_cons d o n :
  1 <= n -> bytes d o n = u8 (rd d o) :: bytes d (o + 1) (n - 1).
Proof.
  intros Hn. replace n with (1 + (n - 1)) at 1 by lia.
  rewrite bytes_app by lia. unfold bytes at 1.
  change (Z.to_nat 1) with 1%nat. cbn [seq map app].
  replace (o + Z.of_nat 0) with o by lia. reflexivity.
Qed.

Lemma length_osi_malloc n :
  length (data (osi_malloc n)) = Z.to_nat (n - sizeof_BT_HDR).
Proof. unfold osi_malloc. cbn [data]. apply repeat_length. Qed.

(** A START packet that fits: the reassembly holds its stream. *)
Lemma asmbl_start_holds ccb s :
  kind_of s = Start -> frag_ok s ->
  sizeof_BT_HDR + offset s + len s <= BT_DEFAULT_BUFFER_SIZE ->
  avdt_msg_asmbl ccb s
  = (set_p_rx_msg (Some (rx_after_start s)) (fst (free_rx ccb)), None,
     snd (free_rx ccb) ++ [Call_osi_free s])
  /\ rx_holds (rx_after_start s) (start_stream s).
Proof.
  intros Hk (Hlen & Hoff & Hsum) Hfit.
  pose proof (AvdtProofs.kind_of_cases s) as Hc.
  rewrite Hk in Hc. destruct Hc as [Hs Hpt].
  assert (Hl3 : 3 <= len s).
  { unfold too_short in Hs. apply orb_false_iff in Hs. destruct Hs as [_ Hs].
    rewrite Hpt in Hs. apply Z.ltb_ge in Hs. exact Hs. }
  unfold sizeof_BT_HDR in *.
  split.
  - rewrite AvdtProofs.avdt_msg_asmbl_long by exact Hs. rewrite Hpt.
    change (AVDT_PKT_TYPE_START =? AVDT_PKT_TYPE_SINGLE) with false.
    change (AVDT_PKT_TYPE_START =? AVDT_PKT_TYPE_START) with true.
    cbv iota. unfold asmbl_start, sizeof_BT_HDR.
    assert (Hno : (8 + offset s + len s >? BT_DEFAULT_BUFFER_SIZE) = false).
    { destruct (Z.gtb_spec (8 + offset s + len s) BT_DEFAULT_BUFFER_SIZE);
        [lia|reflexivity]. }
    rewrite Hno. cbv zeta. cbn [fst snd offset len data event layer_specific].
    rewrite (AvdtProofs.u16_small (len s - 1)) by lia.
    rewrite (AvdtProofs.u16_small (offset s + len s)) by lia.
    reflexivity.
  - unfold rx_holds, rx_after_start. cbv zeta.
    cbn [len offset data]. unfold sizeof_BT_HDR.
    set (d0 := memcpy _ 0 (data s) 0 (offset s + len s)).
    assert (Hd0 : length d0 = Z.to_nat (BT_DEFAULT_BUFFER_SIZE - 8)).
    { subst d0. rewrite AvdtProofs.length_memcpy. apply length_osi_malloc. }
    assert (Hrd : forall j, 0 <= j < offset s + len s ->
                            rd d0 j = u8 (rd (data s) j)).
    { intros j Hj. subst d0. rewrite rd_memcpy_in.
      - f_equal. f_equal. lia.
      - lia.
      - lia.
      - rewrite AvdtProofs.length_memcpy in Hd0.
        rewrite length_osi_malloc. unfold sizeof_BT_HDR. lia.
      - lia. }
    split; [lia|]. split; [lia|].
    split; [rewrite AvdtProofs.length_wr; exact Hd0|].
    replace (offset s + len s - (len s - 1)) with (offset s + 1) by lia.
    unfold start_stream. rewrite bytes_cons by lia. f_equal.
    + rewrite AvdtProofs.rd_wr_eq by lia. rewrite Hrd by lia.
      rewrite !AvdtProofs.u8_idem. reflexivity.
    + replace (offset s + 1 + 1) with (offset s + 2) by lia.
      replace (len s - 1 - 1) with (len s - 2) by lia.
      apply bytes_ext. intros i Hi.
      rewrite rd_wr_other by lia. rewrite Hrd by lia.
      apply AvdtProofs.u8_idem.
Qed.

(** Appending a packet that fits: the stream grows by what follows the
    header byte of the packet. *)
Lemma rx_data_after_holds rx b st :
  rx_holds rx st -> frag_ok b -> 1 <= len b ->
  offset rx + (len b - 1) <= BT_DEFAULT_BUFFER_SIZE - sizeof_BT_HDR ->
  bytes (rx_data_after rx b) (offset rx - len rx) (len rx + (len b - 1))
  = st ++ cont_stream b
  /\ length (rx_data_after rx b)
     = Z.to_nat (BT_DEFAULT_BUFFER_SIZE - sizeof_BT_HDR).
Proof.
  intros (Hl & Ho & Hd & Hst) (Hlen & Hoff & Hsum) Hl1 Hfit.
  unfold rx_data_after. split; [|rewrite AvdtProofs.length_memcpy; exact Hd].
  rewrite bytes_app by lia.
  replace (offset rx - len rx + len rx) with (offset rx) by lia.
  f_equal.
  - rewrite <- Hst. apply bytes_ext. intros i Hi.
    rewrite rd_memcpy_out by lia. reflexivity.
  - unfold cont_stream. apply bytes_ext. intros i Hi.
    rewrite rd_memcpy_in by lia.
    rewrite AvdtProofs.u8_idem. f_equal. f_equal. lia.
Qed.

Lemma asmbl_append_eq ccb rx b :
  p_rx_msg ccb = Some rx ->
  kind_of b = Cont \/ kind_of b = End_ ->
  frag_ok b -> 0 <= len rx <= offset rx ->
  offset rx + (len b - 1) <= BT_DEFAULT_BUFFER_SIZE - sizeof_BT_HDR ->
  BT_DEFAULT_BUFFER_SIZE - sizeof_BT_HDR < 65536 ->
  1 <= len b
  /\ fst (avdt_msg_asmbl ccb b)
     = if pkt_type_of b =? AVDT_PKT_TYPE_END
       then (set_p_rx_msg None ccb,
             Some (mkBT_HDR (event rx) (len rx + (len b - 1))
                     (offset rx - len rx) (layer_specific rx)
                     (rx_data_after rx b)))
       else (set_p_rx_msg
               (Some (mkBT_HDR (event rx) (len rx + (len b - 1))
                        (offset rx + (len b - 1)) (layer_specific rx)
                        (rx_data_after rx b))) ccb, None).
Proof.
  intros Hrx Hk (Hlen & Hoff & Hsum) Hl Hfit Hbuf.
  pose proof (AvdtProofs.kind_of_cases b) as Hc.
  assert (Hs : too_short b = false
               /\ (pkt_type_of b =? AVDT_PKT_TYPE_SINGLE) = false
               /\ (pkt_type_of b =? AVDT_PKT_TYPE_START) = false).
  { destruct Hk as [Hk | Hk]; rewrite Hk in Hc; destruct Hc as [Hs Hpt];
      rewrite Hpt; repeat split; assumption || reflexivity. }
  destruct Hs as (Hs & Hn1 & Hn2).
  pose proof (AvdtProofs.too_short_len b Hs) as Hl1.
  split; [exact Hl1|].
  rewrite AvdtProofs.avdt_msg_asmbl_long by exact Hs.
  rewrite Hn1, Hn2, Hrx. unfold asmbl_append, rx_data_after. cbv zeta.
  cbn [len offset data set_len set_offset]. unfold AVDT_LEN_TYPE_CONT.
  rewrite (AvdtProofs.u16_small (len b - 1)) by lia.
  rewrite (AvdtProofs.u16_small (offset b + 1)) by lia.
  assert (Hno : (offset rx + (len b - 1)
                 >? BT_DEFAULT_BUFFER_SIZE - sizeof_BT_HDR) = false).
  { destruct (Z.gtb_spec (offset rx + (len b - 1))
                (BT_DEFAULT_BUFFER_SIZE - sizeof_BT_HDR)); [lia|reflexivity]. }
  rewrite Hno.
  rewrite (AvdtProofs.u16_small (len rx + (len b - 1))) by lia.
  destruct (pkt_type_of b =? AVDT_PKT_TYPE_END); cbn [fst].
  - rewrite (AvdtProofs.u16_small (offset rx - len rx)) by lia. reflexivity.
  - rewrite (AvdtProofs.u16_small (offset rx + (len b - 1))) by lia.
    reflexivity.
Qed.

Lemma kind_pkt_type b :
  (kind_of b = Cont -> (pkt_type_of b =? AVDT_PKT_TYPE_END) = false)
  /\ (kind_of b = End_ -> (pkt_type_of b =? AVDT_PKT_TYPE_END) = true).
Proof.
  pose proof (AvdtProofs.kind_of_cases b) as Hc.
  split; intros Hk; rewrite Hk in Hc; destruct Hc as [_ ->]; reflexivity.
Qed.

Lemma conts_u16 cs :
  Forall (fun c => kind_of c = Cont /\ frag_ok c) cs ->
  Forall (fun c => kind_of c = Cont /\ fields_u16 c) cs.
Proof.
  induction 1 as [|c cs [Hk (H1 & H2 & H3)] _ IH]; constructor;
    [|exact IH].
  split; [exact Hk|]. unfold fields_u16. lia.
Qed.

(** CONT packets and an END, all fitting, behind a reassembly that holds
    [st]: the message returned at the END is [st] followed by what the
    packets carry. *)
Lemma asmbl_run_holds : forall cs ccb rx st e,
  p_rx_msg ccb = Some rx -> rx_holds rx st ->
  BT_DEFAULT_BUFFER_SIZE - sizeof_BT_HDR < 65536 ->
  offset rx + payload_sum (cs ++ [e])
    <= BT_DEFAULT_BUFFER_SIZE - sizeof_BT_HDR ->
  Forall (fun c => kind_of c = Cont /\ frag_ok c) cs ->
  kind_of e = End_ -> frag_ok e ->
  exists m,
    snd (asmbl_run ccb (cs ++ [e])) = repeat None (length cs) ++ [Some m]
    /\ msg_bytes m = st ++ concat (map cont_stream (cs ++ [e])).
Proof.
  induction cs as [|c cs IH]; intros ccb rx st e Hrx Hh Hbuf Hfit Hcs He Hu.
  - cbn [app] in *. unfold payload_sum in Hfit. cbn [foldr] in Hfit.
    unfold AVDT_LEN_TYPE_CONT in Hfit.
    assert (Hl : 0 <= len rx <= offset rx) by (destruct Hh; assumption).
    destruct (asmbl_append_eq ccb rx e Hrx (or_intror He) Hu Hl
                ltac:(lia) Hbuf) as [Hl1 Hstep].
    rewrite (proj2 (kind_pkt_type e) He) in Hstep.
    eexists. rewrite AvdtProofs.asmbl_run_cons, Hstep.
    cbn [fst snd asmbl_run repeat app length map concat].
    split; [reflexivity|].
    unfold msg_bytes. cbn [data offset len]. rewrite app_nil_r.
    apply (rx_data_after_holds rx e st Hh Hu Hl1). lia.
  - inversion Hcs as [|c' cs' [Hk Hcu] Hcs']; subst.
    assert (Hnn : 0 <= payload_sum (cs ++ [e])).
    { apply AvdtProofs.payload_sum_conts; [|exact He].
      apply conts_u16. exact Hcs'. }
    change (payload_sum ((c :: cs) ++ [e]))
      with (len c - AVDT_LEN_TYPE_CONT + payload_sum (cs ++ [e])) in Hfit.
    unfold AVDT_LEN_TYPE_CONT in Hfit.
    assert (Hl : 0 <= len rx <= offset rx) by (destruct Hh; assumption).
    destruct (asmbl_append_eq ccb rx c Hrx (or_introl Hk) Hcu Hl
                ltac:(lia) Hbuf) as [Hl1 Hstep].
    rewrite (proj1 (kind_pkt_type c) Hk) in Hstep.
    set (rx' := mkBT_HDR (event rx) (len rx + (len c - 1))
                  (offset rx + (len c - 1)) (layer_specific rx)
                  (rx_data_after rx c)) in *.
    assert (Hh' : rx_holds rx' (st ++ cont_stream c)).
    { destruct (rx_data_after_holds rx c st Hh Hcu Hl1 ltac:(lia))
        as [Hb Hlen].
      unfold rx_holds. subst rx'. cbn [len offset data].
      split; [lia|]. split; [lia|]. split; [exact Hlen|].
      replace (offset rx + (len c - 1) - (len rx + (len c - 1)))
        with (offset rx - len rx) by lia.
      exact Hb. }
    destruct (IH (set_p_rx_msg (Some rx') ccb) rx' (st ++ cont_stream c) e
                eq_refl Hh' Hbuf) as (m & Hrets & Hbytes); try assumption.
    { subst rx'. cbn [offset]. lia. }
    exists m. cbn [app]. rewrite AvdtProofs.asmbl_run_cons, Hstep.
    cbn [fst snd]. rewrite Hrets. split; [reflexivity|].
    rewrite Hbytes. cbn [map concat]. rewrite <- app_assoc. reflexivity.
Qed.

Lemma asmbl_run_start_holds ccb s cs e :
  kind_of s = Start -> frag_ok s ->
  Forall (fun c => kind_of c = Cont /\ frag_ok c) cs ->
  kind_of e = End_ -> frag_ok e ->
  BT_DEFAULT_BUFFER_SIZE - sizeof_BT_HDR < 65536 ->
  sizeof_BT_HDR + offset s + len s + payload_sum (cs ++ [e])
    <= BT_DEFAULT_BUFFER_SIZE ->
  exists m,
    snd (asmbl_run ccb (s :: cs ++ [e]))
    = repeat None (S (length cs)) ++ [Some m]
    /\ msg_bytes m
       = start_stream s ++ concat (map cont_stream (cs ++ [e])).
Proof.
  intros Hk Hu Hcs He Heu Hbuf Hfit.
  assert (Hnn : 0 <= payload_sum (cs ++ [e])).
  { apply AvdtProofs.payload_sum_conts; [|exact He].
    apply conts_u16. exact Hcs. }
  destruct (asmbl_start_holds ccb s Hk Hu ltac:(lia)) as [Hstep Hh].
  destruct (asmbl_run_holds cs
              (set_p_rx_msg (Some (rx_after_start s)) (fst (free_rx ccb)))
              (rx_after_start s) (start_stream s) e eq_refl Hh Hbuf)
    as (m & Hrets & Hbytes); try assumption.
  { unfold rx_after_start. cbn [offset]. unfold sizeof_BT_HDR in *. lia. }
  exists m. rewrite AvdtProofs.asmbl_run_cons, Hstep. cbn [fst snd].
  rewrite Hrets. split; [reflexivity|exact Hbytes].
Qed.

(** Reassembly is concatenation.  For a START packet, any number of CONT
    packets and an END packet that together fit the reassembly buffer,
    the message [avdt_msg_asmbl] returns at the END packet consists of the
    first header byte of the START packet, the bytes of the START packet
    behind its packet count, and the bytes of each CONT packet and of the
    END packet behind their header byte, in the order received. *)
Theorem avdt_msg_asmbl_concatenates ccb s cs e :
  kind_of s = Start -> frag_ok s ->
  Forall (fun c => kind_of c = Cont /\ frag_ok c) cs ->
  kind_of e = End_ -> frag_ok e ->
  BT_DEFAULT_BUFFER_SIZE - sizeof_BT_HDR < 65536 ->
  sizeof_BT_HDR + offset s + len s + payload_sum (cs ++ [e])
    <= BT_DEFAULT_BUFFER_SIZE ->
  exists m,
    snd (asmbl_run ccb (s :: cs ++ [e]))
    = repeat None (S (length cs)) ++ [Some m]
    /\ msg_bytes m
       = start_stream s ++ concat (map cont_stream (cs ++ [e])).
Proof. exact (asmbl_run_start_holds ccb s cs e). Qed.

End Reassembly.

Section RoundTrip.
Context `{E : Env}.

Lemma small_high_bits m k j :
  0 <= m < 2 ^ k -> 0 <= k <= j -> Z.testbit m j = false.
Proof.
  intros Hm Hk.
  assert (H : m = Z.land m (Z.ones k)).
  { rewrite Z.land_ones by lia. symmetry. apply Z.mod_small. exact Hm. }
  rewrite H, Z.land_spec, Z.ones_spec_high by lia. apply andb_false_r.
Qed.

(** The packet type field of a header byte as [AVDT_MSG_BLD_HDR] stores
    it. *)
Lemma hdr_pkt_type_bld l p m :
  0 <= p < 4 -> 0 <= m < 4 ->
  hdr_pkt_type (u8 (bld_hdr l p m)) = p.
Proof.
  intros Hp Hm. unfold hdr_pkt_type, bld_hdr.
  rewrite AvdtProofs.u8_idem. unfold u8.
  change 256 with (2 ^ 8). rewrite <- !Z.land_ones by lia.
  apply Z.bits_inj'. intros n Hn.
  rewrite Z.land_spec, Z.shiftr_spec, Z.land_spec, !Z.lor_spec, Z.land_spec,
    !Z.shiftl_spec by lia.
  change 3 with (Z.ones 2).
  destruct (Z.lt_ge_cases n 2) as [Hlt | Hge].
  - rewrite (Z.ones_spec_low 2 n) by lia.
    rewrite (Z.ones_spec_low 8 (n + 2)) by lia.
    rewrite (Z.testbit_neg_r l (n + 2 - 4)) by lia.
    rewrite (small_high_bits m 2 (n + 2)) by (change (2 ^ 2) with 4; lia).
    replace (n + 2 - 2) with n by lia.
    cbn [andb orb]. rewrite orb_false_r, !andb_true_r. reflexivity.
  - rewrite (Z.ones_spec_high 2 n) by lia. rewrite andb_false_r.
    symmetry. apply (small_high_bits p 2 n); [change (2 ^ 2) with 4|]; lia.
Qed.

Lemma kind_of_sent b p :
  pkt_type_of b = p ->
  (p = AVDT_PKT_TYPE_START /\ 3 <= len b -> kind_of b = Start)
  /\ (p = AVDT_PKT_TYPE_CONT /\ 1 <= len b -> kind_of b = Cont)
  /\ (p = AVDT_PKT_TYPE_END /\ 1 <= len b -> kind_of b = End_).
Proof.
  intros Hp. unfold kind_of, too_short. rewrite Hp.
  split; [|split]; intros [-> Hl];
    cbn [avdt_msg_pkt_type_len];
    [change (rd avdt_msg_pkt_type_len AVDT_PKT_TYPE_START) with 3
    |change (rd avdt_msg_pkt_type_len AVDT_PKT_TYPE_CONT) with 1
    |change (rd avdt_msg_pkt_type_len AVDT_PKT_TYPE_END) with 1];
    (assert (H1 : (len b <? 1) = false) by (apply Z.ltb_ge; lia));
    rewrite H1; cbn [orb].
  - assert (H3 : (len b <? 3) = false) by (apply Z.ltb_ge; lia).
    rewrite H3. reflexivity.
  - reflexivity.
  - reflexivity.
Qed.

Lemma length_new_fragment m mtu h :
  length (data (new_fragment m mtu h))
  = Z.to_nat (AVDT_CMD_BUF_SIZE - sizeof_BT_HDR).
Proof.
  unfold new_fragment. cbv zeta. cbn [data].
  rewrite AvdtProofs.length_memcpy. apply length_osi_malloc.
Qed.

(** The payload of a fragment buffer. *)
Lemma bytes_new_fragment m mtu h :
  0 <= L2CAP_MIN_OFFSET -> 0 <= h <= mtu ->
  L2CAP_MIN_OFFSET + mtu + sizeof_BT_HDR <= AVDT_CMD_BUF_SIZE ->
  AVDT_CMD_BUF_SIZE <= 65536 ->
  offset (new_fragment m mtu h) = L2CAP_MIN_OFFSET + h
  /\ len (new_fragment m mtu h) = mtu - h
  /\ forall i, 0 <= i < mtu - h ->
       rd (data (new_fragment m mtu h)) (L2CAP_MIN_OFFSET + h + i)
       = u8 (rd (data m) (offset m + i)).
Proof.
  intros Hl Hh Hroom Hmax. unfold sizeof_BT_HDR in *.
  unfold new_fragment. cbv zeta. cbn [offset len data].
  rewrite (AvdtProofs.u16_small (L2CAP_MIN_OFFSET + h)) by lia.
  rewrite (AvdtProofs.u16_small (mtu - h)) by lia.
  split; [reflexivity|]. split; [reflexivity|].
  intros i Hi. rewrite rd_memcpy_in.
  - f_equal. f_equal. lia.
  - lia.
  - lia.
  - rewrite length_osi_malloc. unfold sizeof_BT_HDR. lia.
  - lia.
Qed.

(** A CONT packet as [avdt_msg_send] writes it. *)
Lemma sent_cont_packet m mtu label msg nosp sig :
  0 <= L2CAP_MIN_OFFSET -> 4 <= mtu ->
  L2CAP_MIN_OFFSET + mtu + sizeof_BT_HDR <= AVDT_CMD_BUF_SIZE ->
  AVDT_CMD_BUF_SIZE <= 65536 ->
  0 <= msg < 4 ->
  let sent := build_header (new_fragment m mtu AVDT_LEN_TYPE_CONT)
                AVDT_LEN_TYPE_CONT label AVDT_PKT_TYPE_CONT msg nosp sig in
  kind_of sent = Cont /\ frag_ok sent /\ len sent = mtu
  /\ cont_stream sent = bytes (data m) (offset m) (mtu - 1).
Proof.
  intros Hl Hmtu Hroom Hmax Hmsg sent.
  destruct (bytes_new_fragment m mtu 1 Hl ltac:(lia) Hroom Hmax)
    as (Hoff & Hlen & Hrd).
  pose proof (length_new_fragment m mtu 1) as Hlenf.
  unfold sizeof_BT_HDR in *. unfold AVDT_LEN_TYPE_CONT in *.
  set (frag := new_fragment m mtu 1) in *.
  assert (Hs : offset sent = L2CAP_MIN_OFFSET /\ len sent = mtu
               /\ data sent
                  = wr (data frag) L2CAP_MIN_OFFSET
                      (bld_hdr label AVDT_PKT_TYPE_CONT msg)).
  { subst sent. unfold build_header. cbv zeta.
    change (AVDT_PKT_TYPE_CONT =? AVDT_PKT_TYPE_START) with false.
    change (AVDT_PKT_TYPE_CONT =? AVDT_PKT_TYPE_SINGLE) with false.
    cbn [orb set_data set_offset set_len offset len data].
    rewrite Hoff, Hlen.
    replace (L2CAP_MIN_OFFSET + 1 - 1) with L2CAP_MIN_OFFSET by lia.
    replace (mtu - 1 + 1) with mtu by lia.
    rewrite (AvdtProofs.u16_small L2CAP_MIN_OFFSET) by lia.
    rewrite (AvdtProofs.u16_small mtu) by lia.
    split; [reflexivity|]. split; reflexivity. }
  destruct Hs as (Hso & Hsl & Hsd).
  assert (Hpt : pkt_type_of sent = AVDT_PKT_TYPE_CONT).
  { unfold pkt_type_of. rewrite Hso, Hsd.
    rewrite AvdtProofs.rd_wr_eq by lia.
    rewrite AvdtProofs.u8_idem.
    apply hdr_pkt_type_bld; [unfold AVDT_PKT_TYPE_CONT; lia|exact Hmsg]. }
  split.
  { apply (proj1 (proj2 (kind_of_sent sent _ Hpt))). split; [reflexivity|lia]. }
  split; [unfold frag_ok; lia|]. split; [exact Hsl|].
  unfold cont_stream. rewrite Hso, Hsl, Hsd.
  apply bytes_ext. intros i Hi.
  rewrite rd_wr_other by lia. rewrite Hrd by lia.
  apply AvdtProofs.u8_idem.
Qed.

(** The START packet as [avdt_msg_send] writes it. *)
Lemma sent_start_packet m mtu label msg nosp sig :
  0 <= L2CAP_MIN_OFFSET -> 4 <= mtu ->
  L2CAP_MIN_OFFSET + mtu + sizeof_BT_HDR <= AVDT_CMD_BUF_SIZE ->
  AVDT_CMD_BUF_SIZE <= 65536 ->
  0 <= msg < 4 ->
  let sent := build_header (new_fragment m mtu AVDT_LEN_TYPE_START)
                AVDT_LEN_TYPE_START label AVDT_PKT_TYPE_START msg nosp sig in
  kind_of sent = Start /\ frag_ok sent /\ len sent = mtu
  /\ offset sent = L2CAP_MIN_OFFSET
  /\ start_stream sent
     = bld_hdr label AVDT_PKT_TYPE_START msg :: u8 sig
       :: bytes (data m) (offset m) (mtu - 3)
  /\ nosp_field sent = u8 nosp.
Proof.
  intros Hl Hmtu Hroom Hmax Hmsg sent.
  destruct (bytes_new_fragment m mtu 3 Hl ltac:(lia) Hroom Hmax)
    as (Hoff & Hlen & Hrd).
  pose proof (length_new_fragment m mtu 3) as Hlenf.
  unfold sizeof_BT_HDR in *. unfold AVDT_LEN_TYPE_START in *.
  set (frag := new_fragment m mtu 3) in *.
  set (p0 := L2CAP_MIN_OFFSET) in *.
  assert (Hs : offset sent = p0 /\ len sent = mtu
               /\ data sent
                  = wr (wr (wr (data frag) p0
                              (bld_hdr label AVDT_PKT_TYPE_START msg))
                          (p0 + 1) nosp) (p0 + 2) sig).
  { subst sent. unfold build_header. cbv zeta.
    change (AVDT_PKT_TYPE_START =? AVDT_PKT_TYPE_START) with true.
    cbn [orb set_data set_offset set_len offset len data].
    rewrite Hoff, Hlen.
    replace (p0 + 3 - 3) with p0 by lia.
    replace (mtu - 3 + 3) with mtu by lia.
    rewrite (AvdtProofs.u16_small p0) by lia.
    rewrite (AvdtProofs.u16_small mtu) by lia.
    split; [reflexivity|]. split; reflexivity. }
  destruct Hs as (Hso & Hsl & Hsd).
  assert (Hb0 : rd (data sent) p0 = bld_hdr label AVDT_PKT_TYPE_START msg).
  { rewrite Hsd. rewrite !rd_wr_other by lia.
    rewrite AvdtProofs.rd_wr_eq by lia. unfold bld_hdr.
    apply AvdtProofs.u8_idem. }
  assert (Hpt : pkt_type_of sent = AVDT_PKT_TYPE_START).
  { unfold pkt_type_of. rewrite Hso, Hb0.
    apply hdr_pkt_type_bld; [unfold AVDT_PKT_TYPE_START; lia|exact Hmsg]. }
  split.
  { apply (proj1 (kind_of_sent sent _ Hpt)). split; [reflexivity|lia]. }
  split; [unfold frag_ok; lia|]. split; [exact Hsl|].
  split; [exact Hso|].
  split.
  2:{ unfold nosp_field. rewrite Hso, Hsd. rewrite rd_wr_other by lia.
      apply AvdtProofs.rd_wr_eq; [lia|].
      rewrite AvdtProofs.length_wr. lia. }
  unfold start_stream. rewrite Hso, Hsl, Hb0. f_equal.
  { unfold bld_hdr. apply AvdtProofs.u8_idem. }
  rewrite bytes_cons by lia. f_equal.
  { rewrite Hsd. rewrite AvdtProofs.rd_wr_eq
      by (rewrite ?AvdtProofs.length_wr; lia).
    apply AvdtProofs.u8_idem. }
  replace (p0 + 2 + 1) with (p0 + 3) by lia.
  replace (mtu - 2 - 1) with (mtu - 3) by lia.
  rewrite Hsd. apply bytes_ext. intros i Hi.
  rewrite !rd_wr_other by lia. rewrite Hrd by lia.
  apply AvdtProofs.u8_idem.
Qed.

(** The END packet as [avdt_msg_send] writes it: the current message with
    the header byte stored in front of what is left. *)
Lemma sent_end_packet m label msg nosp sig :
  1 <= offset m -> 0 <= len m -> offset m + len m < 65536 ->
  (Z.to_nat (offset m) <= length (data m))%nat ->
  0 <= msg < 4 ->
  let sent := build_header m AVDT_LEN_TYPE_END label AVDT_PKT_TYPE_END msg
                nosp sig in
  kind_of sent = End_ /\ frag_ok sent /\ len sent = len m + 1
  /\ cont_stream sent = bytes (data m) (offset m) (len m).
Proof.
  intros Hoff Hlen Hsum Hin Hmsg sent. unfold AVDT_LEN_TYPE_END in *.
  assert (Hs : offset sent = offset m - 1 /\ len sent = len m + 1
               /\ data sent
                  = wr (data m) (offset m - 1)
                      (bld_hdr label AVDT_PKT_TYPE_END msg)).
  { subst sent. unfold build_header. cbv zeta.
    change (AVDT_PKT_TYPE_END =? AVDT_PKT_TYPE_START) with false.
    change (AVDT_PKT_TYPE_END =? AVDT_PKT_TYPE_SINGLE) with false.
    cbn [orb set_data set_offset set_len offset len data].
    rewrite (AvdtProofs.u16_small (offset m - 1)) by lia.
    rewrite (AvdtProofs.u16_small (len m + 1)) by lia.
    split; [reflexivity|]. split; reflexivity. }
  destruct Hs as (Hso & Hsl & Hsd).
  assert (Hpt : pkt_type_of sent = AVDT_PKT_TYPE_END).
  { unfold pkt_type_of. rewrite Hso, Hsd.
    rewrite AvdtProofs.rd_wr_eq by lia.
    rewrite AvdtProofs.u8_idem.
    apply hdr_pkt_type_bld; [unfold AVDT_PKT_TYPE_END; lia|exact Hmsg]. }
  split.
  { apply (proj2 (proj2 (kind_of_sent sent _ Hpt))).
    split; [reflexivity|lia]. }
  split; [unfold frag_ok; lia|]. split; [exact Hsl|].
  unfold cont_stream. rewrite Hso, Hsl, Hsd.
  replace (offset m - 1 + 1) with (offset m) by lia.
  replace (len m + 1 - 1) with (len m) by lia.
  apply bytes_ext. intros i Hi.
  rewrite rd_wr_other by lia. reflexivity.
Qed.

(** One turn of the loop on a message being fragmented, with the bytes
    of the packet written. *)
Lemma send_body_cont_bytes mtu m0 k cur s :
  4 <= mtu -> send_ready mtu m0 -> offset m0 = AVDT_MSG_OFFSET ->
  is_advanced m0 k cur -> 0 < k <= len m0 ->
  curr_msg_len s = len cur ->
  exists s' tm sent,
    send_body mtu cur s = Done s'
    /\ s_eff s' = s_eff s ++ tm ++ [Call_avdt_ad_write_req sent]
    /\ written tm = []
    /\ cong (s_ccb s') = false
    /\ frag_ok sent
    /\ ((mtu - 1 < len cur
         /\ kind_of sent = Cont /\ len sent = mtu
         /\ cont_stream sent = bytes (data m0) (offset cur) (mtu - 1)
         /\ exists cur',
              p_curr_msg (s_ccb s') = Some cur'
              /\ is_advanced m0 (k + (mtu - 1)) cur'
              /\ curr_msg_len s' = len cur')
        \/ (len cur <= mtu - 1
            /\ kind_of sent = End_ /\ len sent = len cur + 1
            /\ cont_stream sent = bytes (data m0) (offset cur) (len cur)
            /\ p_curr_msg (s_ccb s') = None)).
Proof.
  intros Hmtu (Hlab & Hmsg & Hmo & Hin & Hmax & Hl2 & Hroom & Hcmd & Hcong)
    Hoff0 (Hd & Hls & Hev & Hoff & Hlen) Hk Hcml.
  unfold sizeof_BT_HDR in *.
  unfold send_body.
  unfold AVDT_LEN_TYPE_SINGLE, AVDT_LEN_TYPE_START, AVDT_LEN_TYPE_CONT,
    AVDT_LEN_TYPE_END.
  rewrite Hcml.
  assert (Hzero : u16 (len cur - len cur) = 0)
    by (rewrite Z.sub_diag; reflexivity).
  assert (Hunf : (offset cur =? AVDT_MSG_OFFSET) = false)
    by (apply Z.eqb_neq; lia).
  assert (Hgto : (offset cur >? AVDT_MSG_OFFSET) = true)
    by (apply Z.gtb_lt; lia).
  rewrite Hunf, Hgto. cbn [andb].
  destruct (Z.gtb_spec (len cur) (mtu - 1)) as [Hgt | Hle].
  - (* CONT *)
    cbv zeta. cbv beta iota.
    assert (Hfl : len (new_fragment cur mtu 1) = mtu - 1).
    { unfold new_fragment. cbn [len]. apply AvdtProofs.u16_small. lia. }
    rewrite Hfl.
    rewrite (AvdtProofs.u16_small (len cur - (mtu - 1))) by lia.
    assert (Hne : (len cur - (mtu - 1) =? 0) = false)
      by (apply Z.eqb_neq; lia).
    rewrite Hne. cbv iota. rewrite Hcong.
    destruct (sent_cont_packet cur mtu
                (AVDT_LAYERSPEC_LABEL (layer_specific cur))
                (AVDT_LAYERSPEC_MSG (layer_specific cur)) (nosp s)
                (u8 (event cur)) Hl2 Hmtu
                ltac:(unfold sizeof_BT_HDR; lia) Hcmd
                ltac:(rewrite Hls; exact Hmsg))
      as (Hkind & Hok & Hslen & Hstream).
    eexists. exists []. eexists. split; [reflexivity|].
    cbn [s_eff s_ccb curr_msg_len app].
    split; [reflexivity|]. split; [reflexivity|].
    split; [reflexivity|]. split; [exact Hok|].
    left. split; [lia|]. split; [exact Hkind|]. split; [exact Hslen|].
    split; [rewrite <- Hd; exact Hstream|].
    eexists. split; [reflexivity|].
    cbn [set_offset set_len len offset data event layer_specific].
    rewrite (AvdtProofs.u16_small (offset cur + (mtu - 1))) by lia.
    split; [|reflexivity].
    unfold is_advanced, set_offset, set_len.
    cbn [data layer_specific event offset len].
    repeat split; try assumption; lia.
  - (* END *)
    cbv zeta. cbv beta iota. rewrite Hzero.
    change (0 =? 0) with true. cbv iota. rewrite Hcong.
    destruct (sent_end_packet cur
                (AVDT_LAYERSPEC_LABEL (layer_specific cur))
                (AVDT_LAYERSPEC_MSG (layer_specific cur)) (nosp s)
                (u8 (event cur)) ltac:(lia) ltac:(lia) ltac:(lia)
                ltac:(rewrite Hd; lia) ltac:(rewrite Hls; exact Hmsg))
      as (Hkind & Hok & Hslen & Hstream).
    eexists. eexists. eexists. split; [reflexivity|].
    cbn [s_eff s_ccb]. split; [reflexivity|].
    split; [apply written_timers|]. split; [reflexivity|].
    split; [exact Hok|].
    right. split; [lia|]. split; [exact Hkind|]. split; [exact Hslen|].
    split; [rewrite <- Hd; exact Hstream|]. reflexivity.
Qed.

Lemma payload_sum_cons c l :
  payload_sum (c :: l) = len c - 1 + payload_sum l.
Proof. reflexivity. Qed.

(** The loop on a message being fragmented, on a channel that does not
    congest: CONT packets and an END packet that carry the rest of the
    message. *)
Lemma send_loop_cont_bytes mtu m0 :
  4 <= mtu -> send_ready mtu m0 -> offset m0 = AVDT_MSG_OFFSET ->
  forall n s cur k,
    p_curr_msg (s_ccb s) = Some cur -> cong (s_ccb s) = false ->
    is_advanced m0 k cur -> 0 < k < len m0 ->
    curr_msg_len s = len cur -> (Z.to_nat (len cur) < n)%nat ->
    exists s' e cs last,
      (forall fuel, (n <= fuel)%nat -> send_loop fuel mtu s = Done s')
      /\ s_eff s' = s_eff s ++ e
      /\ written e = cs ++ [last]
      /\ Forall (fun c => kind_of c = Cont /\ frag_ok c) cs
      /\ kind_of last = End_ /\ frag_ok last
      /\ concat (map cont_stream (cs ++ [last]))
         = bytes (data m0) (offset m0 + k) (len m0 - k)
      /\ payload_sum (cs ++ [last]) = len m0 - k
      /\ cong (s_ccb s') = false
      /\ p_curr_msg (s_ccb s') = None
      /\ Forall (fun c => len c = mtu) cs
      /\ 2 <= len last <= mtu.
Proof.
  intros Hmtu Hready Hoff0.
  induction n as [|n IH]; intros s cur k Hcur Hcong Hadv Hk Hcml Hfuel;
    [lia|].
  destruct (send_body_cont_bytes mtu m0 k cur s Hmtu Hready Hoff0 Hadv
              ltac:(lia) Hcml)
    as (s1 & tm & sent & Hbody & He1 & Htm & Hcong1 & Hok & Hcase).
  pose proof Hadv as (Hd & Hls & Hev & Hoff & Hlen).
  destruct Hcase as [(Hgt & Hkind & Hslen & Hstream & cur' & Hcur' & Hadv'
                      & Hcml')
                    |(Hle & Hkind & Hslen & Hstream & Hnone)].
  - pose proof Hadv' as (_ & _ & _ & _ & Hlen').
    destruct (IH s1 cur' (k + (mtu - 1)) Hcur' Hcong1 Hadv' ltac:(lia) Hcml'
                ltac:(lia))
      as (s' & e & cs & last & Hrun & He & Hw & Hcs & Hlast & Hlok & Hcat
          & Hsum & Hc' & Hn' & Hlens & Hll).
    exists s', (tm ++ [Call_avdt_ad_write_req sent] ++ e), (sent :: cs), last.
    split.
    { intros fuel Hf. destruct fuel as [|f]; [lia|].
      cbn [send_loop]. rewrite Hcong, Hcur, Hbody. apply Hrun. lia. }
    split; [rewrite He, He1, <- !app_assoc; reflexivity|].
    split.
    { rewrite written_app, Htm. cbn [app written]. rewrite Hw. reflexivity. }
    split; [constructor; [split; assumption|exact Hcs]|].
    split; [exact Hlast|]. split; [exact Hlok|].
    split.
    { cbn [app map concat]. rewrite Hcat, Hstream, Hoff.
      replace (len m0 - k) with ((mtu - 1) + (len m0 - (k + (mtu - 1))))
        by lia.
      rewrite bytes_app by lia. f_equal. f_equal; lia. }
    split.
    { cbn [app]. rewrite payload_sum_cons, Hsum. lia. }
    split; [assumption|]. split; [assumption|].
    split; [constructor; assumption|exact Hll].
  - exists s1, (tm ++ [Call_avdt_ad_write_req sent]), [], sent.
    split.
    { intros fuel Hf. destruct fuel as [|f]; [lia|].
      cbn [send_loop]. rewrite Hcong, Hcur, Hbody.
      destruct f; cbn [send_loop]; rewrite Hcong1, ?Hnone; reflexivity. }
    split; [exact He1|].
    split; [rewrite written_app, Htm; reflexivity|].
    split; [constructor|].
    split; [exact Hkind|]. split; [exact Hok|].
    split.
    { cbn [app map concat]. rewrite app_nil_r, Hstream, Hoff, Hlen.
      reflexivity. }
    split.
    { cbn [app]. rewrite payload_sum_cons. unfold payload_sum.
      cbn [foldr]. lia. }
    split; [assumption|]. split; [assumption|].
    split; [constructor|lia].
Qed.

(** The first turn of the loop on a message too long for one packet. *)
Lemma send_body_start_bytes mtu m0 s :
  4 <= mtu -> send_ready mtu m0 -> offset m0 = AVDT_MSG_OFFSET ->
  mtu - 2 < len m0 -> curr_msg_len s = len m0 ->
  exists s' sent cur',
    send_body mtu m0 s = Done s'
    /\ s_eff s' = s_eff s ++ [Call_avdt_ad_write_req sent]
    /\ cong (s_ccb s') = false
    /\ kind_of sent = Start /\ frag_ok sent /\ len sent = mtu
    /\ offset sent = L2CAP_MIN_OFFSET
    /\ start_stream sent
       = bld_hdr (AVDT_LAYERSPEC_LABEL (layer_specific m0))
           AVDT_PKT_TYPE_START (AVDT_LAYERSPEC_MSG (layer_specific m0))
         :: u8 (event m0) :: bytes (data m0) (offset m0) (mtu - 3)
    /\ p_curr_msg (s_ccb s') = Some cur'
    /\ is_advanced m0 (mtu - 3) cur'
    /\ curr_msg_len s' = len cur'
    /\ nosp_field sent = start_nosp (len m0) mtu.
Proof.
  intros Hmtu (Hlab & Hmsg & Hmo & Hin & Hmax & Hl2 & Hroom & Hcmd & Hcong)
    Hoff0 Hlong Hcml.
  unfold send_body.
  unfold AVDT_LEN_TYPE_SINGLE, AVDT_LEN_TYPE_START, AVDT_LEN_TYPE_CONT,
    AVDT_LEN_TYPE_END.
  assert (Hdiv : (mtu - 1 =? 0) = false) by (apply Z.eqb_neq; lia).
  rewrite Hdiv, Hcml.
  assert (Hunf : (offset m0 =? AVDT_MSG_OFFSET) = true)
    by (apply Z.eqb_eq; exact Hoff0).
  assert (Hfit : (len m0 <=? mtu - 2) = false) by (apply Z.leb_gt; lia).
  assert (Hg : (len m0 >? mtu - 2) = true) by (apply Z.gtb_lt; lia).
  rewrite Hunf, Hfit, Hg. cbn [andb]. cbv zeta. cbv beta iota.
  assert (Hfl : len (new_fragment m0 mtu 3) = mtu - 3).
  { unfold new_fragment. cbn [len]. apply AvdtProofs.u16_small.
    unfold sizeof_BT_HDR in *. lia. }
  rewrite Hfl.
  rewrite (AvdtProofs.u16_small (len m0 - (mtu - 3))) by lia.
  assert (Hne : (len m0 - (mtu - 3) =? 0) = false) by (apply Z.eqb_neq; lia).
  rewrite Hne. cbv iota. rewrite Hcong.
  destruct (sent_start_packet m0 mtu
              (AVDT_LAYERSPEC_LABEL (layer_specific m0))
              (AVDT_LAYERSPEC_MSG (layer_specific m0))
              (start_nosp (len m0) mtu) (u8 (event m0)) Hl2 Hmtu Hroom Hcmd
              Hmsg)
    as (Hkind & Hok & Hslen & Hso & Hstream & Hnosp).
  eexists. eexists. eexists. split; [reflexivity|].
  cbn [s_eff s_ccb curr_msg_len app].
  split; [reflexivity|]. split; [reflexivity|].
  split; [exact Hkind|]. split; [exact Hok|]. split; [exact Hslen|].
  split; [exact Hso|].
  split; [rewrite AvdtProofs.u8_idem in Hstream; exact Hstream|].
  split; [reflexivity|].
  split.
  2:{ split; [reflexivity|].
      transitivity (u8 (start_nosp (len m0) mtu)); [exact Hnosp|].
      unfold start_nosp. apply AvdtProofs.u8_idem. }
  unfold is_advanced, set_offset, set_len.
  cbn [data layer_specific event offset len].
  rewrite (AvdtProofs.u16_small (offset m0 + (mtu - 3))) by lia.
  repeat split; lia.
Qed.

(** Fragmentation round trip.  A message too long for one packet, sent
    by [avdt_msg_send] on a channel that does not congest, leaves as a
    START packet, CONT packets and an END packet; a peer that feeds these
    packets in order to [avdt_msg_asmbl] gets nothing back until the last
    one and then one message, which consists of the header byte of the
    START packet (label, packet type START, message type), the signal and
    the bytes of the message sent. *)
Theorem avdt_msg_send_asmbl_round_trip ccb rccb m :
  let mtu := sig_peer_mtu ccb in
  cong ccb = false ->
  offset m = AVDT_MSG_OFFSET ->
  4 <= mtu ->
  mtu - AVDT_LEN_TYPE_SINGLE < len m ->
  send_ready mtu m ->
  BT_DEFAULT_BUFFER_SIZE - sizeof_BT_HDR < 65536 ->
  sizeof_BT_HDR + L2CAP_MIN_OFFSET + len m + 3 <= BT_DEFAULT_BUFFER_SIZE ->
  exists ccb' eff pdu,
    (forall fuel, (Z.to_nat (len m) < fuel)%nat ->
       avdt_msg_send fuel ccb (Some m) = Done (ccb', eff, false))
    /\ p_curr_msg ccb' = None
    /\ snd (asmbl_run rccb (written eff))
       = repeat None (length (written eff) - 1) ++ [Some pdu]
    /\ msg_bytes pdu
       = bld_hdr (AVDT_LAYERSPEC_LABEL (layer_specific m))
           AVDT_PKT_TYPE_START (AVDT_LAYERSPEC_MSG (layer_specific m))
         :: u8 (event m) :: bytes (data m) AVDT_MSG_OFFSET (len m).
Proof.
  intros mtu Hcong Hoff Hmtu Hlong Hready Hbuf Hfit.
  unfold AVDT_LEN_TYPE_SINGLE in Hlong.
  set (s0 := mkSend (set_p_curr_msg (Some m) ccb) (len m) 0 []).
  destruct (send_body_start_bytes mtu m s0 Hmtu Hready Hoff Hlong eq_refl)
    as (s1 & sent & cur & Hbody & He1 & Hcong1 & Hkind & Hok & Hslen & Hso
        & Hstream & Hcur & Hadv & Hcml & _).
  pose proof Hadv as (_ & _ & _ & _ & Hlen1).
  destruct (send_loop_cont_bytes mtu m Hmtu Hready Hoff (Z.to_nat (len m))
              s1 cur (mtu - 3) Hcur Hcong1 Hadv ltac:(lia) Hcml ltac:(lia))
    as (s' & e & cs & last & Hrun & He & Hw & Hcs & Hlast & Hlok & Hcat
        & Hsum & Hc' & Hn' & _ & _).
  destruct (asmbl_run_start_holds rccb sent cs last Hkind Hok Hcs Hlast
              Hlok Hbuf ltac:(rewrite Hso, Hslen, Hsum; lia))
    as (pdu & Hrets & Hbytes).
  assert (Hwr : written (s_eff s') = sent :: cs ++ [last]).
  { rewrite He, He1. cbn [s0 s_eff app written]. rewrite Hw. reflexivity. }
  exists (s_ccb s'), (s_eff s'), pdu.
  split; [|split; [exact Hn'|split]].
  - intros fuel Hfuel. unfold avdt_msg_send. fold mtu.
    cbn [set_p_curr_msg p_curr_msg]. fold (set_p_curr_msg (Some m) ccb).
    fold s0. destruct fuel as [|f]; [lia|].
    cbn [send_loop]. cbn [s0 s_ccb set_p_curr_msg cong p_curr_msg].
    rewrite Hcong. fold (set_p_curr_msg (Some m) ccb). fold s0.
    rewrite Hbody, (Hrun f) by lia. rewrite Hc'. reflexivity.
  - rewrite Hwr, Hrets.
    replace (length (sent :: cs ++ [last]) - 1)%nat with (S (length cs))
      by (cbn [length]; rewrite length_app; cbn [length]; lia).
    reflexivity.
  - rewrite Hbytes, Hstream, Hcat, Hoff. cbn [app]. f_equal. f_equal.
    rewrite <- bytes_app by lia. f_equal. lia.
Qed.

(** [payload_sum] of full CONT packets and a last packet. *)
Lemma payload_sum_full mtu cs last :
  Forall (fun c => len c = mtu) cs ->
  payload_sum (cs ++ [last])
  = Z.of_nat (length cs) * (mtu - 1) + (len last - 1).
Proof.
  induction 1 as [|c cs Hc _ IH].
  - cbn [app length]. rewrite payload_sum_cons. unfold payload_sum.
    cbn [foldr]. lia.
  - cbn [app]. rewrite payload_sum_cons, IH, Hc.
    cbn [length]. lia.
Qed.

(** The packet count of a START packet.  For a message too long for one
    packet, sent on a channel that does not congest, the count byte
    written behind the header of the START packet is the number of packets
    that [avdt_msg_send] writes, unless the bytes that do not fit the
    START packet fill a whole number of packets: then it is one more. *)
Theorem avdt_msg_send_nosp_count ccb m :
  let mtu := sig_peer_mtu ccb in
  cong ccb = false ->
  offset m = AVDT_MSG_OFFSET ->
  4 <= mtu ->
  mtu - AVDT_LEN_TYPE_SINGLE < len m ->
  send_ready mtu m ->
  exists ccb' eff first rest,
    (forall fuel, (Z.to_nat (len m) < fuel)%nat ->
       avdt_msg_send fuel ccb (Some m) = Done (ccb', eff, false))
    /\ written eff = first :: rest
    /\ nosp_field first
       = u8 (Z.of_nat (length (written eff))
             + (if (len m - (mtu - 3)) mod (mtu - 1) =? 0 then 1 else 0)).
Proof.
  intros mtu Hcong Hoff Hmtu Hlong Hready.
  unfold AVDT_LEN_TYPE_SINGLE in Hlong.
  set (s0 := mkSend (set_p_curr_msg (Some m) ccb) (len m) 0 []).
  destruct (send_body_start_bytes mtu m s0 Hmtu Hready Hoff Hlong eq_refl)
    as (s1 & sent & cur & Hbody & He1 & Hcong1 & Hkind & Hok & Hslen & Hso
        & Hstream & Hcur & Hadv & Hcml & Hnosp).
  pose proof Hadv as (_ & _ & _ & _ & Hlen1).
  destruct (send_loop_cont_bytes mtu m Hmtu Hready Hoff (Z.to_nat (len m))
              s1 cur (mtu - 3) Hcur Hcong1 Hadv ltac:(lia) Hcml ltac:(lia))
    as (s' & e & cs & last & Hrun & He & Hw & Hcs & Hlast & Hlok & Hcat
        & Hsum & Hc' & Hn' & Hfull & Hll).
  assert (Hwr : written (s_eff s') = sent :: cs ++ [last]).
  { rewrite He, He1. cbn [s0 s_eff app written]. rewrite Hw. reflexivity. }
  exists (s_ccb s'), (s_eff s'), sent, (cs ++ [last]).
  split; [|split; [exact Hwr|]].
  - intros fuel Hfuel. unfold avdt_msg_send. fold mtu.
    cbn [set_p_curr_msg p_curr_msg]. fold (set_p_curr_msg (Some m) ccb).
    fold s0. destruct fuel as [|f]; [lia|].
    cbn [send_loop]. cbn [s0 s_ccb set_p_curr_msg cong p_curr_msg].
    rewrite Hcong. fold (set_p_curr_msg (Some m) ccb). fold s0.
    rewrite Hbody, (Hrun f) by lia. rewrite Hc'. reflexivity.
  - rewrite Hnosp, Hwr. unfold start_nosp, AVDT_LEN_TYPE_START.
    f_equal.
    rewrite (payload_sum_full mtu cs last Hfull) in Hsum.
    rewrite Z.quot_div_nonneg by lia.
    replace (length (sent :: cs ++ [last]))
      with (S (S (length cs)))
      by (cbn [length]; rewrite length_app; cbn [length]; lia).
    set (q := Z.of_nat (length cs)) in *.
    assert (Hq : 0 <= q) by (subst q; lia).
    replace (Z.of_nat (S (S (length cs)))) with (q + 2) by (subst q; lia).
    replace (len m + 3 - mtu) with (len m - (mtu - 3)) by lia.
    rewrite <- Hsum.
    destruct (Z.eq_dec (len last) mtu) as [Hfl|Hfl].
    + replace (q * (mtu - 1) + (len last - 1)) with ((q + 1) * (mtu - 1))
        by (rewrite Hfl; lia).
      rewrite Z.div_mul, Z.mod_mul by lia. cbn [Z.eqb]. lia.
    + replace (q * (mtu - 1) + (len last - 1))
        with (len last - 1 + q * (mtu - 1)) by lia.
      rewrite Z.div_add, Z.mod_add by lia.
      rewrite Z.div_small, Z.mod_small by lia.
      assert (Hne : (len last - 1 =? 0) = false) by (apply Z.eqb_neq; lia).
      rewrite Hne. lia.
Qed.

End RoundTrip.

(** *** The properties at work *)

Lemma avdt_msg_ind_drops_witness :
  @avdt_msg_ind_pdu (run_env 48) ccb_idle grj_msg
  = Done (ccb_idle, [Call_osi_free grj_msg]).
Proof.
  refine (proj1 (@avdt_msg_ind_drops (run_env 48) ccb_idle grj_msg) _).
  reflexivity.
Defined.

(** A Get Capabilities command without its SEID is rejected with
    [AVDT_ERR_LENGTH]. *)
Lemma avdt_msg_ind_cmd_parse_error_witness :
  @avdt_msg_ind_pdu (run_env 48) ccb_idle getcap_no_seid
  = Done (fst (@avdt_msg_send_rej (run_env 48) ccb_idle 2
                 (upd_hdr (set_err_code 17)
                    (@ind_msg (run_env 48) ccb_idle getcap_no_seid))),
          [Call_avdt_ccb_event AVDT_CCB_SENDMSG_EVT None;
           Call_osi_free (ind_parsed_buf getcap_no_seid)]).
Proof.
  refine (@avdt_msg_ind_cmd_parse_error (run_env 48) ccb_idle getcap_no_seid
            (@ind_msg (run_env 48) ccb_idle getcap_no_seid) 17 _ _ _ _).
  - reflexivity.
  - vm_compute. split; discriminate.
  - reflexivity.
  - discriminate.
Defined.

Lemma avdt_msg_ind_label_mismatch_witness :
  exists si cf b,
    @avdt_msg_ind_pdu (run_env 48) ccb_getcap_sent getcap_rsp_label2
    = Done (set_proc_cfg cf (set_proc_sep_info si ccb_getcap_sent),
            [Call_osi_free b])
    /\ data b = data getcap_rsp_label2
    /\ offset b = offset getcap_rsp_label2.
Proof.
  refine (@avdt_msg_ind_label_mismatch (run_env 48) ccb_getcap_sent
            getcap_rsp_label2 _ _); reflexivity.
Defined.

Lemma avdt_msg_ind_general_reject_witness :
  @avdt_msg_ind_pdu (run_env 48) ccb_getcap_sent gen_rej_label1
  = Done (set_ret_count 0 ccb_getcap_sent,
          [Call_alarm_cancel idle_ccb_timer;
           Call_alarm_cancel ret_ccb_timer;
           Call_alarm_cancel rsp_ccb_timer;
           Call_avdt_ccb_event AVDT_CCB_MSG_GETCAP_RSP_EVT
             (Some (mkMsg (mkEvtHdr 2 1 25 0 0 0) Body_none));
           Call_osi_free gen_rej_label1;
           Call_avdt_ccb_event AVDT_CCB_RCVRSP_EVT None]).
Proof.
  refine (@avdt_msg_ind_general_reject (run_env 48) ccb_getcap_sent
            gen_rej_label1 getcap_cmd_label1 _ _ _ _ _).
  - reflexivity.
  - reflexivity.
  - reflexivity.
  - vm_compute. split; discriminate.
  - reflexivity.
Defined.

Lemma avdt_msg_ind_frees_once_witness :
  exists ccb' pre b post,
    @avdt_msg_ind_pdu (run_env 48) ccb_getcap_sent getcap_rsp_label2
    = Done (ccb', pre ++ Call_osi_free b :: post)
    /\ no_free pre = true
    /\ (post = [] \/ post = [Call_avdt_ccb_event AVDT_CCB_RCVRSP_EVT None])
    /\ data b = data getcap_rsp_label2
    /\ offset b = offset getcap_rsp_label2.
Proof.
  refine (@avdt_msg_ind_frees_once (run_env 48) ccb_getcap_sent
            getcap_rsp_label2 _).
  vm_compute. split; discriminate.
Defined.

(** A Start command for the streams 1 and 2. *)
Lemma avdt_msg_prs_multi_seids_witness :
  @avdt_msg_prs_multi (run_env 48) msg_start_cmd seids_1_2 2
  = Done (set_body (Body_multi [1; 2] 2) msg_start_cmd, 0).
Proof.
  refine (proj1 (@avdt_msg_prs_multi_seids (run_env 48) msg_start_cmd
                   seids_1_2 2 _ _) _).
  - lia.
  - vm_compute. split; discriminate.
  - reflexivity.
Defined.

Lemma avdt_msg_prs_setconfig_cmd_accepts_witness :
  let m' := fst (done_or (msg_setconfig_cmd, 0)
                   (@avdt_msg_prs_setconfig_cmd (run_env 48)
                      msg_setconfig_cmd setconfig_body 8)) in
  seid (hdr m') = 1
  /\ exists c, body m' = Body_cfg 1 (Some c)
               /\ Z.land (psc_mask c) (Z.lnot 366) = 0 /\ num_codec c <> 0.
Proof.
  cbv zeta.
  destruct (@avdt_msg_prs_setconfig_cmd_accepts (run_env 48)
              msg_setconfig_cmd setconfig_body 8
              (fst (done_or (msg_setconfig_cmd, 0)
                      (@avdt_msg_prs_setconfig_cmd (run_env 48)
                         msg_setconfig_cmd setconfig_body 8))))
    as (_ & _ & Hs & _ & c & Hb & Hm & Hn).
  - discriminate.
  - discriminate.
  - discriminate.
  - vm_compute. reflexivity.
  - split; [exact Hs|]. exists c. split; [exact Hb|].
    split; [exact Hm|exact Hn].
Defined.

Lemma avdt_msg_prs_cfg_reads_len_witness :
  @avdt_msg_prs_cfg (run_env 48) (Some cfg_zero) trans_only 2 2
  = @avdt_msg_prs_cfg (run_env 48) (Some cfg_zero) trans_and_more 2 2.
Proof.
  refine (@avdt_msg_prs_cfg_reads_len (run_env 48) (Some cfg_zero)
            trans_only trans_and_more 2 2 _ _).
  - vm_compute. discriminate.
  - intros i Hi. assert (Hc : i = 0 \/ i = 1) by lia.
    destruct Hc as [-> | ->]; reflexivity.
Defined.

(** A message of 100 bytes on a channel with an MTU of 48. *)
Lemma avdt_msg_send_packets_witness :
  exists ccb' eff flag,
    (forall fuel, (Z.to_nat (len msg100) < fuel)%nat ->
       @avdt_msg_send (run_env 48) fuel ccb_idle (Some msg100)
       = Done (ccb', eff, flag))
    /\ Forall (fun b => len b <= 48) (written eff)
    /\ (flag = false ->
        p_curr_msg ccb' = None
        /\ total_len (written eff)
           = 100 + Z.of_nat (length (written eff)) + 2).
Proof.
  refine (@avdt_msg_send_packets (run_env 48) ccb_idle msg100 _ _ _ _ _).
  - reflexivity.
  - vm_compute. split; [discriminate|reflexivity].
  - vm_compute. discriminate.
  - vm_compute. discriminate.
  - vm_compute. reflexivity.
Defined.

Lemma avdt_msg_asmbl_in_bounds_witness :
  @rx_in_bounds (run_env 48)
    (fst (fst (@avdt_msg_asmbl (run_env 48) ccb_idle frag_start))).
Proof.
  refine (proj1 (@avdt_msg_asmbl_in_bounds (run_env 48) ccb_idle frag_start
                   _ _ _)).
  - vm_compute. reflexivity.
  - vm_compute. repeat split; discriminate.
  - exact I.
Defined.

(** The reject of a Start command for SEID 5 with error 18. *)
Lemma avdt_msg_send_rej_parses_back_witness :
  exists b m1,
    fst (@avdt_msg_send_rej (run_env 48) ccb_idle 7 msg_start_rej)
    = set_rsp_q [b] ccb_idle
    /\ event b = 7
    /\ @avdt_msg_prs_rej (run_env 48) msg_start_cmd (body_of b) (len b) 7
       = Done (m1, 0)
    /\ err_code (hdr m1) = 18
    /\ err_param (hdr m1) = 5.
Proof.
  refine (@avdt_msg_send_rej_parses_back (run_env 48) ccb_idle 7
            msg_start_rej msg_start_cmd _ _ _).
  - discriminate.
  - vm_compute. discriminate.
  - vm_compute. discriminate.
Defined.

(** START with [3; 7; 8] behind its count, CONT with [5; 6], END with
    [9]. *)
Lemma avdt_msg_asmbl_concatenates_witness :
  exists m,
    snd (@asmbl_run (run_env 48) ccb_idle [frag_start; frag_cont; frag_end])
    = [None; None; Some m]
    /\ msg_bytes m = [4; 3; 7; 8; 5; 6; 9].
Proof.
  refine (@avdt_msg_asmbl_concatenates (run_env 48) ccb_idle frag_start
            [frag_cont] frag_end _ _ _ _ _ _ _).
  - reflexivity.
  - vm_compute. repeat split; discriminate.
  - constructor; [|constructor]. split; [reflexivity|].
    vm_compute. repeat split; discriminate.
  - reflexivity.
  - vm_compute. repeat split; discriminate.
  - vm_compute. reflexivity.
  - vm_compute. discriminate.
Defined.

Lemma avdt_msg_send_asmbl_round_trip_witness :
  exists ccb' eff pdu,
    (forall fuel, (Z.to_nat (len msg100) < fuel)%nat ->
       @avdt_msg_send (run_env 48) fuel ccb_idle (Some msg100)
       = Done (ccb', eff, false))
    /\ p_curr_msg ccb' = None
    /\ snd (@asmbl_run (run_env 48) ccb_idle (written eff))
       = repeat None (length (written eff) - 1) ++ [Some pdu]
    /\ msg_bytes pdu = 4 :: 3 :: repeat 7 100.
Proof.
  refine (@avdt_msg_send_asmbl_round_trip (run_env 48) ccb_idle ccb_idle
            msg100 _ _ _ _ _ _ _).
  - reflexivity.
  - reflexivity.
  - vm_compute. discriminate.
  - vm_compute. reflexivity.
  - unfold send_ready.
    split; [vm_compute; discriminate|].
    split; [vm_compute; split; [discriminate|reflexivity]|].
    split; [vm_compute; discriminate|].
    split; [vm_compute; lia|].
    split; [vm_compute; reflexivity|].
    split; [vm_compute; discriminate|].
    split; [vm_compute; discriminate|].
    split; [vm_compute; discriminate|].
    intros c b. reflexivity.
  - vm_compute. reflexivity.
  - vm_compute. discriminate.
Defined.

(** A message of 92 bytes for a peer MTU of 48 leaves as two packets, and
    its START packet announces three. *)
Lemma avdt_msg_send_nosp_count_witness :
  exists ccb' eff first rest,
    (forall fuel, (Z.to_nat (len msg92) < fuel)%nat ->
       @avdt_msg_send (run_env 48) fuel ccb_idle (Some msg92)
       = Done (ccb', eff, false))
    /\ written eff = first :: rest
    /\ nosp_field first = u8 (Z.of_nat (length (written eff)) + 1).
Proof.
  refine (@avdt_msg_send_nosp_count (run_env 48) ccb_idle msg92 _ _ _ _ _).
  - reflexivity.
  - reflexivity.
  - vm_compute. discriminate.
  - vm_compute. reflexivity.
  - unfold send_ready.
    split; [vm_compute; discriminate|].
    split; [vm_compute; split; [discriminate|reflexivity]|].
    split; [vm_compute; discriminate|].
    split; [vm_compute; lia|].
    split; [vm_compute; reflexivity|].
    split; [vm_compute; discriminate|].
    split; [vm_compute; discriminate|].
    split; [vm_compute; discriminate|].
    intros c b. reflexivity.
Defined.

End AvdtExtra.
(** ** AVCTP API: further properties *)

Module AvctExtra.
Import Bt Avct AvctMore.

Section Api.
Context `{E : Env} `{L : Links}.

Lemma mark_browse_marked c :
  0 < AVCT_ALOC_BCB < 256 ->
  Z.land (allocated (mark_browse c)) AVCT_ALOC_BCB <> 0
  /\ p_lcb (mark_browse c) = p_lcb c.
Proof.
  intros HB. unfold mark_browse.
  destruct (Z.eqb_spec (Z.land (allocated c) AVCT_ALOC_BCB) 0) as [H0 | Hn];
    [|split; [exact Hn|reflexivity]].
  cbn [set_allocated allocated p_lcb]. split; [|reflexivity].
  unfold u8. change 256 with (2 ^ 8). rewrite <- Z.land_ones by lia.
  rewrite <- Z.land_assoc, (Z.land_comm (Z.ones 8)).
  assert (Hb : Z.land AVCT_ALOC_BCB (Z.ones 8) = AVCT_ALOC_BCB).
  { rewrite Z.land_ones by lia. apply Z.mod_small.
    change (2 ^ 8) with 256. lia. }
  rewrite Hb, Z.land_lor_distr_l, H0, Z.land_diag, Z.lor_0_l. lia.
Qed.

(** Once [AVCT_CreateBrowse] has been called on a handle that names a CCB,
    the CCB is marked as supporting the browsing channel, whatever the
    role and even when the call fails ([AVCT_NOT_OPEN], or
    [AVCT_BAD_HANDLE] for a link index out of range).  So a browsing
    message passed to [AVCT_MsgReq] on that handle afterwards, with the
    CCB bound to a link, is never refused or freed: the CCB is bound to
    the browse control block of the link, the message is handed to that
    block with the CCB so bound, and the result is [AVCT_SUCCESS]. *)
Theorem AVCT_CreateBrowse_then_MsgReq handle role c label cr m :
  0 < AVCT_ALOC_BCB < 256 ->
  avct_ccb_by_idx handle = Some c ->
  p_lcb c <> None ->
  layer_specific m = AVCT_DATA_BROWSE ->
  exists c',
    b_ccb (AVCT_CreateBrowse handle role) = Some c'
    /\ Z.land (allocated c') AVCT_ALOC_BCB <> 0
    /\ p_lcb c' = p_lcb c
    /\ let out := @AVCT_MsgReq (after_CreateBrowse E handle role)
                    handle label cr (Some m) in
       let bound :=
         mkCCB (p_lcb c) (avct_bcb_by_lcb (p_lcb c)) (allocated c') in
       result out = AVCT_SUCCESS
       /\ ccb_after out = Some bound
       /\ effects out
          = [Call_avct_bcb_event (avct_bcb_by_lcb (p_lcb c))
               AVCT_LCB_UL_MSG_EVT (mkUL_MSG m bound label cr)].
Proof.
  intros HB Hc Hl Hm.
  destruct (mark_browse_marked c HB) as [Hmark Hlcb].
  assert (Hex : exists c',
             b_ccb (AVCT_CreateBrowse handle role) = Some c'
             /\ allocated c' = allocated (mark_browse c)
             /\ p_lcb c' = p_lcb c).
  { unfold AVCT_CreateBrowse. rewrite Hc. cbv zeta.
    destruct (role =? AVCT_INT); [|eauto].
    rewrite Hlcb. destruct (p_lcb c) as [l|]; [|eauto].
    destruct (lcb_allocated l =? 0); [eauto|].
    destruct (lcb_allocated l >? AVCT_NUM_LINKS); [eauto|].
    eexists. split; [reflexivity|]. split; [reflexivity|].
    cbn [set_p_bcb p_lcb]. exact Hlcb. }
  destruct Hex as (c' & Hb & Ha & Hp). exists c'.
  split; [exact Hb|]. split; [rewrite Ha; exact Hmark|].
  split; [exact Hp|].
  unfold after_CreateBrowse. rewrite Hb. cbv zeta.
  unfold AVCT_MsgReq, with_ccb. cbn [avct_ccb_by_idx].
  rewrite Z.eqb_refl.
  destruct (p_lcb c') as [l|] eqn:Hl'; [|congruence].
  cbn [is_null]. unfold AVCT_MsgReq_send.
  cbn [AVCT_DATA_BROWSE AVCT_ALOC_BCB AVCT_LCB_UL_MSG_EVT avct_bcb_by_lcb].
  rewrite Hm, Z.eqb_refl.
  assert (Hflag : (Z.land (allocated c') AVCT_ALOC_BCB =? 0) = false)
    by (apply Z.eqb_neq; rewrite Ha; exact Hmark).
  rewrite Hflag, andb_false_r, Hl'. cbn [result effects ccb_after].
  rewrite <- Hp. split; [reflexivity|split; reflexivity].
Qed.

(** [AVCT_CreateBrowse] as initiator succeeds only on a CCB bound to a link
    in use whose index is at most [AVCT_NUM_LINKS]; the browse control
    block it then binds and marks is the entry of [avct_cb.bcb] with the
    index of the link, which lies inside the array, and the one call made
    is the bind event to that block.  Without a link in use the result is
    [AVCT_NOT_OPEN] and nothing is called. *)
Theorem AVCT_CreateBrowse_initiator handle c :
  avct_ccb_by_idx handle = Some c ->
  (forall l, 0 <= lcb_allocated l) ->
  let out := AVCT_CreateBrowse handle AVCT_INT in
  (b_result out = AVCT_SUCCESS ->
   exists l,
     p_lcb c = Some l
     /\ 1 <= lcb_allocated l <= AVCT_NUM_LINKS
     /\ (Z.of_nat (Z.to_nat (lcb_allocated l - 1)) < AVCT_NUM_LINKS)
     /\ b_bcb out = Some (Z.to_nat (lcb_allocated l - 1), lcb_allocated l)
     /\ b_ccb out
        = Some (set_p_bcb (Some (Z.to_nat (lcb_allocated l - 1)))
                  (mark_browse c))
     /\ b_calls out
        = [Call_bcb_event (Z.to_nat (lcb_allocated l - 1))
             AVCT_LCB_UL_BIND_EVT
             (set_p_bcb (Some (Z.to_nat (lcb_allocated l - 1)))
                (mark_browse c))])
  /\ ((p_lcb c = None
       \/ exists l, p_lcb c = Some l /\ lcb_allocated l = 0) ->
      b_result out = AVCT_NOT_OPEN /\ b_calls out = []
      /\ b_bcb out = None).
Proof.
  intros Hc Hnn out. subst out. unfold AVCT_CreateBrowse.
  rewrite Hc, Z.eqb_refl. cbv zeta.
  assert (Hlcb : p_lcb (mark_browse c) = p_lcb c).
  { unfold mark_browse. destruct (_ =? 0); reflexivity. }
  rewrite Hlcb. split.
  - destruct (p_lcb c) as [l|]; [|discriminate].
    destruct (Z.eqb_spec (lcb_allocated l) 0) as [|Hne]; [discriminate|].
    destruct (Z.gtb_spec (lcb_allocated l) AVCT_NUM_LINKS) as [|Hle];
      [discriminate|].
    intros _. exists l. specialize (Hnn l).
    split; [reflexivity|]. split; [lia|]. split; [lia|].
    split; [reflexivity|]. split; reflexivity.
  - intros [Hn | (l & Hl & H0)].
    + rewrite Hn. split; [reflexivity|split; reflexivity].
    + rewrite Hl, H0. change (0 =? 0) with true. cbv iota.
      split; [reflexivity|split; reflexivity].
Qed.

(** Create, then remove.  After an initiator's [AVCT_CreateBrowse] that
    succeeded, [AVCT_RemoveBrowse] on the handle sends the unbind event,
    with the CCB, to the browse control block that was bound, the entry
    of [avct_cb.bcb] with the index of the link, and [AVCT_GetBrowseMtu]
    reads the MTU of that block.  An acceptor's [AVCT_CreateBrowse] binds
    nothing: on a CCB without a browse control block [AVCT_RemoveBrowse]
    then makes no call and [AVCT_GetBrowseMtu] is
    [AVCT_MIN_BROWSE_MTU]. *)
Theorem AVCT_CreateBrowse_then_RemoveBrowse handle role c :
  avct_ccb_by_idx handle = Some c ->
  b_result (AVCT_CreateBrowse handle role) = AVCT_SUCCESS ->
  (role = AVCT_INT ->
   exists l c',
     p_lcb c = Some l
     /\ b_ccb (AVCT_CreateBrowse handle role) = Some c'
     /\ @AVCT_RemoveBrowse (after_CreateBrowse E handle role) L handle
        = (AVCT_SUCCESS,
           [Call_bcb_event (Z.to_nat (lcb_allocated l - 1))
              AVCT_LCB_UL_UNBIND_EVT c'])
     /\ @AVCT_GetBrowseMtu (after_CreateBrowse E handle role) L handle
        = bcb_peer_mtu (Z.to_nat (lcb_allocated l - 1)))
  /\ (role <> AVCT_INT -> p_bcb c = None ->
      @AVCT_RemoveBrowse (after_CreateBrowse E handle role) L handle
      = (AVCT_SUCCESS, [])
      /\ @AVCT_GetBrowseMtu (after_CreateBrowse E handle role) L handle
         = AVCT_MIN_BROWSE_MTU).
Proof.
  intros Hc Hres.
  assert (Hlcb : p_lcb (mark_browse c) = p_lcb c).
  { unfold mark_browse. destruct (_ =? 0); reflexivity. }
  assert (Hbcb : p_bcb (mark_browse c) = p_bcb c).
  { unfold mark_browse. destruct (_ =? 0); reflexivity. }
  assert (Hint : role = AVCT_INT ->
            exists l, p_lcb c = Some l
              /\ b_ccb (AVCT_CreateBrowse handle role)
                 = Some (set_p_bcb (Some (Z.to_nat (lcb_allocated l - 1)))
                           (mark_browse c))).
  { intros Hr. revert Hres. unfold AVCT_CreateBrowse.
    rewrite Hc, Hr, Z.eqb_refl. cbv zeta. rewrite Hlcb.
    destruct (p_lcb c) as [l|]; [|discriminate].
    destruct (lcb_allocated l =? 0); [discriminate|].
    destruct (lcb_allocated l >? AVCT_NUM_LINKS); [discriminate|].
    intros _. exists l. split; reflexivity. }
  assert (Hacp : role <> AVCT_INT ->
            b_ccb (AVCT_CreateBrowse handle role) = Some (mark_browse c)).
  { intros Hr. unfold AVCT_CreateBrowse. rewrite Hc. cbv zeta.
    destruct (Z.eqb_spec role AVCT_INT); [contradiction|reflexivity]. }
  unfold after_CreateBrowse. split.
  - intros Hr. destruct (Hint Hr) as (l & Hl & Hb).
    exists l. eexists. split; [exact Hl|]. split; [exact Hb|].
    rewrite Hb. unfold AVCT_RemoveBrowse, AVCT_GetBrowseMtu, with_ccb.
    cbn [avct_ccb_by_idx]. rewrite Z.eqb_refl.
    cbn [set_p_bcb p_bcb]. split; reflexivity.
  - intros Hr Hnone. rewrite (Hacp Hr).
    unfold AVCT_RemoveBrowse, AVCT_GetBrowseMtu, with_ccb.
    cbn [avct_ccb_by_idx]. rewrite Z.eqb_refl, Hbcb, Hnone.
    split; reflexivity.
Qed.

End Api.

(** *** The properties at work *)

(** An acceptor's [AVCT_CreateBrowse] on the bound CCB of handle 0, then a
    browsing message. *)
Lemma AVCT_CreateBrowse_then_MsgReq_witness :
  exists c',
    b_ccb (@AVCT_CreateBrowse (run_env tbl) run_links 0 1) = Some c'
    /\ Z.land (allocated c') 2 <> 0
    /\ p_lcb c' = Some 0%nat
    /\ let out := @AVCT_MsgReq
                    (@after_CreateBrowse (run_env tbl) run_links 0 1)
                    0 5 0 (Some msg_browse) in
       let bound := mkCCB (Some 0%nat) (Some 0%nat) (allocated c') in
       result out = AVCT_SUCCESS
       /\ ccb_after out = Some bound
       /\ effects out
          = [Call_avct_bcb_event (Some 0%nat) 2
               (mkUL_MSG msg_browse bound 5 0)].
Proof.
  refine (@AVCT_CreateBrowse_then_MsgReq (run_env tbl) run_links 0 1
            (mkCCB (Some 0%nat) None 1) 5 0 msg_browse _ _ _ _).
  - vm_compute. split; reflexivity.
  - reflexivity.
  - discriminate.
  - reflexivity.
Defined.

(** Without a link the initiator gets [AVCT_NOT_OPEN]. *)
Lemma AVCT_CreateBrowse_initiator_witness :
  let out := @AVCT_CreateBrowse (run_env tbl) run_links 1 0 in
  b_result out = AVCT_NOT_OPEN /\ b_calls out = [] /\ b_bcb out = None.
Proof.
  cbv zeta.
  refine (proj2 (@AVCT_CreateBrowse_initiator (run_env tbl) run_links 1
                   (mkCCB None None 1) _ _) _).
  - reflexivity.
  - intros l. vm_compute. destruct l; discriminate.
  - left. reflexivity.
Defined.

(** The CCB of handle 0, bound to link 0: the initiator binds the browse
    control block 0. *)
Lemma AVCT_CreateBrowse_then_RemoveBrowse_witness :
  exists l c',
    Some 0%nat = Some l
    /\ b_ccb (@AVCT_CreateBrowse (run_env tbl) run_links 0 0) = Some c'
    /\ @AVCT_RemoveBrowse (@after_CreateBrowse (run_env tbl) run_links 0 0)
         run_links 0
       = (AVCT_SUCCESS,
          [Call_bcb_event (Z.to_nat (@lcb_allocated run_links l - 1)) 1 c'])
    /\ @AVCT_GetBrowseMtu (@after_CreateBrowse (run_env tbl) run_links 0 0)
         run_links 0
       = 335.
Proof.
  refine (proj1 (@AVCT_CreateBrowse_then_RemoveBrowse (run_env tbl)
                   run_links 0 0 (mkCCB (Some 0%nat) None 1) _ _) _).
  - reflexivity.
  - reflexivity.
  - reflexivity.
Defined.

End AvctExtra.

(** ** SMP pairing actions: further properties *)

Module SmpExtra.
Import Bt Smp SmpMore.

Section Actions.
Context `{E : Env}.

Ltac run1 :=
  first [ rewrite SmpProofs.run_get | rewrite SmpProofs.run_modify
        | rewrite SmpProofs.run_ret | rewrite SmpProofs.run_call
        | rewrite SmpProofs.run_extern | rewrite SmpProofs.bind_assoc
        | rewrite SmpProofs.bind_if ];
  cbv beta.

Ltac run := repeat run1.

Lemma clear_keys_head cb :
  let m := match btm_find_dev (pairing_bda cb) with
           | Some dev =>
               if role cb =? HCI_ROLE_SLAVE
               then call (Call_btm_sec_clear_ble_keys dev) else ret tt
           | None => ret tt
           end in
  tr (m cb) = clear_keys_trace cb /\ st (m cb) = cb.
Proof.
  cbv zeta. unfold clear_keys_trace.
  destruct (btm_find_dev (pairing_bda cb));
    [destruct (role cb =? HCI_ROLE_SLAVE)|]; split; reflexivity.
Qed.

(** A Pairing Request or Response that fails the length check or the
    parameter check ends the pairing with [SMP_INVALID_PARAMETERS]: no
    model is selected, nothing is sent and the key masks stay as they
    were.  A responder has by then already cleared the keys it held for
    the peer; a command of a wrong length is not read at all. *)
Theorem smp_proc_pair_cmd_invalid p_data cb :
  let cb1 := pair_cmd_parsed (data_p_data p_data) cb in
  let r := smp_proc_pair_cmd p_data cb in
  (smp_command_has_invalid_length (pair_cmd_flagged cb) = true ->
   st r = pair_cmd_flagged cb
   /\ tr r = clear_keys_trace cb ++ invalid_trace)
  /\ (smp_command_has_invalid_length (pair_cmd_flagged cb) = false ->
      smp_command_has_invalid_parameters cb1 = true ->
      st r = cb1
      /\ tr r = clear_keys_trace cb ++ invalid_trace
      /\ local_i_key (st r) = local_i_key cb
      /\ local_r_key (st r) = local_r_key cb
      /\ selected_association_model (st r) = selected_association_model cb).
Proof.
  intros cb1 r.
  set (bad_len := smp_command_has_invalid_length (pair_cmd_flagged cb)).
  assert (Hr : r = prepend (clear_keys_trace cb)
                     ((if bad_len
                       then auth_cmpl SMP_INVALID_PARAMETERS
                       else if smp_command_has_invalid_parameters cb1
                            then auth_cmpl SMP_INVALID_PARAMETERS
                            else
                              pts <-
                                pts_test_send_authentication_complete_failure ;;
                              if pts then ret tt else proc_pair_cmd_by_role)
                        (if bad_len then pair_cmd_flagged cb else cb1))).
  { subst r. unfold smp_proc_pair_cmd. cbv zeta. run1.
    rewrite SmpProofs.run_bind.
    destruct (clear_keys_head cb) as [Ht Hs]. cbv zeta in Ht, Hs.
    rewrite Ht, Hs. cbv beta. do 2 run1. fold (pair_cmd_flagged cb).
    fold bad_len. destruct bad_len; [reflexivity|].
    do 7 run1. reflexivity. }
  subst bad_len. split.
  - intros Hlen. rewrite Hr, Hlen. split; reflexivity.
  - intros Hlen Hpar. rewrite Hr, Hlen, Hpar.
    split; [reflexivity|]. split; [reflexivity|].
    split; [|split]; reflexivity.
Qed.

(** A responder that receives the Pairing Request of the peer (it did not
    ask for security itself) and finds it well formed takes the key
    distribution masks of the request as they are, records
    [SMP_SEC_REQUEST_EVT] for the application and does nothing else: no
    model is selected and nothing is sent until the application
    answers. *)
Theorem smp_proc_pair_cmd_peer_started p_data cb :
  let cb1 := pair_cmd_parsed (data_p_data p_data) cb in
  smp_command_has_invalid_length (pair_cmd_flagged cb) = false ->
  smp_command_has_invalid_parameters cb1 = false ->
  val (pts_test_send_authentication_complete_failure cb1) = false ->
  role cb = HCI_ROLE_SLAVE ->
  has_bits (flags cb1) SMP_PAIR_FLAGS_WE_STARTED_DD = false ->
  let r := smp_proc_pair_cmd p_data cb in
  st r = peer_keys_taken cb1
  /\ tr r = clear_keys_trace cb
  /\ local_i_key (st r) = rd (data_p_data p_data) 4
  /\ local_r_key (st r) = rd (data_p_data p_data) 5.
Proof.
  intros cb1 Hlen Hpar Hpts Hrole Hdd r. subst r.
  rewrite (SmpProofs.smp_proc_pair_cmd_head p_data cb Hlen Hpar Hpts).
  fold cb1. unfold proc_pair_cmd_by_role. run1.
  assert (Hr1 : role cb1 = HCI_ROLE_SLAVE) by exact Hrole.
  rewrite Hr1, Hdd. change (HCI_ROLE_SLAVE =? HCI_ROLE_SLAVE) with true.
  cbn [negb]. cbv iota. do 2 run1.
  unfold prepend, modify. cbn [val st tr]. rewrite app_nil_r.
  split; [reflexivity|]. split; [reflexivity|]. split; reflexivity.
Qed.

(** How [smp_check_auth_req] ends.  After a successful encryption change
    it asks for bonding ([SMP_BOND_REQ_EVT]) when a key is left to
    distribute in either mask, and completes the pairing with
    [SMP_SUCCESS] when none is.  After a failed one it completes with
    [SMP_ENC_FAIL] if the encryption followed a pairing or this device is
    the master, and does nothing as a slave whose old keys failed.  Any
    other status is ignored. *)
Theorem smp_check_auth_req_events p_data cb :
  let r := smp_check_auth_req p_data cb in
  tr r = auth_req_event (data_status p_data) cb (st r)
  /\ (data_status p_data <> 1 -> st r = cb).
Proof.
  cbv zeta. unfold smp_check_auth_req, auth_req_event. cbv zeta.
  destruct (data_status p_data =? 1) eqn:H1.
  - apply Z.eqb_eq in H1. rewrite H1.
    change (1 =? 0) with false. cbv iota.
    split; [|intros Hne; contradiction]. run1.
    rewrite SmpProofs.run_bind.
    match goal with
    | |- context [tr (?m cb)] => set (upd := m)
    end.
    assert (Ht : tr (upd cb) = []).
    { subst upd. destruct (le_secure_connections_mode_is_used cb);
        [|reflexivity].
      do 3 run1.
      match goal with
      | |- context [if ?c then _ else _] => destruct c
      end; destruct (role cb =? HCI_ROLE_MASTER); reflexivity. }
    rewrite Ht, SmpProofs.prepend_nil. run1.
    destruct (negb (local_i_key (st (upd cb)) =? 0)
              || negb (local_r_key (st (upd cb)) =? 0)) eqn:Hk;
      cbn [tr st call auth_cmpl]; rewrite Hk; reflexivity.
  - destruct (data_status p_data =? 0) eqn:H0.
    + run1. split.
      * destruct (has_bits (flags cb) SMP_PAIR_FLAG_ENC_AFTER_PAIR);
          [reflexivity|].
        destruct (role cb =? HCI_ROLE_MASTER); reflexivity.
      * intros _.
        destruct (has_bits (flags cb) SMP_PAIR_FLAG_ENC_AFTER_PAIR);
          [reflexivity|].
        destruct (role cb =? HCI_ROLE_MASTER); reflexivity.
    + split; reflexivity.
Qed.

(** [smp_send_pair_fail] records the reason in [status] and [failure].
    It sends Pairing Failed exactly for the reasons the specification
    defines, that is up to [SMP_MAX_FAIL_RSN_PER_SPEC] and not
    [SMP_SUCCESS], and then waits for the authorization to complete; for
    any other reason it sends nothing and changes nothing else. *)
Theorem smp_send_pair_fail_reason p_data cb :
  let reason := data_status p_data in
  let cb1 := set_failure reason (set_status reason cb) in
  let r := smp_send_pair_fail p_data cb in
  (reason <= SMP_MAX_FAIL_RSN_PER_SPEC /\ reason <> SMP_SUCCESS ->
   tr r = [Call_smp_send_cmd SMP_OPCODE_PAIRING_FAILED]
   /\ st r = set_wait_for_authorization_complete true
               (fst (smp_send_cmd SMP_OPCODE_PAIRING_FAILED cb1)))
  /\ (reason > SMP_MAX_FAIL_RSN_PER_SPEC \/ reason = SMP_SUCCESS ->
      tr r = [] /\ st r = cb1).
Proof.
  cbv zeta. unfold smp_send_pair_fail. run.
  cbn [status set_status set_failure].
  destruct (Z.leb_spec (data_status p_data) SMP_MAX_FAIL_RSN_PER_SPEC);
    destruct (Z.eqb_spec (data_status p_data) SMP_SUCCESS);
    cbn [andb negb]; run; split;
    try (intros [? ?]; lia); try (intros [?|?]; lia);
    intros _; split; reflexivity.
Qed.

End Actions.

Lemma has_bits_u8 v m : 0 <= m < 256 -> has_bits (u8 v) m = has_bits v m.
Proof.
  intros Hm. unfold has_bits. rewrite SmpProofs.u8_land.
  rewrite <- Z.land_assoc, (Z.land_comm 255 m).
  assert (H : Z.land m 255 = m).
  { change 255 with (Z.ones 8). rewrite Z.land_ones by lia.
    apply Z.mod_small. change (2 ^ 8) with 256. lia. }
  rewrite H. reflexivity.
Qed.

(** [smp_key_pick_key] serves the key types in the order ENC, ID, CSRK,
    LK: of the keys this device still has to distribute (the responder
    mask for a slave, the initiator mask for a master) it calls the action
    of the first type present, and none when no type is present. *)
Theorem smp_key_pick_key_order cb :
  let mask := if role cb =? HCI_ROLE_SLAVE then local_r_key cb
              else local_i_key cb in
  smp_key_pick_key cb
  = if has_bits mask SMP_SEC_KEY_TYPE_ENC then Some smp_generate_ltk
    else if has_bits mask SMP_SEC_KEY_TYPE_ID then Some smp_send_id_info
    else if has_bits mask SMP_SEC_KEY_TYPE_CSRK then Some smp_generate_csrk
    else if has_bits mask SMP_SEC_KEY_TYPE_LK
         then Some smp_set_derive_link_key
    else None.
Proof.
  cbv zeta. unfold smp_key_pick_key, key_to_dist.
  set (mask := if role cb =? HCI_ROLE_SLAVE then _ else _).
  change (Z.to_nat SMP_KEY_DIST_TYPE_MAX) with 4%nat.
  cbn [pick_key_loop].
  change (Z.shiftl 1 0) with SMP_SEC_KEY_TYPE_ENC.
  change (Z.shiftl 1 (0 + 1)) with SMP_SEC_KEY_TYPE_ID.
  change (Z.shiftl 1 (0 + 1 + 1)) with SMP_SEC_KEY_TYPE_CSRK.
  change (Z.shiftl 1 (0 + 1 + 1 + 1)) with SMP_SEC_KEY_TYPE_LK.
  rewrite !has_bits_u8
    by (unfold SMP_SEC_KEY_TYPE_ENC, SMP_SEC_KEY_TYPE_ID,
          SMP_SEC_KEY_TYPE_CSRK, SMP_SEC_KEY_TYPE_LK; lia).
  destruct (has_bits mask SMP_SEC_KEY_TYPE_ENC); [reflexivity|].
  destruct (has_bits mask SMP_SEC_KEY_TYPE_ID); [reflexivity|].
  destruct (has_bits mask SMP_SEC_KEY_TYPE_CSRK); [reflexivity|].
  destruct (has_bits mask SMP_SEC_KEY_TYPE_LK); reflexivity.
Qed.

(** *** The properties at work *)

(** A responder refuses a Pairing Request with a bad parameter, after it
    has cleared the keys of the peer. *)
Lemma smp_proc_pair_cmd_invalid_witness :
  let E := run_env false SMP_MODEL_ENCRYPTION_ONLY true true in
  tr (@smp_proc_pair_cmd E (Int_p_data [3; 0; 1; 16; 7; 7])
        (cb_init HCI_ROLE_SLAVE false))
  = [Call_btm_sec_clear_ble_keys 0;
     Call_smp_sm_event SMP_AUTH_CMPL_EVT (Some (Int_status 10))].
Proof.
  cbv zeta.
  refine (proj1 (proj2 (proj2 (@smp_proc_pair_cmd_invalid
            (run_env false SMP_MODEL_ENCRYPTION_ONLY true true)
            (Int_p_data [3; 0; 1; 16; 7; 7])
            (cb_init HCI_ROLE_SLAVE false)) _ _))).
  - reflexivity.
  - reflexivity.
Defined.

Lemma smp_proc_pair_cmd_peer_started_witness :
  let E := run_env false SMP_MODEL_ENCRYPTION_ONLY false true in
  let r := @smp_proc_pair_cmd E (Int_p_data [3; 0; 1; 16; 7; 5])
             (cb_init HCI_ROLE_SLAVE false) in
  local_i_key (st r) = 7 /\ local_r_key (st r) = 5.
Proof.
  cbv zeta.
  refine (proj2 (proj2 (@smp_proc_pair_cmd_peer_started
            (run_env false SMP_MODEL_ENCRYPTION_ONLY false true)
            (Int_p_data [3; 0; 1; 16; 7; 5])
            (cb_init HCI_ROLE_SLAVE false) _ _ _ _ _))).
  - reflexivity.
  - reflexivity.
  - reflexivity.
  - reflexivity.
  - reflexivity.
Defined.

Lemma smp_check_auth_req_events_witness :
  let E := run_env false SMP_MODEL_ENCRYPTION_ONLY false true in
  st (@smp_check_auth_req E (Int_status 0) (cb_init HCI_ROLE_SLAVE false))
  = cb_init HCI_ROLE_SLAVE false.
Proof.
  cbv zeta.
  refine (proj2 (@smp_check_auth_req_events
            (run_env false SMP_MODEL_ENCRYPTION_ONLY false true)
            (Int_status 0) (cb_init HCI_ROLE_SLAVE false)) _).
  discriminate.
Defined.

(** [SMP_ENC_FAIL] is no reason of the specification: nothing is sent. *)
Lemma smp_send_pair_fail_reason_witness :
  let E := run_env false SMP_MODEL_ENCRYPTION_ONLY false true in
  let r := @smp_send_pair_fail E (Int_status 20)
             (cb_init HCI_ROLE_SLAVE false) in
  tr r = []
  /\ st r = set_failure 20 (set_status 20 (cb_init HCI_ROLE_SLAVE false)).
Proof.
  cbv zeta.
  refine (proj2 (@smp_send_pair_fail_reason
            (run_env false SMP_MODEL_ENCRYPTION_ONLY false true)
            (Int_status 20) (cb_init HCI_ROLE_SLAVE false)) _).
  left. vm_compute. reflexivity.
Defined.

End SmpExtra.

